(** * apt-ostree: the layout transformation of [apt_ostree/bootstrap.py]

    A shallow embedding of [Bootstrap.create_ostree] and the stages it
    calls ([setup_boot], [create_tmpfile_dir], [convert_to_ostree],
    [sanitize_usr_symlinks], [get_toplevel]) over a model of a POSIX file
    system, followed by the properties of the layout specification that
    were checked against it.

    Modelling choices, stated once:
    - the file system is a tree of directories, regular files and symbolic
      links; a path string is resolved component by component, following
      symbolic links (at most 40 per look-up, as Linux does);
    - the process is privileged: no operation fails for lack of permission;
      everything lives on one file system, so [os.rename] never fails with
      a cross-device error;
    - a regular file carries an inode number: two entries with the same
      number are hard links of one file;
    - every entry carries permission bits and an owner (user and group);
      entries created by the process are owned by the process;
    - the package ownership index read by [apt.cache.Cache] is an input: a
      list of packages, each with its name and its list of installed files;
    - Python exceptions are values: a stage returns normally or raises;
    - the log is the list of the lines handed to [logging.info]; a line
      formatted from an exception keeps the exception, not a text of it. *)

From Stdlib Require Import String Ascii List Bool NArith Arith Lia.
Import ListNotations.
Set Warnings "-register-all".
Open Scope list_scope.
Open Scope string_scope.

(* ================================================================== *)
(** * Python strings *)
(* ================================================================== *)

Module Py.

(** [s.startswith(pre)] *)
Fixpoint startswith (pre s : string) : bool :=
  match pre with
  | EmptyString => true
  | String a pre' =>
      match s with
      | EmptyString => false
      | String b s' => Ascii.eqb a b && startswith pre' s'
      end
  end.

(** [s.split(c)] for a one-character separator: never the empty list. *)
Fixpoint split_on (c : ascii) (s : string) : list string :=
  match s with
  | EmptyString => [EmptyString]
  | String a r =>
      let parts := split_on c r in
      if Ascii.eqb a c then EmptyString :: parts
      else match parts with
           | [] => [String a EmptyString]
           | h :: t => String a h :: t
           end
  end.

(** [s.split(c, 1)]: [Some (before, after)] at the first [c], [None] when
    [s] has no [c] (Python then returns the one-element list [[s]]). *)
Fixpoint split_once (c : ascii) (s : string) : option (string * string) :=
  match s with
  | EmptyString => None
  | String a r =>
      if Ascii.eqb a c then Some (EmptyString, r)
      else match split_once c r with
           | Some (h, t) => Some (String a h, t)
           | None => None
           end
  end.

(** [x in l] for a list of strings. *)
Definition mem (x : string) (l : list string) : bool :=
  existsb (String.eqb x) l.

(** [s[1:]] *)
Definition tail (s : string) : string :=
  match s with
  | EmptyString => EmptyString
  | String _ r => r
  end.

(** [sep.join(l)] *)
Definition join (sep : string) (l : list string) : string :=
  String.concat sep l.

(** [s.rstrip("/")] *)
Fixpoint rstrip_slash (s : string) : string :=
  match s with
  | EmptyString => EmptyString
  | String a r =>
      let r' := rstrip_slash r in
      if String.eqb r' EmptyString && Ascii.eqb a "/" then EmptyString
      else String a r'
  end.

(** [s.endswith("/")] *)
Fixpoint endswith_slash (s : string) : bool :=
  match s with
  | EmptyString => false
  | String a EmptyString => Ascii.eqb a "/"
  | String _ r => endswith_slash r
  end.

Fixpoint has_slash (s : string) : bool :=
  match s with
  | EmptyString => false
  | String a r => Ascii.eqb a "/" || has_slash r
  end.

(** [(p[:i], p[i:])] with [i = p.rfind("/") + 1]. *)
Fixpoint cut_last_slash (p : string) : string * string :=
  match p with
  | EmptyString => (EmptyString, EmptyString)
  | String a r =>
      if has_slash r then
        let '(h, t) := cut_last_slash r in (String a h, t)
      else if Ascii.eqb a "/" then (String a EmptyString, r)
      else (EmptyString, String a r)
  end.

End Py.

(* ================================================================== *)
(** * [os.path]: the functions on path strings (posixpath) *)
(* ================================================================== *)

Module OsPath.

Definition sep : ascii := "/"%char.

(** [os.path.isabs] *)
Definition isabs (p : string) : bool := Py.startswith "/" p.

(** [os.path.join(a, b)] *)
Definition join (a b : string) : string :=
  if Py.startswith "/" b then b
  else if String.eqb a "" || Py.endswith_slash a then a ++ b
  else a ++ "/" ++ b.

(** [os.path.split] *)
Definition split (p : string) : string * string :=
  let '(head, tail) := Py.cut_last_slash p in
  let head' :=
    if negb (String.eqb head "") && negb (String.eqb (Py.rstrip_slash head) "")
    then Py.rstrip_slash head else head in
  (head', tail).

(** [os.path.basename] *)
Definition basename (p : string) : string := snd (split p).

Definition nonempty (c : string) : bool := negb (String.eqb c "").

(** The loop of [os.path.normpath] over the components. *)
Fixpoint norm_comps (initial_slashes : bool) (comps new_comps : list string)
  : list string :=
  match comps with
  | [] => new_comps
  | comp :: rest =>
      if String.eqb comp "" || String.eqb comp "." then
        norm_comps initial_slashes rest new_comps
      else if negb (String.eqb comp "..")
              || (negb initial_slashes && match new_comps with [] => true | _ => false end)
              || match rev new_comps with
                 | last :: _ => String.eqb last ".."
                 | [] => false
                 end
      then norm_comps initial_slashes rest (new_comps ++ [comp])%list
      else norm_comps initial_slashes rest (removelast new_comps)
  end.

(** [os.path.normpath] *)
Definition normpath (path : string) : string :=
  if String.eqb path "" then "."
  else
    let initial := Py.startswith "/" path in
    let two := Py.startswith "//" path && negb (Py.startswith "///" path) in
    let comps := norm_comps initial (Py.split_on sep path) [] in
    let body := Py.join "/" comps in
    let res := if initial then (if two then "//" else "/") ++ body else body in
    if String.eqb res "" then "." else res.

(** [os.path.abspath], with the working directory as a parameter. *)
Definition abspath (cwd path : string) : string :=
  if isabs path then normpath path else normpath (join cwd path).

Fixpoint common_prefix (a b : list string) : list string :=
  match a, b with
  | x :: a', y :: b' => if String.eqb x y then x :: common_prefix a' b' else []
  | _, _ => []
  end.

(** [os.path.relpath(path, start)]; [None] is the [ValueError] for an
    empty path. *)
Definition relpath (cwd path start : string) : option string :=
  if String.eqb path "" then None
  else
    let start_list := filter nonempty (Py.split_on sep (abspath cwd start)) in
    let path_list := filter nonempty (Py.split_on sep (abspath cwd path)) in
    let i := List.length (common_prefix start_list path_list) in
    let rel_list := (repeat ".." (List.length start_list - i) ++ skipn i path_list)%list in
    match rel_list with
    | [] => Some "."
    | _ => Some (Py.join "/" rel_list)
    end.

Definition real_comp (c : string) : bool :=
  negb (String.eqb c "") && negb (String.eqb c ".").

(** [os.path.commonpath([p1, p2])]; [None] is the [ValueError] raised
    when one path is absolute and the other is not. The common part is
    computed on the components as they are written: [".."] is kept. *)
Definition commonpath (p1 p2 : string) : option string :=
  if Bool.eqb (isabs p1) (isabs p2) then
    let s1 := filter real_comp (Py.split_on sep p1) in
    let s2 := filter real_comp (Py.split_on sep p2) in
    let common := common_prefix s1 s2 in
    Some ((if isabs p1 then "/" else "") ++ Py.join "/" common)
  else None.

End OsPath.

(* ================================================================== *)
(** * The file system: a tree, and the resolution of path strings *)
(* ================================================================== *)

Module Fs.

(** A physical path: the names from the root directory down, none of
    them a symbolic link. *)
Definition path := list string.

Record meta := Meta { mode : N; uid : N; gid : N }.

Inductive node :=
| File (ino : N) (data : string) (m : meta)
| Symlink (target : string) (m : meta)
| Dir (m : meta) (entries : list (string * node)).

Inductive errno :=
| ENOENT | EEXIST | ENOTDIR | EISDIR | ENOTEMPTY | EINVAL | ELOOP | EPERM.

Inductive res (A : Type) :=
| OK (a : A)
| Err (e : errno).
Arguments OK {A} a.
Arguments Err {A} e.

Definition is_dir (x : node) : bool :=
  match x with Dir _ _ => true | _ => false end.

Definition is_symlink (x : node) : bool :=
  match x with Symlink _ _ => true | _ => false end.

Definition is_file (x : node) : bool :=
  match x with File _ _ _ => true | _ => false end.

Definition node_meta (x : node) : meta :=
  match x with File _ _ m => m | Symlink _ m => m | Dir m _ => m end.

(** ** Directory entries *)

Fixpoint assoc (name : string) (es : list (string * node)) : option node :=
  match es with
  | [] => None
  | (k, v) :: t => if String.eqb k name then Some v else assoc name t
  end.

Fixpoint set_entry (name : string) (x : node) (es : list (string * node))
  : list (string * node) :=
  match es with
  | [] => [(name, x)]
  | (k, v) :: t =>
      if String.eqb k name then (name, x) :: t else (k, v) :: set_entry name x t
  end.

Definition del_entry (name : string) (es : list (string * node))
  : list (string * node) :=
  filter (fun kv => negb (String.eqb (fst kv) name)) es.

(** A name a directory can hold: not empty, not [.] or [..], no [/]. *)
Definition valid_name (c : string) : bool :=
  negb (String.eqb c "") && negb (String.eqb c ".")
  && negb (String.eqb c "..") && negb (Py.has_slash c).

(** The names a directory lists, each once, in directory order. *)
Fixpoint names (es : list (string * node)) : list string :=
  match es with
  | [] => []
  | (k, _) :: t =>
      if valid_name k
      then k :: filter (fun k' => negb (String.eqb k' k)) (names t)
      else names t
  end.

(** ** Physical look-up and update *)

Fixpoint get (root : node) (p : path) : option node :=
  match p with
  | [] => Some root
  | c :: p' =>
      match root with
      | Dir _ es =>
          match assoc c es with
          | Some child => get child p'
          | None => None
          end
      | _ => None
      end
  end.

(** Rewrite the entry list of the directory at [p]. *)
Fixpoint upd_dir (f : list (string * node) -> list (string * node))
  (root : node) (p : path) : option node :=
  match root with
  | Dir m es =>
      match p with
      | [] => Some (Dir m (f es))
      | c :: p' =>
          match assoc c es with
          | Some child =>
              match upd_dir f child p' with
              | Some child' => Some (Dir m (set_entry c child' es))
              | None => None
              end
          | None => None
          end
      end
  | _ => None
  end.

Definition put (root : node) (dir : path) (name : string) (x : node) : option node :=
  upd_dir (set_entry name x) root dir.

Definition del (root : node) (dir : path) (name : string) : option node :=
  upd_dir (del_entry name) root dir.

(** ** Resolution of a path string *)

Inductive walked :=
| Found (p : path)
| Follow (dir : path) (target : string) (rest : list string)
| Lost (e : errno).

(** Walk the components [todo] from the directory [cur], up to the first
    symbolic link. *)
Fixpoint walk_comps (root : node) (cur : path) (todo : list string) : walked :=
  match todo with
  | [] => Found cur
  | c :: rest =>
      match get root cur with
      | Some (Dir _ es) =>
          if String.eqb c "" || String.eqb c "." then walk_comps root cur rest
          else if String.eqb c ".." then walk_comps root (removelast cur) rest
          else match assoc c es with
               | None => Lost ENOENT
               | Some (Symlink t _) => Follow cur t rest
               | Some _ => walk_comps root (cur ++ [c])%list rest
               end
      | Some _ => Lost ENOTDIR
      | None => Lost ENOENT
      end
  end.

(** Follow at most [fuel] symbolic links. *)
Fixpoint resolve (fuel : nat) (root : node) (cur : path) (todo : list string)
  : res path :=
  match walk_comps root cur todo with
  | Found p => OK p
  | Lost e => Err e
  | Follow dir t rest =>
      match fuel with
      | O => Err ELOOP
      | S fuel' =>
          if String.eqb t "" then Err ENOENT
          else resolve fuel' root (if OsPath.isabs t then [] else dir)
                 (Py.split_on OsPath.sep t ++ rest)%list
      end
  end.

(** Linux gives up after 40 symbolic links. *)
Definition MAXSYMLINKS : nat := 40.

(** The physical place a path string names, every symbolic link
    followed. [start] is the directory a relative path starts from. *)
Definition locate (root : node) (start : path) (s : string) : res path :=
  if String.eqb s "" then Err ENOENT
  else
    match resolve MAXSYMLINKS root (if OsPath.isabs s then [] else start)
            (Py.split_on OsPath.sep s) with
    | OK p => match get root p with Some _ => OK p | None => Err ENOENT end
    | Err e => Err e
    end.

Definition last_comp (s : string) : string := last (Py.split_on OsPath.sep s) "".

(** The directory that holds the last component of a path string, and
    that component: the place an entry is created, removed or read
    without following it. *)
Definition locate_parent (root : node) (start : path) (s : string)
  : res (path * string) :=
  if String.eqb s "" then Err ENOENT
  else if valid_name (last_comp s) then
    match resolve MAXSYMLINKS root (if OsPath.isabs s then [] else start)
            (removelast (Py.split_on OsPath.sep s)) with
    | OK p =>
        match get root p with
        | Some (Dir _ _) => OK (p, last_comp s)
        | Some _ => Err ENOTDIR
        | None => Err ENOENT
        end
    | Err e => Err e
    end
  else Err EINVAL.

(** [lstat]: the place of the entry itself; the last component is not
    followed when it is a name. *)
Definition llocate (root : node) (start : path) (s : string) : res path :=
  if valid_name (last_comp s) then
    match locate_parent root start s with
    | OK (p, n) =>
        match get root (p ++ [n])%list with
        | Some _ => OK (p ++ [n])%list
        | None => Err ENOENT
        end
    | Err e => Err e
    end
  else locate root start s.

Definition stat (root : node) (start : path) (s : string) : option node :=
  match locate root start s with
  | OK p => get root p
  | Err _ => None
  end.

Definition lstat (root : node) (start : path) (s : string) : option node :=
  match llocate root start s with
  | OK p => get root p
  | Err _ => None
  end.

(** Is the place [inner] at or below the place [outer]? *)
Fixpoint is_prefix (outer inner : path) : bool :=
  match outer, inner with
  | [], _ => true
  | x :: o, y :: i => String.eqb x y && is_prefix o i
  | _ :: _, [] => false
  end.

End Fs.

(* ================================================================== *)
(** * The process: state, exceptions, and the monad of the stages *)
(* ================================================================== *)

Import Fs.

(** The Python exceptions the stages can raise. [shutil.Error] is an
    [OSError]; [SystemExit] is what [sys.exit] raises and is not caught by
    [except Exception]. *)
Inductive exn :=
| AssertionError
| ValueError
| OSError (e : errno)
| SystemExit (code : N).

(** A line handed to [self.logging.info]: a text, or the f-string
    [f"{text}{e}"] that ends in [str(e)] of an exception. Python writes
    an [OSError] with its number, its message and the file names of the
    call that failed; an exception of the model has its class and its
    errno, so the line keeps the exception itself and gives it no text. *)
Inductive line :=
| Text (s : string)
| Fmt (s : string) (e : exn).

Coercion Text : string >-> line.

Inductive outcome (A : Type) :=
| Ret (a : A)
| Raise (e : exn)
| Diverge.
Arguments Ret {A} a.
Arguments Raise {A} e.
Arguments Diverge {A}.

Record world := World {
  fs : node;                (* the host file system, from [/] *)
  next_ino : N;             (* the next unused inode number *)
  euid : N;                 (* the user the process runs as *)
  egid : N;
  umask : N;
  cwd : path;               (* the working directory *)
  log : list line           (* what [self.logging] received, oldest first *)
}.

Definition M (A : Type) : Type := world -> outcome A * world.

Definition ret {A} (a : A) : M A := fun w => (Ret a, w).

Definition bind {A B} (m : M A) (k : A -> M B) : M B :=
  fun w =>
    match m w with
    | (Ret a, w') => k a w'
    | (Raise e, w') => (Raise e, w')
    | (Diverge, w') => (Diverge, w')
    end.

Definition raise {A} (e : exn) : M A := fun w => (Raise e, w).

(** [try: m except OSError: h] *)
Definition try_OSError {A} (m : M A) (h : errno -> M A) : M A :=
  fun w =>
    match m w with
    | (Raise (OSError e), w') => h e w'
    | r => r
    end.

(** [try: m except Exception as e: h e] ([SystemExit] passes through). *)
Definition try_Exception {A} (m : M A) (h : exn -> M A) : M A :=
  fun w =>
    match m w with
    | (Raise (SystemExit c), w') => (Raise (SystemExit c), w')
    | (Raise e, w') => h e w'
    | r => r
    end.

Declare Scope py_scope.
Delimit Scope py_scope with py.
Notation "x <- m ;; k" := (bind m (fun x => k))
  (at level 61, m at next level, right associativity) : py_scope.
Notation "m ;; k" := (bind m (fun _ => k))
  (at level 61, right associativity) : py_scope.
Open Scope py_scope.

(** [for x in l: body x] *)
Fixpoint for_each {A} (l : list A) (body : A -> M unit) : M unit :=
  match l with
  | [] => ret tt
  | x :: rest => body x ;; for_each rest body
  end.

Definition pass : M unit := ret tt.

(** [assert b] *)
Definition assert (b : bool) : M unit :=
  if b then ret tt else raise AssertionError.

(** [sys.exit(code)] *)
Definition sys_exit {A} (code : N) : M A := raise (SystemExit code).

(** [self.logging.info(msg)] *)
Definition logging_info (msg : line) : M unit :=
  fun w => (Ret tt,
            World (fs w) (next_ino w) (euid w) (egid w) (umask w) (cwd w)
                  (log w ++ [msg])%list).

Definition set_fs (w : world) (r : node) : world :=
  World r (next_ino w) (euid w) (egid w) (umask w) (cwd w) (log w).

Definition set_fs_ino (w : world) (r : node) (i : N) : world :=
  World r i (euid w) (egid w) (umask w) (cwd w) (log w).

(** A system call that reads the file system. *)
Definition fs_read {A} (f : node -> path -> A) : M A :=
  fun w => (Ret (f (fs w) (cwd w)), w).

(** A system call that changes the file system or fails with an errno;
    a failed call changes nothing. *)
Definition fs_call (f : node -> path -> res node) : M unit :=
  fun w =>
    match f (fs w) (cwd w) with
    | OK r => (Ret tt, set_fs w r)
    | Err e => (Raise (OSError e), w)
    end.

Definition fs_query {A} (f : node -> path -> res A) : M A :=
  fun w =>
    match f (fs w) (cwd w) with
    | OK a => (Ret a, w)
    | Err e => (Raise (OSError e), w)
    end.

(** The text of a path below the root: [/c1/c2/...]. *)
Fixpoint comps_str (p : path) : string :=
  match p with
  | [] => ""
  | c :: p' => String "/" (c ++ comps_str p')
  end.

(** The text of a physical path; the root is [/]. *)
Definition path_str (p : path) : string :=
  match p with
  | [] => "/"
  | _ => comps_str p
  end.

(* ================================================================== *)
(** * System calls, as functions of the tree *)
(* ================================================================== *)

Module Sys.

Fixpoint path_eqb (a b : path) : bool :=
  match a, b with
  | [], [] => true
  | x :: a', y :: b' => String.eqb x y && path_eqb a' b'
  | _, _ => false
  end.

Definition child (root : node) (dir : path) (name : string) : option node :=
  get root (dir ++ [name])%list.

(** [mkdir(2)] *)
Definition mkdir (md : meta) (s : string) (root : node) (start : path) : res node :=
  match locate_parent root start s with
  | OK (p, n) =>
      match child root p n with
      | Some _ => Err EEXIST
      | None =>
          match put root p n (Dir md []) with
          | Some r => OK r
          | None => Err ENOENT
          end
      end
  | Err e => Err e
  end.

(** [unlink(2)] *)
Definition unlink (s : string) (root : node) (start : path) : res node :=
  match locate_parent root start s with
  | OK (p, n) =>
      match child root p n with
      | None => Err ENOENT
      | Some (Dir _ _) => Err EISDIR
      | Some _ =>
          match del root p n with
          | Some r => OK r
          | None => Err ENOENT
          end
      end
  | Err e => Err e
  end.

Definition same_inode (x y : node) : bool :=
  match x, y with
  | File i _ _, File j _ _ => N.eqb i j
  | _, _ => false
  end.

(** [rename(2)] *)
Definition rename (src dst : string) (root : node) (start : path) : res node :=
  match locate_parent root start src with
  | Err e => Err e
  | OK (ps, ns) =>
      match locate_parent root start dst with
      | Err e => Err e
      | OK (pd, nd) =>
          match child root ps ns with
          | None => Err ENOENT
          | Some x =>
              let move :=
                match del root ps ns with
                | Some r1 =>
                    match put r1 pd nd x with
                    | Some r2 => OK r2
                    | None => Err ENOENT
                    end
                | None => Err ENOENT
                end in
              if path_eqb (ps ++ [ns])%list (pd ++ [nd])%list then OK root
              else if is_prefix (ps ++ [ns])%list (pd ++ [nd])%list then Err EINVAL
              else
                match child root pd nd with
                | None => move
                | Some (Dir _ es) =>
                    if is_dir x then
                      match names es with
                      | [] => move
                      | _ => Err ENOTEMPTY
                      end
                    else Err EISDIR
                | Some y =>
                    if is_dir x then Err ENOTDIR
                    else if same_inode x y then OK root
                    else move
                end
          end
      end
  end.

(** [link(2)]: the source is not followed when it is a symbolic link. *)
Definition link (src dst : string) (root : node) (start : path) : res node :=
  match lstat root start src with
  | None => Err ENOENT
  | Some (Dir _ _) => Err EPERM
  | Some x =>
      match locate_parent root start dst with
      | OK (p, n) =>
          match child root p n with
          | Some _ => Err EEXIST
          | None =>
              match put root p n x with
              | Some r => OK r
              | None => Err ENOENT
              end
          end
      | Err e => Err e
      end
  end.

(** [symlinkat(2)]: [start] is the directory a relative [dst] starts
    from. *)
Definition symlink (md : meta) (target dst : string) (root : node) (start : path)
  : res node :=
  match locate_parent root start dst with
  | OK (p, n) =>
      match child root p n with
      | Some _ => Err EEXIST
      | None =>
          match put root p n (Symlink target md) with
          | Some r => OK r
          | None => Err ENOENT
          end
      end
  | Err e => Err e
  end.

(** [readlink(2)] *)
Definition readlink (s : string) (root : node) (start : path) : res string :=
  match llocate root start s with
  | OK p =>
      match get root p with
      | Some (Symlink t _) => OK t
      | _ => Err EINVAL
      end
  | Err e => Err e
  end.

(** The names in the directory [s]. *)
Definition listdir (s : string) (root : node) (start : path) : res (list string) :=
  match locate root start s with
  | OK p =>
      match get root p with
      | Some (Dir _ es) => OK (names es)
      | Some _ => Err ENOTDIR
      | None => Err ENOENT
      end
  | Err e => Err e
  end.

(** Remove the directory [s] and all below it. A symbolic link is
    refused ("Cannot call rmtree on a symbolic link"), and so is a
    regular file. *)
Definition rmtree (s : string) (root : node) (start : path) : res node :=
  match locate_parent root start s with
  | OK (p, n) =>
      match child root p n with
      | None => Err ENOENT
      | Some (Dir _ _) =>
          match del root p n with
          | Some r => OK r
          | None => Err ENOENT
          end
      | Some (Symlink _ _) => Err EINVAL
      | Some _ => Err ENOTDIR
      end
  | Err e => Err e
  end.

(** The copy [shutil.copytree(symlinks=True)] makes of one entry: names,
    file contents, link targets and permission bits are those of the
    original; every file is a new inode; the owner is the process, since
    [copystat] copies no owner. A new symbolic link has mode 0o777. *)
Fixpoint copy_node (own : N * N) (i : N) (x : node) : node * N :=
  match x with
  | File _ data m => (File i data (Meta (mode m) (fst own) (snd own)), N.succ i)
  | Symlink t m => (Symlink t (Meta 511 (fst own) (snd own)), i)
  | Dir m es =>
      let fix copy_entries (i : N) (es : list (string * node))
        : list (string * node) * N :=
        match es with
        | [] => ([], i)
        | (k, v) :: t =>
            let '(v', i1) := copy_node own i v in
            let '(t', i2) := copy_entries i1 t in
            ((k, v') :: t', i2)
        end in
      let '(es', i') := copy_entries i es in
      (Dir (Meta (mode m) (fst own) (snd own)) es', i')
  end.

End Sys.

(* ================================================================== *)
(** * The Python library: [os], [os.path], [shutil], [pathlib] *)
(* ================================================================== *)

Module Os.

Definition new_meta (md : N) (w : world) : meta :=
  Meta (N.ldiff md (umask w)) (euid w) (egid w).

(** [os.mkdir(s, mode)] *)
Definition mkdir (s : string) (md : N) : M unit :=
  fun w => fs_call (Sys.mkdir (new_meta md w) s) w.

(** [os.remove(s)], [os.unlink(s)] *)
Definition remove (s : string) : M unit := fs_call (Sys.unlink s).
Definition unlink (s : string) : M unit := fs_call (Sys.unlink s).

(** [os.rename(src, dst)] *)
Definition rename (src dst : string) : M unit := fs_call (Sys.rename src dst).

(** [os.link(src, dst)] *)
Definition link (src dst : string) : M unit := fs_call (Sys.link src dst).

(** [os.symlink(target, dst)] and [os.symlink(target, dst, dir_fd=fd)]:
    a symbolic link has mode 0o777 whatever the umask. *)
Definition symlink (target dst : string) (dir_fd : option path) : M unit :=
  fun w =>
    let md := Meta 511 (euid w) (egid w) in
    match dir_fd with
    | None => fs_call (Sys.symlink md target dst) w
    | Some d => fs_call (fun root _ => Sys.symlink md target dst root d) w
    end.

(** [os.readlink(s)] *)
Definition readlink (s : string) : M string := fs_query (Sys.readlink s).

(** [os.listdir(s)] *)
Definition listdir (s : string) : M (list string) := fs_query (Sys.listdir s).

(** [os.open(s, os.O_DIRECTORY)]: the descriptor is the directory
    reached. *)
Definition open_directory (s : string) : M path :=
  fs_query (fun root start =>
    match locate root start s with
    | OK p =>
        match get root p with
        | Some (Dir _ _) => OK p
        | _ => Err ENOTDIR
        end
    | Err e => Err e
    end).

(** [os.getcwd()] *)
Definition getcwd : M string := fun w => (Ret (path_str (cwd w)), w).

(** [os.path.islink], [isfile], [isdir], [exists]: a failing [stat]
    answers [False]. *)
Definition path_islink (s : string) : M bool :=
  fs_read (fun root start =>
    match lstat root start s with Some x => is_symlink x | None => false end).

Definition path_isfile (s : string) : M bool :=
  fs_read (fun root start =>
    match stat root start s with Some x => is_file x | None => false end).

Definition path_isdir (s : string) : M bool :=
  fs_read (fun root start =>
    match stat root start s with Some x => is_dir x | None => false end).

Definition path_exists (s : string) : M bool :=
  fs_read (fun root start =>
    match stat root start s with Some _ => true | None => false end).

(** [os.path.relpath(path, start)] *)
Definition path_relpath (p start : string) : M string :=
  c <- getcwd ;;
  match OsPath.relpath c p start with
  | Some r => ret r
  | None => raise ValueError
  end.

(** [os.path.commonpath([p1, p2])] *)
Definition path_commonpath (p1 p2 : string) : M string :=
  match OsPath.commonpath p1 p2 with
  | Some r => ret r
  | None => raise ValueError
  end.

(** [os.path.samefile], answering [False] when a [stat] fails, as
    [shutil._samefile] does. *)
Definition samefile (a b : string) : M bool :=
  fs_read (fun root start =>
    match locate root start a, locate root start b with
    | OK pa, OK pb =>
        Sys.path_eqb pa pb
        || match get root pa, get root pb with
           | Some x, Some y => Sys.same_inode x y
           | _, _ => false
           end
    | _, _ => false
    end).

(** [entry.is_dir()] of [os.scandir]: a symbolic link is followed, and a
    link that does not resolve is not a directory. *)
Definition entry_is_dir (root : node) (dir : path) (name : string) : bool :=
  match Sys.child root dir name with
  | Some (Dir _ _) => true
  | Some (Symlink _ _) =>
      match stat root dir name with Some x => is_dir x | None => false end
  | _ => false
  end.

(** One step of [os.walk(top)]: [(dirs, nondirs)] of the directory
    [top], or [None] when [scandir] fails (the walk then skips [top]). *)
Definition scan (top : string) : M (option (list string * list string)) :=
  fs_read (fun root start =>
    match locate root start top with
    | OK p =>
        match get root p with
        | Some (Dir _ es) =>
            Some (filter (entry_is_dir root p) (names es),
                  filter (fun n => negb (entry_is_dir root p n)) (names es))
        | _ => None
        end
    | Err _ => None
    end).

(** The place [open(s, "w")] writes to: a symbolic link in the last
    position is followed, also when it dangles. *)
Fixpoint open_place (fuel : nat) (root : node) (start : path) (s : string)
  : res (path * string) :=
  match locate_parent root start s with
  | OK (p, n) =>
      match Sys.child root p n with
      | Some (Symlink t _) =>
          match fuel with
          | O => Err ELOOP
          | S fuel' => open_place fuel' root p t
          end
      | _ => OK (p, n)
      end
  | Err e => Err e
  end.

(** [with open(s, "w") as f: f.write(data)]: the file is created with
    mode 0o666 less the umask, or truncated when it exists. *)
Definition write_file (s data : string) : M unit :=
  fun w =>
    match open_place MAXSYMLINKS (fs w) (cwd w) s with
    | OK (p, n) =>
        match Sys.child (fs w) p n with
        | None =>
            match put (fs w) p n (File (next_ino w) data (new_meta 438 w)) with
            | Some r => (Ret tt, set_fs_ino w r (N.succ (next_ino w)))
            | None => (Raise (OSError ENOENT), w)
            end
        | Some (File i _ m) =>
            match put (fs w) p n (File i data m) with
            | Some r => (Ret tt, set_fs w r)
            | None => (Raise (OSError ENOENT), w)
            end
        | Some (Dir _ _) => (Raise (OSError EISDIR), w)
        | Some (Symlink _ _) => (Raise (OSError ELOOP), w)
        end
    | Err e => (Raise (OSError e), w)
    end.

(** [os.makedirs(name, mode)] ([exist_ok=False]); every call is on a
    shorter string, so [fuel] is the length of the first one. *)
Fixpoint makedirs (fuel : nat) (name : string) (md : N) : M unit :=
  let '(head0, tail0) := OsPath.split name in
  let '(head, tail) :=
    if String.eqb tail0 "" then OsPath.split head0 else (head0, tail0) in
  ex <- path_exists head ;;
  if OsPath.nonempty head && OsPath.nonempty tail && negb ex then
    match fuel with
    | S fuel' =>
        try_OSError (makedirs fuel' head md)
          (fun e => match e with EEXIST => pass | _ => raise (OSError e) end)
    | O => pass
    end ;;
    if String.eqb tail "." then ret tt else mkdir name md
  else mkdir name md.

End Os.

Module Shutil.

(** [shutil.rmtree(s)] *)
Definition rmtree (s : string) : M unit := fs_call (Sys.rmtree s).

(** [shutil.copytree(src, dst, symlinks=True)]: [src] must be a
    directory and [dst] must not exist; [dst] is made with its missing
    parents and receives a copy of everything below [src], symbolic
    links copied as links. A copy into the directory being copied ends in
    an error in Python after a partial copy; here it is the error. *)
Definition copytree (src dst : string) : M unit :=
  sx <- fs_query (fun root start =>
          match locate root start src with
          | OK p =>
              match get root p with
              | Some (Dir m es) => OK (p, Dir m es)
              | Some _ => Err ENOTDIR
              | None => Err ENOENT
              end
          | Err e => Err e
          end) ;;
  Os.makedirs (String.length dst) dst 511 ;;
  d <- fs_query (fun root start => locate_parent root start dst) ;;
  if is_prefix (fst sx) (fst d ++ [snd d])%list then raise (OSError EINVAL)
  else
    fun w =>
      let '(x', i') := Sys.copy_node (euid w, egid w) (next_ino w) (snd sx) in
      match put (fs w) (fst d) (snd d) x' with
      | Some r => (Ret tt, set_fs_ino w r i')
      | None => (Raise (OSError ENOENT), w)
      end.

(** [shutil.copy2(src, dst)]: contents and permission bits. *)
Definition copy2 (src dst : string) : M unit :=
  d <- Os.path_isdir dst ;;
  let dst' := if d then OsPath.join dst (OsPath.basename src) else dst in
  same <- Os.samefile src dst' ;;
  if same then raise (OSError EINVAL)
  else
    x <- fs_query (fun root start =>
           match stat root start src with
           | Some (File _ data m) => OK (data, m)
           | Some _ => Err EISDIR
           | None => Err ENOENT
           end) ;;
    Os.write_file dst' (fst x) ;;
    fun w =>
      match Os.open_place MAXSYMLINKS (fs w) (cwd w) dst' with
      | OK (p, n) =>
          match Sys.child (fs w) p n with
          | Some (File i data m) =>
              match put (fs w) p n (File i data (Meta (mode (snd x)) (uid m) (gid m))) with
              | Some r => (Ret tt, set_fs w r)
              | None => (Raise (OSError ENOENT), w)
              end
          | _ => (Raise (OSError ENOENT), w)
          end
      | Err e => (Raise (OSError e), w)
      end.

(** [shutil._destinsrc(src, dst)] *)
Definition destinsrc (src dst : string) : M bool :=
  c <- Os.getcwd ;;
  let src1 := OsPath.abspath c src in
  let dst1 := OsPath.abspath c dst in
  let src2 := if Py.endswith_slash src1 then src1 else src1 ++ "/" in
  let dst2 := if Py.endswith_slash dst1 then dst1 else dst1 ++ "/" in
  ret (Py.startswith src2 dst2).

(** [shutil.move(src, dst)] *)
Definition move (src dst : string) : M unit :=
  d <- Os.path_isdir dst ;;
  same <- Os.samefile src dst ;;
  lnk <- Os.path_islink src ;;
  if d && same && negb lnk then Os.rename src dst
  else
    let real_dst :=
      if d then OsPath.join dst (OsPath.basename (Py.rstrip_slash src)) else dst in
    ex <- Os.path_exists real_dst ;;
    if d && ex then raise (OSError EEXIST)
    else
      try_OSError (Os.rename src real_dst)
        (fun _ =>
           lnk <- Os.path_islink src ;;
           if lnk then
             linkto <- Os.readlink src ;;
             Os.symlink linkto real_dst None ;;
             Os.unlink src
           else
             sd <- Os.path_isdir src ;;
             if sd then
               inside <- destinsrc src dst ;;
               if inside then raise (OSError EINVAL)
               else copytree src real_dst ;; rmtree src
             else copy2 src real_dst ;; Os.unlink src).

End Shutil.

Module Pathlib.

(** [p.joinpath(rel)] for a path [p] that pathlib keeps without a
    trailing separator. *)
Definition joinpath (p rel : string) : string := OsPath.join p rel.

(** [p.parent] *)
Definition parent (p : string) : string :=
  let head := fst (OsPath.split p) in
  if String.eqb head "" then "." else head.

(** [p.exists()] *)
Definition exists_ (p : string) : M bool := Os.path_exists p.

(** [p.mkdir(mode, parents=True, exist_ok=True)]; the parent is a
    shorter string at every call. *)
Fixpoint mkdir_parents (fuel : nat) (p : string) (md : N) : M unit :=
  try_OSError (Os.mkdir p md)
    (fun e =>
       match e with
       | ENOENT =>
           if String.eqb (parent p) p then raise (OSError ENOENT)
           else
             match fuel with
             | S fuel' =>
                 mkdir_parents fuel' (parent p) 511 ;;
                 try_OSError (Os.mkdir p md)
                   (fun e' =>
                      d <- Os.path_isdir p ;;
                      if d then pass else raise (OSError e'))
             | O => raise (OSError ENOENT)
             end
       | _ =>
           d <- Os.path_isdir p ;;
           if d then pass else raise (OSError e)
       end).

End Pathlib.

(* ================================================================== *)
(** * [apt_ostree/constants.py] and [apt_ostree/bootstrap.py] *)
(* ================================================================== *)

Module Constants.

(** packages to exclude from systemd-tmpfiles check. *)
Definition excluded_packages : list string :=
  ["ucf"; "base-files"; "systemd"; "init-system-helpers"; "dbus";
   "policykit-1"; "polkitd"; "debconf"].

End Constants.

(** One package of the [apt] cache: [pkg.name], [pkg.installed_files]. *)
Record package := Package {
  pkg_name : string;
  installed_files : list string
}.

Module Bootstrap.

Definition nl : string := String (ascii_of_nat 10) EmptyString.

(** ** [get_toplevel] *)

(** The [while head != '/' and head != '':] loop. A head made of two or
    more separators is never shortened by [os.path.split]: the loop then
    does not end, which is what running out of [fuel] stands for. *)
Fixpoint toplevel_loop (fuel : nat) (head tail : string) : option string :=
  if negb (String.eqb head "/") && negb (String.eqb head "") then
    match fuel with
    | O => None
    | S fuel' =>
        let '(head', tail') := OsPath.split head in
        toplevel_loop fuel' head' tail'
    end
  else Some tail.

Definition get_toplevel (path : string) : M string :=
  let '(head, tail) := OsPath.split path in
  match toplevel_loop (String.length path) head tail with
  | Some t => ret t
  | None => fun w => (Diverge, w)
  end.

(** ** [sanitize_usr_symlinks] *)

(** The body of the inner loop, for the entry [name] of the directory
    [base]. *)
Definition sanitize_entry (rootdir usrdir base name : string) : M unit :=
  let p := OsPath.join base name in
  lnk <- Os.path_islink p ;;
  if negb lnk then pass
  else
    link <- Os.readlink p ;;
    (* Resolve symlink relative to root *)
    let target :=
      if OsPath.isabs link then OsPath.join rootdir (Py.tail link)
      else OsPath.join base link in
    rel <- Os.path_relpath target rootdir ;;
    (* Keep symlinks if they're pointing to a location under /usr *)
    common <- Os.path_commonpath target usrdir ;;
    if String.eqb common usrdir then pass
    else
      toplevel <- get_toplevel rel ;;
      (* Sanitize links going into /var *)
      if negb (String.eqb toplevel "var") then pass
      else
        try_Exception
          (Os.remove p ;;
           f <- Os.path_isfile target ;;
           if f then Os.link target p
           else
             d <- Os.path_isdir target ;;
             if d then Shutil.copytree target p else pass)
          (fun e =>
             logging_info (Fmt "Error moving file: " e) ;;
             sys_exit 1).

(** The directories [os.walk] goes down into after it has yielded
    [top]: those of [dirs] that are not symbolic links at that time. *)
Fixpoint walk_into (top : string) (dirs : list string) : M (list string) :=
  match dirs with
  | [] => ret []
  | d :: rest =>
      lnk <- Os.path_islink (OsPath.join top d) ;;
      sub <- walk_into top rest ;;
      ret (if lnk then sub else d :: sub)
  end.

(** [for base, dirs, files in os.walk(usrdir): for name in files: ...],
    top down. [fuel] bounds the depth of the directories gone into. *)
Fixpoint walk_usr (fuel : nat) (rootdir usrdir top : string) : M unit :=
  sc <- Os.scan top ;;
  match sc with
  | None => ret tt
  | Some (dirs, files) =>
      for_each files (sanitize_entry rootdir usrdir top) ;;
      sub <- walk_into top dirs ;;
      match sub with
      | [] => ret tt
      | _ =>
          match fuel with
          | O => fun w => (Diverge, w)
          | S fuel' =>
              for_each sub
                (fun d => walk_usr fuel' rootdir usrdir (OsPath.join top d))
          end
      end
  end.

(** The number of directory levels below an entry. *)
Fixpoint depth (x : node) : nat :=
  match x with
  | Dir _ es =>
      (fix depth_entries (es : list (string * node)) : nat :=
         match es with
         | [] => 0
         | (_, v) :: t => Nat.max (S (depth v)) (depth_entries t)
         end) es
  | _ => 0
  end.

(** Replace symlinks from /usr pointing to /var *)
Definition sanitize_usr_symlinks (rootdir : string) : M unit :=
  let usrdir := OsPath.join rootdir "usr" in
  fun w => walk_usr (depth (fs w)) rootdir usrdir usrdir w.

(** ** [setup_boot] *)

Record boot_vars := BootVars {
  vmlinuz : option string;
  initrd : option string;
  dtbs : option string;
  version : option string
}.

Definition is_none {A} (o : option A) : bool :=
  match o with None => true | Some _ => false end.

(** [try: shutil.move(os.path.join(bootdir, item), targetdir)] with its
    [except Exception] that only logs. *)
Definition move_as_is (bootdir targetdir item : string) : M unit :=
  try_Exception (Shutil.move (OsPath.join bootdir item) targetdir)
    (fun e => logging_info (Fmt "Error moving file: " e)).

(** The body of [for item in os.listdir(bootdir):]. *)
Definition boot_item (bootdir targetdir : string) (v : boot_vars) (item : string)
  : M boot_vars :=
  if Py.startswith "vmlinuz" item then
    assert (is_none (vmlinuz v)) ;;
    match Py.split_once "-" item with
    | Some (_, ver) => ret (BootVars (Some item) (initrd v) (dtbs v) (Some ver))
    | None => raise ValueError
    end
  else if Py.startswith "initrd.img" item || Py.startswith "initramfs" item then
    assert (is_none (initrd v)) ;;
    ret (BootVars (vmlinuz v) (Some item) (dtbs v) (version v))
  else if Py.startswith "dtbs" item then
    assert (is_none (dtbs v)) ;;
    ret (BootVars (vmlinuz v) (initrd v) (Some (OsPath.join bootdir item)) (version v))
  else if Py.startswith "System.map" item then
    (* Move all other artifacts as is *)
    move_as_is bootdir targetdir item ;;
    ret v
  else ret v.

Fixpoint boot_loop (bootdir targetdir : string) (v : boot_vars) (items : list string)
  : M boot_vars :=
  match items with
  | [] => ret v
  | item :: rest =>
      v' <- boot_item bootdir targetdir v item ;;
      boot_loop bootdir targetdir v' rest
  end.

Definition no_boot_vars : boot_vars := BootVars None None None None.

Definition or_empty (o : option string) : string :=
  match o with Some s => s | None => "" end.

(** Setup up the ostree bootdir *)
Definition setup_boot (rootdir bootdir targetdir : string) : M unit :=
  try_OSError (Os.mkdir targetdir 511) (fun _ => pass) ;;
  items <- Os.listdir bootdir ;;
  v <- boot_loop bootdir targetdir no_boot_vars items ;;
  match vmlinuz v with
  | None => raise AssertionError
  | Some kernel =>
      let dir := OsPath.join targetdir (or_empty (version v)) in
      try_Exception
        (Os.rename (OsPath.join bootdir kernel) (OsPath.join dir "vmlinuz"))
        (fun e => logging_info (Fmt "Error moving file: " e) ;; sys_exit 1) ;;
      match initrd v with
      | None => ret tt
      | Some rd =>
          try_Exception
            (Os.rename (OsPath.join bootdir rd) (OsPath.join dir "initramfs.img"))
            (fun e => logging_info (Fmt "Error moving file: " e) ;; sys_exit 1)
      end
  end.

(** ** [create_tmpfile_dir] *)

Definition base_dirs : list string :=
  ["/var"; "/var/lock"; "/var/cache"; "/var/spool"; "/var/log"; "/var/lib"].

(** The list [dirs] the loop over the cache collects. *)
Definition collect_dirs (cache : list package) : list string :=
  flat_map
    (fun pkg =>
       if Py.mem "/var" (installed_files pkg)
          && negb (Py.mem (pkg_name pkg) Constants.excluded_packages)
       then filter (Py.startswith "/var") (installed_files pkg)
       else [])
    cache.

Definition rule_line (d : string) : string :=
  "L " ++ d ++ " - - - - ../../usr/rootdirs" ++ d ++ nl.

(** What is written to the configuration file. *)
Definition conf_text (dirs : list string) : string :=
  "# Auto-genernated by apt-ostree" ++ nl
  ++ String.concat ""
       (map rule_line (filter (fun d => negb (Py.mem d base_dirs)) dirs)).

Definition conf_path (rootdir : string) : string :=
  Pathlib.joinpath rootdir "usr/lib/tmpfiles.d/ostree-integration-autovar.conf".

(** Ensure directoeies in /var are created. *)
Definition create_tmpfile_dir (cache : list package) (rootdir : string) : M unit :=
  let dirs := collect_dirs cache in
  if Nat.eqb (List.length dirs) 0 then ret tt
  else
    let conf := conf_path rootdir in
    ex <- Pathlib.exists_ conf ;;
    (if ex then Os.unlink conf else pass) ;;
    Os.write_file conf (conf_text dirs).

(** ** [convert_to_ostree] *)

Definition CRUFT : list string :=
  ["boot/initrd.img"; "boot/vmlinuz"; "initrd.img"; "initrd.img.old";
   "vmlinuz"; "vmlinuz.old"].

Definition TOPLEVEL_LINKS : list (string * string) :=
  [("home", "var/home"); ("media", "run/media"); ("mnt", "var/mnt");
   ("opt", "var/opt"); ("ostree", "sysroot/ostree"); ("root", "var/roothome");
   ("srv", "var/srv"); ("usr/local", "../var/usrlocal")].

(** The last loop of [convert_to_ostree]. *)
Definition build_toplevel_links (rootdir : string) : M unit :=
  fd <- Os.open_directory rootdir ;;
  for_each TOPLEVEL_LINKS
    (fun lt =>
       Shutil.rmtree (Pathlib.joinpath rootdir (fst lt)) ;;
       Os.symlink (snd lt) (fst lt) (Some fd)).

(** Convert rootfs to ostree. *)
Definition convert_to_ostree (rootdir : string) : M unit :=
  assert (negb (String.eqb rootdir "")) ;;
  let dir_perm := 493%N in
  (* Copying /var *)
  sanitize_usr_symlinks rootdir ;;
  logging_info "Moving /var to /usr/rootdirs." ;;
  Os.mkdir (Pathlib.joinpath rootdir "usr/rootdirs") dir_perm ;;
  Shutil.copytree (Pathlib.joinpath rootdir "var")
                  (Pathlib.joinpath rootdir "usr/rootdirs/var") ;;
  Shutil.rmtree (Pathlib.joinpath rootdir "var") ;;
  Os.mkdir (Pathlib.joinpath rootdir "var") dir_perm ;;
  (* Remove unecessary files *)
  logging_info "Removing unnecessary files." ;;
  for_each CRUFT
    (fun c => try_OSError (Os.remove (Pathlib.joinpath rootdir c)) (fun _ => pass)) ;;
  (* Setup and split out etc *)
  logging_info "Moving /etc to /usr/etc." ;;
  Shutil.move (Pathlib.joinpath rootdir "etc") (Pathlib.joinpath rootdir "usr") ;;
  logging_info "Setting up /ostree and /sysroot." ;;
  try_OSError
    (let ostree := Pathlib.joinpath rootdir "ostree" in
     let sysroot := Pathlib.joinpath rootdir "sysroot" in
     Pathlib.mkdir_parents (String.length ostree) ostree 511 ;;
     Pathlib.mkdir_parents (String.length sysroot) sysroot 511)
    (fun _ => pass) ;;
  logging_info "Setting up symlinks." ;;
  build_toplevel_links rootdir.

(** ** [create_ostree] *)

(** Create an ostree branch from a rootfs. *)
Definition create_ostree (cache : list package) (rootdir : string) : M unit :=
  logging_info "Setting up kernel and initramfs" ;;
  setup_boot rootdir (Pathlib.joinpath rootdir "boot")
                     (Pathlib.joinpath rootdir "usr/lib/modules") ;;
  logging_info "Create tmpfiles" ;;
  create_tmpfile_dir cache rootdir ;;
  logging_info "Convert to ostree" ;;
  convert_to_ostree rootdir ;;
  logging_info "Ostree file structure created succesfully!".

(** ** The classes of boot entries, as the cascade of [setup_boot] tells
    them apart *)

Definition is_kernel (item : string) : bool := Py.startswith "vmlinuz" item.

Definition is_initrd (item : string) : bool :=
  negb (is_kernel item)
  && (Py.startswith "initrd.img" item || Py.startswith "initramfs" item).

Definition is_dtbs (item : string) : bool :=
  negb (is_kernel item) && negb (is_initrd item) && Py.startswith "dtbs" item.

Definition is_symbol_map (item : string) : bool :=
  negb (is_kernel item) && negb (is_initrd item) && negb (is_dtbs item)
  && Py.startswith "System.map" item.

Definition count (P : string -> bool) (items : list string) : nat :=
  List.length (filter P items).

(** The first kernel image of a listing has a version: its name has a
    ["-"]. *)
Definition first_kernel_versioned (items : list string) : Prop :=
  forall k, find is_kernel items = Some k -> Py.split_once "-" k <> None.

(** The world after [try: os.mkdir(targetdir) except OSError: pass]. *)
Definition after_mkdir (targetdir : string) (w : world) : world :=
  snd (try_OSError (Os.mkdir targetdir 511) (fun _ => pass) w).

End Bootstrap.

Import Bootstrap.

(* ================================================================== *)
(** * The vocabulary of the statements, and sample worlds *)
(* ================================================================== *)

(** ** Views of the tree *)

(** What [lstat] tells of an entry: a directory without its entries. *)
Definition shallow (x : node) : node :=
  match x with Dir m _ => Dir m [] | _ => x end.

(** What is seen at the place [q]. *)
Definition look (root : node) (q : path) : option node :=
  option_map shallow (get root q).

(** Every component is a name a directory can list. *)
Definition names_ok (p : path) : Prop := Forall (fun c => valid_name c = true) p.

(** A physical directory: every name on the way is a real directory. *)
Definition physical (root : node) (p : path) : Prop :=
  names_ok p /\ exists m es, get root p = Some (Dir m es).

(** Is the entry [n] of the directory [d] a regular file? *)
Definition is_file_at (root : node) (d : path) (n : string) : bool :=
  match Sys.child root d n with Some x => is_file x | None => false end.

(** The file is absent, or a regular file. *)
Definition plain_or_absent (o : option node) : Prop :=
  o = None \/ exists i data m, o = Some (File i data m).

(** A destination that [rename] may replace with a non-directory. *)
Definition replaceable (o : option node) : Prop :=
  o = None \/ exists t m, o = Some (Symlink t m).

(** ** Properties of computations *)

(** [keeps I m]: whatever [m] does, and however it ends, the world it
    leaves is related by [I] to the world it started from. *)
Definition keeps {A} (I : world -> world -> Prop) (m : M A) : Prop :=
  forall w, I w (snd (m w)).

(** An outcome that is a return or an [OSError]. *)
Definition os_outcome {A} (o : outcome A) : Prop :=
  match o with
  | Ret _ => True
  | Raise (OSError _) => True
  | _ => False
  end.

(** A computation that ends in no other way. *)
Definition oserr {A} (m : M A) : Prop := forall w, os_outcome (fst (m w)).

(** ** [setup_boot] *)

(** What one turn of the loop decides, the file system left aside. *)
Definition item_control (bootdir : string) (v : boot_vars) (item : string)
  : outcome boot_vars :=
  if is_kernel item then
    if is_none (vmlinuz v) then
      match Py.split_once "-" item with
      | Some (_, ver) => Ret (BootVars (Some item) (initrd v) (dtbs v) (Some ver))
      | None => Raise ValueError
      end
    else Raise AssertionError
  else if is_initrd item then
    if is_none (initrd v)
    then Ret (BootVars (vmlinuz v) (Some item) (dtbs v) (version v))
    else Raise AssertionError
  else if is_dtbs item then
    if is_none (dtbs v)
    then Ret (BootVars (vmlinuz v) (initrd v) (Some (OsPath.join bootdir item)) (version v))
    else Raise AssertionError
  else Ret v.

(** The entries the loop gets through, and how it ends. *)
Fixpoint loop_control (bootdir : string) (v : boot_vars) (items : list string)
  : list string * outcome boot_vars :=
  match items with
  | [] => ([], Ret v)
  | item :: rest =>
      match item_control bootdir v item with
      | Ret v' =>
          let '(seen, o) := loop_control bootdir v' rest in (item :: seen, o)
      | o => ([], o)
      end
  end.

(** A listing whose entries before [k] hold no kernel image and at most
    one initrd and one device tree directory. *)
Definition quiet_before (pre : list string) : Prop :=
  count is_kernel pre = 0 /\ count is_initrd pre <= 1 /\ count is_dtbs pre <= 1.

(** The first entry of its class the loop keeps: the one it has, or the
    first of [items]. *)
Definition first_or (o : option string) (items : list string) (P : string -> bool)
  : option string :=
  match o with Some _ => o | None => find P items end.

(** The directories of the stage below the root directory [r]. *)
Definition boot_dir (r : path) : path := (r ++ ["boot"])%list.
Definition modules_dir (r : path) : path := (r ++ ["usr"; "lib"; "modules"])%list.
Definition version_dir (r : path) (ver : string) : path := (modules_dir r ++ [ver])%list.

(** What the moves of the symbol maps keep true. *)
Definition boot_inv (r : path) (ver : string) (w0 w : world) : Prop :=
  cwd w = cwd w0
  /\ physical (fs w) (boot_dir r)
  /\ physical (fs w) (version_dir r ver)
  /\ (forall n, is_symbol_map n = false ->
                Sys.child (fs w) (boot_dir r) n = Sys.child (fs w0) (boot_dir r) n)
  /\ (forall n, Sys.child (fs w) (version_dir r ver) n
                = Sys.child (fs w0) (version_dir r ver) n)
  /\ (forall s m es, is_symbol_map s = true ->
                     Sys.child (fs w) (boot_dir r) s <> Some (Dir m es)).

(** ** [create_tmpfile_dir] *)

(** The place of the configuration file below the root directory [r]. *)
Definition conf_dir (r : path) : path := (r ++ ["usr"; "lib"; "tmpfiles.d"])%list.
Definition conf_name : string := "ostree-integration-autovar.conf".

(** The test a package passes to have its paths collected: it lists
    [/var] itself and is not excluded. *)
Definition collected (pkg : package) : bool :=
  Py.mem "/var" (installed_files pkg)
  && negb (Py.mem (pkg_name pkg) Constants.excluded_packages).

(** A path that gets a rule: it starts with [/var] and is no canonical
    base directory. *)
Definition rule_path (f : string) : bool :=
  Py.startswith "/var" f && negb (Py.mem f base_dirs).

(** The paths that get a rule, in the order they are written. *)
Definition rules_of (cache : list package) : list string :=
  filter (fun d => negb (Py.mem d base_dirs)) (collect_dirs cache).

(** ** [convert_to_ostree]: the loop over [TOPLEVEL_LINKS] *)

(** One turn of the loop, for the descriptor [fd] of the root directory. *)
Definition link_turn (rootdir : string) (fd : path) (lt : string * string) : M unit :=
  Shutil.rmtree (Pathlib.joinpath rootdir (fst lt)) ;;
  Os.symlink (snd lt) (fst lt) (Some fd).

(** ** [create_ostree]: the stages and the log *)

(** The lines the stages log when something fails: the f-strings. *)
Definition is_error_line (l : line) : bool :=
  match l with Fmt _ _ => true | Text _ => false end.

(** The other lines of a log: the announcements of the stages. *)
Definition stage_lines (l : list line) : list line :=
  filter (fun s => negb (is_error_line s)) l.

(** The announcements of [create_ostree] and [convert_to_ostree], in the
    order of the source text. *)
Definition STAGE_LINES : list line :=
  map Text
    ["Setting up kernel and initramfs";
     "Create tmpfiles";
     "Convert to ostree";
     "Moving /var to /usr/rootdirs.";
     "Removing unnecessary files.";
     "Moving /etc to /usr/etc.";
     "Setting up /ostree and /sysroot.";
     "Setting up symlinks.";
     "Ostree file structure created succesfully!"].

(** The log has grown by error lines only. *)
Definition errors_only (w w' : world) : Prop :=
  exists extra, log w' = (log w ++ extra)%list /\ stage_lines extra = [].

(** A computation that logs error lines only. *)
Definition quiet {A} (m : M A) : Prop := keeps errors_only m.

(** [announces L m]: what [m] adds to the log is, error lines apart, a
    prefix of [L], and the whole of [L] when [m] returns. *)
Definition announces {A} (L : list line) (m : M A) : Prop :=
  forall w, exists extra,
    log (snd (m w)) = (log w ++ extra)%list
    /\ (exists rest, L = (stage_lines extra ++ rest)%list)
    /\ (forall a, fst (m w) = Ret a -> stage_lines extra = L).

(** The stages of the pipeline: the two calls of [create_ostree] before
    the conversion, and the blocks of [convert_to_ostree]. *)
Inductive stage :=
| BootSetup | Tmpfiles | SanitizeLinks | RelocateVar | RemoveCruft
| RelocateEtc | Mountpoints | ToplevelLinks.

(** What the source has for each stage, from the line that announces it
    to the line that announces the next one. The links of [usr] are
    sanitized under the announcement of the conversion. *)
Definition run_stage (cache : list package) (rootdir : string) (s : stage) : M unit :=
  match s with
  | BootSetup =>
      logging_info "Setting up kernel and initramfs" ;;
      setup_boot rootdir (Pathlib.joinpath rootdir "boot")
                         (Pathlib.joinpath rootdir "usr/lib/modules")
  | Tmpfiles =>
      logging_info "Create tmpfiles" ;;
      create_tmpfile_dir cache rootdir
  | SanitizeLinks =>
      logging_info "Convert to ostree" ;;
      assert (negb (String.eqb rootdir "")) ;;
      sanitize_usr_symlinks rootdir
  | RelocateVar =>
      logging_info "Moving /var to /usr/rootdirs." ;;
      Os.mkdir (Pathlib.joinpath rootdir "usr/rootdirs") 493 ;;
      Shutil.copytree (Pathlib.joinpath rootdir "var")
                      (Pathlib.joinpath rootdir "usr/rootdirs/var") ;;
      Shutil.rmtree (Pathlib.joinpath rootdir "var") ;;
      Os.mkdir (Pathlib.joinpath rootdir "var") 493
  | RemoveCruft =>
      logging_info "Removing unnecessary files." ;;
      for_each CRUFT
        (fun c => try_OSError (Os.remove (Pathlib.joinpath rootdir c)) (fun _ => pass))
  | RelocateEtc =>
      logging_info "Moving /etc to /usr/etc." ;;
      Shutil.move (Pathlib.joinpath rootdir "etc") (Pathlib.joinpath rootdir "usr")
  | Mountpoints =>
      logging_info "Setting up /ostree and /sysroot." ;;
      try_OSError
        (let ostree := Pathlib.joinpath rootdir "ostree" in
         let sysroot := Pathlib.joinpath rootdir "sysroot" in
         Pathlib.mkdir_parents (String.length ostree) ostree 511 ;;
         Pathlib.mkdir_parents (String.length sysroot) sysroot 511)
        (fun _ => pass)
  | ToplevelLinks =>
      logging_info "Setting up symlinks." ;;
      build_toplevel_links rootdir
  end.

(** The order in which [create_ostree] goes through them. *)
Definition STAGE_ORDER : list stage :=
  [BootSetup; Tmpfiles; SanitizeLinks; RelocateVar; RemoveCruft;
   RelocateEtc; Mountpoints; ToplevelLinks].

(** Stages run one after the other: each starts in the world the one
    before it has left, and the first that does not return ends the
    run. *)
Fixpoint run_stages (cache : list package) (rootdir : string) (l : list stage)
  : M unit :=
  match l with
  | [] => ret tt
  | s :: rest => run_stage cache rootdir s ;; run_stages cache rootdir rest
  end.

(** The line [create_ostree] logs when every stage has returned. *)
Definition DONE_LINE : line := "Ostree file structure created succesfully!".

(** ** [sanitize_usr_symlinks] *)

(** The same permission bits, user and group. *)
Definition meta_eqb (a b : meta) : bool :=
  N.eqb (mode a) (mode b) && N.eqb (uid a) (uid b) && N.eqb (gid a) (gid b).

(** [is_copy own x x']: [x'] has the names, the file contents, the link
    targets and the permission bits of [x], entry by entry, and every
    entry of [x'] is owned by [own]. *)
Fixpoint is_copy (own : N * N) (x x' : node) : bool :=
  match x, x' with
  | File _ d m, File _ d' m' =>
      String.eqb d d' && meta_eqb m' (Meta (mode m) (fst own) (snd own))
  | Symlink t _, Symlink t' m' =>
      String.eqb t t' && meta_eqb m' (Meta 511 (fst own) (snd own))
  | Dir m es, Dir m' es' =>
      meta_eqb m' (Meta (mode m) (fst own) (snd own))
      && (fix entries (es es' : list (string * node)) : bool :=
            match es, es' with
            | [], [] => true
            | (k, v) :: t, (k', v') :: t' =>
                String.eqb k k' && is_copy own v v' && entries t t'
            | _, _ => false
            end) es es'
  | _, _ => false
  end.

(** The statements of the [try] block of [sanitize_usr_symlinks]. *)
Definition materialize (target p : string) : M unit :=
  Os.remove p ;;
  f <- Os.path_isfile target ;;
  if f then Os.link target p
  else
    d <- Os.path_isdir target ;;
    if d then Shutil.copytree target p else pass.

(** The [target] the loop computes for a link. *)
Definition entry_target (rootdir base link : string) : string :=
  if OsPath.isabs link then OsPath.join rootdir (Py.tail link)
  else OsPath.join base link.

(** The tests of the loop body that a link passes to reach the [try]
    block: the common path of [target] and [usrdir] is not [usrdir], and
    the top level of [target] relative to [rootdir] is [var]. *)
Definition acted_on (rootdir usrdir base link : string) (cwd : path) : bool :=
  let target := entry_target rootdir base link in
  match OsPath.relpath (path_str cwd) target rootdir, OsPath.commonpath target usrdir with
  | Some rel, Some c =>
      negb (String.eqb c usrdir)
      && (let '(head, tail) := OsPath.split rel in
          match toplevel_loop (String.length rel) head tail with
          | Some t => String.eqb t "var"
          | None => false
          end)
  | _, _ => false
  end.

(** The [except Exception] clause of the block: log, then exit. *)
Definition exit_handler (e : exn) : M unit :=
  logging_info (Fmt "Error moving file: " e) ;; sys_exit 1.

(** The tree [root'] is the tree [root] but for what is at or below
    the place [P]. *)
Definition changed_at (P : path) (root root' : node) : Prop :=
  forall q, is_prefix P q = false -> look root' q = look root q.

(** Nothing has changed, or only what is at or below a place that held
    a symbolic link. *)
Definition replaces_a_link (root root' : node) : Prop :=
  root' = root
  \/ exists P l m, get root P = Some (Symlink l m) /\ changed_at P root root'.

(** A property of trees that no such change undoes. *)
Definition stable (Phi : node -> Prop) : Prop :=
  forall root root', replaces_a_link root root' -> Phi root -> Phi root'.

(** The entry [d] of the directory [t] is no symbolic link. *)
Definition no_link_at (t : path) (d : string) (root : node) : Prop :=
  forall l m, Sys.child root t d <> Some (Symlink l m).

(** ** Sample worlds *)

Module Sample.

Open Scope N_scope.

Definition root_dir (es : list (string * node)) : node := Dir (Meta 493 0 0) es.
Definition reg (i : N) (data : string) : node := File i data (Meta 420 0 0).
Definition sym (target : string) : node := Symlink target (Meta 511 0 0).

(** A world whose file system holds the tree to convert at [/r]; the
    process is root, with umask 0o022. *)
Definition world_of (tree : list (string * node)) : world :=
  World (root_dir [("r", root_dir tree)]) 100 0 0 18 [] [].

(** A boot directory with a symbol map and no kernel image; the module
    directory does not exist yet. *)
Definition no_kernel : world :=
  world_of
    [("boot", root_dir [("System.map-6.1.0", reg 1 "map")]);
     ("usr", root_dir [("lib", root_dir [])])].

(** Two kernel images, a symbol map listed between them. *)
Definition two_kernels : world :=
  world_of
    [("boot", root_dir [("vmlinuz-6.1.0", reg 1 "k1");
                        ("System.map-6.1.0", reg 2 "map");
                        ("vmlinuz-6.2.0", reg 3 "k2")]);
     ("usr", root_dir [("lib", root_dir [("modules", root_dir [])])])].

(** One kernel image and one initrd; the module directory exists but
    has no directory for the kernel version. *)
Definition no_version_dir : world :=
  world_of
    [("boot", root_dir [("vmlinuz-6.1.0-amd64", reg 1 "kernel");
                        ("initrd.img-6.1.0-amd64", reg 2 "initrd")]);
     ("usr", root_dir [("lib", root_dir [("modules", root_dir [])])])].

(** The same with the version directory in place, and a symbol map. *)
Definition with_version_dir : world :=
  world_of
    [("boot", root_dir [("vmlinuz-6.1.0-amd64", reg 1 "kernel");
                        ("System.map-6.1.0-amd64", reg 3 "map");
                        ("initrd.img-6.1.0-amd64", reg 2 "initrd")]);
     ("usr", root_dir [("lib", root_dir [("modules",
                 root_dir [("6.1.0-amd64", root_dir [("kernel", root_dir [])])])])])].

(** A kernel image named just [vmlinuz]. *)
Definition bare_kernel : world :=
  world_of
    [("boot", root_dir [("initrd.img-6.1.0", reg 2 "initrd"); ("vmlinuz", reg 1 "kernel")]);
     ("usr", root_dir [("lib", root_dir [("modules", root_dir [])])])].

End Sample.

Module SampleTmp.

Import Sample.

(** The directory of the configuration file, empty. *)
Definition ready : world :=
  world_of [("usr", root_dir [("lib", root_dir [("tmpfiles.d", root_dir [])])])].

(** The same with a configuration file left by an earlier build. *)
Definition stale : world :=
  world_of
    [("usr", root_dir [("lib", root_dir [("tmpfiles.d",
        root_dir [("ostree-integration-autovar.conf",
                   reg 7 "L /var/lib/old - - - - ../../usr/rootdirs/var/lib/old")])])])].

(** [foo] owns one path under [/var] and nothing else. *)
Definition only_data : list package :=
  [Package "foo" ["/var/lib/foo/data"]].

(** [foo] as [dpkg] lists it, with the directories on the way; an
    excluded package beside it. *)
Definition with_parents : list package :=
  [Package "systemd" ["/."; "/var"; "/var/lib"; "/var/lib/systemd"];
   Package "foo" ["/."; "/var"; "/var/lib"; "/var/lib/foo/data"]].


End SampleTmp.

Module SampleLinks.

Import Sample.

(** A tree in which every name of the mapping is a directory, as the
    earlier steps of the conversion leave it. *)
Definition ready : world :=
  world_of
    [("home", root_dir []); ("media", root_dir []); ("mnt", root_dir []);
     ("opt", root_dir [("pkg", root_dir [("bin", reg 1 "tool")])]);
     ("ostree", root_dir []); ("root", root_dir []); ("srv", root_dir []);
     ("sysroot", root_dir []);
     ("usr", root_dir [("local", root_dir [("bin", root_dir [])]);
                       ("etc", root_dir [])]);
     ("var", root_dir [])].

End SampleLinks.

(** The world the loop over [TOPLEVEL_LINKS] leaves of [SampleLinks.ready]. *)
Definition links_run : world := snd (build_toplevel_links "/r" SampleLinks.ready).

Module SamplePipeline.

Import Sample.

(** A tree as the strap tool leaves it: a kernel with its initrd and
    symbol map, links from [usr] into [var], and the directories the
    conversion replaces. The directory for the kernel version is there. *)
Definition raw : world :=
  world_of
    [("boot", root_dir [("vmlinuz-6.1.0-amd64", reg 1 "k");
                        ("System.map-6.1.0-amd64", reg 2 "s");
                        ("initrd.img-6.1.0-amd64", reg 3 "i")]);
     ("usr", root_dir [("lib", root_dir [("modules", root_dir [("6.1.0-amd64", root_dir [])]);
                                         ("tmpfiles.d", root_dir [])]);
                       ("local", root_dir []);
                       ("baz", sym "/var/x")]);
     ("var", root_dir [("x", reg 4 "x")]);
     ("etc", root_dir [("hostname", reg 6 "h")]);
     ("home", root_dir []); ("media", root_dir []); ("mnt", root_dir []);
     ("opt", root_dir []); ("root", root_dir []); ("srv", root_dir [])].

Definition cache : list package :=
  [Package "foo" ["/."; "/var"; "/var/lib"; "/var/lib/foo"; "/var/lib/foo/data"]].

(** The same tree without [var]: the conversion fails at the copy of
    [var], after the boot setup and the tmpfiles stage. *)
Definition no_var : world :=
  world_of
    [("boot", root_dir [("vmlinuz-6.1.0-amd64", reg 1 "k");
                        ("initrd.img-6.1.0-amd64", reg 3 "i")]);
     ("usr", root_dir [("lib", root_dir [("modules", root_dir [("6.1.0-amd64", root_dir [])]);
                                         ("tmpfiles.d", root_dir [])])])].

End SamplePipeline.

Module SampleSanitize.

Import Sample.

Open Scope N_scope.

(** Links from [usr] into [var]: [foo] is relative, [bar] names a
    directory that belongs to user 100, [baz] a regular file, [dang]
    nothing. *)
Definition tree : world :=
  world_of
    [("usr", root_dir [("foo", sym "../var/x");
                       ("bar", sym "/var/lib/d");
                       ("baz", sym "/var/x");
                       ("dang", sym "/var/missing")]);
     ("var", root_dir
        [("x", reg 4 "x");
         ("lib", Dir (Meta 448 100 100)
            [("d", Dir (Meta 448 100 100)
               [("f", File 5 "f" (Meta 384 100 100));
                ("l", sym "/var/x")])])])].

Definition usr : path := ["r"; "usr"].

End SampleSanitize.

Module SampleNested.

Import Sample.

Open Scope N_scope.

(** One link in [usr], absolute, to a directory of [var] that holds a
    link of its own. *)
Definition tree : world :=
  world_of
    [("usr", root_dir [("bar", sym "/var/lib/d")]);
     ("var", root_dir
        [("x", reg 4 "x");
         ("lib", root_dir
            [("d", root_dir [("f", reg 5 "f"); ("l", sym "/var/x")])])])].

End SampleNested.

(** ** [get_toplevel]: components *)

(** A component as it is written between separators: not empty, and
    without a separator. [".."] is one. *)
Definition plain (c : string) : Prop := c <> "" /\ Py.has_slash c = false.

Module SampleOther.

Import Sample.

(** Links from [usr] that do not lead into [var]: [e] to a file of
    [etc], [s] to a place under [usr]. *)
Definition tree : world :=
  world_of
    [("usr", root_dir [("e", sym "/etc/hostname"); ("s", sym "/usr/lib/x")]);
     ("etc", root_dir [("hostname", reg 6 "h")]);
     ("var", root_dir [])].

End SampleOther.

(** The entries of [TOPLEVEL_LINKS] whose name is directly under the
    root directory: all but the last. *)
Definition direct_links : list (string * string) := removelast TOPLEVEL_LINKS.

(** ** [setup_boot]: what the moves of the symbol maps leave *)

(** A name of the target directory the moves of the symbol maps never
    write to: it is not the name of a symbol map, or a directory holds
    it. *)
Definition kept_name (r : path) (w0 : world) (n : string) : Prop :=
  is_symbol_map n = false
  \/ exists m es, Sys.child (fs w0) (modules_dir r) n = Some (Dir m es).

(** What the moves of the symbol maps keep true, whether the directory
    of the kernel version is there or not. *)
Definition boot_frame (r : path) (w0 w : world) : Prop :=
  cwd w = cwd w0
  /\ physical (fs w) (boot_dir r)
  /\ physical (fs w) (modules_dir r)
  /\ (forall n, is_symbol_map n = false ->
                Sys.child (fs w) (boot_dir r) n = Sys.child (fs w0) (boot_dir r) n)
  /\ (forall n q, kept_name r w0 n ->
                  get (fs w) (modules_dir r ++ n :: q)%list
                  = get (fs w0) (modules_dir r ++ n :: q)%list)
  /\ (forall s m es, is_symbol_map s = true ->
                     Sys.child (fs w) (boot_dir r) s <> Some (Dir m es)).

Module SampleBoot.

Import Sample.

(** A kernel image without an initrd, beside a symbol map, a kernel
    configuration and a directory of device trees. *)
Definition kernel_only : world :=
  world_of
    [("boot", root_dir [("vmlinuz-6.1.0-amd64", reg 1 "kernel");
                        ("System.map-6.1.0-amd64", reg 3 "map");
                        ("config-6.1.0-amd64", reg 4 "config");
                        ("dtbs-6.1.0-amd64", root_dir [("board.dtb", reg 5 "dtb")])]);
     ("usr", root_dir [("lib", root_dir [("modules",
                 root_dir [("6.1.0-amd64", root_dir [("kernel", root_dir [])])])])])].

(** A kernel image and two initrds, one under each of the two names. *)
Definition two_initrds : world :=
  world_of
    [("boot", root_dir [("System.map-6.1.0", reg 3 "map");
                        ("initrd.img-6.1.0", reg 2 "initrd");
                        ("vmlinuz-6.1.0", reg 1 "kernel");
                        ("initramfs-6.1.0.img", reg 4 "initramfs")]);
     ("usr", root_dir [("lib", root_dir [("modules", root_dir [("6.1.0", root_dir [])])])])].

End SampleBoot.

(** ** [convert_to_ostree]: the whole conversion *)

(** The tree [root'] is the tree [root] but for what is at or below the
    places of [L]: a place [q] that is below none of them looks the same,
    and holds the same subtree when none of them is below [q] either. *)
Definition changed_only (L : list path) (root root' : node) : Prop :=
  forall q, Forall (fun p => is_prefix p q = false) L ->
    look root' q = look root q
    /\ (Forall (fun p => is_prefix q p = false) L -> get root' q = get root q).

(** An entry that is a directory, or is not there. *)
Definition dir_or_absent (o : option node) : Prop :=
  o = None \/ exists m es, o = Some (Dir m es).




Module SampleConvert.

Import Sample.

Open Scope N_scope.

(** A tree as the boot setup leaves it: the kernel image is gone from
    [boot], links to it are left at the top; [var] holds a directory of
    another user; [usr] has a link into [var]. *)
Definition raw : world :=
  world_of
    [("boot", root_dir [("config-6.1.0-amd64", reg 7 "c"); ("vmlinuz", sym "vmlinuz-6.1.0-amd64")]);
     ("vmlinuz", sym "boot/vmlinuz-6.1.0-amd64");
     ("initrd.img", sym "boot/initrd.img-6.1.0-amd64");
     ("usr", root_dir [("lib", root_dir [("modules", root_dir [("6.1.0-amd64", root_dir [])])]);
                       ("local", root_dir [("bin", root_dir [])]);
                       ("baz", sym "/var/x")]);
     ("var", root_dir [("x", reg 4 "x");
                       ("lib", Dir (Meta 448 100 100)
                                 [("f", File 5 "f" (Meta 384 100 100))])]);
     ("etc", root_dir [("hostname", reg 6 "h")]);
     ("home", root_dir [("user", root_dir [])]); ("media", root_dir []);
     ("mnt", root_dir []); ("opt", root_dir []); ("root", root_dir []);
     ("srv", root_dir [])].

(** The tree the conversion leaves of it. *)
Definition converted : world := snd (convert_to_ostree "/r" raw).





End SampleConvert.

(** ** [setup_boot]: where the symbol maps go *)

(** [placed r w0 w S]: of the symbol maps that were regular files of the
    boot directory in [w0], with their name free in the target
    directory, those of [S] are in the target directory in [w], and the
    others still in the boot directory. *)
Definition placed (r : path) (w0 w : world) (S : list string) : Prop :=
  forall s i d m,
    is_symbol_map s = true ->
    Sys.child (fs w0) (boot_dir r) s = Some (File i d m) ->
    Sys.child (fs w0) (modules_dir r) s = None ->
    (In s S ->
     Sys.child (fs w) (modules_dir r) s = Some (File i d m)
     /\ Sys.child (fs w) (boot_dir r) s = None)
    /\ (~ In s S ->
        Sys.child (fs w) (boot_dir r) s = Some (File i d m)
        /\ Sys.child (fs w) (modules_dir r) s = None).

(** ** [sanitize_usr_symlinks]: trees without links *)

(** No entry of [x], at any depth, is a symbolic link. *)
Fixpoint link_free (x : node) : bool :=
  match x with
  | File _ _ _ => true
  | Symlink _ _ => false
  | Dir _ es =>
      (fix all_free (es : list (string * node)) : bool :=
         match es with
         | [] => true
         | (_, v) :: t => link_free v && all_free t
         end) es
  end.

(** ** [setup_boot]: moves and renames in general *)

(** What the moves of the symbol maps keep true, whatever the symbol
    maps are, directories among them. *)
Definition boot_kept (r : path) (w0 w : world) : Prop :=
  cwd w = cwd w0
  /\ physical (fs w) (boot_dir r)
  /\ physical (fs w) (modules_dir r)
  /\ (forall n, is_symbol_map n = false ->
                Sys.child (fs w) (boot_dir r) n = Sys.child (fs w0) (boot_dir r) n)
  /\ (forall n q, kept_name r w0 n ->
                  get (fs w) (modules_dir r ++ n :: q)%list
                  = get (fs w0) (modules_dir r ++ n :: q)%list).

(** [os.rename] moves the entry [x] onto a name that holds [o]: the
    name is free; or [x] is no directory and the name holds a file or a
    link that is not a hard link of [x] (onto a hard link of [x] the
    call does nothing, onto a directory it fails); or [x] is a directory
    and the name holds an empty directory. *)
Definition renames_onto (x : node) (o : option node) : bool :=
  match o with
  | None => true
  | Some (Dir _ es) => is_dir x && match names es with [] => true | _ => false end
  | Some y => negb (is_dir x) && negb (Sys.same_inode x y)
  end.

Module SampleRerun.

Import Sample.

(** A tree on which the boot setup runs once more: the directory of the
    kernel version holds the [vmlinuz] of an earlier run, and the symbol
    map of the boot directory is a directory. *)
Definition again : world :=
  world_of
    [("boot", root_dir [("vmlinuz-6.1.0-amd64", reg 1 "kernel");
                        ("System.map-6.1.0-amd64", root_dir [("part", reg 3 "map")]);
                        ("initrd.img-6.1.0-amd64", reg 2 "initrd")]);
     ("usr", root_dir [("lib", root_dir [("modules",
                 root_dir [("6.1.0-amd64", root_dir [("vmlinuz", reg 9 "old")])])])])].

(** The directory of the kernel version holds a directory [vmlinuz]. *)
Definition occupied : world :=
  world_of
    [("boot", root_dir [("vmlinuz-6.1.0-amd64", reg 1 "kernel");
                        ("initrd.img-6.1.0-amd64", reg 2 "initrd")]);
     ("usr", root_dir [("lib", root_dir [("modules",
                 root_dir [("6.1.0-amd64", root_dir [("vmlinuz", root_dir [])])])])])].

(** The directory of the kernel version holds a hard link of the kernel
    image of the boot directory. *)
Definition linked : world :=
  world_of
    [("boot", root_dir [("vmlinuz-6.1.0-amd64", reg 1 "kernel");
                        ("initrd.img-6.1.0-amd64", reg 2 "initrd")]);
     ("usr", root_dir [("lib", root_dir [("modules",
                 root_dir [("6.1.0-amd64", root_dir [("vmlinuz", reg 1 "kernel")])])])])].

End SampleRerun.

(** ** [sanitize_usr_symlinks]: the whole stage and one link *)




(** One turn of the loop of the stage at the place [P], seen from
    outside: the tree is as it was, or [P] held a symbolic link and the
    tree has changed at or below [P] only. The user, the group and the
    working directory of the process are as they were. *)
Definition turn (P : path) (w w' : world) : Prop :=
  cwd w' = cwd w /\ euid w' = euid w /\ egid w' = egid w
  /\ (fs w' = fs w
      \/ exists l m, get (fs w) P = Some (Symlink l m)
                     /\ changed_only [P] (fs w) (fs w')).

(** A property of worlds that no turn at a place of [S] undoes. *)
Definition kept_by (S : path -> Prop) (Phi : world -> Prop) : Prop :=
  forall P w w', S P -> turn P w w' -> Phi w -> Phi w'.

Module SampleHost.

Import Sample.

Open Scope N_scope.

(** A host that has a directory [/var/missing] of its own, beside the
    tree at [/r], where [usr/dang] is a link to [/var/missing] and [var]
    has no entry [missing]. *)
Definition tree : world :=
  World
    (root_dir
       [("var", root_dir [("missing", root_dir [])]);
        ("r", root_dir [("usr", root_dir [("dang", sym "/var/missing")]);
                        ("var", root_dir [("x", reg 4 "x")])])])
    100 0 0 18 [] [].

(** A host with a directory [/var/lib] of its own, beside the tree at
    [/r], where [usr/state] is a link to [/var/lib] and [var/lib] is a
    directory with a file. *)
Definition both : world :=
  World
    (root_dir
       [("var", root_dir [("lib", root_dir [])]);
        ("r", root_dir [("usr", root_dir [("state", sym "/var/lib")]);
                        ("var", root_dir [("lib", root_dir [("f", reg 5 "f")])])])])
    100 0 0 18 [] [].

End SampleHost.

(** A run of turns, each at a place of [S]. *)
Inductive turns (S : path -> Prop) : world -> world -> Prop :=
| turns_nil w : turns S w w
| turns_cons P w w1 w2 : S P -> turn P w w1 -> turns S w1 w2 -> turns S w w2.

(* ================================================================== *)
(** * Reasoning about the monad *)
(* ================================================================== *)

Section MonadFacts.

Context {A B : Type}.

Lemma bind_ret_l (a : A) (k : A -> M B) w : bind (ret a) k w = k a w.
Proof. reflexivity. Qed.

Lemma bind_Ret (m : M A) (k : A -> M B) w a w1 :
  m w = (Ret a, w1) -> bind m k w = k a w1.
Proof. intros H. unfold bind. now rewrite H. Qed.

Lemma bind_Raise (m : M A) (k : A -> M B) w e w1 :
  m w = (Raise e, w1) -> bind m k w = (Raise e, w1).
Proof. intros H. unfold bind. now rewrite H. Qed.

Lemma bind_Diverge (m : M A) (k : A -> M B) w w1 :
  m w = (Diverge, w1) -> bind m k w = (Diverge, w1).
Proof. intros H. unfold bind. now rewrite H. Qed.

(** A computation that returns after a [bind] went through both parts. *)
Lemma bind_inv_Ret (m : M A) (k : A -> M B) w b w2 :
  bind m k w = (Ret b, w2) ->
  exists a w1, m w = (Ret a, w1) /\ k a w1 = (Ret b, w2).
Proof.
  unfold bind. destruct (m w) as [[a | e |] w1]; intros H; try discriminate.
  exists a, w1. split; [reflexivity | exact H].
Qed.

End MonadFacts.

Lemma for_each_app {A} (l1 l2 : list A) (body : A -> M unit) w :
  for_each (l1 ++ l2)%list body w = bind (for_each l1 body) (fun _ => for_each l2 body) w.
Proof.
  revert w. induction l1 as [| x l1 IH]; intros w; simpl.
  - reflexivity.
  - unfold bind. destruct (body x w) as [[[] | e |] w1]; try reflexivity.
    specialize (IH w1). unfold bind in IH. exact IH.
Qed.

(** ** Running a computation step by step *)

Lemma bind_assoc {A B C} (m : M A) (k1 : A -> M B) (k2 : B -> M C) w :
  bind (bind m k1) k2 w = bind m (fun x => bind (k1 x) k2) w.
Proof. unfold bind. destruct (m w) as [[a | e |] w1]; reflexivity. Qed.

Lemma bind_raise {A B} (e : exn) (k : A -> M B) w :
  bind (raise e) k w = (Raise e, w).
Proof. reflexivity. Qed.

Lemma bind_fs_read {A B} (f : node -> path -> A) (k : A -> M B) w :
  bind (fs_read f) k w = k (f (fs w) (cwd w)) w.
Proof. reflexivity. Qed.

Lemma bind_fs_query_ok {A B} (f : node -> path -> res A) (k : A -> M B) w a :
  f (fs w) (cwd w) = OK a -> bind (fs_query f) k w = k a w.
Proof. intros H. unfold bind, fs_query. now rewrite H. Qed.

Lemma bind_fs_query_err {A B} (f : node -> path -> res A) (k : A -> M B) w e :
  f (fs w) (cwd w) = Err e -> bind (fs_query f) k w = (Raise (OSError e), w).
Proof. intros H. unfold bind, fs_query. now rewrite H. Qed.

Lemma bind_fs_call_ok {B} (f : node -> path -> res node) (k : unit -> M B) w r :
  f (fs w) (cwd w) = OK r -> bind (fs_call f) k w = k tt (set_fs w r).
Proof. intros H. unfold bind, fs_call. now rewrite H. Qed.

Lemma bind_fs_call_err {B} (f : node -> path -> res node) (k : unit -> M B) w e :
  f (fs w) (cwd w) = Err e -> bind (fs_call f) k w = (Raise (OSError e), w).
Proof. intros H. unfold bind, fs_call. now rewrite H. Qed.

Lemma fs_call_ok (f : node -> path -> res node) w r :
  f (fs w) (cwd w) = OK r -> fs_call f w = (Ret tt, set_fs w r).
Proof. intros H. unfold fs_call. now rewrite H. Qed.

Lemma fs_call_err (f : node -> path -> res node) w e :
  f (fs w) (cwd w) = Err e -> fs_call f w = (Raise (OSError e), w).
Proof. intros H. unfold fs_call. now rewrite H. Qed.

Lemma try_OSError_Ret {A} (m : M A) (h : errno -> M A) w a w1 :
  m w = (Ret a, w1) -> try_OSError m h w = (Ret a, w1).
Proof. intros H. unfold try_OSError. now rewrite H. Qed.

Lemma try_OSError_caught {A} (m : M A) (h : errno -> M A) w e w1 :
  m w = (Raise (OSError e), w1) -> try_OSError m h w = h e w1.
Proof. intros H. unfold try_OSError. now rewrite H. Qed.

Lemma try_Exception_Ret {A} (m : M A) (h : exn -> M A) w a w1 :
  m w = (Ret a, w1) -> try_Exception m h w = (Ret a, w1).
Proof. intros H. unfold try_Exception. now rewrite H. Qed.

Lemma try_Exception_caught {A} (m : M A) (h : exn -> M A) w e w1 :
  m w = (Raise (OSError e), w1) -> try_Exception m h w = h (OSError e) w1.
Proof. intros H. unfold try_Exception. now rewrite H. Qed.

(** ** Computations that stay in a relation between worlds *)

Section Keeps.

Variable I : world -> world -> Prop.
Hypothesis I_refl : forall w, I w w.
Hypothesis I_trans : forall a b c, I a b -> I b c -> I a c.

Lemma keeps_ret {A} (a : A) : keeps I (ret a).
Proof. intros w. apply I_refl. Qed.

Lemma keeps_raise {A} (e : exn) : keeps I (@raise A e).
Proof. intros w. apply I_refl. Qed.

Lemma keeps_bind {A B} (m : M A) (k : A -> M B) :
  keeps I m -> (forall a, keeps I (k a)) -> keeps I (bind m k).
Proof.
  intros Hm Hk w. unfold bind. specialize (Hm w).
  destruct (m w) as [[a | e |] w1]; simpl in *; try exact Hm.
  eapply I_trans; [exact Hm | apply Hk].
Qed.

Lemma keeps_try_OSError {A} (m : M A) (h : errno -> M A) :
  keeps I m -> (forall e, keeps I (h e)) -> keeps I (try_OSError m h).
Proof.
  intros Hm Hh w. unfold try_OSError. specialize (Hm w).
  destruct (m w) as [[a | [| | e | c] |] w1]; simpl in *; try exact Hm.
  eapply I_trans; [exact Hm | apply Hh].
Qed.

Lemma keeps_try_Exception {A} (m : M A) (h : exn -> M A) :
  keeps I m -> (forall e, keeps I (h e)) -> keeps I (try_Exception m h).
Proof.
  intros Hm Hh w. unfold try_Exception. specialize (Hm w).
  destruct (m w) as [[a | [| | e | c] |] w1]; simpl in *; try exact Hm;
    (eapply I_trans; [exact Hm | apply Hh]).
Qed.

Lemma keeps_for_each {A} (l : list A) (body : A -> M unit) :
  (forall x, keeps I (body x)) -> keeps I (for_each l body).
Proof.
  intros Hb. induction l as [| x l IH]; simpl.
  - apply keeps_ret.
  - apply keeps_bind; [apply Hb | intros _; exact IH].
Qed.

Lemma keeps_assert (b : bool) : keeps I (assert b).
Proof. destruct b; [apply keeps_ret | apply keeps_raise]. Qed.

Lemma keeps_diverge {A} : keeps I (fun w => (@Diverge A, w)).
Proof. intros w. apply I_refl. Qed.

Lemma keeps_fs_read {A} (f : node -> path -> A) : keeps I (fs_read f).
Proof. intros w. apply I_refl. Qed.

Lemma keeps_fs_query {A} (f : node -> path -> res A) : keeps I (fs_query f).
Proof. intros w. unfold fs_query. destruct (f (fs w) (cwd w)); apply I_refl. Qed.

End Keeps.

(** ** Computations that end normally or with an [OSError] *)

Lemma oserr_ret {A} (a : A) : oserr (ret a).
Proof. intros w. exact Logic.I. Qed.

Lemma oserr_raise {A} (e : errno) : oserr (@raise A (OSError e)).
Proof. intros w. exact Logic.I. Qed.

Lemma oserr_bind {A B} (m : M A) (k : A -> M B) :
  oserr m -> (forall a, oserr (k a)) -> oserr (bind m k).
Proof.
  intros Hm Hk w. unfold bind. specialize (Hm w).
  destruct (m w) as [[a | e |] w1]; simpl in *; try exact Hm. apply Hk.
Qed.

Lemma oserr_try_OSError {A} (m : M A) (h : errno -> M A) :
  oserr m -> (forall e, oserr (h e)) -> oserr (try_OSError m h).
Proof.
  intros Hm Hh w. unfold try_OSError. specialize (Hm w).
  destruct (m w) as [[a | [| | e | c] |] w1]; simpl in *; try exact Hm. apply Hh.
Qed.

Lemma oserr_fs_read {A} (f : node -> path -> A) : oserr (fs_read f).
Proof. intros w. exact Logic.I. Qed.

Lemma oserr_fs_query {A} (f : node -> path -> res A) : oserr (fs_query f).
Proof. intros w. unfold fs_query. destruct (f (fs w) (cwd w)); exact Logic.I. Qed.

Lemma oserr_fs_call (f : node -> path -> res node) : oserr (fs_call f).
Proof. intros w. unfold fs_call. destruct (f (fs w) (cwd w)); exact Logic.I. Qed.

Create HintDb oserr.
#[export] Hint Resolve oserr_ret oserr_raise oserr_bind oserr_try_OSError
  oserr_fs_read oserr_fs_query oserr_fs_call : oserr.

(** Break a goal [oserr m] along the structure of [m]. *)
Ltac oserr_step :=
  match goal with
  | |- oserr (if ?b then _ else _) => destruct b
  | |- oserr (match ?x with _ => _ end) => destruct x
  | |- oserr (bind _ _) => apply oserr_bind; [| intros ?]
  | |- oserr (try_OSError _ _) => apply oserr_try_OSError; [| intros ?]
  | |- oserr pass => apply oserr_ret
  | |- _ => solve [auto with oserr]
  end.

Lemma oserr_mkdir s md : oserr (Os.mkdir s md).
Proof. intros w. unfold Os.mkdir. apply oserr_fs_call. Qed.

Lemma oserr_symlink t d fd : oserr (Os.symlink t d fd).
Proof. intros w. unfold Os.symlink. destruct fd; apply oserr_fs_call. Qed.

Lemma oserr_write_file s data : oserr (Os.write_file s data).
Proof.
  intros w. unfold Os.write_file.
  destruct (Os.open_place _ _ _ _) as [[p n] | e]; [| exact Logic.I].
  destruct (Sys.child _ _ _) as [[i d m | t m | m es] |]; try exact Logic.I;
    destruct (put _ _ _ _); exact Logic.I.
Qed.

Lemma oserr_getcwd : oserr Os.getcwd.
Proof. intros w. exact Logic.I. Qed.

#[export] Hint Resolve oserr_mkdir oserr_symlink oserr_write_file oserr_getcwd : oserr.

Lemma oserr_makedirs fuel : forall name md, oserr (Os.makedirs fuel name md).
Proof.
  induction fuel as [| fuel IH]; intros name md; simpl;
    destruct (OsPath.split name) as [head0 tail0];
    destruct (if String.eqb tail0 "" then OsPath.split head0 else (head0, tail0))
      as [head tail];
    unfold Os.path_exists; repeat oserr_step; apply IH.
Qed.

#[export] Hint Resolve oserr_makedirs : oserr.

Lemma oserr_copytree src dst : oserr (Shutil.copytree src dst).
Proof.
  unfold Shutil.copytree. repeat oserr_step.
  intros w. destruct (Sys.copy_node _ _ _) as [x' i'].
  destruct (put _ _ _ _); exact Logic.I.
Qed.

Lemma oserr_copy2 src dst : oserr (Shutil.copy2 src dst).
Proof.
  unfold Shutil.copy2, Os.path_isdir, Os.samefile. repeat oserr_step.
  intros w. destruct (Os.open_place _ _ _ _) as [[p n] | e]; [| exact Logic.I].
  destruct (Sys.child _ _ _) as [[i d m | t m | m es] |]; try exact Logic.I.
  destruct (put _ _ _ _); exact Logic.I.
Qed.

#[export] Hint Resolve oserr_copytree oserr_copy2 : oserr.

Lemma oserr_move src dst : oserr (Shutil.move src dst).
Proof.
  unfold Shutil.move, Shutil.destinsrc, Shutil.rmtree, Os.path_isdir, Os.samefile,
    Os.path_islink, Os.path_exists, Os.rename, Os.readlink, Os.unlink.
  repeat oserr_step.
Qed.

(* ================================================================== *)
(** * [setup_boot]: which entries the loop accepts *)
(* ================================================================== *)

Arguments Py.startswith : simpl never.
Arguments Py.split_once : simpl never.
Arguments Py.split_on : simpl never.
Arguments Py.mem : simpl never.
Arguments OsPath.join : simpl never.
Arguments OsPath.split : simpl never.
Arguments String.eqb : simpl never.
Arguments String.append : simpl never.

Lemma move_as_is_returns bootdir targetdir item w :
  fst (move_as_is bootdir targetdir item w) = Ret tt.
Proof.
  unfold move_as_is, try_Exception.
  pose proof (oserr_move (OsPath.join bootdir item) targetdir w) as H.
  destruct (Shutil.move _ _ w) as [[[] | [| | e | c] |] w1]; simpl in *;
    try contradiction; reflexivity.
Qed.

Lemma boot_item_control bootdir targetdir v item w :
  boot_item bootdir targetdir v item w =
  (item_control bootdir v item,
   if is_symbol_map item then snd (move_as_is bootdir targetdir item w) else w).
Proof.
  unfold boot_item, item_control, is_symbol_map, is_dtbs, is_initrd, is_kernel.
  destruct (Py.startswith "vmlinuz" item); simpl.
  { destruct (is_none (vmlinuz v)); simpl; [| reflexivity].
    unfold bind; simpl. destruct (Py.split_once "-" item) as [[h t] |]; reflexivity. }
  destruct (Py.startswith "initrd.img" item || Py.startswith "initramfs" item); simpl.
  { destruct (is_none (initrd v)); reflexivity. }
  destruct (Py.startswith "dtbs" item); simpl.
  { destruct (is_none (dtbs v)); reflexivity. }
  destruct (Py.startswith "System.map" item); simpl; [| reflexivity].
  unfold bind. pose proof (move_as_is_returns bootdir targetdir item w) as H.
  destruct (move_as_is bootdir targetdir item w) as [o w1]. simpl in *.
  subst o. reflexivity.
Qed.

Lemma boot_loop_control bootdir targetdir items : forall v w,
  boot_loop bootdir targetdir v items w =
  (snd (loop_control bootdir v items),
   snd (for_each (filter is_symbol_map (fst (loop_control bootdir v items)))
          (move_as_is bootdir targetdir) w)).
Proof.
  induction items as [| item rest IH]; intros v w; simpl.
  - reflexivity.
  - unfold bind. rewrite boot_item_control.
    destruct (item_control bootdir v item) as [v' | e |] eqn:Hc; simpl.
    + rewrite IH. destruct (loop_control bootdir v' rest) as [seen o]. simpl.
      destruct (is_symbol_map item) eqn:Hs; simpl; [| reflexivity].
      unfold bind. pose proof (move_as_is_returns bootdir targetdir item w) as H.
      destruct (move_as_is bootdir targetdir item w) as [o1 w1]. simpl in *.
      subst o1. reflexivity.
    + unfold item_control in Hc. destruct (is_symbol_map item) eqn:Hs; [| reflexivity].
      unfold is_symbol_map in Hs.
      destruct (is_kernel item); [discriminate |].
      destruct (is_initrd item); [discriminate |].
      destruct (is_dtbs item); [discriminate |]. discriminate.
    + unfold item_control in Hc.
      destruct (is_kernel item).
      { destruct (is_none (vmlinuz v)); [| discriminate].
        destruct (Py.split_once "-" item) as [[h t] |]; discriminate. }
      destruct (is_initrd item); [destruct (is_none (initrd v)); discriminate |].
      destruct (is_dtbs item); [destruct (is_none (dtbs v)); discriminate |].
      discriminate.
Qed.

Lemma loop_control_prefix bootdir items : forall v,
  exists rest, items = (fst (loop_control bootdir v items) ++ rest)%list.
Proof.
  induction items as [| item tl IH]; intros v; simpl.
  - exists []. reflexivity.
  - destruct (item_control bootdir v item) as [v' | e |]; simpl.
    + destruct (IH v') as [rest Hr].
      destruct (loop_control bootdir v' tl) as [seen o]. simpl in *.
      exists rest. now rewrite <- Hr.
    + exists (item :: tl). reflexivity.
    + exists (item :: tl). reflexivity.
Qed.

(** A turn on an entry that is no kernel image leaves [vmlinuz] as it
    was, or fails an assertion. *)
Lemma item_control_other bootdir v item :
  is_kernel item = false ->
  (exists v', item_control bootdir v item = Ret v' /\ vmlinuz v' = vmlinuz v
              /\ (initrd v' = initrd v \/ is_initrd item = true)
              /\ (dtbs v' = dtbs v \/ is_dtbs item = true))
  \/ item_control bootdir v item = Raise AssertionError.
Proof.
  intros Hk. unfold item_control. rewrite Hk.
  destruct (is_initrd item).
  { destruct (is_none (initrd v)); [left | right; reflexivity].
    eexists. split; [reflexivity |]. simpl. auto. }
  destruct (is_dtbs item).
  { destruct (is_none (dtbs v)); [left | right; reflexivity].
    eexists. split; [reflexivity |]. simpl. auto. }
  left. exists v. auto.
Qed.

Lemma count_cons P item items :
  count P (item :: items) = (if P item then 1 else 0) + count P items.
Proof. unfold count. simpl. destruct (P item); reflexivity. Qed.

(** Once a kernel image is held, one more makes the loop fail. *)
Lemma loop_control_second_kernel bootdir items : forall v,
  vmlinuz v <> None -> 1 <= count is_kernel items ->
  snd (loop_control bootdir v items) = Raise AssertionError.
Proof.
  induction items as [| item tl IH]; intros v Hv Hc.
  - unfold count in Hc. simpl in Hc. lia.
  - rewrite count_cons in Hc. simpl.
    destruct (is_kernel item) eqn:Hk.
    + unfold item_control. rewrite Hk.
      destruct (vmlinuz v); [reflexivity | congruence].
    + destruct (item_control_other bootdir v item Hk) as [[v' [H1 [H2 _]]] | H1];
        rewrite H1; [| reflexivity].
      specialize (IH v'). destruct (loop_control bootdir v' tl) as [seen o].
      simpl in *. apply IH; [congruence | lia].
Qed.

(** With no kernel image in the listing the loop never sets one. *)
Lemma loop_control_no_kernel bootdir items : forall v,
  count is_kernel items = 0 ->
  (exists v', snd (loop_control bootdir v items) = Ret v' /\ vmlinuz v' = vmlinuz v)
  \/ snd (loop_control bootdir v items) = Raise AssertionError.
Proof.
  induction items as [| item tl IH]; intros v Hc; simpl.
  - left. exists v. auto.
  - rewrite count_cons in Hc.
    destruct (is_kernel item) eqn:Hk; [lia |].
    destruct (item_control_other bootdir v item Hk) as [[v' [H1 [H2 _]]] | H1];
      rewrite H1; [| right; reflexivity].
    specialize (IH v'). destruct (loop_control bootdir v' tl) as [seen o].
    simpl in *. destruct IH as [[v'' [Ha Hb]] | Ha]; [lia | |].
    + left. exists v''. split; [exact Ha | congruence].
    + right. exact Ha.
Qed.

(** Two kernel images, the first one with a version: an assertion
    fails. *)
Lemma loop_control_two_kernels bootdir items : forall v,
  vmlinuz v = None -> 2 <= count is_kernel items ->
  first_kernel_versioned items ->
  snd (loop_control bootdir v items) = Raise AssertionError.
Proof.
  induction items as [| item tl IH]; intros v Hv Hc Hf.
  - unfold count in Hc. simpl in Hc. lia.
  - rewrite count_cons in Hc. simpl.
    destruct (is_kernel item) eqn:Hk.
    + unfold item_control. rewrite Hk, Hv. simpl.
      assert (Hs : Py.split_once "-" item <> None).
      { apply Hf. simpl. now rewrite Hk. }
      destruct (Py.split_once "-" item) as [[h t] |]; [| congruence].
      pose proof (loop_control_second_kernel bootdir tl
                    (BootVars (Some item) (initrd v) (dtbs v) (Some t))) as H2.
      destruct (loop_control bootdir _ tl) as [seen o]. simpl in *.
      apply H2; [discriminate | lia].
    + destruct (item_control_other bootdir v item Hk) as [[v' [H1 [H2 _]]] | H1];
        rewrite H1; [| reflexivity].
      specialize (IH v'). destruct (loop_control bootdir v' tl) as [seen o].
      simpl in *. apply IH; [congruence | lia |].
      intros k Hfind. apply Hf. simpl. now rewrite Hk.
Qed.

Lemma try_mkdir_returns targetdir w :
  try_OSError (Os.mkdir targetdir 511) (fun _ => pass) w = (Ret tt, after_mkdir targetdir w).
Proof.
  unfold after_mkdir, try_OSError.
  pose proof (oserr_mkdir targetdir 511 w) as H.
  destruct (Os.mkdir targetdir 511 w) as [[[] | [| | e | c] |] w1]; simpl in *;
    try contradiction; reflexivity.
Qed.

Lemma listdir_reads bootdir w items w1 :
  Os.listdir bootdir w = (Ret items, w1) -> w1 = w.
Proof.
  unfold Os.listdir, fs_query. destruct (Sys.listdir bootdir (fs w) (cwd w));
    intros H; inversion H; reflexivity.
Qed.

(** [setup_boot] up to the end of its loop. *)
Lemma setup_boot_loop rootdir bootdir targetdir w items :
  fst (Os.listdir bootdir (after_mkdir targetdir w)) = Ret items ->
  setup_boot rootdir bootdir targetdir w =
  bind (boot_loop bootdir targetdir no_boot_vars items)
    (fun v =>
       match vmlinuz v with
       | None => raise AssertionError
       | Some kernel =>
           let dir := OsPath.join targetdir (or_empty (version v)) in
           try_Exception
             (Os.rename (OsPath.join bootdir kernel) (OsPath.join dir "vmlinuz"))
             (fun e => logging_info (Fmt "Error moving file: " e) ;; sys_exit 1) ;;
           match initrd v with
           | None => ret tt
           | Some rd =>
               try_Exception
                 (Os.rename (OsPath.join bootdir rd) (OsPath.join dir "initramfs.img"))
                 (fun e => logging_info (Fmt "Error moving file: " e) ;; sys_exit 1)
           end
       end)
    (after_mkdir targetdir w).
Proof.
  intros Hl. unfold setup_boot. unfold bind at 1. rewrite try_mkdir_returns.
  unfold bind at 1.
  destruct (Os.listdir bootdir (after_mkdir targetdir w)) as [o w1] eqn:E.
  simpl in Hl. subst o. apply listdir_reads in E. subst w1. reflexivity.
Qed.

(* ================================================================== *)
(** * C2, C10: the kernel image count *)
(* ================================================================== *)

(** C2 as the specification states it fails: with no kernel image in the
    boot directory the stage ends in an [AssertionError], but it has made
    the target directory and moved the symbol map into it before. *)
Lemma setup_boot_mutates_before_failing :
  let w := Sample.no_kernel in
  let r := setup_boot "/r" "/r/boot" "/r/usr/lib/modules" w in
  fst (Os.listdir "/r/boot" w) = Ret ["System.map-6.1.0"]
  /\ count is_kernel ["System.map-6.1.0"] = 0
  /\ fst r = Raise AssertionError
  /\ lstat (fs w) [] "/r/usr/lib/modules" = None
  /\ lstat (fs w) [] "/r/boot/System.map-6.1.0" = Some (Sample.reg 1 "map")
  /\ lstat (fs (snd r)) [] "/r/boot/System.map-6.1.0" = None
  /\ lstat (fs (snd r)) [] "/r/usr/lib/modules/System.map-6.1.0"
     = Some (Sample.reg 1 "map").
Proof. vm_compute. repeat split; reflexivity. Qed.

Lemma loop_control_unversioned bootdir pre k post : forall v,
  vmlinuz v = None ->
  count is_kernel pre = 0 ->
  (initrd v = None /\ count is_initrd pre <= 1) \/ count is_initrd pre = 0 ->
  (dtbs v = None /\ count is_dtbs pre <= 1) \/ count is_dtbs pre = 0 ->
  is_kernel k = true -> Py.split_once "-" k = None ->
  snd (loop_control bootdir v (pre ++ k :: post)%list) = Raise ValueError.
Proof.
  induction pre as [| item tl IH]; intros v Hv Hk Hi Hd Hkk Hs.
  - simpl. unfold item_control. rewrite Hkk, Hv, Hs. reflexivity.
  - rewrite count_cons in Hk. rewrite count_cons in Hi. rewrite count_cons in Hd.
    destruct (is_kernel item) eqn:Ek; [lia |].
    simpl. unfold item_control. rewrite Ek.
    destruct (is_initrd item) eqn:Ei.
    { assert (Hn : initrd v = None) by (destruct Hi as [[? ?] | ?]; [assumption | lia]).
      rewrite Hn. simpl.
      specialize (IH (BootVars (vmlinuz v) (Some item) (dtbs v) (version v))).
      destruct (loop_control bootdir _ (tl ++ k :: post)%list) as [seen o]. simpl in *.
      apply IH; auto.
      - right. destruct Hi as [[? ?] | ?]; lia.
      - assert (Ed : is_dtbs item = false)
          by (unfold is_dtbs; rewrite Ei; destruct (is_kernel item); reflexivity).
        rewrite Ed in Hd. simpl in Hd. exact Hd. }
    destruct (is_dtbs item) eqn:Ed.
    { assert (Hn : dtbs v = None) by (destruct Hd as [[? ?] | ?]; [assumption | lia]).
      rewrite Hn. simpl.
      specialize (IH (BootVars (vmlinuz v) (initrd v)
                        (Some (OsPath.join bootdir item)) (version v))).
      destruct (loop_control bootdir _ (tl ++ k :: post)%list) as [seen o]. simpl in *.
      apply IH; auto. right. destruct Hd as [[? ?] | ?]; lia. }
    specialize (IH v).
    destruct (loop_control bootdir v (tl ++ k :: post)%list) as [seen o]. simpl in *.
    apply IH; auto.
Qed.

(** C10. A boot directory with a kernel image whose name has no ["-"]
    (and nothing before it in the listing that fails an assertion) makes
    [setup_boot] raise the [ValueError] of the tuple assignment: neither
    a return, nor an [AssertionError], nor the [SystemExit] of a failed
    rename. *)
Theorem setup_boot_unversioned_kernel rootdir bootdir targetdir w pre k post :
  fst (Os.listdir bootdir (after_mkdir targetdir w)) = Ret (pre ++ k :: post)%list ->
  quiet_before pre ->
  is_kernel k = true ->
  Py.split_once "-" k = None ->
  fst (setup_boot rootdir bootdir targetdir w) = Raise ValueError.
Proof.
  intros Hl [Hk [Hi Hd]] Hkk Hs.
  rewrite (setup_boot_loop rootdir bootdir targetdir w _ Hl).
  unfold bind. rewrite boot_loop_control.
  rewrite (loop_control_unversioned bootdir pre k post no_boot_vars); auto.
Qed.

Lemma setup_boot_unversioned_kernel_witness :
  fst (Os.listdir "/r/boot" Sample.bare_kernel) = Ret ["initrd.img-6.1.0"; "vmlinuz"]
  /\ count is_kernel ["initrd.img-6.1.0"; "vmlinuz"] = 1
  /\ fst (setup_boot "/r" "/r/boot" "/r/usr/lib/modules" Sample.bare_kernel)
     = Raise ValueError.
Proof.
  split; [vm_compute; reflexivity |]. split; [vm_compute; reflexivity |].
  apply (setup_boot_unversioned_kernel "/r" "/r/boot" "/r/usr/lib/modules"
           Sample.bare_kernel ["initrd.img-6.1.0"] "vmlinuz" []).
  - vm_compute. reflexivity.
  - unfold quiet_before. vm_compute. repeat split; lia.
  - vm_compute. reflexivity.
  - vm_compute. reflexivity.
Defined.

(* ================================================================== *)
(** * Facts about the tree *)
(* ================================================================== *)

Arguments Py.has_slash : simpl never.

Lemma assoc_set_same n x es : assoc n (set_entry n x es) = Some x.
Proof.
  induction es as [| [k v] t IH]; simpl.
  - now rewrite String.eqb_refl.
  - destruct (String.eqb k n) eqn:E; simpl.
    + now rewrite String.eqb_refl.
    + now rewrite E.
Qed.

Lemma assoc_set_other k n x es :
  k <> n -> assoc k (set_entry n x es) = assoc k es.
Proof.
  intros Hne. induction es as [| [k' v] t IH]; simpl.
  - destruct (String.eqb n k) eqn:E; [apply String.eqb_eq in E; congruence | reflexivity].
  - destruct (String.eqb k' n) eqn:E; simpl.
    + apply String.eqb_eq in E. subst k'.
      destruct (String.eqb n k) eqn:E2; [apply String.eqb_eq in E2; congruence |].
      reflexivity.
    + destruct (String.eqb k' k); [reflexivity | exact IH].
Qed.

Lemma assoc_del_same n es : assoc n (del_entry n es) = None.
Proof.
  induction es as [| [k v] t IH]; simpl; [reflexivity |].
  destruct (String.eqb k n) eqn:E; simpl; [exact IH |].
  rewrite E. exact IH.
Qed.

Lemma assoc_del_other k n es :
  k <> n -> assoc k (del_entry n es) = assoc k es.
Proof.
  intros Hne. induction es as [| [k' v] t IH]; simpl; [reflexivity |].
  destruct (String.eqb k' n) eqn:E; simpl.
  - apply String.eqb_eq in E. subst k'.
    destruct (String.eqb n k) eqn:E2; [apply String.eqb_eq in E2; congruence | exact IH].
  - destruct (String.eqb k' k); [reflexivity | exact IH].
Qed.

Lemma get_app root p : forall q,
  get root (p ++ q)%list =
  match get root p with Some x => get x q | None => None end.
Proof.
  revert root. induction p as [| c p IH]; intros root q; simpl; [reflexivity |].
  destruct root as [i d m | t m | m es]; try reflexivity.
  destruct (assoc c es); [apply IH | reflexivity].
Qed.

Lemma get_child root p n :
  Sys.child root p n =
  match get root p with
  | Some (Dir _ es) => assoc n es
  | _ => None
  end.
Proof.
  unfold Sys.child. rewrite get_app.
  destruct (get root p) as [[i d m | t m | m es] |]; simpl; try reflexivity.
  destruct (assoc n es); reflexivity.
Qed.

Lemma is_prefix_app p q : is_prefix p (p ++ q)%list = true.
Proof. induction p as [| c p IH]; simpl; [reflexivity |]. now rewrite String.eqb_refl. Qed.

Lemma is_prefix_spec p q : is_prefix p q = true <-> exists r, q = (p ++ r)%list.
Proof.
  revert q. induction p as [| c p IH]; intros q; simpl.
  - split; [intros _; exists q; reflexivity | reflexivity].
  - destruct q as [| d q]; [split; [discriminate | intros [r H]; discriminate] |].
    rewrite andb_true_iff, String.eqb_eq, IH. split.
    + intros [-> [r ->]]. exists r. reflexivity.
    + intros [r H]. inversion H. subst. split; [reflexivity | exists r; reflexivity].
Qed.

Section UpdDir.

Variable f : list (string * node) -> list (string * node).
Variable n : string.
Hypothesis f_other : forall es k, k <> n -> assoc k (f es) = assoc k es.

Lemma upd_dir_some root p :
  forall r, upd_dir f root p = Some r ->
  exists m es, get root p = Some (Dir m es) /\ get r p = Some (Dir m (f es)).
Proof.
  revert root. induction p as [| c p IH]; intros root r H.
  - destruct root as [i d m | t m | m es]; simpl in H; try discriminate.
    inversion H. exists m, es. simpl. auto.
  - destruct root as [i d m | t m | m es]; simpl in H; try discriminate.
    destruct (assoc c es) as [child |] eqn:Ec; [| discriminate].
    destruct (upd_dir f child p) as [child' |] eqn:Eu; [| discriminate].
    inversion H. subst r. simpl. rewrite Ec, assoc_set_same. eapply IH. exact Eu.
Qed.

Lemma upd_dir_defined root p m es :
  get root p = Some (Dir m es) -> exists r, upd_dir f root p = Some r.
Proof.
  revert root. induction p as [| c p IH]; intros root H.
  - simpl in H. inversion H. simpl. eauto.
  - destruct root as [i d m' | t m' | m' es']; simpl in H; try discriminate.
    simpl. destruct (assoc c es') as [child |]; [| discriminate].
    destruct (IH child H) as [r Hr]. rewrite Hr. eauto.
Qed.

(** An update of the entry [n] of the directory [p] shows only at and
    below [p ++ [n]]. *)
Lemma upd_dir_look root p :
  forall r q, upd_dir f root p = Some r ->
  is_prefix (p ++ [n])%list q = false -> look r q = look root q.
Proof.
  revert root. induction p as [| c p IH]; intros root r q H Hq.
  - destruct root as [i d m | t m | m es]; simpl in H; try discriminate.
    inversion H. subst r. destruct q as [| k q]; [reflexivity |].
    simpl in Hq. rewrite andb_true_r in Hq. apply String.eqb_neq in Hq.
    unfold look. simpl. rewrite f_other by congruence. reflexivity.
  - destruct root as [i d m | t m | m es]; simpl in H; try discriminate.
    destruct (assoc c es) as [child |] eqn:Ec; [| discriminate].
    destruct (upd_dir f child p) as [child' |] eqn:Eu; [| discriminate].
    inversion H. subst r. destruct q as [| k q]; [reflexivity |].
    simpl in Hq. unfold look. simpl.
    destruct (String.eqb c k) eqn:E.
    + apply String.eqb_eq in E. subst k. rewrite assoc_set_same, Ec.
      simpl in Hq. apply (IH child child' q Eu Hq).
    + apply String.eqb_neq in E. rewrite assoc_set_other by congruence. reflexivity.
Qed.

Lemma upd_dir_get_below root p r m es q :
  upd_dir f root p = Some r -> get root p = Some (Dir m es) ->
  get r (p ++ q)%list = get (Dir m (f es)) q.
Proof.
  intros H Hg. rewrite get_app.
  destruct (upd_dir_some root p r H) as [m' [es' [H1 H2]]].
  rewrite Hg in H1. inversion H1. subst. rewrite H2. reflexivity.
Qed.

End UpdDir.

Lemma put_look root p n x r q :
  put root p n x = Some r -> is_prefix (p ++ [n])%list q = false ->
  look r q = look root q.
Proof.
  unfold put. apply upd_dir_look. intros es k Hk. now apply assoc_set_other.
Qed.

Lemma del_look root p n r q :
  del root p n = Some r -> is_prefix (p ++ [n])%list q = false ->
  look r q = look root q.
Proof.
  unfold del. apply upd_dir_look. intros es k Hk. now apply assoc_del_other.
Qed.

Lemma put_get root p n x r q :
  put root p n x = Some r -> get r (p ++ n :: q)%list = get x q.
Proof.
  intros H. unfold put in H.
  destruct (upd_dir_some _ root p r H) as [m [es [H1 H2]]].
  rewrite get_app, H2. simpl. now rewrite assoc_set_same.
Qed.

Lemma put_child root p n x r :
  put root p n x = Some r -> Sys.child r p n = Some x.
Proof. intros H. unfold Sys.child. now rewrite (put_get root p n x r [] H). Qed.

Lemma del_child root p n r :
  del root p n = Some r -> Sys.child r p n = None.
Proof.
  intros H. unfold del in H.
  destruct (upd_dir_some _ root p r H) as [m [es [H1 H2]]].
  rewrite get_child, H2. apply assoc_del_same.
Qed.

Lemma put_defined root p n x m es :
  get root p = Some (Dir m es) -> exists r, put root p n x = Some r.
Proof. apply upd_dir_defined. Qed.

Lemma del_defined root p n m es :
  get root p = Some (Dir m es) -> exists r, del root p n = Some r.
Proof. apply upd_dir_defined. Qed.

Lemma put_other_child root p n x r k :
  put root p n x = Some r -> k <> n -> Sys.child r p k = Sys.child root p k.
Proof.
  intros H Hk. unfold put in H.
  destruct (upd_dir_some _ root p r H) as [m [es [H1 H2]]].
  rewrite !get_child, H1, H2. now apply assoc_set_other.
Qed.

Lemma del_other_child root p n r k :
  del root p n = Some r -> k <> n -> Sys.child r p k = Sys.child root p k.
Proof.
  intros H Hk. unfold del in H.
  destruct (upd_dir_some _ root p r H) as [m [es [H1 H2]]].
  rewrite !get_child, H1, H2. now apply assoc_del_other.
Qed.

(* ================================================================== *)
(** * Facts about path strings and their resolution *)
(* ================================================================== *)

Lemma valid_name_inv c :
  valid_name c = true ->
  String.eqb c "" = false /\ String.eqb c "." = false
  /\ String.eqb c ".." = false /\ Py.has_slash c = false.
Proof.
  unfold valid_name. rewrite !andb_true_iff, !negb_true_iff. tauto.
Qed.

Lemma split_on_no_slash c :
  Py.has_slash c = false -> Py.split_on OsPath.sep c = [c].
Proof.
  induction c as [| a c IH]; intros H; [reflexivity |].
  unfold Py.has_slash in H. fold Py.has_slash in H.
  apply orb_false_iff in H. destruct H as [Ha Hc].
  unfold Py.split_on. fold Py.split_on. unfold OsPath.sep in *.
  rewrite Ha, (IH Hc). reflexivity.
Qed.

Lemma split_on_app_sep a b :
  Py.split_on OsPath.sep (a ++ String OsPath.sep b)
  = (Py.split_on OsPath.sep a ++ Py.split_on OsPath.sep b)%list.
Proof.
  induction a as [| x a IH].
  - unfold String.append. unfold Py.split_on at 1. fold Py.split_on.
    rewrite Ascii.eqb_refl. reflexivity.
  - change (String x a ++ String OsPath.sep b) with (String x (a ++ String OsPath.sep b)).
    unfold Py.split_on at 1 2. fold Py.split_on. rewrite IH.
    destruct (Ascii.eqb x OsPath.sep); [reflexivity |].
    destruct (Py.split_on OsPath.sep a) eqn:E; [| reflexivity].
    exfalso. destruct a; unfold Py.split_on in E; fold Py.split_on in E;
      [discriminate |].
    destruct (Ascii.eqb a OsPath.sep); [discriminate |].
    destruct (Py.split_on OsPath.sep a0); discriminate.
Qed.

Lemma startswith_slash_cons s : Py.startswith "/" (String "/" s) = true.
Proof. reflexivity. Qed.

Lemma append_assoc_str (a b c : string) : (a ++ b) ++ c = a ++ (b ++ c).
Proof.
  induction a as [| x a IH]; [reflexivity |].
  unfold String.append. fold String.append. now rewrite IH.
Qed.

Lemma append_nil_r (a : string) : a ++ "" = a.
Proof.
  induction a as [| x a IH]; [reflexivity |].
  unfold String.append. fold String.append. now rewrite IH.
Qed.

Lemma path_str_comps p : p <> [] -> path_str p = comps_str p.
Proof. destruct p as [| c p]; [congruence | reflexivity]. Qed.

Lemma comps_str_app p q : comps_str (p ++ q)%list = comps_str p ++ comps_str q.
Proof.
  induction p as [| c p IH]; [reflexivity |].
  simpl. rewrite IH. unfold String.append at 3. fold String.append.
  now rewrite append_assoc_str.
Qed.

Lemma split_comps_str p :
  Forall (fun c => Py.has_slash c = false) p -> p <> [] ->
  Py.split_on OsPath.sep (comps_str p) = "" :: p.
Proof.
  induction p as [| c p IH]; intros Hv Hne; [congruence |].
  inversion Hv as [| ? ? Hc Hp]. subst. simpl.
  destruct p as [| d p].
  - simpl. rewrite append_nil_r.
    change (String "/" c) with ("" ++ String OsPath.sep c).
    rewrite split_on_app_sep, (split_on_no_slash c Hc). reflexivity.
  - change (String "/" (c ++ comps_str (d :: p)))
      with ("" ++ String OsPath.sep (c ++ comps_str (d :: p))).
    rewrite split_on_app_sep. simpl comps_str.
    change (c ++ String "/" (d ++ comps_str p))
      with (c ++ String OsPath.sep (d ++ comps_str p)).
    rewrite split_on_app_sep, (split_on_no_slash c Hc).
    specialize (IH Hp ltac:(discriminate)). simpl in IH.
    change (String "/" (d ++ comps_str p))
      with ("" ++ String OsPath.sep (d ++ comps_str p)) in IH.
    rewrite split_on_app_sep in IH. simpl in IH. inversion IH as [IH'].
    rewrite IH'. reflexivity.
Qed.

Lemma endswith_slash_append a b :
  b <> "" -> Py.endswith_slash (a ++ b) = Py.endswith_slash b.
Proof.
  intros Hb. induction a as [| x a IH]; [reflexivity |].
  unfold String.append. fold String.append.
  unfold Py.endswith_slash. fold Py.endswith_slash.
  destruct (a ++ b) eqn:E.
  - destruct a; unfold String.append in E; [congruence | discriminate].
  - exact IH.
Qed.

Lemma endswith_no_slash c :
  Py.has_slash c = false -> Py.endswith_slash c = false.
Proof.
  induction c as [| x c IH]; intros H; [reflexivity |].
  unfold Py.has_slash in H. fold Py.has_slash in H.
  apply orb_false_iff in H. destruct H as [Hx Hc].
  unfold Py.endswith_slash. fold Py.endswith_slash.
  destruct c; [exact Hx | apply IH, Hc].
Qed.

Lemma comps_str_endswith p :
  Forall (fun c => valid_name c = true) p -> p <> [] ->
  Py.endswith_slash (comps_str p) = false.
Proof.
  induction p as [| c p IH]; intros Hv Hne; [congruence |].
  inversion Hv as [| ? ? Hc Hp]. subst.
  destruct (valid_name_inv c Hc) as [Hc1 [_ [_ Hc4]]].
  destruct p as [| d p].
  - simpl. rewrite append_nil_r.
    unfold Py.endswith_slash. fold Py.endswith_slash.
    destruct c; [discriminate |]. now apply endswith_no_slash.
  - specialize (IH Hp ltac:(discriminate)).
    change (comps_str (c :: d :: p)) with (String "/" (c ++ comps_str (d :: p))).
    unfold Py.endswith_slash. fold Py.endswith_slash.
    destruct (c ++ comps_str (d :: p)) eqn:E.
    + destruct c; unfold String.append in E; simpl in E; discriminate.
    + rewrite <- E. rewrite endswith_slash_append; [exact IH | discriminate].
Qed.

Lemma names_ok_no_slash p :
  names_ok p -> Forall (fun c => Py.has_slash c = false) p.
Proof.
  intros H. eapply Forall_impl; [| exact H].
  intros c Hc. now destruct (valid_name_inv c Hc) as [_ [_ [_ ?]]].
Qed.

(** [os.path.join] of a physical path and a relative text. *)
Lemma join_path_str p rel :
  names_ok p -> Py.startswith "/" rel = false ->
  OsPath.join (path_str p) rel = comps_str p ++ String "/" rel.
Proof.
  intros Hp Hrel. unfold OsPath.join. rewrite Hrel.
  destruct p as [| c p].
  - reflexivity.
  - rewrite path_str_comps by discriminate.
    rewrite (comps_str_endswith (c :: p) Hp) by discriminate.
    replace (String.eqb (comps_str (c :: p)) "") with false by reflexivity.
    reflexivity.
Qed.

Lemma split_join_path_str p rel :
  names_ok p -> Py.startswith "/" rel = false ->
  Py.split_on OsPath.sep (OsPath.join (path_str p) rel)
  = ("" :: p ++ Py.split_on OsPath.sep rel)%list.
Proof.
  intros Hp Hrel. rewrite join_path_str by assumption.
  change (String "/" rel) with (String OsPath.sep rel).
  rewrite split_on_app_sep.
  destruct p as [| c p]; [reflexivity |].
  rewrite split_comps_str; [reflexivity | now apply names_ok_no_slash | discriminate].
Qed.

Lemma valid_name_not_abs n : valid_name n = true -> Py.startswith "/" n = false.
Proof.
  intros H. destruct (valid_name_inv n H) as [_ [_ [_ Hs]]].
  destruct n as [| a n]; [reflexivity |].
  unfold Py.has_slash in Hs. fold Py.has_slash in Hs.
  apply orb_false_iff in Hs. destruct Hs as [Ha _].
  unfold Py.startswith. rewrite Ascii.eqb_sym. now rewrite Ha.
Qed.

Lemma join_name p n :
  names_ok p -> valid_name n = true ->
  OsPath.join (path_str p) n = path_str (p ++ [n])%list.
Proof.
  intros Hp Hn. rewrite join_path_str; auto using valid_name_not_abs.
  rewrite path_str_comps by (destruct p; discriminate).
  rewrite comps_str_app. simpl. now rewrite append_nil_r.
Qed.

Lemma isabs_join p rel :
  names_ok p -> Py.startswith "/" rel = false ->
  OsPath.isabs (OsPath.join (path_str p) rel) = true.
Proof.
  intros Hp Hrel. rewrite join_path_str by assumption.
  destruct p; reflexivity.
Qed.

Lemma join_nonempty p rel :
  names_ok p -> Py.startswith "/" rel = false ->
  String.eqb (OsPath.join (path_str p) rel) "" = false.
Proof.
  intros Hp Hrel. rewrite join_path_str by assumption.
  destruct p; reflexivity.
Qed.

Lemma walk_comps_app root p : forall cur rest,
  names_ok p ->
  (exists m es, get root (cur ++ p)%list = Some (Dir m es)) ->
  walk_comps root cur (p ++ rest)%list = walk_comps root (cur ++ p)%list rest.
Proof.
  induction p as [| c p IH]; intros cur rest Hv [m [es Hg]].
  - now rewrite app_nil_r.
  - inversion Hv as [| ? ? Hc Hp]. subst.
    destruct (valid_name_inv c Hc) as [H1 [H2 [H3 _]]].
    rewrite get_app in Hg.
    destruct (get root cur) as [[i d m0 | t m0 | m0 es0] |] eqn:Ecur;
      simpl in Hg; try discriminate.
    destruct (assoc c es0) as [child |] eqn:Ec; [| discriminate].
    assert (Hchild : exists m1 es1, child = Dir m1 es1).
    { destruct p; simpl in Hg.
      - inversion Hg. eauto.
      - destruct child; try discriminate. eauto. }
    destruct Hchild as [m1 [es1 ->]].
    simpl. rewrite Ecur, H1, H2, H3, Ec. simpl.
    replace (cur ++ c :: p)%list with ((cur ++ [c]) ++ p)%list
      by (rewrite <- app_assoc; reflexivity).
    apply IH; [exact Hp |].
    exists m, es. rewrite <- app_assoc. simpl. rewrite get_app, Ecur. simpl.
    now rewrite Ec.
Qed.

Lemma physical_root_dir root p : physical root p -> exists m es, root = Dir m es.
Proof.
  intros [_ [m [es Hg]]]. destruct p as [| c p].
  - simpl in Hg. inversion Hg. eauto.
  - simpl in Hg. destruct root; try discriminate. eauto.
Qed.

Lemma walk_comps_from_root root p rest :
  physical root p ->
  walk_comps root [] ("" :: p ++ rest)%list = walk_comps root p rest.
Proof.
  intros Hp. destruct (physical_root_dir root p Hp) as [m [es ->]].
  destruct Hp as [Hv Hg]. simpl.
  replace (String.eqb "" "" || String.eqb "" ".") with true by reflexivity.
  apply (walk_comps_app (Dir m es) p [] rest Hv Hg).
Qed.

Lemma resolve_unfold fuel root cur todo :
  resolve fuel root cur todo =
  match walk_comps root cur todo with
  | Found p => OK p
  | Lost e => Err e
  | Follow dir t rest =>
      match fuel with
      | O => Err ELOOP
      | S fuel' =>
          if String.eqb t "" then Err ENOENT
          else resolve fuel' root (if OsPath.isabs t then [] else dir)
                 (Py.split_on OsPath.sep t ++ rest)%list
      end
  end.
Proof. destruct fuel; reflexivity. Qed.

Lemma resolve_from_root fuel root p rest :
  physical root p ->
  resolve fuel root [] ("" :: p ++ rest)%list = resolve fuel root p rest.
Proof.
  intros Hp. rewrite (resolve_unfold fuel root []), (resolve_unfold fuel root p).
  now rewrite walk_comps_from_root.
Qed.

Lemma resolve_physical fuel root p d :
  names_ok d -> physical root (p ++ d)%list ->
  resolve fuel root p d = OK (p ++ d)%list.
Proof.
  intros Hd [_ Hg]. rewrite resolve_unfold.
  replace d with (d ++ [])%list at 1 by apply app_nil_r.
  rewrite (walk_comps_app root d p [] Hd Hg). reflexivity.
Qed.

Lemma removelast_snoc {A} (l : list A) x : removelast (l ++ [x])%list = l.
Proof. apply removelast_last. Qed.

Lemma last_snoc {A} (l : list A) x d : last (l ++ [x])%list d = x.
Proof. apply last_last. Qed.

(** The parent of [rootdir/rel], when [rel] is [d1/.../dk/n]. *)
Lemma locate_parent_join root start p d n rel :
  physical root p ->
  Py.startswith "/" rel = false ->
  Py.split_on OsPath.sep rel = (d ++ [n])%list ->
  valid_name n = true ->
  locate_parent root start (OsPath.join (path_str p) rel) =
  match resolve MAXSYMLINKS root p d with
  | OK q =>
      match get root q with
      | Some (Dir _ _) => OK (q, n)
      | Some _ => Err ENOTDIR
      | None => Err ENOENT
      end
  | Err e => Err e
  end.
Proof.
  intros Hp Hrel Hs Hn. pose proof Hp as [Hv _].
  unfold locate_parent, last_comp.
  rewrite join_nonempty, isabs_join, split_join_path_str by assumption.
  rewrite Hs.
  replace ("" :: p ++ d ++ [n])%list with (("" :: p ++ d) ++ [n])%list
    by (simpl; now rewrite app_assoc).
  rewrite last_snoc, removelast_snoc, Hn.
  now rewrite resolve_from_root.
Qed.

Lemma locate_parent_physical root start p d n rel :
  physical root p ->
  Py.startswith "/" rel = false ->
  Py.split_on OsPath.sep rel = (d ++ [n])%list ->
  valid_name n = true ->
  names_ok d -> physical root (p ++ d)%list ->
  locate_parent root start (OsPath.join (path_str p) rel) = OK ((p ++ d)%list, n).
Proof.
  intros Hp Hrel Hs Hn Hd Hpd.
  rewrite (locate_parent_join root start p d n rel) by assumption.
  rewrite resolve_physical by assumption.
  destruct Hpd as [_ [m [es ->]]]. reflexivity.
Qed.

Lemma locate_parent_name root start p n :
  physical root p -> valid_name n = true ->
  locate_parent root start (OsPath.join (path_str p) n) = OK (p, n).
Proof.
  intros Hp Hn.
  rewrite (locate_parent_physical root start p [] n n); auto.
  - now rewrite app_nil_r.
  - now apply valid_name_not_abs.
  - destruct (valid_name_inv n Hn) as [_ [_ [_ Hs]]].
    now rewrite split_on_no_slash.
  - constructor.
  - now rewrite app_nil_r.
Qed.

Lemma locate_join root start p rel :
  physical root p ->
  Py.startswith "/" rel = false ->
  locate root start (OsPath.join (path_str p) rel) =
  match resolve MAXSYMLINKS root p (Py.split_on OsPath.sep rel) with
  | OK q => match get root q with Some _ => OK q | None => Err ENOENT end
  | Err e => Err e
  end.
Proof.
  intros Hp Hrel. pose proof Hp as [Hv _]. unfold locate.
  rewrite join_nonempty, isabs_join, split_join_path_str by assumption.
  now rewrite resolve_from_root.
Qed.

Lemma locate_path_str root start p :
  physical root p -> locate root start (path_str p) = OK p.
Proof.
  intros Hp. pose proof Hp as [Hv [m [es Hg]]].
  destruct p as [| c p].
  - simpl in Hg. inversion Hg. subst root. reflexivity.
  - unfold locate. rewrite path_str_comps by discriminate.
    replace (String.eqb (comps_str (c :: p)) "") with false by reflexivity.
    replace (OsPath.isabs (comps_str (c :: p))) with true by reflexivity.
    rewrite split_comps_str; [| now apply names_ok_no_slash | discriminate].
    replace ("" :: c :: p)%list with ("" :: (c :: p) ++ [])%list
      by now rewrite app_nil_r.
    rewrite resolve_from_root by assumption.
    rewrite resolve_unfold. simpl walk_comps. cbv iota. now rewrite Hg.
Qed.

(** A change at or below [p ++ [n]] leaves every directory physical
    that is not at or below that place. *)
Lemma physical_look root r q :
  look r q = look root q -> physical root q -> physical r q.
Proof.
  intros Hl [Hv [m [es Hg]]]. split; [exact Hv |].
  unfold look in Hl. rewrite Hg in Hl. simpl in Hl.
  destruct (get r q) as [[i d m' | t m' | m' es'] |]; simpl in Hl; try discriminate.
  inversion Hl. eauto.
Qed.

Lemma physical_prefix root p q : physical root (p ++ q)%list -> physical root p.
Proof.
  intros [Hv [m [es Hg]]]. split.
  - unfold names_ok in *. apply Forall_app in Hv. tauto.
  - rewrite get_app in Hg.
    destruct (get root p) as [x |] eqn:E; [| discriminate].
    destruct q as [| c q].
    + simpl in Hg. inversion Hg. eauto.
    + destruct x; simpl in Hg; try discriminate. eauto.
Qed.

Lemma physical_snoc_valid root p n : physical root (p ++ [n])%list -> valid_name n = true.
Proof.
  intros [Hv _]. unfold names_ok in Hv. apply Forall_app in Hv.
  destruct Hv as [_ Hn]. now inversion Hn.
Qed.

(** A listed name is a valid name with an entry behind it. *)
Lemma names_assoc es k :
  In k (names es) -> valid_name k = true /\ exists x, assoc k es = Some x.
Proof.
  induction es as [| [k' v] t IH]; simpl; [contradiction |].
  destruct (valid_name k') eqn:Ev.
  - intros [-> | Hin].
    + rewrite String.eqb_refl. eauto.
    + apply filter_In in Hin. destruct Hin as [Hin _].
      destruct (IH Hin) as [Hv [x Hx]]. split; [exact Hv |].
      destruct (String.eqb k' k); eauto.
  - intros Hin. destruct (IH Hin) as [Hv [x Hx]]. split; [exact Hv |].
    destruct (String.eqb k' k); eauto.
Qed.

Lemma names_valid es : Forall (fun k => valid_name k = true) (names es).
Proof.
  apply Forall_forall. intros k Hk. now destruct (names_assoc es k Hk).
Qed.

Section UpdDirGet.

Variable f : list (string * node) -> list (string * node).
Variable n : string.
Hypothesis f_other : forall es k, k <> n -> assoc k (f es) = assoc k es.

(** Away from [p ++ [n]], and not above it, an entry is wholly
    unchanged. *)
Lemma upd_dir_get root p :
  forall r q, upd_dir f root p = Some r ->
  is_prefix (p ++ [n])%list q = false -> is_prefix q p = false ->
  get r q = get root q.
Proof.
  revert root. induction p as [| c p IH]; intros root r q H Hq Hq2.
  - destruct q as [| k q]; [simpl in Hq2; discriminate |].
    destruct root as [i d m | t m | m es]; simpl in H; try discriminate.
    inversion H. subst r. simpl in Hq. rewrite andb_true_r in Hq.
    apply String.eqb_neq in Hq. simpl. rewrite f_other by congruence. reflexivity.
  - destruct root as [i d m | t m | m es]; simpl in H; try discriminate.
    destruct (assoc c es) as [child |] eqn:Ec; [| discriminate].
    destruct (upd_dir f child p) as [child' |] eqn:Eu; [| discriminate].
    inversion H. subst r. destruct q as [| k q]; [simpl in Hq2; discriminate |].
    simpl in Hq, Hq2. simpl.
    destruct (String.eqb c k) eqn:E.
    + apply String.eqb_eq in E. subst k. rewrite assoc_set_same, Ec.
      rewrite String.eqb_refl in Hq2. simpl in Hq, Hq2.
      apply (IH child child' q Eu Hq Hq2).
    + apply String.eqb_neq in E. rewrite assoc_set_other by congruence. reflexivity.
Qed.

End UpdDirGet.

Lemma put_get_other root p n x r q :
  put root p n x = Some r ->
  is_prefix (p ++ [n])%list q = false -> is_prefix q p = false ->
  get r q = get root q.
Proof.
  unfold put. apply upd_dir_get. intros es k Hk. now apply assoc_set_other.
Qed.

Lemma del_get_other root p n r q :
  del root p n = Some r ->
  is_prefix (p ++ [n])%list q = false -> is_prefix q p = false ->
  get r q = get root q.
Proof.
  unfold del. apply upd_dir_get. intros es k Hk. now apply assoc_del_other.
Qed.

Lemma del_get_below root p n r q :
  del root p n = Some r -> get r (p ++ n :: q)%list = None.
Proof.
  intros H. unfold del in H.
  destruct (upd_dir_some _ root p r H) as [m [es [H1 H2]]].
  rewrite get_app, H2. simpl. now rewrite assoc_del_same.
Qed.

Lemma is_prefix_snoc_false p n q k :
  n <> k -> is_prefix (p ++ [n])%list (p ++ k :: q)%list = false.
Proof.
  intros Hne. induction p as [| c p IH]; simpl.
  - apply String.eqb_neq in Hne. now rewrite Hne.
  - now rewrite String.eqb_refl.
Qed.

Lemma is_prefix_longer p q : is_prefix (p ++ q)%list p = true -> q = [].
Proof.
  induction p as [| c p IH]; simpl.
  - destruct q; [reflexivity | discriminate].
  - rewrite String.eqb_refl. simpl. exact IH.
Qed.

Lemma is_prefix_self_snoc p n q : is_prefix (p ++ n :: q)%list p = false.
Proof.
  destruct (is_prefix (p ++ n :: q)%list p) eqn:E; [| reflexivity].
  apply is_prefix_longer in E. discriminate.
Qed.

Lemma is_prefix_trans a b c :
  is_prefix a b = true -> is_prefix b c = true -> is_prefix a c = true.
Proof.
  rewrite !is_prefix_spec. intros [r1 ->] [r2 ->]. exists (r1 ++ r2)%list.
  now rewrite app_assoc.
Qed.

Lemma is_prefix_refl a : is_prefix a a = true.
Proof. induction a; simpl; [reflexivity |]. now rewrite String.eqb_refl. Qed.

Lemma path_eqb_eq a b : Sys.path_eqb a b = true <-> a = b.
Proof.
  revert b. induction a as [| x a IH]; intros [| y b]; simpl; split;
    try discriminate; try reflexivity.
  - rewrite andb_true_iff, String.eqb_eq, IH. intros [-> ->]. reflexivity.
  - intros H. inversion H. subst. rewrite String.eqb_refl. simpl. now apply IH.
Qed.

(* ================================================================== *)
(** * System calls at a physical place *)
(* ================================================================== *)

Section AtPlace.

Variable root : node.
Variable start : path.
Variable d : path.
Variable n : string.
Hypothesis d_phys : physical root d.
Hypothesis n_valid : valid_name n = true.

Lemma path_str_snoc : path_str (d ++ [n])%list = OsPath.join (path_str d) n.
Proof. symmetry. apply join_name; [apply d_phys | exact n_valid]. Qed.

Lemma locate_parent_at :
  locate_parent root start (path_str (d ++ [n])%list) = OK (d, n).
Proof. rewrite path_str_snoc. now apply locate_parent_name. Qed.

Lemma last_comp_at : last_comp (path_str (d ++ [n])%list) = n.
Proof.
  rewrite path_str_snoc. unfold last_comp.
  rewrite split_join_path_str;
    [| apply d_phys | now apply valid_name_not_abs].
  destruct (valid_name_inv n n_valid) as [_ [_ [_ Hs]]].
  rewrite (split_on_no_slash n Hs).
  replace ("" :: d ++ [n])%list with (("" :: d) ++ [n])%list by reflexivity.
  apply last_snoc.
Qed.

Lemma lstat_at : lstat root start (path_str (d ++ [n])%list) = Sys.child root d n.
Proof.
  unfold lstat, llocate. rewrite last_comp_at, n_valid, locate_parent_at.
  unfold Sys.child. destruct (get root (d ++ [n])%list) eqn:E; [| reflexivity].
  exact E.
Qed.

Lemma walk_comps_at :
  walk_comps root d [n] =
  match Sys.child root d n with
  | None => Lost ENOENT
  | Some (Symlink t _) => Follow d t []
  | Some _ => Found (d ++ [n])%list
  end.
Proof.
  rewrite get_child. destruct d_phys as [_ [m [es Hg]]].
  destruct (valid_name_inv n n_valid) as [H1 [H2 [H3 _]]].
  simpl. rewrite Hg, H1, H2, H3. simpl.
  destruct (assoc n es) as [[i dt m' | t m' | m' es'] |]; reflexivity.
Qed.

Lemma locate_at :
  locate root start (path_str (d ++ [n])%list) =
  match Sys.child root d n with
  | None => Err ENOENT
  | Some (Symlink t _) =>
      match resolve MAXSYMLINKS root d [n] with
      | OK q => match get root q with Some _ => OK q | None => Err ENOENT end
      | Err e => Err e
      end
  | Some _ => OK (d ++ [n])%list
  end.
Proof.
  rewrite path_str_snoc.
  rewrite locate_join; [| exact d_phys | now apply valid_name_not_abs].
  destruct (valid_name_inv n n_valid) as [_ [_ [_ Hs]]].
  rewrite (split_on_no_slash n Hs).
  destruct (Sys.child root d n) as [[i dt m' | t m' | m' es'] |] eqn:E;
    try reflexivity; rewrite resolve_unfold, walk_comps_at, E;
    try reflexivity; unfold Sys.child in E; now rewrite E.
Qed.

Lemma stat_at_absent :
  Sys.child root d n = None -> stat root start (path_str (d ++ [n])%list) = None.
Proof. intros H. unfold stat. now rewrite locate_at, H. Qed.

Lemma stat_at_entry x :
  Sys.child root d n = Some x -> is_symlink x = false ->
  stat root start (path_str (d ++ [n])%list) = Some x.
Proof.
  intros H Hs. unfold stat. rewrite locate_at, H.
  destruct x; try discriminate; exact H.
Qed.

Lemma sys_unlink_at x :
  Sys.child root d n = Some x -> is_dir x = false ->
  exists r, del root d n = Some r
            /\ Sys.unlink (path_str (d ++ [n])%list) root start = OK r.
Proof.
  intros H Hd. destruct d_phys as [_ [m [es Hg]]].
  destruct (del_defined root d n m es Hg) as [r Hr].
  exists r. split; [exact Hr |].
  unfold Sys.unlink. rewrite locate_parent_at, H, Hr.
  destruct x; try discriminate; reflexivity.
Qed.


Lemma sys_mkdir_at md :
  Sys.child root d n = None ->
  exists r, put root d n (Dir md []) = Some r
            /\ Sys.mkdir md (path_str (d ++ [n])%list) root start = OK r.
Proof.
  intros H. destruct d_phys as [_ [m' [es' Hg]]].
  destruct (put_defined root d n (Dir md []) m' es' Hg) as [r Hr].
  exists r. split; [exact Hr |].
  unfold Sys.mkdir. now rewrite locate_parent_at, H, Hr.
Qed.

Lemma sys_mkdir_exists md x :
  Sys.child root d n = Some x ->
  Sys.mkdir md (path_str (d ++ [n])%list) root start = Err EEXIST.
Proof. intros H. unfold Sys.mkdir. now rewrite locate_parent_at, H. Qed.

End AtPlace.

(* ================================================================== *)
(** * C4, C5: [create_tmpfile_dir] *)
(* ================================================================== *)

Lemma join_deep p d :
  names_ok p -> names_ok d -> d <> [] ->
  OsPath.join (path_str p) (Py.tail (comps_str d)) = path_str (p ++ d)%list.
Proof.
  intros Hp Hd Hne. destruct d as [| c d]; [congruence |].
  inversion Hd as [| ? ? Hc Hd']. subst.
  assert (Hs : Py.startswith "/" (Py.tail (comps_str (c :: d))) = false).
  { simpl. pose proof (valid_name_not_abs c Hc) as H.
    destruct (valid_name_inv c Hc) as [H0 _].
    destruct c as [| a c]; [discriminate |]. exact H. }
  rewrite join_path_str by assumption.
  rewrite path_str_comps by (destruct p; discriminate).
  rewrite comps_str_app. reflexivity.
Qed.

Lemma conf_path_str r :
  names_ok r -> conf_path (path_str r) = path_str (conf_dir r ++ [conf_name])%list.
Proof.
  intros Hr. unfold conf_path, Pathlib.joinpath, conf_dir.
  rewrite <- app_assoc.
  rewrite <- (join_deep r (["usr"; "lib"; "tmpfiles.d"] ++ [conf_name])%list);
    [reflexivity | exact Hr | | discriminate].
  repeat constructor.
Qed.

Lemma conf_name_valid : valid_name conf_name = true.
Proof. reflexivity. Qed.

(** Writing a file that is not there, in a directory that is. *)
Lemma write_file_fresh w d n text :
  physical (fs w) d -> valid_name n = true -> Sys.child (fs w) d n = None ->
  exists w' i m,
    Os.write_file (path_str (d ++ [n])%list) text w = (Ret tt, w')
    /\ cwd w' = cwd w
    /\ physical (fs w') d
    /\ Sys.child (fs w') d n = Some (File i text m).
Proof.
  intros Hd Hn Habs. pose proof Hd as [Hv [m1 [es1 Hg1]]].
  destruct (put_defined (fs w) d n (File (next_ino w) text (Os.new_meta 438 w))
              m1 es1 Hg1) as [r2 Hput].
  exists (set_fs_ino w r2 (N.succ (next_ino w))), (next_ino w), (Os.new_meta 438 w).
  unfold Os.write_file.
  assert (Hopen : Os.open_place MAXSYMLINKS (fs w) (cwd w) (path_str (d ++ [n])%list)
                  = OK (d, n)).
  { unfold MAXSYMLINKS, Os.open_place.
    rewrite (locate_parent_at _ _ _ _ Hd Hn). now rewrite Habs. }
  rewrite Hopen, Habs, Hput. repeat split; try assumption.
  - simpl. destruct (upd_dir_some _ _ _ _ Hput) as [m2 [es2 [_ H2]]]. eauto.
  - simpl. apply (put_child _ _ _ _ _ Hput).
Qed.

(** When the collected list is not empty and the directory of the
    configuration file is there, the file is written from scratch. *)
Lemma tmpfile_written cache r w :
  physical (fs w) (conf_dir r) ->
  plain_or_absent (Sys.child (fs w) (conf_dir r) conf_name) ->
  collect_dirs cache <> [] ->
  exists w' i m,
    create_tmpfile_dir cache (path_str r) w = (Ret tt, w')
    /\ cwd w' = cwd w
    /\ physical (fs w') (conf_dir r)
    /\ Sys.child (fs w') (conf_dir r) conf_name
       = Some (File i (conf_text (collect_dirs cache)) m).
Proof.
  intros Hd Hc Hne.
  assert (Hr : names_ok r).
  { apply physical_prefix in Hd. apply Hd. }
  unfold create_tmpfile_dir.
  destruct (collect_dirs cache) as [| d0 dirs] eqn:Ecol; [congruence |].
  replace (Nat.eqb (List.length (d0 :: dirs)) 0) with false by reflexivity.
  rewrite conf_path_str by exact Hr.
  unfold bind at 1. unfold Pathlib.exists_, Os.path_exists, fs_read.
  destruct Hc as [Habs | [i [data [m Hfile]]]].
  - rewrite (stat_at_absent _ _ _ _ Hd conf_name_valid Habs).
    unfold bind, pass, ret.
    apply (write_file_fresh w (conf_dir r) conf_name _ Hd conf_name_valid Habs).
  - rewrite (stat_at_entry _ _ _ _ Hd conf_name_valid _ Hfile eq_refl).
    destruct (sys_unlink_at (fs w) (cwd w) _ _ Hd conf_name_valid _ Hfile eq_refl)
      as [r1 [Hdel Hun]].
    unfold bind, Os.unlink, fs_call. rewrite Hun.
    assert (Hd1 : physical (fs (set_fs w r1)) (conf_dir r)).
    { simpl. apply (physical_look (fs w)); [| exact Hd].
      apply (del_look _ _ _ _ _ Hdel). apply is_prefix_self_snoc. }
    assert (Habs1 : Sys.child (fs (set_fs w r1)) (conf_dir r) conf_name = None).
    { simpl. apply (del_child _ _ _ _ Hdel). }
    apply (write_file_fresh (set_fs w r1) (conf_dir r) conf_name _ Hd1
             conf_name_valid Habs1).
Qed.

Lemma filter_flat_map {A B} (P : B -> bool) (f : A -> list B) l :
  filter P (flat_map f l) = flat_map (fun x => filter P (f x)) l.
Proof.
  induction l as [| x l IH]; simpl; [reflexivity |].
  now rewrite filter_app, IH.
Qed.

Lemma filter_filter {A} (P Q : A -> bool) l :
  filter P (filter Q l) = filter (fun x => Q x && P x) l.
Proof.
  induction l as [| x l IH]; simpl; [reflexivity |].
  destruct (Q x); simpl; [destruct (P x) |]; now rewrite IH.
Qed.

Lemma rules_of_flat_map cache :
  rules_of cache =
  flat_map (fun pkg => if collected pkg then filter rule_path (installed_files pkg) else [])
    cache.
Proof.
  unfold rules_of, collect_dirs. rewrite filter_flat_map.
  induction cache as [| pkg l IH]; simpl; [reflexivity |].
  rewrite IH. f_equal. unfold collected.
  destruct (Py.mem "/var" (installed_files pkg)
            && negb (Py.mem (pkg_name pkg) Constants.excluded_packages));
    [| reflexivity].
  apply filter_filter.
Qed.

Lemma flat_map_nil {A B} (f : A -> list B) l :
  (forall x, In x l -> f x = []) -> flat_map f l = [].
Proof.
  induction l as [| x l IH]; intros H; simpl; [reflexivity |].
  rewrite (H x (or_introl eq_refl)), IH; [reflexivity |].
  intros y Hy. apply H. now right.
Qed.

Lemma mem_In x l : Py.mem x l = true -> In x l.
Proof.
  unfold Py.mem. rewrite existsb_exists. intros [y [Hy He]].
  apply String.eqb_eq in He. now subst.
Qed.

Lemma collected_nonempty pre pkg post :
  collected pkg = true -> collect_dirs (pre ++ pkg :: post)%list <> [].
Proof.
  intros Hc. unfold collect_dirs. rewrite flat_map_app. simpl.
  unfold collected in Hc. rewrite Hc.
  apply andb_true_iff in Hc. destruct Hc as [Hm _]. apply mem_In in Hm.
  assert (Hin : In "/var" (filter (Py.startswith "/var") (installed_files pkg))).
  { apply filter_In. split; [exact Hm | reflexivity]. }
  intros Hnil. apply app_eq_nil in Hnil. destruct Hnil as [_ Hnil].
  apply app_eq_nil in Hnil. destruct Hnil as [Hnil _].
  rewrite Hnil in Hin. contradiction.
Qed.

(** C4, as the code has it. When exactly one collected package (one that
    lists [/var] itself and is not excluded) owns exactly one path [d]
    that starts with [/var] and is no canonical base directory, and no
    other collected package owns such a path, the configuration file is
    written with the header comment line followed by exactly one rule
    line, [L d - - - - ../../usr/rootdirs d]. *)
Theorem tmpfile_single_rule r w pre foo post d :
  physical (fs w) (conf_dir r) ->
  plain_or_absent (Sys.child (fs w) (conf_dir r) conf_name) ->
  collected foo = true ->
  filter rule_path (installed_files foo) = [d] ->
  (forall q, In q (pre ++ post)%list -> collected q = true ->
             filter rule_path (installed_files q) = []) ->
  exists w' i m,
    create_tmpfile_dir (pre ++ foo :: post)%list (path_str r) w = (Ret tt, w')
    /\ stat (fs w') (cwd w') (conf_path (path_str r))
       = Some (File i ("# Auto-genernated by apt-ostree" ++ nl
                       ++ "L " ++ d ++ " - - - - ../../usr/rootdirs" ++ d ++ nl) m).
Proof.
  intros Hd Hc Hfoo Hone Hothers.
  destruct (tmpfile_written (pre ++ foo :: post)%list r w Hd Hc
              (collected_nonempty pre foo post Hfoo)) as [w' [i [m [Hrun [_ [Hd' Hch]]]]]].
  exists w', i, m. split; [exact Hrun |].
  rewrite conf_path_str by (apply physical_prefix in Hd; apply Hd).
  rewrite (stat_at_entry _ _ _ _ Hd' conf_name_valid _ Hch eq_refl).
  do 2 f_equal. unfold conf_text. f_equal. f_equal.
  change (filter (fun d0 => negb (Py.mem d0 base_dirs))
            (collect_dirs (pre ++ foo :: post)%list))
    with (rules_of (pre ++ foo :: post)%list).
  rewrite rules_of_flat_map, flat_map_app. simpl.
  rewrite Hfoo, Hone.
  rewrite !flat_map_nil.
  - reflexivity.
  - intros q Hq. destruct (collected q) eqn:E; [| reflexivity].
    apply Hothers; [apply in_or_app; now right | exact E].
  - intros q Hq. destruct (collected q) eqn:E; [| reflexivity].
    apply Hothers; [apply in_or_app; now left | exact E].
Qed.

Lemma tmpfile_single_rule_witness :
  exists w' i m,
    create_tmpfile_dir SampleTmp.with_parents "/r" SampleTmp.ready = (Ret tt, w')
    /\ stat (fs w') (cwd w') (conf_path "/r")
       = Some (File i ("# Auto-genernated by apt-ostree" ++ nl
                       ++ "L /var/lib/foo/data - - - - ../../usr/rootdirs/var/lib/foo/data"
                       ++ nl) m).
Proof.
  apply (tmpfile_single_rule ["r"] SampleTmp.ready
           [Package "systemd" ["/."; "/var"; "/var/lib"; "/var/lib/systemd"]]
           (Package "foo" ["/."; "/var"; "/var/lib"; "/var/lib/foo/data"])
           [] "/var/lib/foo/data").
  - split; [repeat constructor | vm_compute; eauto].
  - left. reflexivity.
  - reflexivity.
  - reflexivity.
  - intros q [<- | []] Hq. vm_compute in Hq. discriminate.
Defined.

(** C4 as the specification states it fails: a package that owns
    [/var/lib/foo/data] alone does not list [/var] itself, so nothing is
    collected and no file is written. *)
Lemma tmpfile_not_written_for_single_path :
  collect_dirs SampleTmp.only_data = []
  /\ create_tmpfile_dir SampleTmp.only_data "/r" SampleTmp.ready
     = (Ret tt, SampleTmp.ready)
  /\ stat (fs SampleTmp.ready) [] (conf_path "/r") = None.
Proof. vm_compute. repeat split; reflexivity. Qed.





(* ================================================================== *)
(** * [os.rename] and [shutil.move] at physical places *)
(* ================================================================== *)

Lemma is_prefix_neq a b : is_prefix a b = false -> a <> b.
Proof. intros H ->. now rewrite is_prefix_refl in H. Qed.

Lemma path_eqb_false a b : a <> b -> Sys.path_eqb a b = false.
Proof.
  intros H. destruct (Sys.path_eqb a b) eqn:E; [| reflexivity].
  apply path_eqb_eq in E. contradiction.
Qed.

Lemma is_prefix_snoc_parent a b n :
  is_prefix a (b ++ [n])%list = false -> is_prefix a b = false.
Proof.
  intros H. destruct (is_prefix a b) eqn:E; [| reflexivity].
  rewrite <- H. symmetry. apply (is_prefix_trans a b); [exact E | apply is_prefix_app].
Qed.

(** Two places below [r] that part at their first name. *)
Lemma is_prefix_fork r a p b q :
  a <> b -> is_prefix (r ++ a :: p)%list (r ++ b :: q)%list = false.
Proof.
  intros Hne. induction r as [| c r IH]; simpl.
  - apply String.eqb_neq in Hne. now rewrite Hne.
  - now rewrite String.eqb_refl.
Qed.

Lemma same_inode_dir_r x m es : Sys.same_inode x (Dir m es) = false.
Proof. destruct x; reflexivity. Qed.

Lemma same_inode_symlink_r x t m : Sys.same_inode x (Symlink t m) = false.
Proof. destruct x; reflexivity. Qed.

Lemma sys_rename_at root start ds ns dd nd x :
  physical root ds -> valid_name ns = true ->
  physical root dd -> valid_name nd = true ->
  Sys.child root ds ns = Some x ->
  is_prefix (ds ++ [ns])%list (dd ++ [nd])%list = false ->
  Sys.child root dd nd = None
  \/ (is_dir x = false /\ exists t m, Sys.child root dd nd = Some (Symlink t m)) ->
  exists r1 r2,
    del root ds ns = Some r1 /\ put r1 dd nd x = Some r2
    /\ Sys.rename (path_str (ds ++ [ns])%list) (path_str (dd ++ [nd])%list) root start
       = OK r2.
Proof.
  intros Hds Hns Hdd Hnd Hx Hpre Hdst.
  pose proof Hds as [_ [ms [ess Hgs]]].
  destruct (del_defined root ds ns ms ess Hgs) as [r1 Hdel].
  assert (Hdd1 : physical r1 dd).
  { apply (physical_look root); [| exact Hdd].
    apply (del_look _ _ _ _ _ Hdel). now apply is_prefix_snoc_parent in Hpre. }
  pose proof Hdd1 as [_ [md [esd Hgd]]].
  destruct (put_defined r1 dd nd x md esd Hgd) as [r2 Hput].
  exists r1, r2. split; [exact Hdel |]. split; [exact Hput |].
  unfold Sys.rename.
  rewrite (locate_parent_at _ _ _ _ Hds Hns), (locate_parent_at _ _ _ _ Hdd Hnd).
  rewrite Hx, Hdel, Hput.
  rewrite (path_eqb_false _ _ (is_prefix_neq _ _ Hpre)), Hpre.
  destruct Hdst as [-> | [Hxd [t [m ->]]]]; [reflexivity |].
  rewrite Hxd, same_inode_symlink_r. reflexivity.
Qed.

Lemma has_slash_app_sep a b : Py.has_slash (a ++ String "/" b) = true.
Proof.
  induction a as [| x a IH].
  - reflexivity.
  - change (String x a ++ String "/" b) with (String x (a ++ String "/" b)).
    unfold Py.has_slash. fold Py.has_slash. rewrite IH. apply orb_true_r.
Qed.

Lemma cut_last_slash_app a b :
  Py.has_slash b = false ->
  Py.cut_last_slash (a ++ String "/" b) = (a ++ "/", b).
Proof.
  intros Hb. induction a as [| x a IH].
  - unfold String.append. unfold Py.cut_last_slash. now rewrite Hb.
  - change (String x a ++ String "/" b) with (String x (a ++ String "/" b)).
    unfold Py.cut_last_slash. fold Py.cut_last_slash.
    rewrite has_slash_app_sep, IH. reflexivity.
Qed.

Lemma rstrip_no_trailing s :
  Py.endswith_slash s = false -> Py.rstrip_slash s = s.
Proof.
  induction s as [| a s IH]; intros H; [reflexivity |].
  unfold Py.rstrip_slash. fold Py.rstrip_slash.
  unfold Py.endswith_slash in H. fold Py.endswith_slash in H.
  destruct s as [| b s].
  - simpl. rewrite H. reflexivity.
  - rewrite (IH H). reflexivity.
Qed.

Lemma comps_str_snoc p n : comps_str (p ++ [n])%list = comps_str p ++ String "/" n.
Proof. rewrite comps_str_app. simpl. now rewrite append_nil_r. Qed.

Lemma basename_at d n :
  names_ok d -> valid_name n = true ->
  OsPath.basename (Py.rstrip_slash (path_str (d ++ [n])%list)) = n.
Proof.
  intros Hd Hn.
  assert (Hok : names_ok (d ++ [n])%list).
  { apply Forall_app. split; [exact Hd | now constructor]. }
  rewrite path_str_comps by (destruct d; discriminate).
  rewrite rstrip_no_trailing
    by (apply comps_str_endswith; [exact Hok | destruct d; discriminate]).
  rewrite comps_str_snoc. unfold OsPath.basename, OsPath.split.
  destruct (valid_name_inv n Hn) as [_ [_ [_ Hs]]].
  rewrite (cut_last_slash_app _ _ Hs). reflexivity.
Qed.

Lemma stat_path_str root start p :
  physical root p -> stat root start (path_str p) = get root p.
Proof. intros Hp. unfold stat. now rewrite locate_path_str. Qed.

(** What [move_as_is] does to an entry [s] of the directory [b] that is
    no directory itself, when the target [t] is a directory elsewhere:
    nothing (with a line in the log), or the move of the entry to
    [t/s]. *)
Lemma move_as_is_at w b t s :
  physical (fs w) b -> physical (fs w) t -> valid_name s = true ->
  is_prefix (b ++ [s])%list t = false -> b <> t ->
  (forall m es, Sys.child (fs w) b s <> Some (Dir m es)) ->
  exists w',
    move_as_is (path_str b) (path_str t) s w = (Ret tt, w') /\
    cwd w' = cwd w /\
    (fs w' = fs w
     \/ exists x r1 r2,
          Sys.child (fs w) b s = Some x /\ replaceable (Sys.child (fs w) t s)
          /\ del (fs w) b s = Some r1 /\ put r1 t s x = Some r2 /\ fs w' = r2).
Proof.
  intros Hb Ht Hs Hpre Hne Hnd. pose proof Hb as [Hbv _]. pose proof Ht as [Htv _].
  assert (Hpre2 : is_prefix (b ++ [s])%list (t ++ [s])%list = false).
  { destruct (is_prefix (b ++ [s])%list (t ++ [s])%list) eqn:E; [| reflexivity].
    apply is_prefix_spec in E. destruct E as [r E].
    destruct r as [| c r].
    - rewrite app_nil_r in E. apply app_inj_tail in E. destruct E. congruence.
    - exfalso. assert (E2 : is_prefix (b ++ [s])%list t = true).
      { apply is_prefix_spec.
        exists (removelast (c :: r)).
        assert (Hl : (c :: r) = (removelast (c :: r) ++ [last (c :: r) ""])%list)
          by (apply app_removelast_last; discriminate).
        rewrite Hl in E. rewrite app_assoc in E.
        apply app_inj_tail in E. destruct E as [E _]. exact E. }
      congruence. }
  pose proof Ht as [_ [mt [est Hgt]]].
  (* the run of shutil.move *)
  assert (Hmove :
    match Shutil.move (path_str (b ++ [s])%list) (path_str t) w with
    | (Raise (OSError _), w1) => w1 = w
    | (Ret _, w1) =>
        exists x r1 r2,
          Sys.child (fs w) b s = Some x /\ replaceable (Sys.child (fs w) t s)
          /\ del (fs w) b s = Some r1 /\ put r1 t s x = Some r2
          /\ w1 = set_fs w r2
    | _ => False
    end).
  { unfold Shutil.move.
    rewrite (basename_at b s Hbv Hs), (join_name t s Htv Hs).
    set (src := path_str (b ++ [s])%list).
    set (dst := path_str (t ++ [s])%list).
    unfold Os.path_isdir at 1. rewrite bind_fs_read.
    rewrite (stat_path_str _ _ _ Ht), Hgt.
    change (is_dir (Dir mt est)) with true. cbv iota.
    unfold Os.samefile at 1. rewrite bind_fs_read.
    unfold Os.path_islink at 1. rewrite bind_fs_read.
    unfold src at 2. rewrite (lstat_at _ _ _ _ Hb Hs).
    assert (Hfirst :
      (true
       && match locate (fs w) (cwd w) src, locate (fs w) (cwd w) (path_str t) with
          | OK pa, OK pb =>
              Sys.path_eqb pa pb
              || match get (fs w) pa, get (fs w) pb with
                 | Some x, Some y => Sys.same_inode x y
                 | _, _ => false
                 end
          | _, _ => false
          end
       && negb match Sys.child (fs w) b s with
               | Some x => is_symlink x
               | None => false
               end) = false).
    { unfold src. rewrite (locate_at _ _ _ _ Hb Hs).
      rewrite (locate_path_str _ (cwd w) t Ht).
      destruct (Sys.child (fs w) b s) as [[i dt m | tg m | m es] |] eqn:Ec; simpl.
      - unfold Sys.child in Ec. rewrite Ec, Hgt.
        rewrite (path_eqb_false _ _ (is_prefix_neq _ _ Hpre)). reflexivity.
      - apply andb_false_r.
      - exfalso. apply (Hnd m es). reflexivity.
      - reflexivity. }
    rewrite Hfirst. clear Hfirst.
    unfold Os.path_exists at 1. rewrite bind_fs_read.
    destruct (stat (fs w) (cwd w) dst) as [y |] eqn:Est.
    { reflexivity. }
    cbv beta iota delta [andb].
    assert (Hdst : replaceable (Sys.child (fs w) t s)).
    { unfold dst in Est.
      destruct (Sys.child (fs w) t s) as [[i dt m | tg m | m es] |] eqn:Ec.
      - rewrite (stat_at_entry _ _ _ _ Ht Hs _ Ec eq_refl) in Est. discriminate.
      - right. eauto.
      - rewrite (stat_at_entry _ _ _ _ Ht Hs _ Ec eq_refl) in Est. discriminate.
      - left. reflexivity. }
    destruct (Sys.child (fs w) b s) as [x |] eqn:Ex.
    - (* the entry is there: the rename goes through *)
      assert (Hxd : is_dir x = false).
      { destruct x as [i dt m | tg m | m es]; try reflexivity.
        exfalso. apply (Hnd m es). reflexivity. }
      destruct (sys_rename_at (fs w) (cwd w) b s t s x Hb Hs Ht Hs Ex Hpre2) as
        [r1 [r2 [Hdel [Hput Hren]]]].
      { destruct Hdst as [H0 | H1]; [left; exact H0 | right; split; assumption]. }
      rewrite (try_OSError_Ret _ _ w tt (set_fs w r2))
        by (unfold Os.rename; now apply fs_call_ok).
      exists x, r1, r2. repeat split; try assumption.
    - (* the entry has gone: every fall-back fails on it *)
      assert (Hren : Sys.rename src dst (fs w) (cwd w) = Err ENOENT).
      { unfold Sys.rename, src, dst.
        rewrite (locate_parent_at _ _ _ _ Hb Hs), (locate_parent_at _ _ _ _ Ht Hs).
        now rewrite Ex. }
      rewrite (try_OSError_caught _ _ w ENOENT w)
        by (unfold Os.rename; now apply fs_call_err).
      unfold Os.path_islink at 1. rewrite bind_fs_read.
      unfold src at 1. rewrite (lstat_at _ _ _ _ Hb Hs), Ex.
      unfold Os.path_isdir at 1. rewrite bind_fs_read.
      unfold src at 1. rewrite (stat_at_absent _ _ _ _ Hb Hs Ex).
      unfold Shutil.copy2. rewrite bind_assoc.
      unfold Os.path_isdir at 1. rewrite bind_fs_read, Est.
      rewrite bind_assoc. unfold Os.samefile at 1. rewrite bind_fs_read.
      unfold src at 1. rewrite (locate_at _ _ _ _ Hb Hs), Ex.
      rewrite bind_assoc.
      rewrite (bind_fs_query_err _ _ w ENOENT)
        by (unfold src; now rewrite (stat_at_absent _ _ _ _ Hb Hs Ex)).
      reflexivity. }
  unfold move_as_is. rewrite (join_name b s Hbv Hs).
  unfold try_Exception.
  destruct (Shutil.move (path_str (b ++ [s])%list) (path_str t) w)
    as [[[] | [| | e | c] |] w1]; try contradiction.
  - destruct Hmove as [x [r1 [r2 [Hx [Hrep [Hdel [Hput ->]]]]]]].
    eexists. split; [reflexivity |]. split; [reflexivity |].
    right. exists x, r1, r2. repeat split; assumption.
  - subst w1.
    eexists. split; [reflexivity |]. split; [reflexivity | left; reflexivity].
Qed.

(* ================================================================== *)
(** * C3: [setup_boot] on a well-formed boot directory *)
(* ================================================================== *)

Arguments is_kernel : simpl never.
Arguments is_initrd : simpl never.
Arguments is_dtbs : simpl never.
Arguments is_symbol_map : simpl never.

Lemma count_zero_find P items : count P items = 0 -> find P items = None.
Proof.
  induction items as [| x l IH]; [reflexivity |].
  rewrite count_cons. simpl. destruct (P x); [lia | exact IH].
Qed.

(** The loop runs through a listing that gives no assertion a reason to
    fail, and ends with the first kernel image, initrd and version. *)
Lemma version_kept bootdir tl : forall v0 v' ver,
  loop_control bootdir v0 tl = (tl, Ret v') ->
  vmlinuz v0 <> None -> version v0 = Some ver -> version v' = Some ver.
Proof.
  induction tl as [| x tl IHt]; intros v0 v' ver Hl Hk Hver.
  - simpl in Hl. inversion Hl. subst. exact Hver.
  - simpl in Hl. destruct (item_control bootdir v0 x) as [v1 | e |] eqn:Ec;
      try (inversion Hl; fail).
    destruct (loop_control bootdir v1 tl) as [seen o] eqn:El.
    inversion Hl. subst.
    unfold item_control in Ec.
    destruct (is_kernel x).
    { destruct (vmlinuz v0); [discriminate | congruence]. }
    apply (IHt v1); [exact El | |].
    + destruct (is_initrd x);
        [destruct (is_none (initrd v0)); inversion Ec; subst; exact Hk |].
      destruct (is_dtbs x);
        [destruct (is_none (dtbs v0)); inversion Ec; subst; exact Hk |].
      inversion Ec. subst. exact Hk.
    + destruct (is_initrd x);
        [destruct (is_none (initrd v0)); inversion Ec; subst; exact Hver |].
      destruct (is_dtbs x);
        [destruct (is_none (dtbs v0)); inversion Ec; subst; exact Hver |].
      inversion Ec. subst. exact Hver.
Qed.

Lemma loop_control_success bootdir items : forall v,
  (vmlinuz v = None \/ count is_kernel items = 0) ->
  (initrd v = None /\ count is_initrd items <= 1) \/ count is_initrd items = 0 ->
  (dtbs v = None /\ count is_dtbs items <= 1) \/ count is_dtbs items = 0 ->
  count is_kernel items <= 1 ->
  first_kernel_versioned items ->
  exists v',
    loop_control bootdir v items = (items, Ret v')
    /\ vmlinuz v' = first_or (vmlinuz v) items is_kernel
    /\ initrd v' = first_or (initrd v) items is_initrd
    /\ (vmlinuz v = None ->
        forall k h ver, find is_kernel items = Some k ->
                        Py.split_once "-" k = Some (h, ver) -> version v' = Some ver).
Proof.
  induction items as [| item tl IH]; intros v Hk Hi Hd Hk1 Hf.
  - exists v. simpl. repeat split.
    + now destruct (vmlinuz v).
    + now destruct (initrd v).
    + intros _ k h ver Hfind. discriminate.
  - rewrite count_cons in Hk, Hi, Hd, Hk1. simpl.
    destruct (is_kernel item) eqn:Ek.
    + (* a kernel image *)
      assert (Hv : vmlinuz v = None) by (destruct Hk; [assumption | lia]).
      unfold item_control. rewrite Ek, Hv. simpl is_none. cbv iota.
      assert (Hs : Py.split_once "-" item <> None).
      { apply Hf. simpl. now rewrite Ek. }
      destruct (Py.split_once "-" item) as [[h0 ver0] |] eqn:Es; [| congruence].
      assert (Ei : is_initrd item = false) by (unfold is_initrd; now rewrite Ek).
      assert (Ed : is_dtbs item = false) by (unfold is_dtbs; now rewrite Ek).
      rewrite Ei in Hi. rewrite Ed in Hd.
      assert (P1 : vmlinuz (BootVars (Some item) (initrd v) (dtbs v) (Some ver0)) = None
                   \/ count is_kernel tl = 0) by (right; lia).
      assert (P5 : first_kernel_versioned tl).
      { intros k Hfind. rewrite count_zero_find in Hfind by lia. discriminate. }
      destruct (IH (BootVars (Some item) (initrd v) (dtbs v) (Some ver0)) P1 Hi Hd
                  ltac:(lia) P5) as [v' [Hl [H1 [H2 H3]]]].
      exists v'. rewrite Hl. repeat split.
      * simpl in H1. rewrite H1. unfold first_or; cbn [find vmlinuz]; rewrite ?Ek; reflexivity.
      * simpl in H2. rewrite H2. unfold first_or. cbn [find initrd].
        destruct (initrd v); [reflexivity |]. rewrite ?Ei. reflexivity.
      * intros _ k h ver Hfind Hsp. cbn [find] in Hfind; rewrite ?Ek in Hfind.
        inversion Hfind. subst k. rewrite Es in Hsp. inversion Hsp. subst.
        apply (version_kept bootdir tl _ v' ver Hl); [discriminate | reflexivity].
    + assert (P5 : first_kernel_versioned tl).
      { intros k Hfind. apply Hf. simpl. now rewrite Ek. }
      unfold item_control. rewrite Ek.
      destruct (is_initrd item) eqn:Ei.
      { assert (Hn : initrd v = None) by (destruct Hi as [[? ?] | ?]; [assumption | lia]).
        rewrite Hn. simpl is_none. cbv iota.
        assert (Ed : is_dtbs item = false) by (unfold is_dtbs; now rewrite Ek, Ei).
        rewrite Ed in Hd.
        assert (P2 : (initrd (BootVars (vmlinuz v) (Some item) (dtbs v) (version v)) = None
                      /\ count is_initrd tl <= 1) \/ count is_initrd tl = 0)
          by (right; destruct Hi as [[? ?] | ?]; lia).
        destruct (IH (BootVars (vmlinuz v) (Some item) (dtbs v) (version v)) Hk P2 Hd
                    Hk1 P5) as [v' [Hl [H1 [H2 H3]]]].
        exists v'. rewrite Hl. repeat split.
        - simpl in H1. rewrite H1. unfold first_or; cbn [find vmlinuz]; rewrite ?Ek; reflexivity.
        - simpl in H2. rewrite H2. unfold first_or; cbn [find initrd]; rewrite ?Hn, ?Ei; reflexivity.
        - intros Hv k h ver Hfind Hsp. cbn [find] in Hfind; rewrite ?Ek in Hfind.
          apply (H3 Hv k h ver Hfind Hsp). }
      destruct (is_dtbs item) eqn:Ed.
      { assert (Hn : dtbs v = None) by (destruct Hd as [[? ?] | ?]; [assumption | lia]).
        rewrite Hn. simpl is_none. cbv iota.
        assert (P3 : (dtbs (BootVars (vmlinuz v) (initrd v)
                              (Some (OsPath.join bootdir item)) (version v)) = None
                      /\ count is_dtbs tl <= 1) \/ count is_dtbs tl = 0)
          by (right; destruct Hd as [[? ?] | ?]; lia).
        destruct (IH (BootVars (vmlinuz v) (initrd v)
                        (Some (OsPath.join bootdir item)) (version v)) Hk Hi P3
                    Hk1 P5) as [v' [Hl [H1 [H2 H3]]]].
        exists v'. rewrite Hl. repeat split.
        - simpl in H1. rewrite H1. unfold first_or; cbn [find vmlinuz]; rewrite ?Ek; reflexivity.
        - simpl in H2. rewrite H2. unfold first_or; cbn [find initrd]; rewrite ?Ei; reflexivity.
        - intros Hv k h ver Hfind Hsp. cbn [find] in Hfind; rewrite ?Ek in Hfind.
          apply (H3 Hv k h ver Hfind Hsp). }
      destruct (IH v Hk Hi Hd Hk1 P5) as [v' [Hl [H1 [H2 H3]]]].
      exists v'. rewrite Hl. repeat split.
      * rewrite H1. unfold first_or; cbn [find vmlinuz]; rewrite ?Ek; reflexivity.
      * rewrite H2. unfold first_or; cbn [find initrd]; rewrite ?Ei; reflexivity.
      * intros Hv k h ver Hfind Hsp. cbn [find] in Hfind; rewrite ?Ek in Hfind.
        apply (H3 Hv k h ver Hfind Hsp).
Qed.

(** What a rename of [ds/ns] to [dd/nd] leaves as it was. *)
Section RenameEffect.

Variables (root r1 r2 : node) (ds dd : path) (ns nd : string) (x : node).
Hypothesis Hdel : del root ds ns = Some r1.
Hypothesis Hput : put r1 dd nd x = Some r2.

Lemma rename_look q :
  is_prefix (ds ++ [ns])%list q = false -> is_prefix (dd ++ [nd])%list q = false ->
  look r2 q = look root q.
Proof.
  intros H1 H2. rewrite (put_look _ _ _ _ _ _ Hput H2).
  apply (del_look _ _ _ _ _ Hdel H1).
Qed.

Lemma rename_get q :
  is_prefix (ds ++ [ns])%list q = false -> is_prefix q ds = false ->
  is_prefix (dd ++ [nd])%list q = false -> is_prefix q dd = false ->
  get r2 q = get root q.
Proof.
  intros H1 H2 H3 H4. rewrite (put_get_other _ _ _ _ _ _ Hput H3 H4).
  apply (del_get_other _ _ _ _ _ Hdel H1 H2).
Qed.

Lemma rename_target : Sys.child r2 dd nd = Some x.
Proof. apply (put_child _ _ _ _ _ Hput). Qed.

Lemma rename_source :
  is_prefix (dd ++ [nd])%list (ds ++ [ns])%list = false ->
  is_prefix (ds ++ [ns])%list dd = false ->
  Sys.child r2 ds ns = None.
Proof.
  intros H1 H2. unfold Sys.child.
  rewrite (put_get_other _ _ _ _ _ _ Hput H1 H2).
  apply (del_child _ _ _ _ Hdel).
Qed.

End RenameEffect.

Lemma is_prefix_same_dir d n k q :
  n <> k -> is_prefix (d ++ [n])%list (d ++ k :: q)%list = false.
Proof. apply is_prefix_snoc_false. Qed.

Lemma is_prefix_app_head r a b :
  is_prefix (r ++ a)%list (r ++ b)%list = is_prefix a b.
Proof. induction r as [| c r IH]; simpl; [reflexivity |]. now rewrite String.eqb_refl. Qed.

(** Decide that one place is not at or below another, name by name. *)
Ltac prefix_false :=
  cbn [is_prefix];
  repeat first
    [ reflexivity
    | apply andb_false_intro1;
      first [ reflexivity | (apply String.eqb_neq; congruence) ]
    | apply andb_false_intro2 ].

(** Places under [boot] and places under [usr] never meet. *)
Ltac fork :=
  unfold version_dir, modules_dir, boot_dir;
  rewrite <- ?app_assoc; cbn [app];
  rewrite is_prefix_app_head; prefix_false.

Lemma look_None root q : look root q = None <-> get root q = None.
Proof. unfold look. destruct (get root q); simpl; split; congruence. Qed.

Lemma child_snoc root d n : Sys.child root d n = get root (d ++ [n])%list.
Proof. reflexivity. Qed.

Lemma moves_keep r ver w0 l : forall w,
  boot_inv r ver w0 w ->
  (forall s, In s l -> valid_name s = true /\ is_symbol_map s = true) ->
  exists w',
    for_each l (move_as_is (path_str (boot_dir r)) (path_str (modules_dir r))) w
      = (Ret tt, w')
    /\ boot_inv r ver w0 w'.
Proof.
  induction l as [| s l IH]; intros w Hinv Hl.
  - exists w. split; [reflexivity | exact Hinv].
  - destruct Hinv as [Hcwd [Hb [Hv [Hkeep [Hver Hmaps]]]]].
    destruct (Hl s (or_introl eq_refl)) as [Hs Hsm].
    assert (Ht : physical (fs w) (modules_dir r))
      by (unfold version_dir in Hv; now apply physical_prefix in Hv).
    assert (Hne : boot_dir r <> modules_dir r).
    { unfold boot_dir, modules_dir. intros E. apply app_inv_head in E. discriminate. }
    destruct (move_as_is_at w (boot_dir r) (modules_dir r) s Hb Ht Hs
                ltac:(fork) Hne (fun m es => Hmaps s m es Hsm))
      as [w1 [Hrun [Hcwd1 Hfs]]].
    assert (Hinv1 : boot_inv r ver w0 w1).
    { destruct Hfs as [Hsame | [x [r1 [r2 [Hx [Hrep [Hdel [Hput Hfs]]]]]]]].
      - unfold boot_inv. rewrite Hsame, Hcwd1.
        exact (conj Hcwd (conj Hb (conj Hv (conj Hkeep (conj Hver Hmaps))))).
      - assert (Hsv : s <> ver).
        { intros ->. destruct Hv as [_ [m [es Hg]]].
          unfold version_dir in Hg. rewrite <- child_snoc in Hg.
          destruct Hrep as [Hn | [tg [mm Hn]]]; rewrite Hn in Hg; discriminate. }
        unfold boot_inv. rewrite Hfs, Hcwd1. split; [exact Hcwd |].
        split.
        { apply (physical_look (fs w)); [| exact Hb].
          apply (rename_look _ _ _ _ _ _ _ _ Hdel Hput); fork. }
        split.
        { apply (physical_look (fs w)); [| exact Hv].
          apply (rename_look _ _ _ _ _ _ _ _ Hdel Hput); fork. }
        split.
        { intros n Hn. rewrite <- (Hkeep n Hn). rewrite !child_snoc.
          assert (Hns : s <> n) by (intros ->; congruence).
          apply (rename_get _ _ _ _ _ _ _ _ Hdel Hput); fork. }
        split.
        { intros n. rewrite <- (Hver n). rewrite !child_snoc.
          apply (rename_get _ _ _ _ _ _ _ _ Hdel Hput); fork. }
        intros s' m es Hs'.
        destruct (String.eqb s s') eqn:E.
        + apply String.eqb_eq in E. subst s'.
          rewrite (rename_source _ _ _ _ _ _ _ _ Hdel Hput); [discriminate | fork | fork].
        + apply String.eqb_neq in E. rewrite child_snoc.
          rewrite (rename_get _ _ _ _ _ _ _ _ Hdel Hput); try fork.
          apply (Hmaps s' m es Hs'). }
    destruct (IH w1 Hinv1 (fun s' Hs' => Hl s' (or_intror Hs'))) as [w' [Hrun' Hinv']].
    exists w'. split; [| exact Hinv'].
    simpl. unfold bind. rewrite Hrun. exact Hrun'.
Qed.

Lemma listdir_at w d items :
  physical (fs w) d ->
  fst (Os.listdir (path_str d) w) = Ret items ->
  forall s, In s items ->
    valid_name s = true /\ exists x, Sys.child (fs w) d s = Some x.
Proof.
  intros Hd Hl s Hs. unfold Os.listdir, fs_query, Sys.listdir in Hl.
  rewrite (locate_path_str _ _ _ Hd) in Hl.
  destruct Hd as [_ [m [es Hg]]]. rewrite Hg in Hl. simpl in Hl.
  inversion Hl. subst items.
  destruct (names_assoc es s Hs) as [Hv [x Hx]].
  split; [exact Hv |]. exists x. now rewrite get_child, Hg.
Qed.

Lemma try_rename_at w ds ns dd nd x (h : exn -> M unit) :
  physical (fs w) ds -> valid_name ns = true ->
  physical (fs w) dd -> valid_name nd = true ->
  Sys.child (fs w) ds ns = Some x ->
  is_prefix (ds ++ [ns])%list (dd ++ [nd])%list = false ->
  Sys.child (fs w) dd nd = None ->
  exists r1 r2,
    del (fs w) ds ns = Some r1 /\ put r1 dd nd x = Some r2
    /\ try_Exception
         (Os.rename (OsPath.join (path_str ds) ns) (OsPath.join (path_str dd) nd)) h w
       = (Ret tt, set_fs w r2).
Proof.
  intros Hds Hns Hdd Hnd Hx Hpre Habs.
  destruct (sys_rename_at (fs w) (cwd w) ds ns dd nd x Hds Hns Hdd Hnd Hx Hpre
              (or_introl Habs)) as [r1 [r2 [Hdel [Hput Hren]]]].
  exists r1, r2. split; [exact Hdel |]. split; [exact Hput |].
  rewrite (join_name ds ns) by (apply Hds || exact Hns).
  rewrite (join_name dd nd) by (apply Hdd || exact Hnd).
  apply try_Exception_Ret. unfold Os.rename. now apply fs_call_ok.
Qed.

Lemma after_mkdir_exists w d n :
  physical (fs w) (d ++ [n])%list -> after_mkdir (path_str (d ++ [n])%list) w = w.
Proof.
  intros Hp. unfold after_mkdir.
  assert (Hd : physical (fs w) d) by now apply physical_prefix in Hp.
  assert (Hn : valid_name n = true) by now apply physical_snoc_valid in Hp.
  destruct Hp as [_ [m [es Hg]]].
  rewrite (try_OSError_caught _ _ w EEXIST w); [reflexivity |].
  unfold Os.mkdir. apply fs_call_err.
  apply (sys_mkdir_exists _ _ _ _ Hd Hn _ (Dir m es)). exact Hg.
Qed.

Lemma joinpath_boot r :
  names_ok r -> Pathlib.joinpath (path_str r) "boot" = path_str (boot_dir r).
Proof. intros Hr. unfold Pathlib.joinpath, boot_dir. now apply join_name. Qed.

Lemma joinpath_modules r :
  names_ok r -> Pathlib.joinpath (path_str r) "usr/lib/modules" = path_str (modules_dir r).
Proof.
  intros Hr. unfold Pathlib.joinpath, modules_dir.
  apply (join_deep r ["usr"; "lib"; "modules"]);
    [exact Hr | repeat constructor | discriminate].
Qed.

Lemma kernel_not_symbol_map s : is_kernel s = true -> is_symbol_map s = false.
Proof. intros H. unfold is_symbol_map. now rewrite H. Qed.

Lemma initrd_not_symbol_map s : is_initrd s = true -> is_symbol_map s = false.
Proof.
  intros H. unfold is_symbol_map. rewrite H. now destruct (is_kernel s).
Qed.

Lemma initrd_not_kernel s : is_initrd s = true -> is_kernel s = false.
Proof. unfold is_initrd. destruct (is_kernel s); [discriminate | reflexivity]. Qed.

(** C3 as the specification states it fails: one kernel image and one
    initrd, but no directory for the kernel version under
    [usr/lib/modules]. The stage does not make it: the rename fails, the
    stage logs the error and exits; the kernel image is still in the boot
    directory. *)
Lemma setup_boot_needs_version_dir :
  let w := Sample.no_version_dir in
  let r := setup_boot "/r" "/r/boot" "/r/usr/lib/modules" w in
  fst (Os.listdir "/r/boot" w) = Ret ["vmlinuz-6.1.0-amd64"; "initrd.img-6.1.0-amd64"]
  /\ fst r = Raise (SystemExit 1)
  /\ log (snd r) = [Fmt "Error moving file: " (OSError ENOENT)]
  /\ lstat (fs (snd r)) [] "/r/usr/lib/modules/6.1.0-amd64" = None
  /\ lstat (fs (snd r)) [] "/r/boot/vmlinuz-6.1.0-amd64" = Some (Sample.reg 1 "kernel").
Proof. vm_compute. repeat split; reflexivity. Qed.

(* ================================================================== *)
(** * C7: the top-level symbolic links *)
(* ================================================================== *)

Lemma get_prefix_some root p q x :
  get root (p ++ q)%list = Some x -> exists y, get root p = Some y.
Proof.
  rewrite get_app. destruct (get root p) as [y |]; [eauto | discriminate].
Qed.

Lemma get_prefix_dir root p c q x :
  get root (p ++ c :: q)%list = Some x -> exists m es, get root p = Some (Dir m es).
Proof.
  rewrite get_app. destruct (get root p) as [[i d m | t m | m es] |]; simpl;
    try discriminate. eauto.
Qed.

(** Putting an entry where there was none leaves what was there. *)
Lemma put_new_look root p n x r q :
  put root p n x = Some r -> Sys.child root p n = None ->
  get root q <> None -> look r q = look root q.
Proof.
  intros Hput Hnone Hq. apply (put_look _ _ _ _ _ _ Hput).
  destruct (is_prefix (p ++ [n])%list q) eqn:E; [| reflexivity].
  exfalso. apply is_prefix_spec in E. destruct E as [rest ->].
  destruct (get root ((p ++ [n]) ++ rest)%list) as [y |] eqn:Ey; [| congruence].
  apply get_prefix_some in Ey. destruct Ey as [z Hz].
  unfold Sys.child in Hnone. congruence.
Qed.

Lemma look_dir root q m es r :
  get root q = Some (Dir m es) -> look r q = look root q ->
  exists es', get r q = Some (Dir m es').
Proof.
  intros Hg Hl. unfold look in Hl. rewrite Hg in Hl. simpl in Hl.
  destruct (get r q) as [[i d m' | t m' | m' es'] |]; simpl in Hl; try discriminate.
  inversion Hl. eauto.
Qed.

Lemma removelast_get root cur x :
  get root cur = Some x -> get root (removelast cur) <> None.
Proof.
  intros H. destruct cur as [| c cur] using rev_ind.
  - simpl. congruence.
  - rewrite removelast_last. apply get_prefix_some in H. destruct H as [y ->].
    discriminate.
Qed.

(** A walk that does not get lost only reads entries that are there, so
    it goes the same way in a tree [r] that shows all the entries of
    [root] as [root] does. *)
Section MoreEntries.

Variables root r : node.
Hypothesis more : forall q, get root q <> None -> look r q = look root q.

Lemma walk_comps_more :
  forall todo cur,
    (forall e, walk_comps root cur todo <> Lost e) ->
    walk_comps r cur todo = walk_comps root cur todo.
Proof.
  induction todo as [| c rest IH]; intros cur Hw; [reflexivity |].
  simpl in Hw |- *.
  destruct (get root cur) as [[i d m | t m | m es] |] eqn:Ecur;
    try (exfalso; eapply Hw; reflexivity).
  assert (Hl : look r cur = look root cur) by (apply more; congruence).
  destruct (look_dir _ _ _ _ _ Ecur Hl) as [es' Ecur'].
  rewrite Ecur'.
  destruct (String.eqb c "" || String.eqb c ".") eqn:E1; [now apply IH |].
  destruct (String.eqb c "..") eqn:E2; [now apply IH |].
  assert (Hc : assoc c es = Sys.child root cur c) by (now rewrite get_child, Ecur).
  assert (Hc' : assoc c es' = Sys.child r cur c) by (now rewrite get_child, Ecur').
  rewrite Hc in Hw |- *. rewrite Hc'.
  destruct (Sys.child root cur c) as [y |] eqn:Ey;
    [| exfalso; eapply Hw; reflexivity].
  assert (Hl2 : look r (cur ++ [c])%list = look root (cur ++ [c])%list).
  { apply more. unfold Sys.child in Ey. congruence. }
  unfold look in Hl2. unfold Sys.child in Ey |- *. rewrite Ey in Hl2.
  destruct (get r (cur ++ [c])%list) as [y' |]; [| discriminate].
  simpl in Hl2. inversion Hl2 as [Hsh].
  destruct y as [i d m0 | t m0 | m0 es0]; destruct y' as [i' d' m1 | t' m1 | m1 es1];
    simpl in Hsh; try discriminate; try (now apply IH).
  inversion Hsh. reflexivity.
Qed.

Lemma resolve_more :
  forall fuel cur todo q,
    resolve fuel root cur todo = OK q -> resolve fuel r cur todo = OK q.
Proof.
  induction fuel as [| fuel IH]; intros cur todo q H.
  - rewrite resolve_unfold in H |- *. rewrite walk_comps_more.
    + exact H.
    + intros e He. rewrite He in H. discriminate.
  - rewrite resolve_unfold in H |- *. rewrite walk_comps_more.
    + destruct (walk_comps root cur todo) as [p0 | dir t rest | e]; try exact H.
      destruct (String.eqb t ""); [exact H |]. now apply IH.
    + intros e He. rewrite He in H. discriminate.
Qed.


End MoreEntries.

Lemma resolve_put_new root p n x r :
  put root p n x = Some r -> Sys.child root p n = None ->
  forall fuel cur todo q,
    resolve fuel root cur todo = OK q -> resolve fuel r cur todo = OK q.
Proof.
  intros Hput Hnone. apply resolve_more.
  intros q. apply (put_new_look _ _ _ _ _ _ Hput Hnone).
Qed.

Lemma resolve_start_dir fuel root cur c rest q :
  resolve fuel root cur (c :: rest) = OK q ->
  exists m es, get root cur = Some (Dir m es).
Proof.
  intros H. rewrite resolve_unfold in H. simpl in H.
  destruct (get root cur) as [[i d m | t m | m es] |]; try discriminate. eauto.
Qed.

(** The parent of a one-name relative path is the start directory. *)
Lemma locate_parent_rel root start l :
  valid_name l = true ->
  locate_parent root start l =
  match get root start with
  | Some (Dir _ _) => OK (start, l)
  | Some _ => Err ENOTDIR
  | None => Err ENOENT
  end.
Proof.
  intros Hl. destruct (valid_name_inv l Hl) as [H1 [_ [_ H4]]].
  unfold locate_parent, last_comp. rewrite H1, (split_on_no_slash l H4).
  cbn [last removelast]. rewrite Hl. unfold OsPath.isabs.
  rewrite (valid_name_not_abs l Hl), resolve_unfold. reflexivity.
Qed.

(** One turn of the loop for a name directly under the root. *)
Lemma link_step r w w' l t :
  physical (fs w) r -> valid_name l = true ->
  bind (Shutil.rmtree (Pathlib.joinpath (path_str r) l))
       (fun _ => Os.symlink t l (Some r)) w = (Ret tt, w') ->
  exists r1 r2 m,
    del (fs w) r l = Some r1 /\ put r1 r l (Symlink t m) = Some r2 /\ fs w' = r2.
Proof.
  intros Hr Hl Hrun. pose proof Hr as [Hrv [mr [esr Hgr]]].
  unfold Pathlib.joinpath in Hrun. rewrite (join_name r l Hrv Hl) in Hrun.
  unfold bind, Shutil.rmtree, fs_call in Hrun.
  destruct (Sys.rmtree (path_str (r ++ [l])%list) (fs w) (cwd w)) as [r1 | e] eqn:Erm;
    [| discriminate].
  unfold Sys.rmtree in Erm. rewrite (locate_parent_at _ _ _ _ Hr Hl) in Erm.
  destruct (Sys.child (fs w) r l) as [[i d m | tg m | m es] |]; try discriminate.
  destruct (del (fs w) r l) as [r1' |] eqn:Edel; [| discriminate].
  inversion Erm. subst r1'.
  unfold Os.symlink, fs_call in Hrun. cbn [fs set_fs cwd euid egid] in Hrun.
  destruct (Sys.symlink _ t l r1 r) as [r2 | e] eqn:Esym; [| discriminate].
  inversion Hrun. subst w'. cbn [fs set_fs].
  unfold Sys.symlink in Esym. rewrite (locate_parent_rel _ _ _ Hl) in Esym.
  destruct (get r1 r) as [[i d m' | tg m' | m' es'] |]; try discriminate.
  destruct (Sys.child r1 r l); [discriminate |].
  destruct (put r1 r l (Symlink t (Meta 511 (euid w) (egid w)))) as [r2' |] eqn:Eput;
    [| discriminate].
  inversion Esym. subst r2'.
  exists r1, r2, (Meta 511 (euid w) (egid w)). auto.
Qed.

(** The turns for names directly under the root leave a link at each of
    them. *)
Lemma simple_links r ls : forall w w',
  physical (fs w) r ->
  (forall lt, In lt ls -> valid_name (fst lt) = true) ->
  NoDup (map fst ls) ->
  for_each ls (link_turn (path_str r) r) w = (Ret tt, w') ->
  physical (fs w') r
  /\ (forall l t, In (l, t) ls -> exists m, Sys.child (fs w') r l = Some (Symlink t m))
  /\ (forall n, ~ In n (map fst ls) -> Sys.child (fs w') r n = Sys.child (fs w) r n).
Proof.
  induction ls as [| [l t] ls IH]; intros w w' Hr Hv Hnd Hrun.
  - simpl in Hrun. inversion Hrun. subst w'.
    split; [exact Hr |]. split; [intros l t [] | reflexivity].
  - simpl in Hrun. apply bind_inv_Ret in Hrun.
    destruct Hrun as [[] [w1 [Hstep Hrest]]].
    assert (Hl : valid_name l = true) by (apply (Hv (l, t)); now left).
    destruct (link_step r w w1 l t Hr Hl Hstep) as [r1 [r2 [m [Hdel [Hput Hfs]]]]].
    assert (Hr1 : physical (fs w1) r).
    { rewrite Hfs. apply (physical_look (fs w)); [| exact Hr].
      apply (rename_look _ _ _ _ _ _ _ _ Hdel Hput); apply is_prefix_self_snoc. }
    simpl in Hnd. apply NoDup_cons_iff in Hnd. destruct Hnd as [Hnotin Hnd'].
    destruct (IH w1 w' Hr1 (fun lt H => Hv lt (or_intror H)) Hnd' Hrest)
      as [Hr' [Hlinks Hframe]].
    split; [exact Hr' |]. split.
    + intros l' t' [E | Hin].
      * inversion E. subst l' t'. exists m.
        rewrite (Hframe l Hnotin), Hfs. apply (put_child _ _ _ _ _ Hput).
      * apply (Hlinks l' t' Hin).
    + intros n Hn. simpl in Hn.
      assert (Hnl : l <> n) by (intros ->; apply Hn; now left).
      rewrite (Hframe n) by (intros H; apply Hn; now right).
      rewrite Hfs.
      rewrite (put_other_child _ _ _ _ _ _ Hput) by congruence.
      apply (del_other_child _ _ _ _ _ Hdel). congruence.
Qed.

Lemma lstat_join root start p d n rel :
  physical root p ->
  Py.startswith "/" rel = false ->
  Py.split_on OsPath.sep rel = (d ++ [n])%list ->
  valid_name n = true ->
  lstat root start (OsPath.join (path_str p) rel) =
  match resolve MAXSYMLINKS root p d with
  | OK q =>
      match get root q with
      | Some (Dir _ _) => Sys.child root q n
      | _ => None
      end
  | Err _ => None
  end.
Proof.
  intros Hp Hrel Hs Hn. pose proof Hp as [Hv _].
  unfold lstat, llocate.
  rewrite (locate_parent_join root start p d n rel Hp Hrel Hs Hn).
  assert (Hlast : last_comp (OsPath.join (path_str p) rel) = n).
  { unfold last_comp. rewrite split_join_path_str, Hs by assumption.
    replace ("" :: p ++ d ++ [n])%list with (("" :: p ++ d) ++ [n])%list
      by (simpl; now rewrite app_assoc).
    apply last_snoc. }
  rewrite Hlast, Hn.
  destruct (resolve MAXSYMLINKS root p d) as [q | e]; [| reflexivity].
  destruct (get root q) as [[i dt m | t m | m es] |]; try reflexivity.
  unfold Sys.child. destruct (get root (q ++ [n])%list) eqn:E; [exact E | reflexivity].
Qed.


Lemma look_None_not root q : look root q <> None -> get root q <> None.
Proof. unfold look. destruct (get root q); simpl; congruence. Qed.

Lemma look_leaf root q x :
  look root q = Some x -> is_dir x = false -> get root q = Some x.
Proof.
  unfold look. destruct (get root q) as [[i d m | t m | m es] |]; simpl;
    intros H Hx; inversion H; subst; try reflexivity; discriminate.
Qed.

(** The turn for [usr/local]: the place of [usr] is found through the
    tree, whatever [usr] is. *)
Lemma deep_link_step r w w' t :
  physical (fs w) r ->
  link_turn (path_str r) r ("usr/local", t) w = (Ret tt, w') ->
  physical (fs w') r
  /\ (exists m, lstat (fs w') (cwd w') (Pathlib.joinpath (path_str r) "usr/local")
                = Some (Symlink t m))
  /\ (forall n x, n <> "local" -> Sys.child (fs w) r n = Some x -> is_dir x = false ->
        Sys.child (fs w') r n = Some x).
Proof.
  intros Hr Hrun. pose proof Hr as [Hrv [mr [esr Hgr]]].
  unfold link_turn, Pathlib.joinpath in Hrun. cbn [fst snd] in Hrun.
  unfold bind, Shutil.rmtree, fs_call in Hrun.
  destruct (Sys.rmtree (OsPath.join (path_str r) "usr/local") (fs w) (cwd w))
    as [r1 | e] eqn:Erm; [| discriminate].
  unfold Sys.rmtree in Erm.
  rewrite (locate_parent_join _ _ r ["usr"] "local" "usr/local" Hr eq_refl eq_refl eq_refl)
    in Erm.
  destruct (resolve MAXSYMLINKS (fs w) r ["usr"]) as [U | e] eqn:EU; [| discriminate].
  destruct (get (fs w) U) as [[i d m | tg m | mU esU] |] eqn:EgU; try discriminate.
  destruct (Sys.child (fs w) U "local") as [[i d ml | tg ml | ml esl] |];
    try discriminate.
  destruct (del (fs w) U "local") as [r1' |] eqn:Edel; [| discriminate].
  inversion Erm. subst r1'.
  unfold Os.symlink, fs_call in Hrun. cbn [fs set_fs cwd euid egid] in Hrun.
  destruct (Sys.symlink _ t "usr/local" r1 r) as [r2 | e] eqn:Esym; [| discriminate].
  inversion Hrun. subst w'. cbn [fs set_fs cwd].
  unfold Sys.symlink, locate_parent in Esym.
  change (String.eqb "usr/local" "") with false in Esym.
  change (last_comp "usr/local") with "local" in Esym.
  change (valid_name "local") with true in Esym.
  change (OsPath.isabs "usr/local") with false in Esym.
  change (removelast (Py.split_on OsPath.sep "usr/local")) with ["usr"] in Esym.
  cbv iota in Esym.
  destruct (resolve MAXSYMLINKS r1 r ["usr"]) as [U' | e] eqn:EU'; [| discriminate].
  destruct (resolve_start_dir _ _ _ _ _ _ EU') as [mr1 [esr1 Hgr1]].
  destruct (get r1 U') as [[i d m | tg m | mU' esU'] |] eqn:EgU'; try discriminate.
  destruct (Sys.child r1 U' "local") eqn:Enone; [discriminate |].
  destruct (put r1 U' "local" (Symlink t (Meta 511 (euid w) (egid w)))) as [r2' |] eqn:Eput;
    [| discriminate].
  inversion Esym. subst r2'.
  assert (Hr2 : physical r2 r).
  { apply (physical_look r1).
    - apply (put_new_look _ _ _ _ _ _ Eput Enone). congruence.
    - split; [exact Hrv | eauto]. }
  split; [exact Hr2 |]. split.
  - exists (Meta 511 (euid w) (egid w)).
    rewrite (lstat_join _ _ r ["usr"] "local" "usr/local" Hr2 eq_refl eq_refl eq_refl).
    rewrite (resolve_put_new _ _ _ _ _ Eput Enone _ _ _ _ EU').
    destruct (upd_dir_some _ _ _ _ Eput) as [m0 [es0 [_ Hg2]]].
    rewrite Hg2. apply (put_child _ _ _ _ _ Eput).
  - intros n x Hn Hx Hleaf. unfold Sys.child in Hx |- *.
    assert (H1 : look r1 (r ++ [n])%list = look (fs w) (r ++ [n])%list).
    { apply (del_look _ _ _ _ _ Edel).
      destruct (is_prefix (U ++ ["local"])%list (r ++ [n])%list) eqn:E; [| reflexivity].
      exfalso. apply is_prefix_spec in E. destruct E as [rest E].
      destruct rest as [| c rest _] using rev_ind.
      - rewrite app_nil_r in E. apply app_inj_tail in E. destruct E as [_ E]. congruence.
      - rewrite app_assoc in E. apply app_inj_tail in E. destruct E as [E _].
        rewrite E, <- app_assoc in Hgr1. cbn [app] in Hgr1.
        rewrite (del_get_below _ _ _ _ _ Edel) in Hgr1. discriminate. }
    assert (H2 : look r2 (r ++ [n])%list = look r1 (r ++ [n])%list).
    { apply (put_new_look _ _ _ _ _ _ Eput Enone).
      apply look_None_not. rewrite H1. unfold look. rewrite Hx. discriminate. }
    apply look_leaf; [| exact Hleaf].
    rewrite H2, H1. unfold look. rewrite Hx. destruct x; try reflexivity. discriminate.
Qed.

Lemma lstat_symlink_seen s t m w :
  lstat (fs w) (cwd w) s = Some (Symlink t m) ->
  Os.path_islink s w = (Ret true, w) /\ Os.readlink s w = (Ret t, w).
Proof.
  intros H. unfold Os.path_islink, Os.readlink, fs_read, fs_query, Sys.readlink.
  rewrite H. unfold lstat in H.
  destruct (llocate (fs w) (cwd w) s) as [p | e]; [| discriminate].
  rewrite H. split; reflexivity.
Qed.

Lemma open_directory_at r w :
  physical (fs w) r -> Os.open_directory (path_str r) w = (Ret r, w).
Proof.
  intros Hr. pose proof Hr as [_ [m [es Hg]]].
  unfold Os.open_directory, fs_query. rewrite (locate_path_str _ _ _ Hr), Hg.
  reflexivity.
Qed.

(** C7. When the loop over [TOPLEVEL_LINKS] in [convert_to_ostree]
    returns, every name of the mapping, taken under the root directory,
    is a symbolic link and not a directory ([lstat] shows a link,
    [os.path.islink] answers [True]), and [os.readlink] gives the mapped
    target, character for character. The root directory is given by its
    physical path; [usr] may itself be a link. *)
Theorem toplevel_links_built r w w' :
  physical (fs w) r ->
  build_toplevel_links (path_str r) w = (Ret tt, w') ->
  forall l t, In (l, t) TOPLEVEL_LINKS ->
    let p := Pathlib.joinpath (path_str r) l in
    (exists m, lstat (fs w') (cwd w') p = Some (Symlink t m))
    /\ Os.path_islink p w' = (Ret true, w')
    /\ Os.readlink p w' = (Ret t, w').
Proof.
  intros Hr Hrun l t Hin p.
  assert (Hl : exists m, lstat (fs w') (cwd w') p = Some (Symlink t m)).
  { subst p. unfold build_toplevel_links in Hrun.
    apply bind_inv_Ret in Hrun. destruct Hrun as [fd [w0 [Hopen Hloop]]].
    rewrite (open_directory_at r w Hr) in Hopen. inversion Hopen. subst fd w0.
    change TOPLEVEL_LINKS with
      ([("home", "var/home"); ("media", "run/media"); ("mnt", "var/mnt");
        ("opt", "var/opt"); ("ostree", "sysroot/ostree"); ("root", "var/roothome");
        ("srv", "var/srv")] ++ [("usr/local", "../var/usrlocal")])%list in Hloop, Hin.
    rewrite for_each_app in Hloop. apply bind_inv_Ret in Hloop.
    destruct Hloop as [[] [w1 [Hfirst Hlast]]].
    cbn [for_each] in Hlast. apply bind_inv_Ret in Hlast.
    destruct Hlast as [[] [w2 [Hlast Hend]]]. inversion Hend. subst w2.
    apply (simple_links r) in Hfirst; [| exact Hr | |].
    - destruct Hfirst as [Hr1 [Hlinks _]].
      destruct (deep_link_step r w1 w' _ Hr1 Hlast) as [Hr2 [Hdeep Hframe]].
      apply in_app_or in Hin. destruct Hin as [Hin | [E | []]].
      + destruct (Hlinks l t Hin) as [m Hm]. exists m.
        assert (Hv : valid_name l = true /\ l <> "local").
        { simpl in Hin.
          repeat (destruct Hin as [E | Hin];
                  [inversion E; split; [reflexivity | discriminate] |]).
          destruct Hin. }
        destruct Hv as [Hv Hne]. pose proof Hr2 as [Hrv _].
        unfold Pathlib.joinpath. rewrite (join_name r l Hrv Hv).
        rewrite (lstat_at _ _ _ _ Hr2 Hv).
        apply (Hframe l _ Hne Hm). reflexivity.
      + inversion E. subst l t. exact Hdeep.
    - intros lt H. simpl in H.
      repeat (destruct H as [<- | H]; [reflexivity |]). destruct H.
    - repeat constructor; simpl; intuition discriminate. }
  split; [exact Hl |]. destruct Hl as [m Hm]. apply (lstat_symlink_seen _ _ _ _ Hm).
Qed.

Lemma toplevel_links_built_witness :
  (exists m, lstat (fs links_run) (cwd links_run) (Pathlib.joinpath "/r" "usr/local")
             = Some (Symlink "../var/usrlocal" m))
  /\ Os.path_islink (Pathlib.joinpath "/r" "usr/local") links_run = (Ret true, links_run)
  /\ Os.readlink (Pathlib.joinpath "/r" "usr/local") links_run
     = (Ret "../var/usrlocal", links_run).
Proof.
  apply (toplevel_links_built ["r"] SampleLinks.ready links_run).
  - split; [repeat constructor | vm_compute; eauto].
  - vm_compute. reflexivity.
  - vm_compute. tauto.
Defined.

(* ================================================================== *)
(** * C6: the order of the stages *)
(* ================================================================== *)

Lemma stage_lines_app a b : stage_lines (a ++ b) = (stage_lines a ++ stage_lines b)%list.
Proof. apply filter_app. Qed.

Lemma errors_only_refl w : errors_only w w.
Proof. exists []. split; [now rewrite app_nil_r | reflexivity]. Qed.

Lemma errors_only_trans a b c : errors_only a b -> errors_only b c -> errors_only a c.
Proof.
  intros [e1 [H1 S1]] [e2 [H2 S2]]. exists (e1 ++ e2)%list. split.
  - now rewrite H2, H1, app_assoc.
  - now rewrite stage_lines_app, S1, S2.
Qed.

Lemma errors_only_same w w' : log w' = log w -> errors_only w w'.
Proof. intros H. exists []. split; [now rewrite app_nil_r | reflexivity]. Qed.

Lemma startswith_append p : forall x, Py.startswith p (p ++ x) = true.
Proof.
  induction p as [| a p IH]; intros x.
  - reflexivity.
  - unfold Py.startswith, String.append. fold String.append. fold Py.startswith.
    now rewrite Ascii.eqb_refl, IH.
Qed.

Lemma quiet_ret {A} (a : A) : quiet (ret a).
Proof. apply keeps_ret, errors_only_refl. Qed.

Lemma quiet_raise {A} (e : exn) : quiet (@raise A e).
Proof. apply keeps_raise, errors_only_refl. Qed.

Lemma quiet_bind {A B} (m : M A) (k : A -> M B) :
  quiet m -> (forall a, quiet (k a)) -> quiet (bind m k).
Proof. apply keeps_bind, errors_only_trans. Qed.

Lemma quiet_try_OSError {A} (m : M A) (h : errno -> M A) :
  quiet m -> (forall e, quiet (h e)) -> quiet (try_OSError m h).
Proof. apply keeps_try_OSError, errors_only_trans. Qed.

Lemma quiet_try_Exception {A} (m : M A) (h : exn -> M A) :
  quiet m -> (forall e, quiet (h e)) -> quiet (try_Exception m h).
Proof. apply keeps_try_Exception, errors_only_trans. Qed.

Lemma quiet_for_each {A} (l : list A) (body : A -> M unit) :
  (forall x, quiet (body x)) -> quiet (for_each l body).
Proof. apply keeps_for_each; [apply errors_only_refl | apply errors_only_trans]. Qed.

Lemma quiet_assert b : quiet (assert b).
Proof. apply keeps_assert, errors_only_refl. Qed.

Lemma quiet_fs_read {A} (f : node -> path -> A) : quiet (fs_read f).
Proof. apply keeps_fs_read, errors_only_refl. Qed.

Lemma quiet_fs_query {A} (f : node -> path -> res A) : quiet (fs_query f).
Proof. apply keeps_fs_query, errors_only_refl. Qed.

Lemma quiet_fs_call (f : node -> path -> res node) : quiet (fs_call f).
Proof.
  intros w. unfold fs_call.
  destruct (f (fs w) (cwd w)); apply errors_only_same; reflexivity.
Qed.

Lemma quiet_diverge {A} : quiet (fun w => (@Diverge A, w)).
Proof. apply keeps_diverge, errors_only_refl. Qed.

Lemma quiet_error_line e : quiet (logging_info (Fmt "Error moving file: " e)).
Proof.
  intros w. exists [Fmt "Error moving file: " e]. split; reflexivity.
Qed.

Create HintDb quiet.
#[export] Hint Resolve quiet_ret quiet_raise quiet_assert quiet_fs_read quiet_fs_query
  quiet_fs_call quiet_diverge quiet_error_line : quiet.

(** Break a goal [quiet m] along the structure of [m]. *)
Ltac quiet_step :=
  match goal with
  | |- quiet (if ?b then _ else _) => destruct b
  | |- quiet (match ?x with _ => _ end) => destruct x
  | |- quiet (bind _ _) => apply quiet_bind; [| intros ?]
  | |- quiet (try_OSError _ _) => apply quiet_try_OSError; [| intros ?]
  | |- quiet (try_Exception _ _) => apply quiet_try_Exception; [| intros ?]
  | |- quiet (for_each _ _) => apply quiet_for_each; intros ?
  | |- quiet pass => apply quiet_ret
  | |- quiet (sys_exit _) => apply quiet_raise
  | |- _ => solve [auto with quiet]
  end.

Lemma quiet_mkdir s md : quiet (Os.mkdir s md).
Proof. intros w. unfold Os.mkdir. apply quiet_fs_call. Qed.

Lemma quiet_symlink t d fd : quiet (Os.symlink t d fd).
Proof. intros w. unfold Os.symlink. destruct fd; apply quiet_fs_call. Qed.

Lemma quiet_write_file s data : quiet (Os.write_file s data).
Proof.
  intros w. unfold Os.write_file.
  destruct (Os.open_place _ _ _ _) as [[p n] | e]; [| apply errors_only_refl].
  destruct (Sys.child _ _ _) as [[i d m | t m | m es] |]; try apply errors_only_refl;
    destruct (put _ _ _ _); apply errors_only_same; reflexivity.
Qed.

Lemma quiet_getcwd : quiet Os.getcwd.
Proof. intros w. apply errors_only_refl. Qed.

#[export] Hint Resolve quiet_mkdir quiet_symlink quiet_write_file quiet_getcwd : quiet.

Lemma quiet_makedirs fuel : forall name md, quiet (Os.makedirs fuel name md).
Proof.
  induction fuel as [| fuel IH]; intros name md; simpl;
    destruct (OsPath.split name) as [head0 tail0];
    destruct (if String.eqb tail0 "" then OsPath.split head0 else (head0, tail0))
      as [head tail];
    unfold Os.path_exists; repeat quiet_step; apply IH.
Qed.

#[export] Hint Resolve quiet_makedirs : quiet.

Lemma quiet_copytree src dst : quiet (Shutil.copytree src dst).
Proof.
  unfold Shutil.copytree. repeat quiet_step.
  intros w. destruct (Sys.copy_node _ _ _) as [x' i'].
  destruct (put _ _ _ _); apply errors_only_same; reflexivity.
Qed.

Lemma quiet_copy2 src dst : quiet (Shutil.copy2 src dst).
Proof.
  unfold Shutil.copy2, Os.path_isdir, Os.samefile. repeat quiet_step.
  intros w. destruct (Os.open_place _ _ _ _) as [[p n] | e]; [| apply errors_only_refl].
  destruct (Sys.child _ _ _) as [[i d m | t m | m es] |]; try apply errors_only_refl.
  destruct (put _ _ _ _); apply errors_only_same; reflexivity.
Qed.

#[export] Hint Resolve quiet_copytree quiet_copy2 : quiet.

Lemma quiet_move src dst : quiet (Shutil.move src dst).
Proof.
  unfold Shutil.move, Shutil.destinsrc, Shutil.rmtree, Os.path_isdir, Os.samefile,
    Os.path_islink, Os.path_exists, Os.rename, Os.readlink, Os.unlink.
  repeat quiet_step.
Qed.

#[export] Hint Resolve quiet_move : quiet.

Lemma quiet_mkdir_parents fuel : forall p md, quiet (Pathlib.mkdir_parents fuel p md).
Proof.
  induction fuel as [| fuel IH]; intros p md; simpl;
    unfold Os.path_isdir; repeat quiet_step; apply IH.
Qed.

#[export] Hint Resolve quiet_mkdir_parents : quiet.

Lemma quiet_boot_loop bootdir targetdir items :
  forall v, quiet (boot_loop bootdir targetdir v items).
Proof.
  induction items as [| item rest IH]; intros v; simpl.
  - apply quiet_ret.
  - apply quiet_bind; [| intros v'; apply IH].
    unfold boot_item, move_as_is. repeat quiet_step.
Qed.

Lemma quiet_setup_boot rootdir bootdir targetdir :
  quiet (setup_boot rootdir bootdir targetdir).
Proof.
  unfold setup_boot, Os.listdir, Os.rename. repeat quiet_step.
  apply quiet_boot_loop.
Qed.

Lemma quiet_create_tmpfile_dir cache rootdir : quiet (create_tmpfile_dir cache rootdir).
Proof.
  unfold create_tmpfile_dir, Pathlib.exists_, Os.path_exists, Os.unlink.
  repeat quiet_step.
Qed.

Lemma quiet_get_toplevel path : quiet (get_toplevel path).
Proof.
  unfold get_toplevel. destruct (OsPath.split path) as [head tail].
  repeat quiet_step.
Qed.

Lemma quiet_sanitize_entry rootdir usrdir base name :
  quiet (sanitize_entry rootdir usrdir base name).
Proof.
  unfold sanitize_entry, Os.path_islink, Os.readlink, Os.path_relpath,
    Os.path_commonpath, Os.remove, Os.path_isfile, Os.path_isdir, Os.link.
  pose proof quiet_get_toplevel. repeat quiet_step.
Qed.

Lemma quiet_walk_into top dirs : quiet (walk_into top dirs).
Proof.
  induction dirs as [| d rest IH]; simpl; unfold Os.path_islink; repeat quiet_step.
Qed.

Lemma quiet_walk_usr rootdir usrdir fuel : forall top, quiet (walk_usr fuel rootdir usrdir top).
Proof.
  pose proof (quiet_sanitize_entry rootdir usrdir) as Hs.
  pose proof quiet_walk_into as Hw.
  induction fuel as [| fuel IH]; intros top; simpl; unfold Os.scan;
    repeat quiet_step; try apply IH.
Qed.

Lemma quiet_sanitize_usr_symlinks rootdir : quiet (sanitize_usr_symlinks rootdir).
Proof. intros w. unfold sanitize_usr_symlinks. apply quiet_walk_usr. Qed.

Lemma quiet_build_toplevel_links rootdir : quiet (build_toplevel_links rootdir).
Proof.
  unfold build_toplevel_links, Os.open_directory, Shutil.rmtree. repeat quiet_step.
Qed.

(** ** Announcements in sequence *)

Lemma announces_quiet {A} (m : M A) : quiet m -> announces [] m.
Proof.
  intros H w. destruct (H w) as [extra [Hl Hs]]. exists extra.
  split; [exact Hl |]. rewrite Hs. split; [now exists [] | reflexivity].
Qed.

Lemma announces_bind {A B} L1 L2 (m : M A) (k : A -> M B) :
  announces L1 m -> (forall a, announces L2 (k a)) ->
  announces (L1 ++ L2) (bind m k).
Proof.
  intros Hm Hk w. unfold bind. destruct (Hm w) as [e1 [Hl1 [[rest1 Hp1] Hr1]]].
  destruct (m w) as [[a | e |] w1]; simpl in *.
  - destruct (Hk a w1) as [e2 [Hl2 [[rest2 Hp2] Hr2]]].
    exists (e1 ++ e2)%list. rewrite Hl2, Hl1, app_assoc, stage_lines_app.
    rewrite (Hr1 a eq_refl).
    split; [reflexivity |]. split.
    + exists rest2. now rewrite Hp2, app_assoc.
    + intros b Hb. now rewrite (Hr2 b Hb).
  - exists e1. split; [exact Hl1 |]. split.
    + exists (rest1 ++ L2)%list. now rewrite Hp1, app_assoc.
    + discriminate.
  - exists e1. split; [exact Hl1 |]. split.
    + exists (rest1 ++ L2)%list. now rewrite Hp1, app_assoc.
    + discriminate.
Qed.

Lemma announces_info (s : string) : announces [Text s] (logging_info s).
Proof.
  intros w. exists [Text s]. split; [reflexivity |].
  split; [now exists [] | reflexivity].
Qed.

(** A quiet step before the rest. *)
Lemma announces_after {A B} L (m : M A) (k : A -> M B) :
  quiet m -> (forall a, announces L (k a)) -> announces L (bind m k).
Proof. intros Hm Hk. apply (announces_bind [] L); [now apply announces_quiet | exact Hk]. Qed.

(** An announcement before the rest. *)
Lemma announces_then {B} (s : string) L (k : unit -> M B) :
  (forall a, announces L (k a)) ->
  announces (Text s :: L) (bind (logging_info s) k).
Proof. intros Hk. apply (announces_bind [Text s] L); [apply announces_info | exact Hk]. Qed.

Lemma announces_convert_to_ostree rootdir :
  announces
    (map Text
       ["Moving /var to /usr/rootdirs."; "Removing unnecessary files.";
        "Moving /etc to /usr/etc."; "Setting up /ostree and /sysroot.";
        "Setting up symlinks."])
    (convert_to_ostree rootdir).
Proof.
  unfold convert_to_ostree. cbn [map].
  apply announces_after; [apply quiet_assert | intros _].
  apply announces_after; [apply quiet_sanitize_usr_symlinks | intros _].
  apply announces_then; intros _.
  apply announces_after; [apply quiet_mkdir | intros _].
  apply announces_after; [apply quiet_copytree | intros _].
  apply announces_after; [apply quiet_fs_call | intros _].
  apply announces_after; [apply quiet_mkdir | intros _].
  apply announces_then; intros _.
  apply announces_after; [unfold Os.remove; repeat quiet_step | intros _].
  apply announces_then; intros _.
  apply announces_after; [apply quiet_move | intros _].
  apply announces_then; intros _.
  apply announces_after; [repeat quiet_step | intros _].
  apply (announces_bind [Text "Setting up symlinks."] []);
    [apply announces_info | intros _].
  apply announces_quiet, quiet_build_toplevel_links.
Qed.

Lemma announces_create_ostree cache rootdir :
  announces STAGE_LINES (create_ostree cache rootdir).
Proof.
  unfold create_ostree, STAGE_LINES. cbn [map].
  apply announces_then; intros _.
  apply announces_after; [apply quiet_setup_boot | intros _].
  apply announces_then; intros _.
  apply announces_after; [apply quiet_create_tmpfile_dir | intros _].
  apply announces_then; intros _.
  apply (announces_bind
           (map Text
              ["Moving /var to /usr/rootdirs."; "Removing unnecessary files.";
               "Moving /etc to /usr/etc."; "Setting up /ostree and /sysroot.";
               "Setting up symlinks."])
           [Text "Ostree file structure created succesfully!"]);
    [apply announces_convert_to_ostree | intros _].
  apply announces_info.
Qed.

(** ** The stages in sequence *)

Lemma run_stages_app cache rootdir l1 l2 w :
  run_stages cache rootdir (l1 ++ l2)%list w
  = bind (run_stages cache rootdir l1) (fun _ => run_stages cache rootdir l2) w.
Proof.
  revert w. induction l1 as [| s l1 IH]; intros w.
  - reflexivity.
  - cbn [app run_stages]. unfold bind at 1 2 3.
    destruct (run_stage cache rootdir s w) as [[[] | e |] w1]; [| reflexivity | reflexivity].
    rewrite IH. reflexivity.
Qed.

(** [create_ostree] is the run of the stages in the order of
    [STAGE_ORDER], followed by its last line. *)
Lemma create_ostree_run cache rootdir w :
  create_ostree cache rootdir w
  = bind (run_stages cache rootdir STAGE_ORDER) (fun _ => logging_info DONE_LINE) w.
Proof.
  unfold create_ostree, convert_to_ostree, STAGE_ORDER, DONE_LINE.
  cbn [run_stages run_stage]. cbv zeta. unfold bind.
  repeat
    match goal with
    | |- context [match ?m ?x with _ => _ end] =>
        lazymatch m with
        | logging_info _ => change (m x) with (Ret tt, snd (m x)); cbv iota
        | _ => destruct (m x) as [[[] | ? |] ?]; try reflexivity
        end
    end.
Qed.

(** C6, as the code has it. [create_ostree] goes through the stages in
    the order of [STAGE_ORDER]: boot setup, the tmpfiles stage, then the
    blocks of the conversion (the links of [usr], the move of [var], the
    removal of the unnecessary files, the move of [etc], the mount
    points, the top-level links), and logs its last line. Whatever
    stage [s] is taken, with the stages [before] it and [after] it: when
    the stages before it have all returned, [s] starts in the world they
    have left, and the rest of the run is [s], then the stages after it,
    then the last line; when one of them has not returned, the run of
    [create_ostree] ends there, with that outcome and in that world, so
    that neither [s] nor a later stage starts. In the log, from any world
    and however the run ends, the announcements appear in the order of
    [STAGE_LINES]: a prefix of them when the run fails, all of them when
    it returns. *)
Theorem create_ostree_stage_order cache rootdir w :
  STAGE_ORDER = [BootSetup; Tmpfiles; SanitizeLinks; RelocateVar; RemoveCruft;
                 RelocateEtc; Mountpoints; ToplevelLinks]
  /\ create_ostree cache rootdir w
     = bind (run_stages cache rootdir STAGE_ORDER) (fun _ => logging_info DONE_LINE) w
  /\ (forall before s after,
        STAGE_ORDER = (before ++ s :: after)%list ->
        match run_stages cache rootdir before w with
        | (Ret _, w1) =>
            create_ostree cache rootdir w
            = bind (run_stage cache rootdir s)
                (fun _ => bind (run_stages cache rootdir after)
                            (fun _ => logging_info DONE_LINE)) w1
        | (o, w1) => create_ostree cache rootdir w = (o, w1)
        end)
  /\ (exists extra,
        log (snd (create_ostree cache rootdir w)) = (log w ++ extra)%list
        /\ (exists rest, STAGE_LINES = (stage_lines extra ++ rest)%list)
        /\ (fst (create_ostree cache rootdir w) = Ret tt -> stage_lines extra = STAGE_LINES)).
Proof.
  split; [reflexivity |]. split; [apply create_ostree_run |]. split.
  - intros before s after Hsplit.
    rewrite create_ostree_run, Hsplit. clear Hsplit.
    unfold bind. rewrite run_stages_app. unfold bind.
    destruct (run_stages cache rootdir before w) as [[[] | e |] w1]; try reflexivity.
    cbn [run_stages]. unfold bind.
    destruct (run_stage cache rootdir s w1) as [[[] | e |] w2]; reflexivity.
  - destruct (announces_create_ostree cache rootdir w) as [extra [Hl [Hp Hr]]].
    exists extra. split; [exact Hl |]. split; [exact Hp |].
    intros Hret. apply (Hr tt Hret).
Qed.

Lemma create_ostree_stage_order_witness :
  fst (run_stages SamplePipeline.cache "/r" [BootSetup; Tmpfiles; SanitizeLinks]
         SamplePipeline.raw) = Ret tt
  /\ create_ostree SamplePipeline.cache "/r" SamplePipeline.raw
     = bind (run_stage SamplePipeline.cache "/r" RelocateVar)
         (fun _ =>
            bind (run_stages SamplePipeline.cache "/r"
                    [RemoveCruft; RelocateEtc; Mountpoints; ToplevelLinks])
              (fun _ => logging_info DONE_LINE))
         (snd (run_stages SamplePipeline.cache "/r" [BootSetup; Tmpfiles; SanitizeLinks]
                 SamplePipeline.raw)).
Proof.
  pose proof (proj1 (proj2 (proj2 (create_ostree_stage_order SamplePipeline.cache "/r"
                                     SamplePipeline.raw)))
                [BootSetup; Tmpfiles; SanitizeLinks] RelocateVar
                [RemoveCruft; RelocateEtc; Mountpoints; ToplevelLinks] eq_refl) as H.
  assert (E : fst (run_stages SamplePipeline.cache "/r" [BootSetup; Tmpfiles; SanitizeLinks]
                     SamplePipeline.raw) = Ret tt) by (vm_compute; reflexivity).
  split; [exact E |].
  destruct (run_stages SamplePipeline.cache "/r" [BootSetup; Tmpfiles; SanitizeLinks]
              SamplePipeline.raw) as [o w1].
  cbn [fst snd] in *. subst o. exact H.
Defined.

(** C6 as the specification states it fails. On a complete tree the
    pipeline returns, and its log shows boot setup as the first stage and
    the tmpfiles stage as the second, both before the conversion that
    moves [var]. On a tree without [var] the run ends with the error of
    the copy of [var]: by then the kernel image is at its place under
    [usr/lib/modules] and the tmpfiles configuration is written, while
    [usr/rootdirs] does not exist. *)
Lemma create_ostree_boot_setup_first :
  fst (create_ostree SamplePipeline.cache "/r" SamplePipeline.raw) = Ret tt
  /\ log (snd (create_ostree SamplePipeline.cache "/r" SamplePipeline.raw)) = STAGE_LINES
  /\ fst (create_ostree SamplePipeline.cache "/r" SamplePipeline.no_var)
     = Raise (OSError ENOENT)
  /\ log (snd (create_ostree SamplePipeline.cache "/r" SamplePipeline.no_var))
     = map Text
         ["Setting up kernel and initramfs"; "Create tmpfiles"; "Convert to ostree";
          "Moving /var to /usr/rootdirs."]
  /\ (let root' := fs (snd (create_ostree SamplePipeline.cache "/r" SamplePipeline.no_var)) in
      Sys.child root' ["r"; "usr"; "lib"; "modules"; "6.1.0-amd64"] "vmlinuz"
      = Some (Sample.reg 1 "k")
      /\ is_file_at root' ["r"; "usr"; "lib"; "tmpfiles.d"] "ostree-integration-autovar.conf"
         = true
      /\ Sys.child root' ["r"; "usr"; "rootdirs"] "var" = None
      /\ Sys.child root' ["r"; "boot"] "vmlinuz-6.1.0-amd64" = None).
Proof. vm_compute. repeat split; reflexivity. Qed.

(* ================================================================== *)
(** * C8, C9: what [sanitize_usr_symlinks] does with a link it acts on *)
(* ================================================================== *)

Lemma rstrip_app_slash s :
  s <> "" -> Py.endswith_slash s = false -> Py.rstrip_slash (s ++ "/") = s.
Proof.
  induction s as [| a r IH]; intros Hne He; [congruence |].
  change (String a r ++ "/") with (String a (r ++ "/")).
  unfold Py.rstrip_slash. fold Py.rstrip_slash.
  destruct r as [| b r].
  - unfold Py.endswith_slash in He. rewrite He.
    change (Py.rstrip_slash ("" ++ "/")) with "". reflexivity.
  - unfold Py.endswith_slash in He. fold Py.endswith_slash in He.
    rewrite IH; [reflexivity | discriminate | exact He].
Qed.

Lemma comps_str_nonempty p : p <> [] -> comps_str p <> "".
Proof. destruct p as [| c p]; [congruence | discriminate]. Qed.

(** [os.path.split] of the text of a physical path. *)
Lemma split_at d n :
  names_ok d -> valid_name n = true ->
  OsPath.split (path_str (d ++ [n])%list) = (path_str d, n).
Proof.
  intros Hd Hn. destruct (valid_name_inv n Hn) as [_ [_ [_ Hs]]].
  rewrite path_str_comps by (destruct d; discriminate).
  rewrite comps_str_snoc. unfold OsPath.split.
  rewrite (cut_last_slash_app _ _ Hs).
  destruct d as [| c d].
  - reflexivity.
  - rewrite rstrip_app_slash;
      [| apply comps_str_nonempty; discriminate
       | apply comps_str_endswith; [exact Hd | discriminate]].
    assert (H1 : String.eqb (comps_str (c :: d) ++ "/") "" = false).
    { apply String.eqb_neq. simpl. discriminate. }
    assert (H2 : String.eqb (comps_str (c :: d)) "" = false).
    { apply String.eqb_neq. simpl. discriminate. }
    rewrite H1, H2. reflexivity.
Qed.

Section NodeInduction.

Variable P : node -> Prop.
Hypothesis P_file : forall i d m, P (File i d m).
Hypothesis P_symlink : forall t m, P (Symlink t m).
Hypothesis P_dir : forall m es, Forall (fun kv => P (snd kv)) es -> P (Dir m es).

Fixpoint node_induction (x : node) : P x :=
  match x with
  | File i d m => P_file i d m
  | Symlink t m => P_symlink t m
  | Dir m es =>
      P_dir m es
        ((fix go (es : list (string * node)) : Forall (fun kv => P (snd kv)) es :=
            match es with
            | [] => Forall_nil _
            | (k, v) :: t => Forall_cons (k, v) (node_induction v) (go t)
            end) es)
  end.

End NodeInduction.

Lemma meta_eqb_refl m : meta_eqb m m = true.
Proof. unfold meta_eqb. now rewrite !N.eqb_refl. Qed.

Lemma copy_node_is_copy own x : forall i, is_copy own x (fst (Sys.copy_node own i x)) = true.
Proof.
  induction x as [i0 d m | t m | m es IH] using node_induction; intros i.
  - simpl. now rewrite String.eqb_refl, meta_eqb_refl.
  - simpl. now rewrite String.eqb_refl, meta_eqb_refl.
  - cbn [Sys.copy_node].
    set (copy_entries :=
           fix copy_entries (i : N) (es : list (string * node)) {struct es}
             : list (string * node) * N :=
             match es with
             | [] => ([], i)
             | (k, v) :: t =>
                 let '(v', i1) := Sys.copy_node own i v in
                 let '(t', i2) := copy_entries i1 t in
                 ((k, v') :: t', i2)
             end).
    assert (H : forall j,
      (fix entries (es es' : list (string * node)) : bool :=
         match es, es' with
         | [], [] => true
         | (k, v) :: t, (k', v') :: t' =>
             String.eqb k k' && is_copy own v v' && entries t t'
         | _, _ => false
         end) es (fst (copy_entries j es)) = true).
    { induction IH as [| [k v] t Hv Ht IHt]; intros j.
      - reflexivity.
      - cbn [copy_entries]. specialize (Hv j). cbn [snd] in Hv.
        destruct (Sys.copy_node own j v) as [v' i1]. cbn [fst] in Hv.
        specialize (IHt i1). destruct (copy_entries i1 t) as [t' i2].
        cbn [fst] in IHt |- *. now rewrite String.eqb_refl, Hv, IHt. }
    specialize (H i). destruct (copy_entries i es) as [es' i'].
    cbn [fst] in H |- *. cbn [is_copy]. now rewrite meta_eqb_refl, H.
Qed.

Lemma bind_getcwd {B} (k : string -> M B) w :
  bind Os.getcwd k w = k (path_str (cwd w)) w.
Proof. reflexivity. Qed.

Lemma readlink_at root start d n t m :
  physical root d -> valid_name n = true ->
  Sys.child root d n = Some (Symlink t m) ->
  Sys.readlink (path_str (d ++ [n])%list) root start = OK t.
Proof.
  intros Hd Hn Hc. unfold Sys.readlink, llocate.
  rewrite (last_comp_at _ _ _ Hd Hn), Hn, (locate_parent_at _ _ _ _ Hd Hn).
  unfold Sys.child in Hc. now rewrite Hc, Hc.
Qed.


Lemma leaf_below root p y q :
  get root p = Some y -> is_dir y = false -> is_prefix p q = true ->
  q = p \/ get root q = None.
Proof.
  intros Hp Hy Hq. apply is_prefix_spec in Hq. destruct Hq as [rest ->].
  destruct rest as [| c rest].
  - left. apply app_nil_r.
  - right. rewrite get_app, Hp. destruct y; try discriminate; reflexivity.
Qed.

(** A directory is not at or below an entry that is no directory. *)
Lemma leaf_not_above root p y q :
  get root p = Some y -> is_dir y = false -> physical root q ->
  is_prefix p q = false.
Proof.
  intros Hp Hy [_ [m [es Hq]]].
  destruct (is_prefix p q) eqn:E; [| reflexivity].
  destruct (leaf_below _ _ _ _ Hp Hy E) as [-> | H].
  - rewrite Hp in Hq. inversion Hq. subst y. discriminate.
  - congruence.
Qed.

Lemma is_prefix_snoc_cases a b n :
  is_prefix a (b ++ [n])%list = true -> a = (b ++ [n])%list \/ is_prefix a b = true.
Proof.
  intros H. apply is_prefix_spec in H. destruct H as [rest H].
  destruct rest as [| c rest _] using rev_ind.
  - left. now rewrite app_nil_r in H.
  - right. rewrite app_assoc in H. apply app_inj_tail in H. destruct H as [-> _].
    apply is_prefix_app.
Qed.




(* ================================================================== *)
(** * C1: the links [sanitize_usr_symlinks] leaves *)
(* ================================================================== *)

Lemma valid_real_comp c : valid_name c = true -> OsPath.real_comp c = true.
Proof.
  intros H. destruct (valid_name_inv c H) as [H1 [H2 _]].
  unfold OsPath.real_comp. now rewrite H1, H2.
Qed.

Lemma filter_real_names p : names_ok p -> filter OsPath.real_comp p = p.
Proof.
  induction 1 as [| c p Hc Hp IH]; [reflexivity |].
  cbn [filter]. now rewrite (valid_real_comp c Hc), IH.
Qed.

Lemma common_prefix_app u x : OsPath.common_prefix (u ++ x)%list u = u.
Proof.
  induction u as [| c u IH]; simpl.
  - destruct x; reflexivity.
  - now rewrite String.eqb_refl, IH.
Qed.

Lemma join_comps_str u : u <> [] -> String "/" (Py.join "/" u) = comps_str u.
Proof.
  induction u as [| c u IH]; intros Hne; [congruence |].
  destruct u as [| d u].
  - simpl. now rewrite append_nil_r.
  - change (Py.join "/" (c :: d :: u)) with (c ++ String "/" (Py.join "/" (d :: u))).
    rewrite IH by discriminate. reflexivity.
Qed.

(** The common path of [usrdir] and a path written as [base/link], for a
    directory [base] at or below [usrdir] and a relative [link], is
    [usrdir], whatever [link] is: the components are compared as they
    are written. *)
Lemma commonpath_below u d link :
  names_ok u -> u <> [] -> names_ok d -> OsPath.isabs link = false ->
  OsPath.commonpath (OsPath.join (path_str (u ++ d)%list) link) (path_str u)
  = Some (path_str u).
Proof.
  intros Hu Hne Hd Hl.
  assert (Hud : names_ok (u ++ d)%list) by (apply Forall_app; now split).
  unfold OsPath.commonpath.
  rewrite (isabs_join _ _ Hud Hl).
  replace (OsPath.isabs (path_str u)) with true by (destruct u; [congruence | reflexivity]).
  cbn [Bool.eqb].
  rewrite (split_join_path_str _ _ Hud Hl).
  rewrite (path_str_comps u Hne).
  rewrite (split_comps_str u (names_ok_no_slash u Hu) Hne).
  cbn [filter]. change (OsPath.real_comp "") with false. cbv iota.
  rewrite !filter_app, (filter_real_names u Hu), <- app_assoc, common_prefix_app.
  change ("/" ++ Py.join "/" u) with (String "/" (Py.join "/" u)).
  now rewrite (join_comps_str u Hne).
Qed.

Lemma relpath_nonempty cwd path start :
  String.eqb path "" = false -> exists rel, OsPath.relpath cwd path start = Some rel.
Proof.
  intros H. unfold OsPath.relpath. rewrite H.
  destruct (_ ++ _)%list; eauto.
Qed.

(** C1, what the code does with a relative link. The loop body leaves
    every link with a relative target as it is, wherever the target
    leads: for the directory [base], at or below [usrdir], the common
    path of [base/link] and [usrdir] is [usrdir], so the link counts as
    one that points under [usr]. The tree is the same afterwards. *)
Theorem sanitize_entry_skips_relative rootdir u d name link m w :
  names_ok u -> u <> [] ->
  physical (fs w) (u ++ d)%list -> valid_name name = true ->
  Sys.child (fs w) (u ++ d)%list name = Some (Symlink link m) ->
  OsPath.isabs link = false ->
  sanitize_entry rootdir (path_str u) (path_str (u ++ d)%list) name w = (Ret tt, w).
Proof.
  intros Hu Hne Hb Hn Hc Hl. pose proof Hb as [Hbv _].
  assert (Hd : names_ok d) by (apply Forall_app in Hbv; tauto).
  unfold sanitize_entry. rewrite (join_name _ name Hbv Hn).
  unfold Os.path_islink. rewrite bind_fs_read.
  rewrite (lstat_at _ _ _ _ Hb Hn), Hc. cbn [is_symlink negb].
  unfold Os.readlink.
  rewrite (bind_fs_query_ok _ _ _ link) by (now apply (readlink_at _ _ _ _ _ m)).
  rewrite Hl.
  unfold Os.path_relpath. rewrite bind_assoc, bind_getcwd.
  destruct (relpath_nonempty (path_str (cwd w))
              (OsPath.join (path_str (u ++ d)%list) link) rootdir
              (join_nonempty _ _ Hbv Hl)) as [rel ->].
  rewrite bind_ret_l. unfold Os.path_commonpath.
  rewrite (commonpath_below u d link Hu Hne Hd Hl), bind_ret_l.
  now rewrite String.eqb_refl.
Qed.

Lemma sanitize_entry_skips_relative_witness :
  sanitize_entry "/r" "/r/usr" "/r/usr" "foo" SampleSanitize.tree
  = (Ret tt, SampleSanitize.tree).
Proof.
  apply (sanitize_entry_skips_relative "/r" SampleSanitize.usr [] "foo" "../var/x"
           (Meta 511 0 0) SampleSanitize.tree).
  - repeat constructor.
  - discriminate.
  - split; [repeat constructor | vm_compute; eauto].
  - reflexivity.
  - vm_compute. reflexivity.
  - reflexivity.
Defined.

(** C1 on the sample tree: the stage returns, and [usr/foo] is still the
    link to [../var/x]. Read from the link's directory the target is the
    regular file [/r/var/x]; relative to the root it is [var/x], whose
    top level is [var]. *)
Lemma sanitize_keeps_relative_link :
  let w := SampleSanitize.tree in
  let w' := snd (sanitize_usr_symlinks "/r" w) in
  fst (sanitize_usr_symlinks "/r" w) = Ret tt
  /\ lstat (fs w') (cwd w') "/r/usr/foo" = Some (Sample.sym "../var/x")
  /\ stat (fs w') (cwd w') (OsPath.join "/r/usr" "../var/x") = Some (Sample.reg 4 "x")
  /\ OsPath.relpath "/" (OsPath.join "/r/usr" "../var/x") "/r" = Some "var/x"
  /\ fst (get_toplevel "var/x" w') = Ret "var".
Proof. vm_compute. repeat split; reflexivity. Qed.

(** [os.makedirs] of a path whose parent directory exists makes the
    directory itself. *)
Lemma makedirs_at w b name :
  physical (fs w) b -> valid_name name = true ->
  Sys.child (fs w) b name = None ->
  exists r2,
    put (fs w) b name (Dir (Os.new_meta 511 w) []) = Some r2
    /\ forall fuel,
         Os.makedirs fuel (path_str (b ++ [name])%list) 511 w = (Ret tt, set_fs w r2).
Proof.
  intros Hb Hn Hnone. pose proof Hb as [Hbv [mb [esb Hgb]]].
  destruct (sys_mkdir_at (fs w) (cwd w) b name Hb Hn (Os.new_meta 511 w) Hnone)
    as [r2 [Hput Hmk]].
  exists r2. split; [exact Hput |]. intros fuel.
  destruct (valid_name_inv name Hn) as [Hne _].
  destruct fuel as [| fuel]; cbn [Os.makedirs];
    rewrite (split_at b name Hbv Hn), Hne;
    unfold Os.path_exists; rewrite bind_fs_read;
    rewrite (stat_path_str (fs w) (cwd w) b Hb), Hgb, andb_false_r;
    unfold Os.mkdir; apply (fs_call_ok _ w r2 Hmk).
Qed.

Lemma stat_locate root start s x :
  stat root start s = Some x ->
  exists T, locate root start s = OK T /\ get root T = Some x.
Proof.
  unfold stat. destruct (locate root start s) as [T | e]; [eauto | discriminate].
Qed.

(** Every way the [try] block can go for a link at [b/name]: it returns
    or raises an [OSError]; the tree changes at the path of the link
    only; the log and the working directory stay. *)
Lemma materialize_cases w b name link m target :
  physical (fs w) b -> valid_name name = true ->
  Sys.child (fs w) b name = Some (Symlink link m) ->
  exists r1 o w',
    del (fs w) b name = Some r1
    /\ materialize target (path_str (b ++ [name])%list) w = (o, w')
    /\ log w' = log w
    /\ (forall q, is_prefix (b ++ [name])%list q = false -> look (fs w') q = look (fs w) q)
    /\ (o = Ret tt \/ exists e, o = Raise (OSError e))
    /\ (o = Ret tt ->
        Sys.child (fs w') b name = None
        \/ (exists x, lstat r1 (cwd w) target = Some x /\ is_dir x = false
                      /\ Sys.child (fs w') b name = Some x)
        \/ (exists x y, stat r1 (cwd w) target = Some x /\ is_dir x = true
                        /\ Sys.child (fs w') b name = Some y
                        /\ is_copy (euid w, egid w) x y = true)).
Proof.
  intros Hb Hn Hc. pose proof Hb as [Hbv _].
  destruct (sys_unlink_at (fs w) (cwd w) b name Hb Hn _ Hc eq_refl) as [r1 [Hdel Hun]].
  exists r1.
  unfold materialize, Os.remove. rewrite (bind_fs_call_ok _ _ _ r1 Hun).
  set (w1 := set_fs w r1).
  assert (Fr1 : forall q, is_prefix (b ++ [name])%list q = false ->
                          look r1 q = look (fs w) q)
    by (intros q Hq; apply (del_look _ _ _ _ _ Hdel Hq)).
  assert (Hb1 : physical r1 b).
  { apply (physical_look (fs w)); [| exact Hb]. apply Fr1, is_prefix_self_snoc. }
  assert (Hnone : Sys.child r1 b name = None) by apply (del_child _ _ _ _ Hdel).
  unfold Os.path_isfile. rewrite bind_fs_read.
  change (fs w1) with r1. change (cwd w1) with (cwd w).
  destruct (stat r1 (cwd w) target) as [[ix dx mx | tx mx | mx esx] |] eqn:Estat;
    cbn [is_file].
  - (* os.link(target, p) *)
    unfold Os.link, fs_call. change (fs w1) with r1. change (cwd w1) with (cwd w).
    unfold Sys.link. rewrite (locate_parent_at r1 (cwd w) b name Hb1 Hn), Hnone.
    destruct Hb1 as [_ [mb1 [esb1 Hgb1]]].
    destruct (lstat r1 (cwd w) target) as [[iy dy my | ty my | my esy] |] eqn:El.
    + destruct (put_defined r1 b name (File iy dy my) _ _ Hgb1) as [r2 Hput].
      rewrite Hput. exists (Ret tt), (set_fs w1 r2). cbn [fs set_fs log].
      split; [exact Hdel |]. split; [reflexivity |]. split; [reflexivity |].
      split; [intros q Hq; rewrite (put_look _ _ _ _ _ _ Hput Hq); now apply Fr1 |].
      split; [now left |]. intros _. right. left.
      exists (File iy dy my). repeat split. apply (put_child _ _ _ _ _ Hput).
    + destruct (put_defined r1 b name (Symlink ty my) _ _ Hgb1) as [r2 Hput].
      rewrite Hput. exists (Ret tt), (set_fs w1 r2). cbn [fs set_fs log].
      split; [exact Hdel |]. split; [reflexivity |]. split; [reflexivity |].
      split; [intros q Hq; rewrite (put_look _ _ _ _ _ _ Hput Hq); now apply Fr1 |].
      split; [now left |]. intros _. right. left.
      exists (Symlink ty my). repeat split. apply (put_child _ _ _ _ _ Hput).
    + exists (Raise (OSError EPERM)), w1.
      split; [exact Hdel |]. split; [reflexivity |]. split; [reflexivity |].
      split; [exact Fr1 |]. split; [right; eauto | discriminate].
    + exists (Raise (OSError ENOENT)), w1.
      split; [exact Hdel |]. split; [reflexivity |]. split; [reflexivity |].
      split; [exact Fr1 |]. split; [right; eauto | discriminate].
  - (* nothing to do *)
    unfold Os.path_isdir. rewrite bind_fs_read.
    change (fs w1) with r1. change (cwd w1) with (cwd w). rewrite Estat. cbn [is_dir].
    exists (Ret tt), w1.
    split; [exact Hdel |]. split; [reflexivity |]. split; [reflexivity |].
    split; [exact Fr1 |]. split; [now left |]. intros _. now left.
  - (* shutil.copytree(target, p, symlinks=True) *)
    unfold Os.path_isdir. rewrite bind_fs_read.
    change (fs w1) with r1. change (cwd w1) with (cwd w). rewrite Estat. cbn [is_dir].
    destruct (stat_locate _ _ _ _ Estat) as [T [Hloc HT]].
    unfold Shutil.copytree.
    rewrite (bind_fs_query_ok _ _ _ (T, Dir mx esx))
      by (change (fs w1) with r1; change (cwd w1) with (cwd w); now rewrite Hloc, HT).
    destruct (makedirs_at w1 b name Hb1 Hn Hnone) as [r2 [Hput2 Hmk]].
    rewrite (bind_Ret _ _ _ _ _ (Hmk _)).
    set (w2 := set_fs w1 r2).
    assert (Fr2 : forall q, is_prefix (b ++ [name])%list q = false ->
                            look r2 q = look (fs w) q).
    { intros q Hq. rewrite (put_look _ _ _ _ _ _ Hput2 Hq). now apply Fr1. }
    assert (Hb2 : physical r2 b).
    { apply (physical_look (fs w)); [| exact Hb]. apply Fr2, is_prefix_self_snoc. }
    rewrite (bind_fs_query_ok _ _ _ (b, name))
      by (change (fs w2) with r2; apply (locate_parent_at r2 _ b name Hb2 Hn)).
    cbn [fst snd].
    destruct (is_prefix T (b ++ [name])%list).
    + exists (Raise (OSError EINVAL)), w2.
      split; [exact Hdel |]. split; [reflexivity |]. split; [reflexivity |].
      split; [exact Fr2 |]. split; [right; eauto | discriminate].
    + cbv beta.
      change (euid w2) with (euid w). change (egid w2) with (egid w).
      change (next_ino w2) with (next_ino w). change (fs w2) with r2.
      pose proof (copy_node_is_copy (euid w, egid w) (Dir mx esx) (next_ino w)) as Hcopy.
      destruct (Sys.copy_node (euid w, egid w) (next_ino w) (Dir mx esx)) as [x' i'].
      cbn [fst] in Hcopy.
      destruct Hb2 as [_ [mb2 [esb2 Hgb2]]].
      destruct (put_defined r2 b name x' _ _ Hgb2) as [r3 Hput3]. rewrite Hput3.
      exists (Ret tt), (set_fs_ino w2 r3 i'). cbn [fs set_fs_ino log].
      split; [exact Hdel |]. split; [reflexivity |]. split; [reflexivity |].
      split; [intros q Hq; rewrite (put_look _ _ _ _ _ _ Hput3 Hq); now apply Fr2 |].
      split; [now left |]. intros _. right. right.
      exists (Dir mx esx), x'. repeat split; [apply (put_child _ _ _ _ _ Hput3) | exact Hcopy].
  - (* a target that does not resolve *)
    unfold Os.path_isdir. rewrite bind_fs_read.
    change (fs w1) with r1. change (cwd w1) with (cwd w). rewrite Estat.
    exists (Ret tt), w1.
    split; [exact Hdel |]. split; [reflexivity |]. split; [reflexivity |].
    split; [exact Fr1 |]. split; [now left |]. intros _. now left.
Qed.


(* ================================================================== *)
(** * [sanitize_usr_symlinks]: what the rest of the walk leaves alone *)
(* ================================================================== *)

Lemma stable_physical t : stable (fun root => physical root t).
Proof.
  intros root root' [-> | [P [l [m [HP Hch]]]]] Ht; [exact Ht |].
  apply (physical_look root); [| exact Ht].
  apply Hch. apply (leaf_not_above root P (Symlink l m)); auto.
Qed.

Lemma stable_and Phi Psi : stable Phi -> stable Psi -> stable (fun r => Phi r /\ Psi r).
Proof. intros H1 H2 root root' Hs [Ha Hb]. split; eauto. Qed.

Lemma link_not_above_entry root P l m t d :
  get root P = Some (Symlink l m) -> physical root t ->
  (forall l' m', Sys.child root t d <> Some (Symlink l' m')) ->
  is_prefix P (t ++ [d])%list = false.
Proof.
  intros HP Ht Hd.
  destruct (is_prefix P (t ++ [d])%list) eqn:E; [| reflexivity].
  destruct (is_prefix_snoc_cases _ _ _ E) as [H | H].
  - exfalso. apply (Hd l m). unfold Sys.child. now rewrite <- H.
  - rewrite (leaf_not_above root P (Symlink l m) t HP eq_refl Ht) in H. discriminate.
Qed.

(** An empty place in a real directory stays empty. *)
Lemma stable_empty b name :
  stable (fun root => physical root b /\ Sys.child root b name = None).
Proof.
  intros root root' Hs [Hb Hn]. split; [apply (stable_physical b root root' Hs Hb) |].
  destruct Hs as [-> | [P [l [m [HP Hch]]]]]; [exact Hn |].
  assert (Hq : is_prefix P (b ++ [name])%list = false).
  { apply (link_not_above_entry root P l m); auto. intros l' m'. rewrite Hn. discriminate. }
  apply look_None. rewrite (Hch _ Hq). apply look_None. exact Hn.
Qed.

(** Entries of a real directory that are no links stay so. *)
Lemma stable_no_links t ds :
  stable (fun root => physical root t /\ forall d, In d ds -> no_link_at t d root).
Proof.
  intros root root' Hs [Ht Hd]. split; [apply (stable_physical t root root' Hs Ht) |].
  destruct Hs as [-> | [P [l [m [HP Hch]]]]]; [exact Hd |].
  intros d Hin l' m' Hc.
  assert (Hq : is_prefix P (t ++ [d])%list = false).
  { apply (link_not_above_entry root P l m); auto. apply (Hd d Hin). }
  apply (Hd d Hin l' m'). apply look_leaf; [| reflexivity].
  rewrite <- (Hch _ Hq). unfold look. unfold Sys.child in Hc. now rewrite Hc.
Qed.

(** One turn of the inner loop, on any entry of a real directory and
    however it ends, changes nothing or only what is at the place of the
    entry, a link. *)
Lemma sanitize_entry_frame rootdir usrdir b name w :
  physical (fs w) b -> valid_name name = true ->
  replaces_a_link (fs w) (fs (snd (sanitize_entry rootdir usrdir (path_str b) name w))).
Proof.
  intros Hb Hn. pose proof Hb as [Hbv _].
  unfold sanitize_entry. rewrite (join_name b name Hbv Hn).
  unfold Os.path_islink. rewrite bind_fs_read, (lstat_at _ _ _ _ Hb Hn).
  destruct (Sys.child (fs w) b name) as [[i d m | link m | m es] |] eqn:Hc;
    cbn [is_symlink negb]; try (left; reflexivity).
  unfold Os.readlink.
  rewrite (bind_fs_query_ok _ _ _ link) by (now apply (readlink_at _ _ _ _ _ m)).
  fold (entry_target rootdir (path_str b) link).
  set (target := entry_target rootdir (path_str b) link).
  unfold Os.path_relpath. rewrite bind_assoc, bind_getcwd.
  destruct (OsPath.relpath (path_str (cwd w)) target rootdir) as [rel |];
    [| left; reflexivity].
  rewrite bind_ret_l. unfold Os.path_commonpath.
  destruct (OsPath.commonpath target usrdir) as [c |]; [| left; reflexivity].
  rewrite bind_ret_l.
  destruct (String.eqb c usrdir); [left; reflexivity |].
  unfold get_toplevel. destruct (OsPath.split rel) as [head tail].
  destruct (toplevel_loop (String.length rel) head tail) as [t |]; [| left; reflexivity].
  rewrite bind_ret_l.
  destruct (negb (String.eqb t "var")); [left; reflexivity |].
  change (fs (snd (try_Exception
                     (materialize target (path_str (b ++ [name])%list)) exit_handler w))
          = fs w
          \/ exists P l m0, get (fs w) P = Some (Symlink l m0)
                            /\ changed_at P (fs w)
                                 (fs (snd (try_Exception
                                             (materialize target (path_str (b ++ [name])%list))
                                             exit_handler w)))).
  destruct (materialize_cases w b name link m target Hb Hn Hc)
    as [r1 [o [w' [_ [Hrun [_ [Hframe [Ho _]]]]]]]].
  right. exists (b ++ [name])%list, link, m. split; [exact Hc |].
  destruct Ho as [-> | [e ->]].
  - rewrite (try_Exception_Ret _ _ _ _ _ Hrun). exact Hframe.
  - rewrite (try_Exception_caught _ _ _ _ _ Hrun). exact Hframe.
Qed.

Section RestOfTheWalk.

Variables rootdir usrdir : string.

(** The loop over the entries of one real directory. *)
Lemma entries_stable t names : forall w Phi,
  (forall n, In n names -> valid_name n = true) ->
  stable Phi -> physical (fs w) t -> Phi (fs w) ->
  let w' := snd (for_each names (sanitize_entry rootdir usrdir (path_str t)) w) in
  Phi (fs w') /\ physical (fs w') t.
Proof.
  induction names as [| n rest IH]; intros w Phi Hv HPhi Ht Hw.
  - simpl. auto.
  - cbn [for_each]. unfold bind.
    pose proof (sanitize_entry_frame rootdir usrdir t n w Ht (Hv n (or_introl eq_refl)))
      as Hstep.
    destruct (sanitize_entry rootdir usrdir (path_str t) n w) as [[[] | e |] w1];
      cbn [snd] in Hstep |- *.
    + apply IH.
      * intros k Hk. apply Hv. now right.
      * exact HPhi.
      * apply (stable_physical t _ _ Hstep Ht).
      * apply (HPhi _ _ Hstep Hw).
    + split; [apply (HPhi _ _ Hstep Hw) | apply (stable_physical t _ _ Hstep Ht)].
    + split; [apply (HPhi _ _ Hstep Hw) | apply (stable_physical t _ _ Hstep Ht)].
Qed.

Lemma walk_into_reads top dirs w :
  exists sub,
    walk_into top dirs w = (Ret sub, w)
    /\ forall d, In d sub ->
         In d dirs /\ Os.path_islink (OsPath.join top d) w = (Ret false, w).
Proof.
  induction dirs as [| d rest [sub [Hrun Hsub]]].
  - exists []. split; [reflexivity | intros d []].
  - cbn [walk_into]. unfold Os.path_islink at 1. rewrite bind_fs_read.
    rewrite (bind_Ret _ _ _ _ _ Hrun).
    destruct (match lstat (fs w) (cwd w) (OsPath.join top d) with
              | Some x => is_symlink x
              | None => false
              end) eqn:E.
    + exists sub. split; [reflexivity |].
      intros k Hk. destruct (Hsub k Hk) as [H1 H2]. split; [now right | exact H2].
    + exists (d :: sub). split; [reflexivity |].
      intros k [<- | Hk].
      * split; [now left |]. unfold Os.path_islink, fs_read. now rewrite E.
      * destruct (Hsub k Hk) as [H1 H2]. split; [now right | exact H2].
Qed.

Lemma scan_at t w m es :
  physical (fs w) t -> get (fs w) t = Some (Dir m es) ->
  Os.scan (path_str t) w
  = (Ret (Some (filter (Os.entry_is_dir (fs w) t) (names es),
                filter (fun n => negb (Os.entry_is_dir (fs w) t n)) (names es))), w).
Proof.
  intros Ht Hg. unfold Os.scan, fs_read.
  now rewrite (locate_path_str _ _ _ Ht), Hg.
Qed.

(** [os.walk] skips what is no directory. *)
Lemma scan_no_dir t d w :
  physical (fs w) t -> valid_name d = true ->
  no_link_at t d (fs w) ->
  (forall m es, Sys.child (fs w) t d <> Some (Dir m es)) ->
  Os.scan (path_str (t ++ [d])%list) w = (Ret None, w).
Proof.
  intros Ht Hd Hl Hnd. unfold Os.scan, fs_read.
  rewrite (locate_at _ _ _ _ Ht Hd).
  destruct (Sys.child (fs w) t d) as [[i dt m | l m | m es] |] eqn:E.
  - unfold Sys.child in E. now rewrite E.
  - exfalso. apply (Hl l m). exact E.
  - exfalso. apply (Hnd m es). reflexivity.
  - reflexivity.
Qed.

Lemma walk_usr_unfold fuel top :
  walk_usr fuel rootdir usrdir top =
  bind (Os.scan top)
    (fun sc =>
       match sc with
       | None => ret tt
       | Some (dirs, files) =>
           bind (for_each files (sanitize_entry rootdir usrdir top))
             (fun _ =>
                bind (walk_into top dirs)
                  (fun sub =>
                     match sub with
                     | [] => ret tt
                     | _ =>
                         match fuel with
                         | O => fun w => (Diverge, w)
                         | S fuel' =>
                             for_each sub
                               (fun d => walk_usr fuel' rootdir usrdir (OsPath.join top d))
                         end
                     end))
       end).
Proof. destruct fuel; reflexivity. Qed.

(** The walk from a real directory, however far it gets, undoes no
    stable property of the tree. *)
Lemma walk_usr_stable fuel : forall t w Phi,
  stable Phi -> physical (fs w) t -> Phi (fs w) ->
  Phi (fs (snd (walk_usr fuel rootdir usrdir (path_str t) w))).
Proof.
  induction fuel as [| fuel IH]; intros t w Phi HPhi Ht Hw;
    rewrite walk_usr_unfold; pose proof Ht as [Htv [m [es Hg]]];
    rewrite (bind_Ret _ _ _ _ _ (scan_at t w m es Ht Hg));
    set (dirs := filter (Os.entry_is_dir (fs w) t) (names es));
    set (files := filter (fun n => negb (Os.entry_is_dir (fs w) t n)) (names es));
    (assert (Hfiles : forall n, In n files -> valid_name n = true)
      by (intros n Hn; apply filter_In in Hn; destruct Hn as [Hn _];
          now destruct (names_assoc es n Hn)));
    (assert (Hdirs : forall n, In n dirs -> valid_name n = true)
      by (intros n Hn; apply filter_In in Hn; destruct Hn as [Hn _];
          now destruct (names_assoc es n Hn)));
    destruct (entries_stable t files w Phi Hfiles HPhi Ht Hw) as [Hw1 Ht1];
    unfold bind at 1;
    destruct (for_each files (sanitize_entry rootdir usrdir (path_str t)) w)
      as [[[] | e |] w1]; cbn [snd] in Hw1, Ht1 |- *; try exact Hw1;
    destruct (walk_into_reads (path_str t) dirs w1) as [sub [Hrun Hsub]];
    rewrite (bind_Ret _ _ _ _ _ Hrun);
    (destruct sub as [| d0 sub0]; [exact Hw1 |]).
  - exact Hw1.
  - set (sub := d0 :: sub0) in *.
    assert (Hgood : forall d, In d sub -> valid_name d = true /\ no_link_at t d (fs w1)).
    { intros d Hd. destruct (Hsub d Hd) as [Hin Hl]. split; [now apply Hdirs |].
      intros l m' Hc.
      rewrite (join_name t d Htv (Hdirs d Hin)) in Hl.
      unfold Os.path_islink, fs_read in Hl.
      rewrite (lstat_at _ _ _ _ Ht1 (Hdirs d Hin)), Hc in Hl. discriminate. }
    clearbody sub. clear Hsub Hrun.
    revert w1 Hw1 Ht1 Hgood.
    induction sub as [| d rest IHsub]; intros w1 Hw1 Ht1 Hgood; [exact Hw1 |].
    destruct (Hgood d (or_introl eq_refl)) as [Hdv Hdl].
    assert (Hrest : forall k, In k rest -> valid_name k = true)
      by (intros k Hk; now destruct (Hgood k (or_intror Hk))).
    set (Psi := fun r => Phi r /\ (physical r t /\ forall k, In k rest -> no_link_at t k r)).
    assert (HPsi : stable Psi) by (apply stable_and; [exact HPhi | apply stable_no_links]).
    assert (Hstart : Psi (fs w1)).
    { split; [exact Hw1 |]. split; [exact Ht1 |].
      intros k Hk. now destruct (Hgood k (or_intror Hk)). }
    cbn [for_each]. rewrite (join_name t d Htv Hdv).
    assert (Hafter : Psi (fs (snd (walk_usr fuel rootdir usrdir
                                     (path_str (t ++ [d])%list) w1)))).
    { destruct (Sys.child (fs w1) t d) as [[i dt md | l md | md esd] |] eqn:Ec.
      - assert (Hnd : forall m0 es0, Sys.child (fs w1) t d <> Some (Dir m0 es0))
          by (intros m0 es0; rewrite Ec; discriminate).
        rewrite walk_usr_unfold, (bind_Ret _ _ _ _ _ (scan_no_dir t d w1 Ht1 Hdv Hdl Hnd)).
        exact Hstart.
      - exfalso. apply (Hdl l md). exact Ec.
      - apply IH; [exact HPsi | | exact Hstart].
        split; [apply Forall_app; split; [exact Htv | now constructor] |].
        unfold Sys.child in Ec. eauto.
      - assert (Hnd : forall m0 es0, Sys.child (fs w1) t d <> Some (Dir m0 es0))
          by (intros m0 es0; rewrite Ec; discriminate).
        rewrite walk_usr_unfold, (bind_Ret _ _ _ _ _ (scan_no_dir t d w1 Ht1 Hdv Hdl Hnd)).
        exact Hstart. }
    unfold bind.
    destruct (walk_usr fuel rootdir usrdir (path_str (t ++ [d])%list) w1)
      as [[[] | e |] w2]; cbn [snd] in Hafter |- *; try exact (proj1 Hafter).
    destruct Hafter as [H1 [H2 H3]].
    apply IHsub; [exact H1 | exact H2 |].
    intros k Hk. split; [now apply Hrest | now apply H3].
Qed.

End RestOfTheWalk.

(* ================================================================== *)
(** * [get_toplevel]: the first component *)
(* ================================================================== *)

Lemma cut_last_slash_plain s : Py.has_slash s = false -> Py.cut_last_slash s = ("", s).
Proof.
  destruct s as [| a r]; intros H; [reflexivity |].
  unfold Py.has_slash in H. fold Py.has_slash in H.
  apply orb_false_iff in H. destruct H as [Ha Hr].
  unfold Py.cut_last_slash. fold Py.cut_last_slash. now rewrite Hr, Ha.
Qed.

Lemma split_plain x : Py.has_slash x = false -> OsPath.split x = ("", x).
Proof. intros H. unfold OsPath.split. now rewrite (cut_last_slash_plain x H). Qed.

Lemma concat_snoc cs x :
  cs <> [] -> Py.join "/" (cs ++ [x]) = Py.join "/" cs ++ String "/" x.
Proof.
  induction cs as [| c cs IH]; intros Hne; [congruence |].
  destruct cs as [| d cs].
  - reflexivity.
  - change (Py.join "/" ((c :: d :: cs) ++ [x]))
      with (c ++ String "/" (Py.join "/" ((d :: cs) ++ [x]))).
    rewrite IH by discriminate.
    change (Py.join "/" (c :: d :: cs)) with (c ++ String "/" (Py.join "/" (d :: cs))).
    rewrite append_assoc_str. reflexivity.
Qed.

Lemma join_plain_shape c cs :
  Forall plain (c :: cs) ->
  Py.join "/" (c :: cs) <> ""
  /\ Py.endswith_slash (Py.join "/" (c :: cs)) = false
  /\ Py.startswith "/" (Py.join "/" (c :: cs)) = false.
Proof.
  revert c. induction cs as [| d cs IH]; intros c H; inversion H as [| ? ? [Hc1 Hc2] Hcs]; subst.
  - change (Py.join "/" [c]) with c. split; [exact Hc1 |].
    split; [now apply endswith_no_slash |].
    destruct c as [| a c]; [congruence |].
    unfold Py.has_slash in Hc2. fold Py.has_slash in Hc2.
    apply orb_false_iff in Hc2. destruct Hc2 as [Ha _].
    unfold Py.startswith. rewrite Ascii.eqb_sym. now rewrite Ha.
  - destruct (IH d Hcs) as [H1 [H2 _]].
    change (Py.join "/" (c :: d :: cs)) with (c ++ String "/" (Py.join "/" (d :: cs))).
    destruct c as [| a c]; [congruence |].
    split; [discriminate |]. split.
    + rewrite endswith_slash_append by discriminate.
      destruct (Py.join "/" (d :: cs)) as [| b r] eqn:E; [congruence |].
      unfold Py.endswith_slash. fold Py.endswith_slash. exact H2.
    + unfold Py.has_slash in Hc2. fold Py.has_slash in Hc2.
      apply orb_false_iff in Hc2. destruct Hc2 as [Ha _].
      change (String a c ++ String "/" (Py.join "/" (d :: cs)))
        with (String a (c ++ String "/" (Py.join "/" (d :: cs)))).
      unfold Py.startswith. rewrite Ascii.eqb_sym. now rewrite Ha.
Qed.

(** [os.path.split] takes the last component off a relative path. *)
Lemma split_join_plain c cs x :
  Forall plain (c :: cs) -> plain x ->
  OsPath.split (Py.join "/" ((c :: cs) ++ [x])) = (Py.join "/" (c :: cs), x).
Proof.
  intros Hcs [_ Hx]. destruct (join_plain_shape c cs Hcs) as [H1 [H2 _]].
  rewrite concat_snoc by discriminate.
  unfold OsPath.split. rewrite (cut_last_slash_app _ _ Hx).
  rewrite (rstrip_app_slash _ H1 H2).
  assert (E1 : String.eqb (Py.join "/" (c :: cs) ++ "/") "" = false).
  { apply String.eqb_neq. intros E. destruct (Py.join "/" (c :: cs)); discriminate. }
  assert (E2 : String.eqb (Py.join "/" (c :: cs)) "" = false) by now apply String.eqb_neq.
  now rewrite E1, E2.
Qed.

Lemma toplevel_loop_done fuel tail : toplevel_loop fuel "" tail = Some tail.
Proof. destruct fuel; reflexivity. Qed.

(** The loop of [get_toplevel] on a relative head comes down to its
    first component, given a turn for each component. *)
Lemma toplevel_loop_plain c cs : forall fuel tail,
  Forall plain (c :: cs) -> List.length cs < fuel ->
  toplevel_loop fuel (Py.join "/" (c :: cs)) tail = Some c.
Proof.
  induction cs as [| x cs IH] using rev_ind; intros fuel tail H Hf.
  - inversion H as [| ? ? [Hc1 Hc2] _]. subst.
    destruct fuel as [| fuel]; [simpl in Hf; lia |].
    change (Py.join "/" [c]) with c.
    assert (E1 : String.eqb c "/" = false).
    { apply String.eqb_neq. intros ->. discriminate. }
    assert (E2 : String.eqb c "" = false) by now apply String.eqb_neq.
    cbn [toplevel_loop]. rewrite E1, E2. cbn [negb andb].
    rewrite (split_plain c Hc2). apply toplevel_loop_done.
  - assert (Hsplit : Forall plain (c :: cs) /\ plain x).
    { change (c :: cs ++ [x])%list with ((c :: cs) ++ [x])%list in H.
      apply Forall_app in H. destruct H as [Ha Hb]. split; [exact Ha |].
      now inversion Hb. }
    destruct Hsplit as [Hcs Hx].
    rewrite length_app in Hf. simpl in Hf.
    destruct fuel as [| fuel]; [lia |].
    change (c :: cs ++ [x])%list with ((c :: cs) ++ [x])%list.
    destruct (join_plain_shape c (cs ++ [x])%list H) as [H1 [_ H3]].
    change (c :: cs ++ [x])%list with ((c :: cs) ++ [x])%list in H1, H3.
    assert (E1 : String.eqb (Py.join "/" ((c :: cs) ++ [x])) "/" = false).
    { apply String.eqb_neq. intros E. rewrite E in H3. discriminate. }
    assert (E2 : String.eqb (Py.join "/" ((c :: cs) ++ [x])) "" = false)
      by now apply String.eqb_neq.
    cbn [toplevel_loop]. rewrite E1, E2. cbn [negb andb].
    rewrite (split_join_plain c cs x Hcs Hx).
    apply IH; [exact Hcs | lia].
Qed.

Lemma length_append_str a b :
  String.length (a ++ b) = String.length a + String.length b.
Proof.
  induction a as [| x a IH]; [reflexivity |].
  change (String x a ++ b) with (String x (a ++ b)). simpl. now rewrite IH.
Qed.

Lemma join_plain_length cs :
  Forall plain cs -> List.length cs <= String.length (Py.join "/" cs).
Proof.
  induction 1 as [| c cs [Hc _] Hcs IH]; [simpl; lia |].
  destruct cs as [| d cs].
  - change (Py.join "/" [c]) with c. destruct c; [congruence | simpl; lia].
  - change (Py.join "/" (c :: d :: cs)) with (c ++ String "/" (Py.join "/" (d :: cs))).
    rewrite length_append_str. cbn [String.length List.length] in *. lia.
Qed.

Lemma get_toplevel_join c cs w :
  Forall plain (c :: cs) -> get_toplevel (Py.join "/" (c :: cs)) w = (Ret c, w).
Proof.
  intros H. unfold get_toplevel.
  destruct cs as [| x cs _] using rev_ind.
  - inversion H as [| ? ? [Hc1 Hc2] _]. subst.
    change (Py.join "/" [c]) with c. rewrite (split_plain c Hc2).
    now rewrite toplevel_loop_done.
  - assert (Hsplit : Forall plain (c :: cs) /\ plain x).
    { change (c :: cs ++ [x])%list with ((c :: cs) ++ [x])%list in H.
      apply Forall_app in H. destruct H as [Ha Hb]. split; [exact Ha |].
      now inversion Hb. }
    destruct Hsplit as [Hcs Hx].
    pose proof (join_plain_length _ H) as Hlen.
    change (c :: cs ++ [x])%list with ((c :: cs) ++ [x])%list in *.
    rewrite (split_join_plain c cs x Hcs Hx).
    rewrite toplevel_loop_plain; [reflexivity | exact Hcs |].
    rewrite length_app in Hlen. simpl in Hlen |- *. lia.
Qed.

Lemma split_on_plain s :
  Forall (fun c => Py.has_slash c = false) (Py.split_on OsPath.sep s).
Proof.
  induction s as [| a r IH]; [repeat constructor |].
  unfold Py.split_on. fold Py.split_on. unfold OsPath.sep in *.
  destruct (Ascii.eqb a "/") eqn:Ea; [constructor; [reflexivity | exact IH] |].
  destruct (Py.split_on "/" r) as [| h t].
  - constructor; [| constructor].
    unfold Py.has_slash. now rewrite Ea.
  - inversion IH as [| ? ? Hh Ht]. subst. constructor; [| exact Ht].
    unfold Py.has_slash. fold Py.has_slash. now rewrite Ea, Hh.
Qed.

Lemma filter_nonempty_plain s :
  Forall plain (filter OsPath.nonempty (Py.split_on OsPath.sep s)).
Proof.
  apply Forall_forall. intros c Hc. apply filter_In in Hc. destruct Hc as [Hin Hne].
  split.
  - intros ->. discriminate.
  - pose proof (split_on_plain s) as H. rewrite Forall_forall in H. now apply H.
Qed.

Lemma skipn_In {A} n : forall (l : list A) x, In x (skipn n l) -> In x l.
Proof.
  induction n as [| n IH]; intros l x H; [exact H |].
  destruct l as [| a l]; [exact H |]. right. now apply IH.
Qed.

Lemma plain_dotdot : plain "..".
Proof. split; [discriminate | reflexivity]. Qed.

(** The components [os.path.relpath] joins. *)
Lemma relpath_components cwd path start rel :
  OsPath.relpath cwd path start = Some rel ->
  rel = "." \/ exists c cs, Forall plain (c :: cs) /\ rel = Py.join "/" (c :: cs).
Proof.
  unfold OsPath.relpath. destruct (String.eqb path ""); [discriminate |].
  set (start_list := filter OsPath.nonempty (Py.split_on OsPath.sep (OsPath.abspath cwd start))).
  set (path_list := filter OsPath.nonempty (Py.split_on OsPath.sep (OsPath.abspath cwd path))).
  set (i := List.length (OsPath.common_prefix start_list path_list)).
  assert (H : Forall plain (repeat ".." (List.length start_list - i) ++ skipn i path_list)%list).
  { apply Forall_app. split.
    - apply Forall_forall. intros c Hc. apply repeat_spec in Hc. subst c. exact plain_dotdot.
    - apply Forall_forall. intros c Hc.
      pose proof (filter_nonempty_plain (OsPath.abspath cwd path)) as Hp.
      rewrite Forall_forall in Hp. apply Hp. exact (skipn_In _ _ _ Hc). }
  destruct (repeat ".." (List.length start_list - i) ++ skipn i path_list)%list as [| c cs];
    intros E; inversion E.
  - now left.
  - right. exists c, cs. split; [exact H | reflexivity].
Qed.

(** The top level of a path written as components with one separator
    between them, relative or absolute, is the first component; the loop
    ends. *)
Theorem get_toplevel_first_component c cs w :
  Forall plain (c :: cs) ->
  get_toplevel (Py.join "/" (c :: cs)) w = (Ret c, w)
  /\ get_toplevel (String "/" (Py.join "/" (c :: cs))) w = (Ret c, w).
Proof.
  intros H. split; [now apply get_toplevel_join |].
  assert (Hloop : forall ds fuel tail,
            Forall plain (c :: ds) -> List.length ds < fuel ->
            toplevel_loop fuel (String "/" (Py.join "/" (c :: ds))) tail = Some c).
  { induction ds as [| x ds IH] using rev_ind; intros fuel tail Hd Hf.
    - inversion Hd as [| ? ? [Hc1 Hc2] _]. subst.
      destruct fuel as [| fuel]; [simpl in Hf; lia |].
      change (Py.join "/" [c]) with c.
      assert (E1 : String.eqb (String "/" c) "/" = false).
      { apply String.eqb_neq. intros E. inversion E. congruence. }
      cbn [toplevel_loop]. rewrite E1.
      change (String.eqb (String "/" c) "") with false. cbn [negb andb].
      change (String "/" c) with ("" ++ String "/" c).
      unfold OsPath.split. rewrite (cut_last_slash_app "" c Hc2).
      change ("" ++ "/") with "/". change (Py.rstrip_slash "/") with "".
      change (String.eqb "" "") with true. change (String.eqb "/" "") with false.
      cbn [negb andb]. destruct fuel; reflexivity.
    - assert (Hsplit : Forall plain (c :: ds) /\ plain x).
      { change (c :: ds ++ [x])%list with ((c :: ds) ++ [x])%list in Hd.
        apply Forall_app in Hd. destruct Hd as [Ha Hb]. split; [exact Ha |].
        now inversion Hb. }
      destruct Hsplit as [Hds [_ Hx]].
      rewrite length_app in Hf. simpl in Hf.
      destruct fuel as [| fuel]; [lia |].
      destruct (join_plain_shape c ds Hds) as [H1 [H2 _]].
      change (c :: ds ++ [x])%list with ((c :: ds) ++ [x])%list.
      rewrite concat_snoc by discriminate.
      set (J := Py.join "/" (c :: ds)) in *.
      assert (E1 : String.eqb (String "/" (J ++ String "/" x)) "/" = false).
      { apply String.eqb_neq. intros E. inversion E as [E'].
        destruct J; discriminate. }
      cbn [toplevel_loop]. rewrite E1.
      change (String.eqb (String "/" (J ++ String "/" x)) "") with false.
      cbn [negb andb].
      change (String "/" (J ++ String "/" x)) with (String "/" J ++ String "/" x).
      unfold OsPath.split. rewrite (cut_last_slash_app _ _ Hx).
      rewrite rstrip_app_slash.
      + assert (E2 : String.eqb (String "/" J ++ "/") "" = false) by reflexivity.
        assert (E3 : String.eqb (String "/" J) "" = false) by reflexivity.
        rewrite E2, E3. cbn [negb andb]. apply IH; [exact Hds | lia].
      + discriminate.
      + destruct J as [| b r] eqn:EJ; [congruence |].
        unfold Py.endswith_slash. fold Py.endswith_slash. exact H2. }
  unfold get_toplevel.
  destruct cs as [| x cs _] using rev_ind.
  - inversion H as [| ? ? [Hc1 Hc2] _]. subst.
    change (Py.join "/" [c]) with c.
    change (String "/" c) with ("" ++ String "/" c).
    unfold OsPath.split. rewrite (cut_last_slash_app "" c Hc2).
    change ("" ++ "/") with "/". change (Py.rstrip_slash "/") with "".
    change (String.eqb "" "") with true. change (String.eqb "/" "") with false.
    cbn [negb andb]. cbn [String.length toplevel_loop String.append].
    change (String.eqb "/" "/") with true. reflexivity.
  - assert (Hsplit : Forall plain (c :: cs) /\ plain x).
    { change (c :: cs ++ [x])%list with ((c :: cs) ++ [x])%list in H.
      apply Forall_app in H. destruct H as [Ha Hb]. split; [exact Ha |].
      now inversion Hb. }
    destruct Hsplit as [Hcs [_ Hx]].
    pose proof (join_plain_length _ H) as Hlen.
    destruct (join_plain_shape c cs Hcs) as [H1 [H2 _]].
    change (c :: cs ++ [x])%list with ((c :: cs) ++ [x])%list in *.
    rewrite concat_snoc in * by discriminate.
    set (J := Py.join "/" (c :: cs)) in *.
    change (String "/" (J ++ String "/" x)) with (String "/" J ++ String "/" x).
    unfold OsPath.split. rewrite (cut_last_slash_app _ _ Hx).
    rewrite rstrip_app_slash.
    + assert (E2 : String.eqb (String "/" J ++ "/") "" = false) by reflexivity.
      assert (E3 : String.eqb (String "/" J) "" = false) by reflexivity.
      rewrite E2, E3. cbn [negb andb].
      change (String "/" J ++ String "/" x) with (String "/" (J ++ String "/" x)).
      cbn [String.length]. unfold J.
      rewrite Hloop; [reflexivity | exact Hcs |].
      rewrite length_app in Hlen. simpl in Hlen. fold J. lia.
    + discriminate.
    + destruct J as [| b r] eqn:EJ; [congruence |].
      unfold Py.endswith_slash. fold Py.endswith_slash. exact H2.
Qed.

Lemma get_toplevel_first_component_witness :
  get_toplevel (Py.join "/" [".."; "var"; "lib"]) Sample.bare_kernel
  = (Ret "..", Sample.bare_kernel)
  /\ get_toplevel (String "/" (Py.join "/" [".."; "var"; "lib"])) Sample.bare_kernel
     = (Ret "..", Sample.bare_kernel).
Proof.
  apply (get_toplevel_first_component ".." ["var"; "lib"] Sample.bare_kernel).
  repeat constructor; discriminate.
Defined.

(** The step of the sanitizer that follows [os.path.relpath]: on what
    [relpath] returns, [get_toplevel] ends and gives a component, the one
    the relative path starts with. *)
Theorem get_toplevel_of_relpath cwd path start rel w :
  OsPath.relpath cwd path start = Some rel ->
  exists t,
    get_toplevel rel w = (Ret t, w)
    /\ plain t
    /\ (rel = t \/ exists rest, rel = t ++ String "/" rest).
Proof.
  intros H. destruct (relpath_components _ _ _ _ H) as [-> | [c [cs [Hp ->]]]].
  - exists ".". split; [reflexivity |]. split; [split; [discriminate | reflexivity] |].
    now left.
  - exists c. split; [now apply get_toplevel_join |].
    split; [now inversion Hp |].
    destruct cs as [| d cs]; [now left |]. right.
    exists (Py.join "/" (d :: cs)). reflexivity.
Qed.

Lemma get_toplevel_of_relpath_witness :
  exists t,
    get_toplevel "../var/x" Sample.bare_kernel = (Ret t, Sample.bare_kernel)
    /\ plain t
    /\ ("../var/x" = t \/ exists rest, "../var/x" = t ++ String "/" rest).
Proof.
  apply (get_toplevel_of_relpath "/" "/r/var/x" "/r/usr" "../var/x" Sample.bare_kernel).
  vm_compute. reflexivity.
Defined.

Lemma toplevel_loop_slashes : forall fuel tail, toplevel_loop fuel "//" tail = None.
Proof. induction fuel as [| fuel IH]; intros tail; [reflexivity | apply IH]. Qed.

(** [os.path.split] leaves a head made of two separators as it is, so on
    a path that starts with two separators the loop of [get_toplevel]
    never ends: no number of turns is enough. *)
Theorem get_toplevel_double_slash c cs w :
  Forall plain (c :: cs) ->
  (forall fuel tail,
     toplevel_loop fuel (String "/" (String "/" (Py.join "/" (c :: cs)))) tail = None)
  /\ get_toplevel (String "/" (String "/" (Py.join "/" (c :: cs)))) w = (Diverge, w).
Proof.
  intros H.
  assert (Hsplit1 : forall x, Py.has_slash x = false ->
            OsPath.split (String "/" (String "/" x)) = ("//", x)).
  { intros x Hx. change (String "/" (String "/" x)) with ("/" ++ String "/" x).
    unfold OsPath.split. now rewrite (cut_last_slash_app "/" x Hx). }
  assert (Hsplit2 : forall d ds x, Forall plain (d :: ds) -> Py.has_slash x = false ->
            OsPath.split (String "/" (String "/" (Py.join "/" ((d :: ds) ++ [x]))))
            = (String "/" (String "/" (Py.join "/" (d :: ds))), x)).
  { intros d ds x Hd Hx. destruct (join_plain_shape d ds Hd) as [H1 [H2 _]].
    rewrite concat_snoc by discriminate.
    set (J := Py.join "/" (d :: ds)) in *.
    change (String "/" (String "/" (J ++ String "/" x)))
      with (String "/" (String "/" J) ++ String "/" x).
    unfold OsPath.split. rewrite (cut_last_slash_app _ _ Hx).
    rewrite rstrip_app_slash.
    - reflexivity.
    - discriminate.
    - destruct J as [| b r] eqn:EJ; [congruence |].
      unfold Py.endswith_slash. fold Py.endswith_slash. exact H2. }
  assert (Hloop : forall ds fuel tail, Forall plain (c :: ds) ->
            toplevel_loop fuel (String "/" (String "/" (Py.join "/" (c :: ds)))) tail = None).
  { induction ds as [| x ds IH] using rev_ind; intros fuel tail Hd.
    - inversion Hd as [| ? ? [_ Hc2] _]. subst.
      change (Py.join "/" [c]) with c.
      destruct fuel as [| fuel]; [reflexivity |].
      cbn [toplevel_loop]. change (String.eqb (String "/" (String "/" c)) "") with false.
      assert (E : String.eqb (String "/" (String "/" c)) "/" = false)
        by (apply String.eqb_neq; discriminate).
      rewrite E. cbn [negb andb]. rewrite (Hsplit1 c Hc2). apply toplevel_loop_slashes.
    - assert (Hs : Forall plain (c :: ds) /\ plain x).
      { change (c :: ds ++ [x])%list with ((c :: ds) ++ [x])%list in Hd.
        apply Forall_app in Hd. destruct Hd as [Ha Hb]. split; [exact Ha |].
        now inversion Hb. }
      destruct Hs as [Hds [_ Hx]].
      change (c :: ds ++ [x])%list with ((c :: ds) ++ [x])%list.
      destruct fuel as [| fuel]; [reflexivity |].
      cbn [toplevel_loop].
      change (String.eqb (String "/" (String "/" (Py.join "/" ((c :: ds) ++ [x])))) "")
        with false.
      assert (E : String.eqb (String "/" (String "/" (Py.join "/" ((c :: ds) ++ [x])))) "/"
                  = false) by (apply String.eqb_neq; discriminate).
      rewrite E. cbn [negb andb]. rewrite (Hsplit2 c ds x Hds Hx). now apply IH. }
  split; [intros fuel tail; now apply Hloop |].
  unfold get_toplevel.
  destruct cs as [| x cs _] using rev_ind.
  - inversion H as [| ? ? [_ Hc2] _]. subst. change (Py.join "/" [c]) with c.
    rewrite (Hsplit1 c Hc2). now rewrite toplevel_loop_slashes.
  - assert (Hs : Forall plain (c :: cs) /\ plain x).
    { change (c :: cs ++ [x])%list with ((c :: cs) ++ [x])%list in H.
      apply Forall_app in H. destruct H as [Ha Hb]. split; [exact Ha |].
      now inversion Hb. }
    destruct Hs as [Hcs [_ Hx]].
    change (c :: cs ++ [x])%list with ((c :: cs) ++ [x])%list.
    rewrite (Hsplit2 c cs x Hcs Hx). now rewrite Hloop.
Qed.

Lemma get_toplevel_double_slash_witness :
  (forall fuel tail,
     toplevel_loop fuel (String "/" (String "/" (Py.join "/" ["var"; "x"]))) tail = None)
  /\ get_toplevel (String "/" (String "/" (Py.join "/" ["var"; "x"]))) Sample.bare_kernel
     = (Diverge, Sample.bare_kernel).
Proof.
  apply (get_toplevel_double_slash "var" ["x"] Sample.bare_kernel).
  repeat constructor; discriminate.
Defined.

(* ================================================================== *)
(** * [sanitize_usr_symlinks]: what the stage leaves as it is *)
(* ================================================================== *)

(** A regular file in a real directory stays as it is. *)
Lemma stable_file t n i d m :
  stable (fun root => physical root t /\ Sys.child root t n = Some (File i d m)).
Proof.
  intros root root' Hs [Ht Hc]. split; [apply (stable_physical t root root' Hs Ht) |].
  destruct Hs as [-> | [P [l [m0 [HP Hch]]]]]; [exact Hc |].
  assert (Hq : is_prefix P (t ++ [n])%list = false).
  { apply (link_not_above_entry root P l m0); auto. intros l' m'. rewrite Hc. discriminate. }
  apply look_leaf; [| reflexivity].
  rewrite (Hch _ Hq). unfold look. unfold Sys.child in Hc. now rewrite Hc.
Qed.

Lemma sanitize_usr_symlinks_stable r w Phi :
  physical (fs w) (r ++ ["usr"])%list -> stable Phi -> Phi (fs w) ->
  Phi (fs (snd (sanitize_usr_symlinks (path_str r) w))).
Proof.
  intros Hu HPhi Hw. unfold sanitize_usr_symlinks.
  assert (Hr : names_ok r) by (destruct Hu as [Hv _]; apply Forall_app in Hv; tauto).
  rewrite (join_name r "usr" Hr eq_refl).
  now apply walk_usr_stable.
Qed.

(** Whatever [sanitize_usr_symlinks] does, and however it ends, it acts
    on symbolic links only: every real directory of the tree is a real
    directory afterwards, every regular file in a real directory is
    there unchanged (the same inode, contents, permission bits and
    owner), and a name a real directory does not have it does not get. *)
Theorem sanitize_keeps_real_entries r w :
  physical (fs w) (r ++ ["usr"])%list ->
  (forall t, physical (fs w) t ->
     physical (fs (snd (sanitize_usr_symlinks (path_str r) w))) t)
  /\ (forall t n i d m,
        physical (fs w) t -> Sys.child (fs w) t n = Some (File i d m) ->
        Sys.child (fs (snd (sanitize_usr_symlinks (path_str r) w))) t n
        = Some (File i d m))
  /\ (forall t n,
        physical (fs w) t -> Sys.child (fs w) t n = None ->
        Sys.child (fs (snd (sanitize_usr_symlinks (path_str r) w))) t n = None).
Proof.
  intros Hu. split; [| split].
  - intros t Ht. apply (sanitize_usr_symlinks_stable r w _ Hu (stable_physical t) Ht).
  - intros t n i d m Ht Hc.
    apply (sanitize_usr_symlinks_stable r w _ Hu (stable_file t n i d m) (conj Ht Hc)).
  - intros t n Ht Hc.
    apply (sanitize_usr_symlinks_stable r w _ Hu (stable_empty t n) (conj Ht Hc)).
Qed.

Lemma sanitize_keeps_real_entries_witness :
  (forall t, physical (fs SampleSanitize.tree) t ->
     physical (fs (snd (sanitize_usr_symlinks "/r" SampleSanitize.tree))) t)
  /\ (forall t n i d m,
        physical (fs SampleSanitize.tree) t ->
        Sys.child (fs SampleSanitize.tree) t n = Some (File i d m) ->
        Sys.child (fs (snd (sanitize_usr_symlinks "/r" SampleSanitize.tree))) t n
        = Some (File i d m))
  /\ (forall t n,
        physical (fs SampleSanitize.tree) t ->
        Sys.child (fs SampleSanitize.tree) t n = None ->
        Sys.child (fs (snd (sanitize_usr_symlinks "/r" SampleSanitize.tree))) t n = None).
Proof.
  apply (sanitize_keeps_real_entries ["r"] SampleSanitize.tree).
  split; [repeat constructor | vm_compute; eauto].
Defined.

(** The loop body changes nothing at all, the log included, for an entry
    that is no symbolic link and for a link that does not pass the
    tests: one that leads under [usr], or to a top level other than
    [var]. *)
Theorem sanitize_entry_keeps_others rootdir usrdir b name w :
  physical (fs w) b -> valid_name name = true ->
  (forall link m, Sys.child (fs w) b name = Some (Symlink link m) ->
                  acted_on rootdir usrdir (path_str b) link (cwd w) = false) ->
  snd (sanitize_entry rootdir usrdir (path_str b) name w) = w.
Proof.
  intros Hb Hn Hno. pose proof Hb as [Hbv _].
  unfold sanitize_entry. rewrite (join_name b name Hbv Hn).
  unfold Os.path_islink. rewrite bind_fs_read, (lstat_at _ _ _ _ Hb Hn).
  destruct (Sys.child (fs w) b name) as [[i d m | link m | m es] |] eqn:Hc;
    cbn [is_symlink negb]; try reflexivity.
  specialize (Hno link m eq_refl). unfold acted_on in Hno.
  unfold Os.readlink.
  rewrite (bind_fs_query_ok _ _ _ link) by (now apply (readlink_at _ _ _ _ _ m)).
  fold (entry_target rootdir (path_str b) link).
  set (target := entry_target rootdir (path_str b) link) in *.
  unfold Os.path_relpath. rewrite bind_assoc, bind_getcwd.
  destruct (OsPath.relpath (path_str (cwd w)) target rootdir) as [rel |]; [| reflexivity].
  rewrite bind_ret_l. unfold Os.path_commonpath.
  destruct (OsPath.commonpath target usrdir) as [c |]; [| reflexivity].
  rewrite bind_ret_l.
  destruct (String.eqb c usrdir); [reflexivity |].
  unfold get_toplevel. destruct (OsPath.split rel) as [head tail].
  destruct (toplevel_loop (String.length rel) head tail) as [t |]; [| reflexivity].
  rewrite bind_ret_l. cbn [negb andb] in Hno. rewrite Hno. reflexivity.
Qed.

Lemma sanitize_entry_keeps_others_witness :
  snd (sanitize_entry "/r" "/r/usr" "/r/usr" "e" SampleOther.tree) = SampleOther.tree.
Proof.
  apply (sanitize_entry_keeps_others "/r" "/r/usr" ["r"; "usr"] "e" SampleOther.tree).
  - split; [repeat constructor | vm_compute; eauto].
  - reflexivity.
  - intros link m H. vm_compute in H. inversion H. subst. vm_compute. reflexivity.
Defined.

(* ================================================================== *)
(** * [convert_to_ostree]: more on the loop over [TOPLEVEL_LINKS] *)
(* ================================================================== *)

Lemma toplevel_links_split :
  TOPLEVEL_LINKS = (direct_links ++ [("usr/local", "../var/usrlocal")])%list.
Proof. reflexivity. Qed.

Lemma direct_links_valid lt : In lt direct_links -> valid_name (fst lt) = true.
Proof.
  intros H. vm_compute in H.
  repeat (destruct H as [<- | H]; [reflexivity |]). destruct H.
Qed.

Lemma direct_links_nodup : NoDup (map fst direct_links).
Proof. vm_compute. repeat constructor; simpl; intuition discriminate. Qed.

(** A turn of the loop that returns found a directory at the name. *)
Lemma link_turn_found_dir r w w' l t :
  physical (fs w) r -> valid_name l = true ->
  link_turn (path_str r) r (l, t) w = (Ret tt, w') ->
  exists m es, Sys.child (fs w) r l = Some (Dir m es).
Proof.
  intros Hr Hl Hrun. pose proof Hr as [Hrv _].
  unfold link_turn, Pathlib.joinpath in Hrun. cbn [fst snd] in Hrun.
  rewrite (join_name r l Hrv Hl) in Hrun.
  unfold bind, Shutil.rmtree, fs_call in Hrun.
  destruct (Sys.rmtree (path_str (r ++ [l])%list) (fs w) (cwd w)) as [r1 | e] eqn:Erm;
    [| discriminate].
  unfold Sys.rmtree in Erm. rewrite (locate_parent_at _ _ _ _ Hr Hl) in Erm.
  destruct (Sys.child (fs w) r l) as [[i d m | tg m | m es] |]; try discriminate. eauto.
Qed.

(** The loop returns only if it found a directory at every name: each
    of the seven names directly under the root was a real directory
    before the loop. *)
Theorem toplevel_links_need_directories r w w' :
  physical (fs w) r ->
  build_toplevel_links (path_str r) w = (Ret tt, w') ->
  forall l t, In (l, t) direct_links ->
    exists m es, Sys.child (fs w) r l = Some (Dir m es).
Proof.
  intros Hr Hrun l t Hin.
  unfold build_toplevel_links in Hrun.
  apply bind_inv_Ret in Hrun. destruct Hrun as [fd [w0 [Hopen Hloop]]].
  rewrite (open_directory_at r w Hr) in Hopen. inversion Hopen. subst fd w0.
  rewrite toplevel_links_split, for_each_app in Hloop.
  apply bind_inv_Ret in Hloop. destruct Hloop as [[] [w1 [Hfirst _]]].
  destruct (in_split _ _ Hin) as [pre [post Hsplit]].
  pose proof direct_links_nodup as Hnd. pose proof direct_links_valid as Hv.
  rewrite Hsplit in Hfirst, Hnd, Hv.
  rewrite for_each_app in Hfirst. apply bind_inv_Ret in Hfirst.
  destruct Hfirst as [[] [wp [Hpre Hrest]]].
  cbn [for_each] in Hrest. apply bind_inv_Ret in Hrest.
  destruct Hrest as [[] [wl [Hturn _]]].
  rewrite map_app in Hnd. cbn [map fst] in Hnd.
  assert (Hnotin : ~ In l (map fst pre)).
  { intros Hl. apply NoDup_remove_2 in Hnd. apply Hnd. apply in_or_app. now left. }
  assert (Hndpre : NoDup (map fst pre)).
  { apply NoDup_remove_1 in Hnd. now apply NoDup_app_remove_r in Hnd. }
  destruct (simple_links r pre w wp Hr
              (fun lt H => Hv lt (in_or_app _ _ _ (or_introl H))) Hndpre Hpre)
    as [Hrp [_ Hframe]].
  assert (Hl : valid_name l = true)
    by (apply (Hv (l, t)); apply in_or_app; right; now left).
  destruct (link_turn_found_dir r wp wl l t Hrp Hl Hturn) as [m [es Hd]].
  exists m, es. now rewrite <- (Hframe l Hnotin).
Qed.

Lemma toplevel_links_need_directories_witness :
  exists m es, Sys.child (fs SampleLinks.ready) ["r"] "opt" = Some (Dir m es).
Proof.
  refine (toplevel_links_need_directories ["r"] SampleLinks.ready links_run _ _
            "opt" "var/opt" _).
  - split; [repeat constructor | vm_compute; eauto].
  - vm_compute. reflexivity.
  - vm_compute. tauto.
Defined.

(** The loop cannot be run twice: on the tree a run that returned has
    left, [shutil.rmtree] finds a symbolic link at the first name and
    raises; the second run ends in that [OSError] and changes
    nothing. *)
Theorem toplevel_links_not_twice r w w' :
  physical (fs w) r ->
  build_toplevel_links (path_str r) w = (Ret tt, w') ->
  exists e, build_toplevel_links (path_str r) w' = (Raise (OSError e), w').
Proof.
  intros Hr Hrun. unfold build_toplevel_links in Hrun.
  apply bind_inv_Ret in Hrun. destruct Hrun as [fd [w0 [Hopen Hloop]]].
  rewrite (open_directory_at r w Hr) in Hopen. inversion Hopen. subst fd w0.
  rewrite toplevel_links_split, for_each_app in Hloop.
  apply bind_inv_Ret in Hloop. destruct Hloop as [[] [w1 [Hfirst Hlast]]].
  cbn [for_each] in Hlast. apply bind_inv_Ret in Hlast.
  destruct Hlast as [[] [w2 [Hlast Hend]]]. inversion Hend. subst w2.
  destruct (simple_links r direct_links w w1 Hr direct_links_valid direct_links_nodup Hfirst)
    as [Hr1 [Hlinks _]].
  destruct (Hlinks "home" "var/home") as [m Hm]; [vm_compute; tauto |].
  destruct (deep_link_step r w1 w' _ Hr1 Hlast) as [Hr2 [_ Hframe]].
  assert (Hhome : Sys.child (fs w') r "home" = Some (Symlink "var/home" m))
    by (apply (Hframe "home" _); [discriminate | exact Hm | reflexivity]).
  exists EINVAL. unfold build_toplevel_links.
  rewrite (bind_Ret _ _ _ _ _ (open_directory_at r w' Hr2)).
  pose proof Hr2 as [Hrv _].
  change TOPLEVEL_LINKS with (("home", "var/home") :: tl TOPLEVEL_LINKS).
  cbn [for_each fst snd]. unfold Pathlib.joinpath.
  assert (Hn : valid_name "home" = true) by reflexivity.
  rewrite (join_name r "home" Hrv Hn).
  rewrite bind_assoc. unfold Shutil.rmtree.
  apply bind_fs_call_err.
  unfold Sys.rmtree. now rewrite (locate_parent_at _ _ _ _ Hr2 Hn), Hhome.
Qed.

Lemma toplevel_links_not_twice_witness :
  exists e, build_toplevel_links "/r" links_run = (Raise (OSError e), links_run).
Proof.
  apply (toplevel_links_not_twice ["r"] SampleLinks.ready links_run).
  - split; [repeat constructor | vm_compute; eauto].
  - vm_compute. reflexivity.
Defined.

(* ================================================================== *)
(** * [setup_boot]: more than one initrd, no initrd, no version directory *)
(* ================================================================== *)

(** Once an initrd or a device tree directory is held, one more of its
    class ends the loop: in an [AssertionError], or in the [ValueError]
    of a kernel image without a version that is listed before it. *)
Lemma loop_control_duplicate bootdir items : forall v,
  (initrd v <> None /\ 1 <= count is_initrd items) \/ 2 <= count is_initrd items
  \/ (dtbs v <> None /\ 1 <= count is_dtbs items) \/ 2 <= count is_dtbs items ->
  snd (loop_control bootdir v items) = Raise AssertionError
  \/ snd (loop_control bootdir v items) = Raise ValueError.
Proof.
  induction items as [| item tl IH]; intros v H.
  - unfold count in H. simpl in H. lia.
  - rewrite !count_cons in H. simpl. unfold item_control.
    destruct (is_kernel item) eqn:Ek.
    { assert (Ei : is_initrd item = false) by (unfold is_initrd; now rewrite Ek).
      assert (Ed : is_dtbs item = false) by (unfold is_dtbs; now rewrite Ek).
      rewrite Ei, Ed in H.
      destruct (is_none (vmlinuz v)); [| left; reflexivity].
      destruct (Py.split_once "-" item) as [[h0 ver0] |]; [| right; reflexivity].
      specialize (IH (BootVars (Some item) (initrd v) (dtbs v) (Some ver0))).
      destruct (loop_control bootdir _ tl) as [seen o]. simpl in *.
      apply IH. intuition lia. }
    destruct (is_initrd item) eqn:Ei.
    { assert (Ed : is_dtbs item = false) by (unfold is_dtbs; now rewrite Ek, Ei).
      rewrite Ed in H.
      destruct (initrd v) as [rd |] eqn:Ev; [left; reflexivity |]. simpl is_none. cbv iota.
      specialize (IH (BootVars (vmlinuz v) (Some item) (dtbs v) (version v))).
      destruct (loop_control bootdir _ tl) as [seen o]. simpl in *.
      apply IH.
      destruct H as [[H _] | [H | [[H1 H2] | H]]]; [congruence | | |].
      - left. split; [discriminate | lia].
      - right. right. left. split; [exact H1 | lia].
      - right. right. right. lia. }
    destruct (is_dtbs item) eqn:Ed.
    { destruct (dtbs v) as [dt |] eqn:Ev; [left; reflexivity |]. simpl is_none. cbv iota.
      specialize (IH (BootVars (vmlinuz v) (initrd v)
                        (Some (OsPath.join bootdir item)) (version v))).
      destruct (loop_control bootdir _ tl) as [seen o]. simpl in *.
      apply IH.
      destruct H as [[H1 H2] | [H | [[H _] | H]]]; [| | congruence |].
      - left. split; [exact H1 | lia].
      - right. left. lia.
      - right. right. left. split; [discriminate | lia]. }
    specialize (IH v).
    destruct (loop_control bootdir v tl) as [seen o]. simpl in *.
    apply IH. intuition lia.
Qed.

(** A boot directory that lists two or more initrds (names that start
    with [initrd.img] or [initramfs]), or two or more entries that start
    with [dtbs], stops [setup_boot] in its loop: it ends in an
    [AssertionError], or in the [ValueError] of a kernel image without a
    version listed before the second one. Nothing was renamed by then;
    only symbol maps listed before the point of failure were moved. *)
Theorem setup_boot_duplicate_entries rootdir bootdir targetdir w items :
  fst (Os.listdir bootdir (after_mkdir targetdir w)) = Ret items ->
  2 <= count is_initrd items \/ 2 <= count is_dtbs items ->
  exists seen rest e,
    items = (seen ++ rest)%list
    /\ (e = AssertionError \/ e = ValueError)
    /\ setup_boot rootdir bootdir targetdir w =
       (Raise e,
        snd (for_each (filter is_symbol_map seen) (move_as_is bootdir targetdir)
               (after_mkdir targetdir w))).
Proof.
  intros Hl Hc.
  rewrite (setup_boot_loop rootdir bootdir targetdir w items Hl).
  destruct (loop_control_prefix bootdir items no_boot_vars) as [rest Hrest].
  exists (fst (loop_control bootdir no_boot_vars items)), rest.
  assert (Hdup : snd (loop_control bootdir no_boot_vars items) = Raise AssertionError
                 \/ snd (loop_control bootdir no_boot_vars items) = Raise ValueError).
  { apply loop_control_duplicate. destruct Hc as [Hc | Hc]; [right; left; exact Hc |].
    right. right. right. exact Hc. }
  unfold bind. rewrite boot_loop_control.
  destruct Hdup as [Ha | Ha]; rewrite Ha.
  - exists AssertionError. split; [exact Hrest |]. split; [now left | reflexivity].
  - exists ValueError. split; [exact Hrest |]. split; [now right | reflexivity].
Qed.

Lemma setup_boot_duplicate_entries_witness :
  exists seen rest e,
    ["System.map-6.1.0"; "initrd.img-6.1.0"; "vmlinuz-6.1.0"; "initramfs-6.1.0.img"]
    = (seen ++ rest)%list
    /\ (e = AssertionError \/ e = ValueError)
    /\ setup_boot "/r" "/r/boot" "/r/usr/lib/modules" SampleBoot.two_initrds =
       (Raise e,
        snd (for_each (filter is_symbol_map seen)
               (move_as_is "/r/boot" "/r/usr/lib/modules")
               (after_mkdir "/r/usr/lib/modules" SampleBoot.two_initrds))).
Proof.
  apply (setup_boot_duplicate_entries "/r" "/r/boot" "/r/usr/lib/modules"
           SampleBoot.two_initrds
           ["System.map-6.1.0"; "initrd.img-6.1.0"; "vmlinuz-6.1.0"; "initramfs-6.1.0.img"]).
  - vm_compute. reflexivity.
  - left. vm_compute. lia.
Defined.

(** The moves of the symbol maps, one after the other. *)
Lemma moves_frame r w0 l : forall w,
  boot_frame r w0 w ->
  (forall s, In s l -> valid_name s = true /\ is_symbol_map s = true) ->
  exists w',
    for_each l (move_as_is (path_str (boot_dir r)) (path_str (modules_dir r))) w
      = (Ret tt, w')
    /\ boot_frame r w0 w'.
Proof.
  induction l as [| s l IH]; intros w Hinv Hl.
  - exists w. split; [reflexivity | exact Hinv].
  - destruct Hinv as [Hcwd [Hb [Ht [Hkeep [Hmod Hmaps]]]]].
    destruct (Hl s (or_introl eq_refl)) as [Hs Hsm].
    assert (Hne : boot_dir r <> modules_dir r).
    { unfold boot_dir, modules_dir. intros E. apply app_inv_head in E. discriminate. }
    destruct (move_as_is_at w (boot_dir r) (modules_dir r) s Hb Ht Hs
                ltac:(fork) Hne (fun m es => Hmaps s m es Hsm))
      as [w1 [Hrun [Hcwd1 Hfs]]].
    assert (Hinv1 : boot_frame r w0 w1).
    { destruct Hfs as [Hsame | [x [r1 [r2 [Hx [Hrep [Hdel [Hput Hfs]]]]]]]].
      - unfold boot_frame. rewrite Hsame, Hcwd1.
        exact (conj Hcwd (conj Hb (conj Ht (conj Hkeep (conj Hmod Hmaps))))).
      - unfold boot_frame. rewrite Hfs, Hcwd1. split; [exact Hcwd |].
        split.
        { apply (physical_look (fs w)); [| exact Hb].
          apply (rename_look _ _ _ _ _ _ _ _ Hdel Hput); fork. }
        split.
        { apply (physical_look (fs w)); [| exact Ht].
          apply (rename_look _ _ _ _ _ _ _ _ Hdel Hput); [fork |].
          apply is_prefix_self_snoc. }
        split.
        { intros n Hn. rewrite <- (Hkeep n Hn). rewrite !child_snoc.
          assert (Hns : s <> n) by (intros ->; congruence).
          apply (rename_get _ _ _ _ _ _ _ _ Hdel Hput); fork. }
        split.
        { intros n q Hn. rewrite <- (Hmod n q Hn).
          assert (Hns : s <> n).
          { intros ->. pose proof (Hmod n [] Hn) as Hg.
            destruct Hn as [Hn | [m [es Hn]]]; [congruence |].
            rewrite <- !child_snoc in Hg. rewrite Hn in Hg.
            destruct Hrep as [H0 | [tg [mm H0]]]; rewrite H0 in Hg; discriminate. }
          apply (rename_get _ _ _ _ _ _ _ _ Hdel Hput);
            [fork | fork | now apply is_prefix_same_dir | apply is_prefix_self_snoc]. }
        intros s' m es Hs'.
        destruct (String.eqb s s') eqn:E.
        + apply String.eqb_eq in E. subst s'.
          rewrite (rename_source _ _ _ _ _ _ _ _ Hdel Hput); [discriminate | fork | fork].
        + apply String.eqb_neq in E. rewrite child_snoc.
          rewrite (rename_get _ _ _ _ _ _ _ _ Hdel Hput); try fork.
          apply (Hmaps s' m es Hs'). }
    destruct (IH w1 Hinv1 (fun s' Hs' => Hl s' (or_intror Hs'))) as [w' [Hrun' Hinv']].
    exists w'. split; [| exact Hinv'].
    simpl. unfold bind. rewrite Hrun. exact Hrun'.
Qed.

Lemma boot_frame_refl r w :
  physical (fs w) (boot_dir r) -> physical (fs w) (modules_dir r) ->
  (forall s m es, is_symbol_map s = true ->
                  Sys.child (fs w) (boot_dir r) s <> Some (Dir m es)) ->
  boot_frame r w w.
Proof.
  intros Hb Ht Hmaps. unfold boot_frame.
  refine (conj eq_refl (conj Hb (conj Ht (conj _ (conj _ Hmaps))))); reflexivity.
Qed.

(** [setup_boot] on a listing that gives its loop no reason to fail, up
    to the first rename. *)
Lemma setup_boot_to_rename r w items k h ver :
  physical (fs w) (boot_dir r) ->
  physical (fs w) (modules_dir r) ->
  fst (Os.listdir (path_str (boot_dir r)) w) = Ret items ->
  count is_kernel items = 1 -> count is_initrd items <= 1 -> count is_dtbs items <= 1 ->
  find is_kernel items = Some k -> Py.split_once "-" k = Some (h, ver) ->
  (forall s m es, is_symbol_map s = true ->
                  Sys.child (fs w) (boot_dir r) s <> Some (Dir m es)) ->
  exists w2,
    for_each (filter is_symbol_map items)
      (move_as_is (path_str (boot_dir r)) (path_str (modules_dir r))) w = (Ret tt, w2)
    /\ boot_frame r w w2
    /\ setup_boot (path_str r) (Pathlib.joinpath (path_str r) "boot")
         (Pathlib.joinpath (path_str r) "usr/lib/modules") w
       = bind
           (try_Exception
              (Os.rename (OsPath.join (path_str (boot_dir r)) k)
                 (OsPath.join (OsPath.join (path_str (modules_dir r)) ver) "vmlinuz"))
              exit_handler)
           (fun _ =>
              match find is_initrd items with
              | None => ret tt
              | Some rd =>
                  try_Exception
                    (Os.rename (OsPath.join (path_str (boot_dir r)) rd)
                       (OsPath.join (OsPath.join (path_str (modules_dir r)) ver)
                          "initramfs.img"))
                    exit_handler
              end) w2.
Proof.
  intros Hb Ht Hl Hck Hci Hcd Hfk Hsp Hmaps.
  assert (Hr : names_ok r) by (apply physical_prefix in Hb; apply Hb).
  rewrite (joinpath_boot r Hr), (joinpath_modules r Hr).
  assert (Hmk : after_mkdir (path_str (modules_dir r)) w = w).
  { unfold modules_dir.
    change (r ++ ["usr"; "lib"; "modules"])%list
      with (r ++ ["usr"; "lib"] ++ ["modules"])%list.
    rewrite app_assoc. apply after_mkdir_exists.
    rewrite <- app_assoc. exact Ht. }
  rewrite (setup_boot_loop _ _ _ w items) by (now rewrite Hmk).
  rewrite Hmk. unfold bind at 1. rewrite boot_loop_control.
  assert (Hck1 : count is_kernel items <= 1) by lia.
  assert (Hfv : first_kernel_versioned items).
  { intros k' Hk'. rewrite Hfk in Hk'. inversion Hk'. subst k'. congruence. }
  destruct (loop_control_success (path_str (boot_dir r)) items no_boot_vars
              (or_introl eq_refl)
              (or_introl (conj eq_refl Hci))
              (or_introl (conj eq_refl Hcd)) Hck1 Hfv)
    as [v [Hloop [Hvk [Hvr Hvv]]]].
  rewrite Hloop. cbn [fst snd].
  simpl in Hvk, Hvr. rewrite Hfk in Hvk.
  specialize (Hvv eq_refl k h ver Hfk Hsp).
  destruct (moves_frame r w (filter is_symbol_map items) w) as [w2 [Hrun Hinv]].
  { now apply boot_frame_refl. }
  { intros s Hs. apply filter_In in Hs. destruct Hs as [Hin Hsm].
    split; [| exact Hsm]. now destruct (listdir_at w _ items Hb Hl s Hin). }
  exists w2. split; [exact Hrun |]. split; [exact Hinv |].
  rewrite Hrun. cbn [snd]. rewrite Hvk, Hvr, Hvv. cbn [or_empty].
  reflexivity.
Qed.

(** A boot directory with one kernel image, named with a version, and no
    initrd: when the directory [usr/lib/modules/<version>] is there and
    has no [vmlinuz], [setup_boot] returns; the kernel image is at
    [usr/lib/modules/<version>/vmlinuz] and no longer in the boot
    directory. Nothing else is put into the version directory (no
    [initramfs.img]), and every other entry of the boot directory that is
    no symbol map, the directory of device trees among them, is where it
    was. *)
Theorem setup_boot_kernel_only r ver w items k h :
  physical (fs w) (boot_dir r) ->
  physical (fs w) (version_dir r ver) ->
  fst (Os.listdir (path_str (boot_dir r)) w) = Ret items ->
  count is_kernel items = 1 -> count is_initrd items = 0 -> count is_dtbs items <= 1 ->
  find is_kernel items = Some k -> Py.split_once "-" k = Some (h, ver) ->
  (forall s m es, is_symbol_map s = true ->
                  Sys.child (fs w) (boot_dir r) s <> Some (Dir m es)) ->
  Sys.child (fs w) (version_dir r ver) "vmlinuz" = None ->
  exists w' xk,
    setup_boot (path_str r) (Pathlib.joinpath (path_str r) "boot")
      (Pathlib.joinpath (path_str r) "usr/lib/modules") w = (Ret tt, w')
    /\ Sys.child (fs w) (boot_dir r) k = Some xk
    /\ Sys.child (fs w') (version_dir r ver) "vmlinuz" = Some xk
    /\ Sys.child (fs w') (boot_dir r) k = None
    /\ (forall n, n <> "vmlinuz" ->
          Sys.child (fs w') (version_dir r ver) n = Sys.child (fs w) (version_dir r ver) n)
    /\ (forall n, n <> k -> is_symbol_map n = false ->
          Sys.child (fs w') (boot_dir r) n = Sys.child (fs w) (boot_dir r) n).
Proof.
  intros Hb Hv Hl Hck Hci Hcd Hfk Hsp Hmaps Hfree.
  assert (Ht : physical (fs w) (modules_dir r))
    by (unfold version_dir in Hv; now apply physical_prefix in Hv).
  assert (Hverv : valid_name ver = true)
    by (unfold version_dir in Hv; now apply physical_snoc_valid in Hv).
  destruct (setup_boot_to_rename r w items k h ver Hb Ht Hl Hck ltac:(lia) Hcd Hfk Hsp Hmaps)
    as [w2 [_ [Hinv Hrun]]].
  rewrite Hrun. rewrite (count_zero_find _ _ Hci).
  destruct Hinv as [_ [Hb2 [Ht2 [Hkeep [Hmod _]]]]].
  assert (Hkept : kept_name r w ver).
  { right. destruct Hv as [_ [m [es Hg]]]. exists m, es. exact Hg. }
  assert (Hv2 : physical (fs w2) (version_dir r ver)).
  { destruct Hv as [Hn [m [es Hg]]]. split; [exact Hn |]. exists m, es.
    unfold version_dir. rewrite (Hmod ver [] Hkept). exact Hg. }
  assert (Hver : forall n, Sys.child (fs w2) (version_dir r ver) n
                           = Sys.child (fs w) (version_dir r ver) n).
  { intros n. unfold Sys.child, version_dir. rewrite <- !app_assoc. cbn [app].
    apply (Hmod ver [n] Hkept). }
  destruct (find_some _ _ Hfk) as [Hkin Hkk].
  destruct (listdir_at w _ items Hb Hl k Hkin) as [Hkv [xk Hxk]].
  rewrite (join_name (modules_dir r) ver) by (apply Ht || exact Hverv).
  change (modules_dir r ++ [ver])%list with (version_dir r ver).
  destruct (try_rename_at w2 (boot_dir r) k (version_dir r ver) "vmlinuz" xk
              exit_handler Hb2 Hkv Hv2 eq_refl)
    as [r1 [r2 [Hdel1 [Hput1 Hren1]]]].
  { rewrite (Hkeep k (kernel_not_symbol_map k Hkk)). exact Hxk. }
  { fork. }
  { rewrite Hver. exact Hfree. }
  unfold bind. rewrite Hren1.
  exists (set_fs w2 r2), xk. cbn [fs set_fs].
  split; [reflexivity |]. split; [exact Hxk |].
  split; [apply (put_child _ _ _ _ _ Hput1) |].
  split; [apply (rename_source _ _ _ _ _ _ _ _ Hdel1 Hput1); fork |].
  split.
  - intros n Hn. rewrite <- (Hver n).
    rewrite (put_other_child _ _ _ _ _ _ Hput1) by congruence.
    rewrite child_snoc. rewrite (del_get_other _ _ _ _ _ Hdel1); try fork.
    reflexivity.
  - intros n Hn Hsm. rewrite <- (Hkeep n Hsm). rewrite !child_snoc.
    apply (rename_get _ _ _ _ _ _ _ _ Hdel1 Hput1); fork.
Qed.

Lemma setup_boot_kernel_only_witness :
  exists w' xk,
    setup_boot "/r" (Pathlib.joinpath "/r" "boot")
      (Pathlib.joinpath "/r" "usr/lib/modules") SampleBoot.kernel_only = (Ret tt, w')
    /\ Sys.child (fs SampleBoot.kernel_only) (boot_dir ["r"]) "vmlinuz-6.1.0-amd64" = Some xk
    /\ Sys.child (fs w') (version_dir ["r"] "6.1.0-amd64") "vmlinuz" = Some xk
    /\ Sys.child (fs w') (boot_dir ["r"]) "vmlinuz-6.1.0-amd64" = None
    /\ (forall n, n <> "vmlinuz" ->
          Sys.child (fs w') (version_dir ["r"] "6.1.0-amd64") n
          = Sys.child (fs SampleBoot.kernel_only) (version_dir ["r"] "6.1.0-amd64") n)
    /\ (forall n, n <> "vmlinuz-6.1.0-amd64" -> is_symbol_map n = false ->
          Sys.child (fs w') (boot_dir ["r"]) n
          = Sys.child (fs SampleBoot.kernel_only) (boot_dir ["r"]) n).
Proof.
  apply (setup_boot_kernel_only ["r"] "6.1.0-amd64" SampleBoot.kernel_only
           ["vmlinuz-6.1.0-amd64"; "System.map-6.1.0-amd64"; "config-6.1.0-amd64";
            "dtbs-6.1.0-amd64"]
           "vmlinuz-6.1.0-amd64" "vmlinuz").
  - split; [repeat constructor | vm_compute; eauto].
  - split; [repeat constructor | vm_compute; eauto].
  - vm_compute. reflexivity.
  - vm_compute. reflexivity.
  - vm_compute. reflexivity.
  - vm_compute. lia.
  - vm_compute. reflexivity.
  - vm_compute. reflexivity.
  - intros s m es Hs H. unfold Sys.child in H. simpl in H.
    destruct ("vmlinuz-6.1.0-amd64" =? s); [discriminate |].
    destruct ("System.map-6.1.0-amd64" =? s); [discriminate |].
    destruct ("config-6.1.0-amd64" =? s); [discriminate |].
    destruct ("dtbs-6.1.0-amd64" =? s) eqn:E; [| discriminate].
    apply String.eqb_eq in E. subst s. vm_compute in Hs. discriminate.
  - vm_compute. reflexivity.
Defined.

(** The parent directory of [d/n/m], when [d] has no entry [n]. *)
Lemma locate_parent_missing root start d n m :
  physical root d -> valid_name n = true -> valid_name m = true ->
  Sys.child root d n = None ->
  locate_parent root start (path_str ((d ++ [n]) ++ [m])%list) = Err ENOENT.
Proof.
  intros Hd Hn Hm Habs. pose proof Hd as [Hdv _].
  destruct (valid_name_inv n Hn) as [_ [_ [_ Hsn]]].
  destruct (valid_name_inv m Hm) as [_ [_ [_ Hsm]]].
  rewrite <- app_assoc. cbn [app].
  rewrite <- (join_deep d [n; m]);
    [| exact Hdv | repeat constructor; assumption | discriminate].
  change (Py.tail (comps_str [n; m])) with (n ++ String "/" (m ++ "")).
  rewrite append_nil_r.
  rewrite (locate_parent_join root start d [n] m).
  - now rewrite resolve_unfold, (walk_comps_at root d n Hd Hn), Habs.
  - exact Hd.
  - pose proof (valid_name_not_abs n Hn) as H.
    destruct n as [| a n']; [discriminate |]. exact H.
  - change (String "/" m) with (String OsPath.sep m).
    rewrite split_on_app_sep. now rewrite !split_on_no_slash by assumption.
  - exact Hm.
Qed.

(** A boot directory whose kernel image carries the version [ver], in a
    tree that has [usr/lib/modules] but no [usr/lib/modules/ver]:
    [setup_boot] does not make the directory. The rename of the kernel
    image fails with the [OSError] of a missing directory ([ENOENT]); the
    last line of the log is the f-string ["Error moving file: "] with
    that error, and the stage exits with status 1; the kernel image is
    still in the boot directory and the version directory is still
    missing. *)
Theorem setup_boot_missing_version_dir r ver w items k h :
  physical (fs w) (boot_dir r) ->
  physical (fs w) (modules_dir r) ->
  valid_name ver = true -> is_symbol_map ver = false ->
  Sys.child (fs w) (modules_dir r) ver = None ->
  fst (Os.listdir (path_str (boot_dir r)) w) = Ret items ->
  count is_kernel items = 1 -> count is_initrd items <= 1 -> count is_dtbs items <= 1 ->
  find is_kernel items = Some k -> Py.split_once "-" k = Some (h, ver) ->
  (forall s m es, is_symbol_map s = true ->
                  Sys.child (fs w) (boot_dir r) s <> Some (Dir m es)) ->
  exists w' xk,
    setup_boot (path_str r) (Pathlib.joinpath (path_str r) "boot")
      (Pathlib.joinpath (path_str r) "usr/lib/modules") w = (Raise (SystemExit 1), w')
    /\ (exists l, log w' = (l ++ [Fmt "Error moving file: " (OSError ENOENT)])%list)
    /\ Sys.child (fs w') (modules_dir r) ver = None
    /\ Sys.child (fs w) (boot_dir r) k = Some xk
    /\ Sys.child (fs w') (boot_dir r) k = Some xk.
Proof.
  intros Hb Ht Hverv Hvsm Hmiss Hl Hck Hci Hcd Hfk Hsp Hmaps.
  destruct (setup_boot_to_rename r w items k h ver Hb Ht Hl Hck Hci Hcd Hfk Hsp Hmaps)
    as [w2 [_ [Hinv Hrun]]].
  rewrite Hrun. clear Hrun.
  destruct Hinv as [_ [Hb2 [Ht2 [Hkeep [Hmod _]]]]].
  destruct (find_some _ _ Hfk) as [Hkin Hkk].
  destruct (listdir_at w _ items Hb Hl k Hkin) as [Hkv [xk Hxk]].
  assert (Hmiss2 : Sys.child (fs w2) (modules_dir r) ver = None).
  { rewrite child_snoc. change [ver] with (ver :: []).
    rewrite (Hmod ver [] (or_introl Hvsm)). exact Hmiss. }
  assert (Hren : Os.rename (OsPath.join (path_str (boot_dir r)) k)
                   (OsPath.join (OsPath.join (path_str (modules_dir r)) ver) "vmlinuz") w2
                 = (Raise (OSError ENOENT), w2)).
  { pose proof Hb2 as [Hbn _]. pose proof Ht2 as [Htn _].
    assert (Hvn : names_ok (modules_dir r ++ [ver])%list).
    { apply Forall_app. split; [exact Htn | now constructor]. }
    rewrite (join_name (boot_dir r) k Hbn Hkv).
    rewrite (join_name (modules_dir r) ver Htn Hverv).
    rewrite (join_name (modules_dir r ++ [ver])%list "vmlinuz" Hvn eq_refl).
    unfold Os.rename. apply fs_call_err. unfold Sys.rename.
    rewrite (locate_parent_at _ _ _ _ Hb2 Hkv).
    now rewrite (locate_parent_missing (fs w2) (cwd w2) (modules_dir r) ver "vmlinuz"
                   Ht2 Hverv eq_refl Hmiss2). }
  exists (snd (exit_handler (OSError ENOENT) w2)), xk.
  split.
  { unfold bind. rewrite (try_Exception_caught _ _ w2 ENOENT w2 Hren). reflexivity. }
  split; [exists (log w2); reflexivity |].
  split; [exact Hmiss2 |].
  split; [exact Hxk |].
  cbn [snd fs exit_handler]. rewrite <- Hxk.
  apply (Hkeep k (kernel_not_symbol_map k Hkk)).
Qed.

Lemma setup_boot_missing_version_dir_witness :
  exists w' xk,
    setup_boot "/r" (Pathlib.joinpath "/r" "boot")
      (Pathlib.joinpath "/r" "usr/lib/modules") Sample.no_version_dir
    = (Raise (SystemExit 1), w')
    /\ (exists l, log w' = (l ++ [Fmt "Error moving file: " (OSError ENOENT)])%list)
    /\ Sys.child (fs w') (modules_dir ["r"]) "6.1.0-amd64" = None
    /\ Sys.child (fs Sample.no_version_dir) (boot_dir ["r"]) "vmlinuz-6.1.0-amd64" = Some xk
    /\ Sys.child (fs w') (boot_dir ["r"]) "vmlinuz-6.1.0-amd64" = Some xk.
Proof.
  apply (setup_boot_missing_version_dir ["r"] "6.1.0-amd64" Sample.no_version_dir
           ["vmlinuz-6.1.0-amd64"; "initrd.img-6.1.0-amd64"]
           "vmlinuz-6.1.0-amd64" "vmlinuz").
  - split; [repeat constructor | vm_compute; eauto].
  - split; [repeat constructor | vm_compute; eauto].
  - reflexivity.
  - reflexivity.
  - reflexivity.
  - vm_compute. reflexivity.
  - vm_compute. reflexivity.
  - vm_compute. lia.
  - vm_compute. lia.
  - vm_compute. reflexivity.
  - vm_compute. reflexivity.
  - intros s m es _ H. unfold Sys.child in H. simpl in H.
    destruct ("vmlinuz-6.1.0-amd64" =? s); [discriminate |].
    destruct ("initrd.img-6.1.0-amd64" =? s); discriminate.
Defined.

(* ================================================================== *)
(** * [convert_to_ostree]: the whole conversion *)
(* ================================================================== *)

(** ** Changes at given places *)

Lemma changed_only_refl L root : changed_only L root root.
Proof. intros q _. split; reflexivity. Qed.

Lemma changed_only_trans L a b c :
  changed_only L a b -> changed_only L b c -> changed_only L a c.
Proof.
  intros H1 H2 q Hq. destruct (H1 q Hq) as [Hl1 Hg1]. destruct (H2 q Hq) as [Hl2 Hg2].
  split; [congruence |]. intros Hq'. rewrite (Hg2 Hq'). now apply Hg1.
Qed.

(** Two places above the same place are one above the other. *)
Lemma is_prefix_comparable a b c :
  is_prefix a c = true -> is_prefix b c = true ->
  is_prefix a b = true \/ is_prefix b a = true.
Proof.
  revert b c. induction a as [| x a IH]; intros b c Ha Hb; [now left |].
  destruct b as [| y b]; [now right |].
  destruct c as [| z c]; [discriminate |].
  simpl in Ha, Hb. apply andb_true_iff in Ha, Hb.
  destruct Ha as [Hx Ha], Hb as [Hy Hb].
  apply String.eqb_eq in Hx, Hy. subst y z. simpl. rewrite String.eqb_refl. simpl.
  apply (IH b c Ha Hb).
Qed.

(** A change below places of [L'] is a change below the places of [L]
    that are above them. *)
Lemma changed_only_coarser L L' a b :
  Forall (fun p' => Exists (fun p => is_prefix p p' = true) L) L' ->
  changed_only L' a b -> changed_only L a b.
Proof.
  intros Hcover H q Hq.
  assert (Hq' : Forall (fun p' => is_prefix p' q = false) L').
  { rewrite Forall_forall in *. intros p' Hp'.
    specialize (Hcover p' Hp'). rewrite Exists_exists in Hcover.
    destruct Hcover as [p [Hp Hpp']].
    destruct (is_prefix p' q) eqn:E; [| reflexivity].
    rewrite <- (Hq p Hp). symmetry. now apply (is_prefix_trans p p' q). }
  destruct (H q Hq') as [Hl Hg]. split; [exact Hl |].
  intros Hab. apply Hg.
  rewrite Forall_forall in *. intros p' Hp'.
  specialize (Hcover p' Hp'). rewrite Exists_exists in Hcover.
  destruct Hcover as [p [Hp Hpp']].
  destruct (is_prefix q p') eqn:E; [| reflexivity].
  destruct (is_prefix_comparable p q p' Hpp' E) as [H1 | H1].
  - now rewrite (Hq p Hp) in H1.
  - now rewrite (Hab p Hp) in H1.
Qed.

Lemma changed_only_put root d n x r' :
  put root d n x = Some r' -> changed_only [(d ++ [n])%list] root r'.
Proof.
  intros Hput q Hq. inversion Hq as [| ? ? H1 _]. subst.
  split; [apply (put_look _ _ _ _ _ _ Hput H1) |].
  intros Hq'. inversion Hq' as [| ? ? H2 _]. subst.
  apply (put_get_other _ _ _ _ _ _ Hput H1). now apply is_prefix_snoc_parent in H2.
Qed.

Lemma changed_only_del root d n r' :
  del root d n = Some r' -> changed_only [(d ++ [n])%list] root r'.
Proof.
  intros Hdel q Hq. inversion Hq as [| ? ? H1 _]. subst.
  split; [apply (del_look _ _ _ _ _ Hdel H1) |].
  intros Hq'. inversion Hq' as [| ? ? H2 _]. subst.
  apply (del_get_other _ _ _ _ _ Hdel H1). now apply is_prefix_snoc_parent in H2.
Qed.

Lemma changed_only_look L a b q :
  changed_only L a b -> Forall (fun p => is_prefix p q = false) L ->
  look b q = look a q.
Proof. intros H Hq. apply (H q Hq). Qed.

Lemma changed_only_get L a b q :
  changed_only L a b ->
  Forall (fun p => is_prefix p q = false) L ->
  Forall (fun p => is_prefix q p = false) L ->
  get b q = get a q.
Proof. intros H Hq Hq'. now apply (H q Hq). Qed.

Lemma changed_only_physical L a b q :
  changed_only L a b -> Forall (fun p => is_prefix p q = false) L ->
  physical a q -> physical b q.
Proof.
  intros H Hq Hp. apply (physical_look a); [| exact Hp]. now apply (changed_only_look L).
Qed.




(** ** The system calls of the conversion, at real places *)

Lemma joinpath_deep r d s :
  names_ok r -> names_ok d -> d <> [] -> s = Py.tail (comps_str d) ->
  Pathlib.joinpath (path_str r) s = path_str (r ++ d)%list.
Proof. intros Hr Hd Hne ->. unfold Pathlib.joinpath. now apply join_deep. Qed.

Lemma mkdir_run w d n md :
  physical (fs w) d -> valid_name n = true -> Sys.child (fs w) d n = None ->
  exists r',
    put (fs w) d n (Dir (Os.new_meta md w) []) = Some r'
    /\ Os.mkdir (path_str (d ++ [n])%list) md w = (Ret tt, set_fs w r').
Proof.
  intros Hd Hn Hnone.
  destruct (sys_mkdir_at (fs w) (cwd w) d n Hd Hn (Os.new_meta md w) Hnone)
    as [r' [Hput Hmk]].
  exists r'. split; [exact Hput |]. unfold Os.mkdir. now apply fs_call_ok.
Qed.



(** ** The relocation of [var] *)


(** ** The removal of the entries of [CRUFT] *)





(** ** The move of [etc] *)

(** [shutil.move] of an entry that is no link into a directory that has
    no entry of its name. *)
Lemma move_into_run w b s t x :
  physical (fs w) b -> valid_name s = true -> physical (fs w) t ->
  Sys.child (fs w) b s = Some x -> is_symlink x = false ->
  Sys.child (fs w) t s = None ->
  is_prefix (b ++ [s])%list t = false ->
  exists r1 r2,
    del (fs w) b s = Some r1 /\ put r1 t s x = Some r2
    /\ Shutil.move (path_str (b ++ [s])%list) (path_str t) w = (Ret tt, set_fs w r2).
Proof.
  intros Hb Hs Ht Hx Hxl Hfree Hpre.
  pose proof Hb as [Hbv _]. pose proof Ht as [Htv [mt [est Hgt]]].
  assert (Hpre2 : is_prefix (b ++ [s])%list (t ++ [s])%list = false).
  { destruct (is_prefix (b ++ [s])%list (t ++ [s])%list) eqn:E; [| reflexivity].
    destruct (is_prefix_snoc_cases _ _ _ E) as [H | H]; [| congruence].
    apply app_inj_tail in H. destruct H as [-> _]. congruence. }
  destruct (sys_rename_at (fs w) (cwd w) b s t s x Hb Hs Ht Hs Hx Hpre2 (or_introl Hfree))
    as [r1 [r2 [Hdel [Hput Hren]]]].
  exists r1, r2. split; [exact Hdel |]. split; [exact Hput |].
  unfold Shutil.move.
  rewrite (basename_at b s Hbv Hs), (join_name t s Htv Hs).
  unfold Os.path_isdir at 1. rewrite bind_fs_read.
  rewrite (stat_path_str _ _ _ Ht), Hgt.
  change (is_dir (Dir mt est)) with true. cbv iota.
  unfold Os.samefile at 1. rewrite bind_fs_read.
  unfold Os.path_islink at 1. rewrite bind_fs_read.
  assert (Hloc : locate (fs w) (cwd w) (path_str (b ++ [s])%list) = OK (b ++ [s])%list).
  { rewrite (locate_at _ _ _ _ Hb Hs), Hx. destruct x; try discriminate; reflexivity. }
  rewrite (lstat_at _ _ _ _ Hb Hs), Hx, Hxl, Hloc.
  rewrite (locate_path_str _ (cwd w) t Ht).
  unfold Sys.child in Hx. rewrite Hx, Hgt.
  rewrite (path_eqb_false _ _ (is_prefix_neq _ _ Hpre)), same_inode_dir_r.
  cbn [orb andb negb].
  unfold Os.path_exists at 1. rewrite bind_fs_read.
  rewrite (stat_at_absent _ _ _ _ Ht Hs Hfree).
  cbv iota.
  apply try_OSError_Ret. unfold Os.rename. now apply fs_call_ok.
Qed.

(** ** The directories [ostree] and [sysroot] *)


(** ** The loop over [TOPLEVEL_LINKS] on real directories *)




(** ** The conversion from end to end *)

Lemma bind_logging {B} s (k : unit -> M B) w :
  bind (logging_info s) k w = k tt (snd (logging_info s w)).
Proof. reflexivity. Qed.

Lemma path_str_nonempty r : String.eqb (path_str r) "" = false.
Proof. destruct r; reflexivity. Qed.



(** ** A tree that has [usr/rootdirs] already *)

Lemma convert_stops_at_rootdirs r w w1 :
  physical (fs w) (r ++ ["usr"; "rootdirs"])%list ->
  sanitize_usr_symlinks (path_str r) w = (Ret tt, w1) ->
  convert_to_ostree (path_str r) w
  = (Raise (OSError EEXIST), snd (logging_info "Moving /var to /usr/rootdirs." w1)).
Proof.
  intros Hrd Hsan.
  assert (Hu : physical (fs w) (r ++ ["usr"])%list).
  { change (r ++ ["usr"; "rootdirs"])%list with (r ++ ["usr"] ++ ["rootdirs"])%list in Hrd.
    rewrite app_assoc in Hrd. now apply physical_prefix in Hrd. }
  pose proof (sanitize_usr_symlinks_stable r w _ Hu
                (stable_physical (r ++ ["usr"; "rootdirs"])%list) Hrd) as Hrd1.
  rewrite Hsan in Hrd1. cbn [snd] in Hrd1.
  assert (Hu1 : physical (fs w1) (r ++ ["usr"])%list).
  { change (r ++ ["usr"; "rootdirs"])%list with (r ++ ["usr"] ++ ["rootdirs"])%list in Hrd1.
    rewrite app_assoc in Hrd1. now apply physical_prefix in Hrd1. }
  assert (Hrn : names_ok r).
  { destruct Hu as [H _]. apply Forall_app in H. tauto. }
  unfold convert_to_ostree. rewrite path_str_nonempty.
  change (assert (negb false)) with (@ret unit tt). rewrite bind_ret_l. cbv zeta.
  rewrite (bind_Ret _ _ _ _ _ Hsan). rewrite bind_logging. cbv beta.
  rewrite (joinpath_deep r ["usr"; "rootdirs"] "usr/rootdirs")
    by (auto; repeat constructor || discriminate).
  unfold Os.mkdir at 1. unfold bind at 1, fs_call at 1.
  change (r ++ ["usr"; "rootdirs"])%list with (r ++ ["usr"] ++ ["rootdirs"])%list.
  rewrite app_assoc.
  destruct Hrd1 as [_ [m [es Hg]]].
  change (r ++ ["usr"; "rootdirs"])%list with (r ++ ["usr"] ++ ["rootdirs"])%list in Hg.
  rewrite app_assoc in Hg.
  now rewrite (sys_mkdir_exists _ _ (r ++ ["usr"])%list "rootdirs" Hu1 eq_refl _ _ Hg).
Qed.

(** The conversion cannot be run on a tree that has a directory
    [usr/rootdirs], as a converted tree does: it never returns. When its
    first stage, on the links of [usr], returns, [os.mkdir] raises the
    [OSError] of an existing file, and the tree is as that stage left
    it. *)
Theorem convert_refuses_rootdirs r w :
  physical (fs w) (r ++ ["usr"; "rootdirs"])%list ->
  fst (convert_to_ostree (path_str r) w) <> Ret tt
  /\ (fst (sanitize_usr_symlinks (path_str r) w) = Ret tt ->
      fst (convert_to_ostree (path_str r) w) = Raise (OSError EEXIST)
      /\ fs (snd (convert_to_ostree (path_str r) w))
         = fs (snd (sanitize_usr_symlinks (path_str r) w))).
Proof.
  intros Hrd.
  destruct (sanitize_usr_symlinks (path_str r) w) as [o w1] eqn:Es.
  destruct o as [[] | e |].
  - rewrite (convert_stops_at_rootdirs r w w1 Hrd Es).
    split; [discriminate |]. intros _. split; reflexivity.
  - split; [| discriminate].
    unfold convert_to_ostree. rewrite path_str_nonempty.
    change (assert (negb false)) with (@ret unit tt). rewrite bind_ret_l. cbv zeta.
    rewrite (bind_Raise _ _ _ _ _ Es). discriminate.
  - split; [| discriminate].
    unfold convert_to_ostree. rewrite path_str_nonempty.
    change (assert (negb false)) with (@ret unit tt). rewrite bind_ret_l. cbv zeta.
    rewrite (bind_Diverge _ _ _ _ Es). discriminate.
Qed.

Lemma convert_refuses_rootdirs_witness :
  fst (convert_to_ostree "/r" SampleConvert.converted) <> Ret tt
  /\ (fst (sanitize_usr_symlinks "/r" SampleConvert.converted) = Ret tt ->
      fst (convert_to_ostree "/r" SampleConvert.converted) = Raise (OSError EEXIST)
      /\ fs (snd (convert_to_ostree "/r" SampleConvert.converted))
         = fs (snd (sanitize_usr_symlinks "/r" SampleConvert.converted))).
Proof.
  apply (convert_refuses_rootdirs ["r"] SampleConvert.converted).
  split; [repeat constructor | vm_compute; eauto].
Defined.

(* ================================================================== *)
(** * [create_tmpfile_dir]: which paths get a rule, and a missing directory *)
(* ================================================================== *)

(** The paths that get a rule line are the installed files that start
    with [/var] and are no canonical base directory, of the packages
    that list [/var] itself and are not excluded. *)
Lemma tmpfile_rule_iff cache d :
  In d (rules_of cache) <->
  exists pkg,
    In pkg cache
    /\ Py.mem "/var" (installed_files pkg) = true
    /\ Py.mem (pkg_name pkg) Constants.excluded_packages = false
    /\ In d (installed_files pkg)
    /\ Py.startswith "/var" d = true
    /\ Py.mem d base_dirs = false.
Proof.
  rewrite rules_of_flat_map, in_flat_map. split.
  - intros [pkg [Hin Hd]]. exists pkg. split; [exact Hin |].
    unfold collected in Hd.
    destruct (Py.mem "/var" (installed_files pkg)); [| destruct Hd].
    destruct (Py.mem (pkg_name pkg) Constants.excluded_packages); [destruct Hd |].
    cbn [andb negb] in Hd. apply filter_In in Hd. destruct Hd as [Hf Hr].
    unfold rule_path in Hr. apply andb_true_iff in Hr. destruct Hr as [Hs Hb].
    apply negb_true_iff in Hb. auto.
  - intros [pkg [Hin [Hv [Hx [Hf [Hs Hb]]]]]]. exists pkg. split; [exact Hin |].
    unfold collected. rewrite Hv, Hx. cbn [andb negb].
    apply filter_In. split; [exact Hf |]. unfold rule_path. now rewrite Hs, Hb.
Qed.

(** Whenever something is collected and the directory of the
    configuration file is there, with no file of that name or a regular
    one (which is removed first), [create_tmpfile_dir] returns and the
    file holds the header line followed by one rule line for each
    installed file that starts with [/var] and is no canonical base
    directory, of each package that lists [/var] itself and is not
    excluded; the lines are in the order of the cache, and a path owned
    twice has two lines. Paths of other packages get no line. *)
Theorem tmpfile_rules_written cache r w :
  physical (fs w) (conf_dir r) ->
  plain_or_absent (Sys.child (fs w) (conf_dir r) conf_name) ->
  collect_dirs cache <> [] ->
  exists w' i m,
    create_tmpfile_dir cache (path_str r) w = (Ret tt, w')
    /\ stat (fs w') (cwd w') (conf_path (path_str r))
       = Some (File i ("# Auto-genernated by apt-ostree" ++ nl
                       ++ String.concat "" (map rule_line (rules_of cache))) m)
    /\ rules_of cache
       = flat_map (fun pkg =>
                     if Py.mem "/var" (installed_files pkg)
                        && negb (Py.mem (pkg_name pkg) Constants.excluded_packages)
                     then filter (fun f => Py.startswith "/var" f
                                           && negb (Py.mem f base_dirs))
                            (installed_files pkg)
                     else []) cache
    /\ (forall d, In d (rules_of cache) <->
          exists pkg,
            In pkg cache
            /\ Py.mem "/var" (installed_files pkg) = true
            /\ Py.mem (pkg_name pkg) Constants.excluded_packages = false
            /\ In d (installed_files pkg)
            /\ Py.startswith "/var" d = true
            /\ Py.mem d base_dirs = false).
Proof.
  intros Hd Hc Hne.
  destruct (tmpfile_written cache r w Hd Hc Hne) as [w' [i [m [Hrun [_ [Hd' Hch]]]]]].
  exists w', i, m. split; [exact Hrun |]. split.
  - rewrite conf_path_str by (apply physical_prefix in Hd; apply Hd).
    rewrite (stat_at_entry _ _ _ _ Hd' conf_name_valid _ Hch eq_refl). reflexivity.
  - split; [apply rules_of_flat_map | intros d; apply tmpfile_rule_iff].
Qed.

Lemma tmpfile_rules_written_witness :
  exists w' i m,
    create_tmpfile_dir SampleTmp.with_parents "/r" SampleTmp.stale = (Ret tt, w')
    /\ stat (fs w') (cwd w') (conf_path "/r")
       = Some (File i ("# Auto-genernated by apt-ostree" ++ nl
                       ++ String.concat ""
                            (map rule_line (rules_of SampleTmp.with_parents))) m)
    /\ rules_of SampleTmp.with_parents
       = flat_map (fun pkg =>
                     if Py.mem "/var" (installed_files pkg)
                        && negb (Py.mem (pkg_name pkg) Constants.excluded_packages)
                     then filter (fun f => Py.startswith "/var" f
                                           && negb (Py.mem f base_dirs))
                            (installed_files pkg)
                     else []) SampleTmp.with_parents
    /\ (forall d, In d (rules_of SampleTmp.with_parents) <->
          exists pkg,
            In pkg SampleTmp.with_parents
            /\ Py.mem "/var" (installed_files pkg) = true
            /\ Py.mem (pkg_name pkg) Constants.excluded_packages = false
            /\ In d (installed_files pkg)
            /\ Py.startswith "/var" d = true
            /\ Py.mem d base_dirs = false).
Proof.
  apply (tmpfile_rules_written SampleTmp.with_parents ["r"] SampleTmp.stale).
  - split; [repeat constructor | vm_compute; eauto].
  - right. vm_compute. eauto.
  - discriminate.
Defined.

(** The place a path string names, when the directory before its last
    name is missing. *)
Lemma locate_missing root start d n m :
  physical root d -> valid_name n = true -> valid_name m = true ->
  Sys.child root d n = None ->
  locate root start (path_str ((d ++ [n]) ++ [m])%list) = Err ENOENT.
Proof.
  intros Hd Hn Hm Habs. pose proof Hd as [Hdv [md [es Hg]]].
  destruct (valid_name_inv n Hn) as [H1 [H2 [H3 Hsn]]].
  destruct (valid_name_inv m Hm) as [_ [_ [_ Hsm]]].
  rewrite <- app_assoc. cbn [app].
  rewrite <- (join_deep d [n; m]);
    [| exact Hdv | repeat constructor; assumption | discriminate].
  change (Py.tail (comps_str [n; m])) with (n ++ String "/" (m ++ "")).
  rewrite append_nil_r.
  rewrite locate_join.
  - change (String "/" m) with (String OsPath.sep m).
    rewrite split_on_app_sep, !split_on_no_slash by assumption.
    rewrite resolve_unfold. cbn [app walk_comps]. rewrite Hg, H1, H2, H3.
    cbn [orb]. rewrite get_child, Hg in Habs. now rewrite Habs.
  - exact Hd.
  - pose proof (valid_name_not_abs n Hn) as H.
    destruct n as [| a n']; [discriminate |]. exact H.
Qed.

(** When packages are collected but the directory [usr/lib/tmpfiles.d]
    is not there, [create_tmpfile_dir] does not make it: opening the
    configuration file for writing raises the [OSError] of a missing
    file, and nothing has changed. *)
Theorem tmpfile_missing_directory cache r w :
  physical (fs w) (r ++ ["usr"; "lib"])%list ->
  Sys.child (fs w) (r ++ ["usr"; "lib"])%list "tmpfiles.d" = None ->
  collect_dirs cache <> [] ->
  create_tmpfile_dir cache (path_str r) w = (Raise (OSError ENOENT), w).
Proof.
  intros Hd Hnone Hne.
  assert (Hr : names_ok r).
  { apply physical_prefix in Hd. apply Hd. }
  unfold create_tmpfile_dir.
  destruct (collect_dirs cache) as [| d0 dirs] eqn:Ecol; [congruence |].
  replace (Nat.eqb (List.length (d0 :: dirs)) 0) with false by reflexivity.
  rewrite conf_path_str by exact Hr.
  unfold conf_dir.
  change (r ++ ["usr"; "lib"; "tmpfiles.d"])%list
    with (r ++ ["usr"; "lib"] ++ ["tmpfiles.d"])%list.
  rewrite app_assoc.
  unfold bind at 1. unfold Pathlib.exists_, Os.path_exists, fs_read, stat.
  assert (Hn : valid_name "tmpfiles.d" = true) by reflexivity.
  rewrite (locate_missing _ _ _ _ _ Hd Hn conf_name_valid Hnone).
  unfold bind, pass, ret, Os.write_file, MAXSYMLINKS, Os.open_place.
  now rewrite (locate_parent_missing _ _ _ _ _ Hd Hn conf_name_valid Hnone).
Qed.

Lemma tmpfile_missing_directory_witness :
  create_tmpfile_dir SampleTmp.with_parents "/r" Sample.no_kernel
  = (Raise (OSError ENOENT), Sample.no_kernel).
Proof.
  apply (tmpfile_missing_directory SampleTmp.with_parents ["r"] Sample.no_kernel).
  - split; [repeat constructor | vm_compute; eauto].
  - reflexivity.
  - discriminate.
Defined.

(* ================================================================== *)
(** * [setup_boot]: where the symbol maps go *)
(* ================================================================== *)

Lemma move_step_placed r w0 w w1 s S :
  boot_frame r w0 w -> valid_name s = true -> is_symbol_map s = true ->
  move_as_is (path_str (boot_dir r)) (path_str (modules_dir r)) s w = (Ret tt, w1) ->
  placed r w0 w S -> placed r w0 w1 (s :: S).
Proof.
  intros [_ [Hb [Ht [_ [_ Hmaps]]]]] Hs Hsm Hrun Hplaced.
  assert (Hne : boot_dir r <> modules_dir r).
  { unfold boot_dir, modules_dir. intros E. apply app_inv_head in E. discriminate. }
  destruct (move_as_is_at w (boot_dir r) (modules_dir r) s Hb Ht Hs
              ltac:(fork) Hne (fun m es => Hmaps s m es Hsm))
    as [w1' [Hrun' [_ Hfs]]].
  rewrite Hrun in Hrun'. inversion Hrun'. subst w1'. clear Hrun'.
  intros s0 i d m Hsm0 Hb0 Hm0.
  destruct (Hplaced s0 i d m Hsm0 Hb0 Hm0) as [Hin Hout].
  destruct (string_dec s0 s) as [-> | Hns].
  - split; [intros _ | intros Hn; exfalso; apply Hn; now left].
    destruct (in_dec string_dec s S) as [HinS | HnotS].
    + destruct (Hin HinS) as [H1 H2].
      destruct Hfs as [Hsame | [x [r1 [r2 [Hx _]]]]]; [| congruence].
      rewrite Hsame. auto.
    + destruct (Hout HnotS) as [H1 H2].
      destruct (move_into_run w (boot_dir r) s (modules_dir r) _ Hb Hs Ht H1 eq_refl H2
                  ltac:(fork)) as [r1 [r2 [Hdel [Hput Hmove]]]].
      pose proof Hb as [Hbn _].
      unfold move_as_is in Hrun. rewrite (join_name (boot_dir r) s Hbn Hs) in Hrun.
      rewrite (try_Exception_Ret _ _ _ _ _ Hmove) in Hrun.
      inversion Hrun. cbn [fs set_fs]. split.
      * apply (put_child _ _ _ _ _ Hput).
      * apply (rename_source _ _ _ _ _ _ _ _ Hdel Hput); fork.
  - assert (Hsame : Sys.child (fs w1) (boot_dir r) s0 = Sys.child (fs w) (boot_dir r) s0
                    /\ Sys.child (fs w1) (modules_dir r) s0
                       = Sys.child (fs w) (modules_dir r) s0).
    { destruct Hfs as [Hsame | [x [r1 [r2 [_ [_ [Hdel [Hput Hfs]]]]]]]].
      - now rewrite Hsame.
      - rewrite Hfs. assert (Hns' : s <> s0) by congruence.
        rewrite !child_snoc. split.
        + apply (rename_get _ _ _ _ _ _ _ _ Hdel Hput); fork.
        + apply (rename_get _ _ _ _ _ _ _ _ Hdel Hput);
            [fork | fork | now apply is_prefix_same_dir | apply is_prefix_self_snoc]. }
    destruct Hsame as [E1 E2]. rewrite E1, E2. split.
    + intros [E | HinS]; [congruence | now apply Hin].
    + intros Hn. apply Hout. intros HinS. apply Hn. now right.
Qed.

Lemma moves_placed r w0 l : forall w w' S,
  boot_frame r w0 w ->
  (forall s, In s l -> valid_name s = true /\ is_symbol_map s = true) ->
  for_each l (move_as_is (path_str (boot_dir r)) (path_str (modules_dir r))) w
    = (Ret tt, w') ->
  placed r w0 w S -> placed r w0 w' (rev l ++ S)%list.
Proof.
  induction l as [| s l IH]; intros w w' S Hinv Hl Hrun Hplaced.
  - inversion Hrun. subst. exact Hplaced.
  - cbn [for_each] in Hrun. apply bind_inv_Ret in Hrun.
    destruct Hrun as [[] [w1 [Hstep Hrest]]].
    destruct (Hl s (or_introl eq_refl)) as [Hs Hsm].
    assert (Hinv1 : boot_frame r w0 w1).
    { destruct (moves_frame r w0 [s] w Hinv) as [w1' [Hrun1 Hinv1]].
      - intros s' [<- | []]. auto.
      - cbn [for_each] in Hrun1. rewrite (bind_Ret _ _ _ _ _ Hstep) in Hrun1.
        inversion Hrun1. subst w1'. exact Hinv1. }
    cbn [rev]. rewrite <- app_assoc. cbn [app].
    apply (IH w1 w' (s :: S) Hinv1 (fun s' H => Hl s' (or_intror H)) Hrest).
    apply (move_step_placed r w0 w w1 s S Hinv Hs Hsm Hstep Hplaced).
Qed.

(** What a rename that went through has changed. *)
Lemma try_rename_effect w ds ns dd nd w' :
  physical (fs w) ds -> valid_name ns = true ->
  physical (fs w) dd -> valid_name nd = true ->
  try_Exception
    (Os.rename (OsPath.join (path_str ds) ns) (OsPath.join (path_str dd) nd))
    exit_handler w = (Ret tt, w') ->
  changed_only [(ds ++ [ns])%list; (dd ++ [nd])%list] (fs w) (fs w').
Proof.
  intros Hds Hns Hdd Hnd Hrun.
  rewrite (join_name ds ns) in Hrun by (apply Hds || exact Hns).
  rewrite (join_name dd nd) in Hrun by (apply Hdd || exact Hnd).
  unfold try_Exception, Os.rename, fs_call in Hrun.
  destruct (Sys.rename _ _ (fs w) (cwd w)) as [r' | e] eqn:Eren;
    [| cbv in Hrun; discriminate].
  inversion Hrun. subst w'. cbn [fs set_fs]. clear Hrun.
  unfold Sys.rename in Eren.
  rewrite (locate_parent_at _ _ _ _ Hds Hns), (locate_parent_at _ _ _ _ Hdd Hnd) in Eren.
  destruct (Sys.child (fs w) ds ns) as [x |]; [| discriminate].
  assert (Hmove :
    match del (fs w) ds ns with
    | Some r1 => match put r1 dd nd x with Some r2 => OK r2 | None => Err ENOENT end
    | None => Err ENOENT
    end = OK r' ->
    changed_only [(ds ++ [ns])%list; (dd ++ [nd])%list] (fs w) r').
  { destruct (del (fs w) ds ns) as [r1 |] eqn:Edel; [| discriminate].
    destruct (put r1 dd nd x) as [r2 |] eqn:Eput; [| discriminate].
    intros E. inversion E. subst r2.
    apply (changed_only_trans _ _ r1).
    - refine (changed_only_coarser _ _ _ _ _ (changed_only_del _ _ _ _ Edel)).
      apply Forall_cons; [| apply Forall_nil]. apply Exists_cons_hd, is_prefix_refl.
    - refine (changed_only_coarser _ _ _ _ _ (changed_only_put _ _ _ _ _ Eput)).
      apply Forall_cons; [| apply Forall_nil].
      apply Exists_cons_tl, Exists_cons_hd, is_prefix_refl. }
  destruct (Sys.path_eqb (ds ++ [ns])%list (dd ++ [nd])%list);
    [inversion Eren; apply changed_only_refl |].
  destruct (is_prefix (ds ++ [ns])%list (dd ++ [nd])%list); [discriminate |].
  destruct (Sys.child (fs w) dd nd) as [[i d m | t m | m es] |].
  - destruct (is_dir x); [discriminate |].
    destruct (Sys.same_inode x (File i d m));
      [inversion Eren; apply changed_only_refl | now apply Hmove].
  - destruct (is_dir x); [discriminate |].
    destruct (Sys.same_inode x (Symlink t m));
      [inversion Eren; apply changed_only_refl | now apply Hmove].
  - destruct (is_dir x); [| discriminate].
    destruct (names es); [now apply Hmove | discriminate].
  - now apply Hmove.
Qed.

(** Where [setup_boot] puts a symbol map. On a boot directory that
    gives the loop no reason to fail, with the version directory in
    place, a run that returns has moved every listed symbol map that was
    a regular file, and whose name was free in [usr/lib/modules], to
    [usr/lib/modules] itself, under its own name: it is no longer in the
    boot directory, and it is not put into the directory of the kernel
    version, where the kernel image goes. *)
Theorem setup_boot_symbol_maps r ver w w' items k h s i d m :
  physical (fs w) (boot_dir r) ->
  physical (fs w) (version_dir r ver) ->
  fst (Os.listdir (path_str (boot_dir r)) w) = Ret items ->
  count is_kernel items = 1 -> count is_initrd items <= 1 -> count is_dtbs items <= 1 ->
  find is_kernel items = Some k -> Py.split_once "-" k = Some (h, ver) ->
  (forall s m es, is_symbol_map s = true ->
                  Sys.child (fs w) (boot_dir r) s <> Some (Dir m es)) ->
  setup_boot (path_str r) (Pathlib.joinpath (path_str r) "boot")
    (Pathlib.joinpath (path_str r) "usr/lib/modules") w = (Ret tt, w') ->
  In s items -> is_symbol_map s = true ->
  Sys.child (fs w) (boot_dir r) s = Some (File i d m) ->
  Sys.child (fs w) (modules_dir r) s = None ->
  Sys.child (fs w') (modules_dir r) s = Some (File i d m)
  /\ Sys.child (fs w') (boot_dir r) s = None
  /\ Sys.child (fs w') (version_dir r ver) s = Sys.child (fs w) (version_dir r ver) s.
Proof.
  intros Hb Hv Hl Hck Hci Hcd Hfk Hsp Hmaps Hrun Hin Hsm Hfile Hfree.
  assert (Ht : physical (fs w) (modules_dir r))
    by (unfold version_dir in Hv; now apply physical_prefix in Hv).
  assert (Hverv : valid_name ver = true)
    by (unfold version_dir in Hv; now apply physical_snoc_valid in Hv).
  assert (Hsv : s <> ver).
  { intros ->. destruct Hv as [_ [mv [esv Hg]]]. unfold version_dir in Hg.
    rewrite <- child_snoc in Hg. congruence. }
  destruct (find_some _ _ Hfk) as [Hkin Hkk].
  destruct (listdir_at w _ items Hb Hl k Hkin) as [Hkv _].
  assert (Hsk : s <> k).
  { intros ->. rewrite (kernel_not_symbol_map k Hkk) in Hsm. discriminate. }
  assert (Hsn : s <> "vmlinuz" /\ s <> "initramfs.img").
  { split; intros ->; discriminate. }
  destruct Hsn as [Hsn1 Hsn2].
  (* the loop *)
  destruct (setup_boot_to_rename r w items k h ver Hb Ht Hl Hck Hci Hcd Hfk Hsp Hmaps)
    as [w2 [Hmoves [Hinv Heq]]].
  rewrite Heq in Hrun. clear Heq.
  assert (Hmapsl : forall s0, In s0 (filter is_symbol_map items) ->
                     valid_name s0 = true /\ is_symbol_map s0 = true).
  { intros s0 Hs0. apply filter_In in Hs0. destruct Hs0 as [Hin0 Hsm0].
    split; [| exact Hsm0]. now destruct (listdir_at w _ items Hb Hl s0 Hin0). }
  assert (Hplaced : placed r w w2 (rev (filter is_symbol_map items) ++ [])%list).
  { apply (moves_placed r w _ w w2 [] (boot_frame_refl r w Hb Ht Hmaps) Hmapsl Hmoves).
    intros s0 i0 d0 m0 _ H1 H2. split; [intros [] | auto]. }
  destruct (Hplaced s i d m Hsm Hfile Hfree) as [Hmoved _].
  destruct Hmoved as [Hm2 Hb2].
  { rewrite app_nil_r. apply in_rev. rewrite rev_involutive.
    apply filter_In. auto. }
  destruct Hinv as [_ [Hbp2 [Htp2 [_ [Hmod _]]]]].
  assert (Hkept : kept_name r w ver).
  { right. destruct Hv as [_ [mv [esv Hg]]]. exists mv, esv. exact Hg. }
  assert (Hv2 : physical (fs w2) (version_dir r ver)).
  { destruct Hv as [Hn [mv [esv Hg]]]. split; [exact Hn |]. exists mv, esv.
    unfold version_dir. rewrite (Hmod ver [] Hkept). exact Hg. }
  assert (Hvs2 : Sys.child (fs w2) (version_dir r ver) s
                 = Sys.child (fs w) (version_dir r ver) s).
  { unfold Sys.child, version_dir. rewrite <- !app_assoc. cbn [app].
    apply (Hmod ver [s] Hkept). }
  (* the renames *)
  apply bind_inv_Ret in Hrun. destruct Hrun as [[] [w3 [Hren1 Hrest]]].
  rewrite (join_name (modules_dir r) ver) in Hren1, Hrest by (apply Ht || exact Hverv).
  change (modules_dir r ++ [ver])%list with (version_dir r ver) in Hren1, Hrest.
  pose proof (try_rename_effect w2 (boot_dir r) k (version_dir r ver) "vmlinuz" w3
                Hbp2 Hkv Hv2 eq_refl Hren1) as Hch1.
  assert (Hfacts3 : Sys.child (fs w3) (modules_dir r) s = Some (File i d m)
                    /\ Sys.child (fs w3) (boot_dir r) s = None
                    /\ Sys.child (fs w3) (version_dir r ver) s
                       = Sys.child (fs w) (version_dir r ver) s).
  { rewrite <- Hm2, <- Hb2, <- Hvs2. unfold Sys.child.
    repeat split; apply (changed_only_get _ _ _ _ Hch1);
      (apply Forall_cons; [| apply Forall_cons; [| apply Forall_nil]]); fork. }
  destruct (find is_initrd items) as [rd |] eqn:Efr.
  - destruct (find_some _ _ Efr) as [Hrin Hrr].
    destruct (listdir_at w _ items Hb Hl rd Hrin) as [Hrv _].
    assert (Hsr : s <> rd).
    { intros ->. rewrite (initrd_not_symbol_map rd Hrr) in Hsm. discriminate. }
    assert (Hbp3 : physical (fs w3) (boot_dir r)).
    { apply (changed_only_physical _ _ _ _ Hch1); [| exact Hbp2].
      apply Forall_cons; [| apply Forall_cons; [| apply Forall_nil]]; fork. }
    assert (Hv3 : physical (fs w3) (version_dir r ver)).
    { apply (changed_only_physical _ _ _ _ Hch1); [| exact Hv2].
      apply Forall_cons; [| apply Forall_cons; [| apply Forall_nil]];
        [fork | apply is_prefix_self_snoc]. }
    pose proof (try_rename_effect w3 (boot_dir r) rd (version_dir r ver) "initramfs.img" w'
                  Hbp3 Hrv Hv3 eq_refl Hrest) as Hch2.
    destruct Hfacts3 as [F1 [F2 F3]]. rewrite <- F1, <- F2, <- F3. unfold Sys.child.
    repeat split; apply (changed_only_get _ _ _ _ Hch2);
      (apply Forall_cons; [| apply Forall_cons; [| apply Forall_nil]]); fork.
  - inversion Hrest. subst w'. exact Hfacts3.
Qed.

Lemma setup_boot_symbol_maps_witness :
  let w' := snd (setup_boot "/r" (Pathlib.joinpath "/r" "boot")
                   (Pathlib.joinpath "/r" "usr/lib/modules") Sample.with_version_dir) in
  Sys.child (fs w') (modules_dir ["r"]) "System.map-6.1.0-amd64"
  = Some (File 3 "map" (Meta 420 0 0))
  /\ Sys.child (fs w') (boot_dir ["r"]) "System.map-6.1.0-amd64" = None
  /\ Sys.child (fs w') (version_dir ["r"] "6.1.0-amd64") "System.map-6.1.0-amd64"
     = Sys.child (fs Sample.with_version_dir) (version_dir ["r"] "6.1.0-amd64")
         "System.map-6.1.0-amd64".
Proof.
  apply (setup_boot_symbol_maps ["r"] "6.1.0-amd64" Sample.with_version_dir _
           ["vmlinuz-6.1.0-amd64"; "System.map-6.1.0-amd64"; "initrd.img-6.1.0-amd64"]
           "vmlinuz-6.1.0-amd64" "vmlinuz" "System.map-6.1.0-amd64" 3%N "map"
           (Meta 420 0 0)).
  - split; [repeat constructor | vm_compute; eauto].
  - split; [repeat constructor | vm_compute; eauto].
  - vm_compute. reflexivity.
  - vm_compute. reflexivity.
  - vm_compute. lia.
  - vm_compute. lia.
  - vm_compute. reflexivity.
  - vm_compute. reflexivity.
  - intros s m es _ H. unfold Sys.child in H. simpl in H.
    destruct ("vmlinuz-6.1.0-amd64" =? s); [discriminate |].
    destruct ("System.map-6.1.0-amd64" =? s); [discriminate |].
    destruct ("initrd.img-6.1.0-amd64" =? s); discriminate.
  - vm_compute. reflexivity.
  - vm_compute. tauto.
  - vm_compute. reflexivity.
  - vm_compute. reflexivity.
  - vm_compute. reflexivity.
Defined.

(* ================================================================== *)
(** * [sanitize_usr_symlinks]: a tree without links *)
(* ================================================================== *)

Lemma link_free_assoc m es d x :
  link_free (Dir m es) = true -> assoc d es = Some x -> link_free x = true.
Proof.
  induction es as [| [k v] es IH]; intros Hf Ha; [discriminate |].
  cbn [link_free] in Hf. apply andb_true_iff in Hf. destruct Hf as [Hv Hrest].
  cbn [assoc] in Ha. destruct (String.eqb k d).
  - inversion Ha. subst. exact Hv.
  - apply IH; [exact Hrest | exact Ha].
Qed.

Lemma depth_assoc m es d x :
  assoc d es = Some x -> S (depth x) <= depth (Dir m es).
Proof.
  induction es as [| [k v] es IH]; intros Ha; [discriminate |].
  cbn [assoc] in Ha.
  change (depth (Dir m ((k, v) :: es))) with (Nat.max (S (depth v)) (depth (Dir m es))).
  destruct (String.eqb k d).
  - inversion Ha. subst. apply Nat.le_max_l.
  - specialize (IH Ha). lia.
Qed.

Lemma depth_get root p : forall x, get root p = Some x -> depth x <= depth root.
Proof.
  revert root. induction p as [| c p IH]; intros root x Hg.
  - inversion Hg. lia.
  - cbn [get] in Hg. destruct root as [i d m | t m | m es]; try discriminate.
    destruct (assoc c es) as [y |] eqn:Ea; [| discriminate].
    specialize (IH y x Hg). pose proof (depth_assoc m es c y Ea). lia.
Qed.

Lemma for_each_id {A} (l : list A) (f : A -> M unit) w :
  (forall x, In x l -> f x w = (Ret tt, w)) -> for_each l f w = (Ret tt, w).
Proof.
  induction l as [| x l IH]; intros H; [reflexivity |].
  cbn [for_each]. rewrite (bind_Ret _ _ _ _ _ (H x (or_introl eq_refl))).
  apply IH. intros y Hy. apply H. now right.
Qed.

Section LinkFreeWalk.

Variables rootdir usrdir : string.

Lemma sanitize_entry_no_link t n w :
  physical (fs w) t -> valid_name n = true ->
  (forall l m, Sys.child (fs w) t n <> Some (Symlink l m)) ->
  sanitize_entry rootdir usrdir (path_str t) n w = (Ret tt, w).
Proof.
  intros Ht Hn Hno. pose proof Ht as [Htv _].
  unfold sanitize_entry. rewrite (join_name t n Htv Hn).
  unfold Os.path_islink. rewrite bind_fs_read, (lstat_at _ _ _ _ Ht Hn).
  destruct (Sys.child (fs w) t n) as [[i d m | l m | m es] |] eqn:Hc;
    cbn [is_symlink negb]; try reflexivity.
  exfalso. apply (Hno l m). reflexivity.
Qed.

Lemma walk_into_no_links t dirs w :
  physical (fs w) t ->
  (forall d, In d dirs ->
     valid_name d = true /\ forall l m, Sys.child (fs w) t d <> Some (Symlink l m)) ->
  walk_into (path_str t) dirs w = (Ret dirs, w).
Proof.
  intros Ht. pose proof Ht as [Htv _].
  induction dirs as [| d rest IH]; intros Hd; [reflexivity |].
  destruct (Hd d (or_introl eq_refl)) as [Hdv Hno].
  cbn [walk_into]. unfold Os.path_islink at 1. rewrite bind_fs_read.
  rewrite (join_name t d Htv Hdv), (lstat_at _ _ _ _ Ht Hdv).
  rewrite (bind_Ret _ _ _ _ _ (IH (fun k Hk => Hd k (or_intror Hk)))).
  destruct (Sys.child (fs w) t d) as [[i dt m | l m | m es] |] eqn:Hc;
    cbn [is_symlink]; try reflexivity.
  exfalso. apply (Hno l m). reflexivity.
Qed.

(** The walk of a directory without links, with fuel for its depth,
    returns and changes nothing. *)
Lemma walk_link_free fuel : forall t w m es,
  physical (fs w) t -> get (fs w) t = Some (Dir m es) ->
  link_free (Dir m es) = true -> depth (Dir m es) <= fuel ->
  walk_usr fuel rootdir usrdir (path_str t) w = (Ret tt, w).
Proof.
  induction fuel as [| fuel IH]; intros t w m es Ht Hg Hfree Hdepth;
    rewrite walk_usr_unfold; pose proof Ht as [Htv _];
    rewrite (bind_Ret _ _ _ _ _ (scan_at t w m es Ht Hg));
    set (dirs := filter (Os.entry_is_dir (fs w) t) (names es));
    set (files := filter (fun n => negb (Os.entry_is_dir (fs w) t n)) (names es));
    (assert (Hentry : forall n, In n (names es) ->
               valid_name n = true
               /\ exists x, Sys.child (fs w) t n = Some x /\ assoc n es = Some x
                            /\ link_free x = true)
      by (intros n Hn; destruct (names_assoc es n Hn) as [Hv [x Hx]];
          split; [exact Hv |]; exists x; rewrite get_child, Hg;
          split; [exact Hx |]; split; [exact Hx |];
          apply (link_free_assoc m es n x Hfree Hx)));
    (assert (Hnolink : forall n, In n (names es) ->
               valid_name n = true
               /\ forall l ml, Sys.child (fs w) t n <> Some (Symlink l ml))
      by (intros n Hn; destruct (Hentry n Hn) as [Hv [x [Hc [_ Hf]]]];
          split; [exact Hv |]; intros l ml E; rewrite Hc in E; inversion E;
          subst x; discriminate));
    (assert (Hfiles : for_each files (sanitize_entry rootdir usrdir (path_str t)) w
                      = (Ret tt, w))
      by (apply for_each_id; intros n Hn; apply filter_In in Hn;
          destruct Hn as [Hn _]; destruct (Hnolink n Hn) as [Hv Hno];
          now apply sanitize_entry_no_link));
    rewrite (bind_Ret _ _ _ _ _ Hfiles);
    (assert (Hinto : walk_into (path_str t) dirs w = (Ret dirs, w))
      by (apply walk_into_no_links; [exact Ht |]; intros d Hd;
          apply filter_In in Hd; destruct Hd as [Hd _]; now apply Hnolink));
    rewrite (bind_Ret _ _ _ _ _ Hinto);
    (destruct dirs as [| d0 dirs0] eqn:Edirs; [reflexivity |]).
  - (* no fuel: there is no directory to go into *)
    exfalso.
    assert (Hd0 : In d0 (filter (Os.entry_is_dir (fs w) t) (names es)))
      by (fold dirs; rewrite Edirs; now left).
    apply filter_In in Hd0. destruct Hd0 as [Hin _].
    destruct (Hentry d0 Hin) as [_ [x [_ [Ha _]]]].
    pose proof (depth_assoc m es d0 x Ha). lia.
  - rewrite <- Edirs. apply for_each_id. intros d Hd.
    unfold dirs in Hd. apply filter_In in Hd. destruct Hd as [Hin Hisdir].
    destruct (Hentry d Hin) as [Hdv [x [Hc [Ha Hf]]]].
    rewrite (join_name t d Htv Hdv).
    unfold Os.entry_is_dir in Hisdir. rewrite Hc in Hisdir.
    destruct x as [i dt mx | l mx | mx esx]; try discriminate.
    apply (IH (t ++ [d])%list w mx esx).
    + split; [apply Forall_app; split; [exact Htv | now constructor] |].
      unfold Sys.child in Hc. eauto.
    + exact Hc.
    + exact Hf.
    + pose proof (depth_assoc m es d _ Ha). lia.
Qed.

End LinkFreeWalk.

(** On a tree whose [usr] is a real directory with no symbolic link in
    it, at any depth, [sanitize_usr_symlinks] goes through the whole of
    [usr], returns, and leaves the world as it was, the log included. *)
Theorem sanitize_link_free r w x :
  physical (fs w) (r ++ ["usr"])%list ->
  get (fs w) (r ++ ["usr"])%list = Some x -> link_free x = true ->
  sanitize_usr_symlinks (path_str r) w = (Ret tt, w).
Proof.
  intros Hu Hg Hfree.
  assert (Hr : names_ok r) by (destruct Hu as [Hv _]; apply Forall_app in Hv; tauto).
  unfold sanitize_usr_symlinks. rewrite (join_name r "usr" Hr eq_refl).
  pose proof Hu as [_ [m [es Hg']]]. rewrite Hg' in Hg. inversion Hg. subst x.
  apply (walk_link_free _ _ (depth (fs w)) (r ++ ["usr"])%list w m es Hu Hg' Hfree).
  apply (depth_get _ _ _ Hg').
Qed.

Lemma sanitize_link_free_witness :
  sanitize_usr_symlinks "/r" SampleLinks.ready = (Ret tt, SampleLinks.ready).
Proof.
  apply (sanitize_link_free ["r"] SampleLinks.ready
           (Sample.root_dir [("local", Sample.root_dir [("bin", Sample.root_dir [])]);
                             ("etc", Sample.root_dir [])])).
  - split; [repeat constructor | vm_compute; eauto].
  - reflexivity.
  - reflexivity.
Defined.

(* ================================================================== *)
(** * [convert_to_ostree]: a tree that has [usr/etc] already *)
(* ================================================================== *)




(* ================================================================== *)
(** * C2, C3: [setup_boot], whatever the symbol maps are *)
(* ================================================================== *)

(** What [move_as_is] does to any entry [s] of the directory [b], a
    directory too, when the target [t] is a directory elsewhere: nothing
    (with a line in the log), or the move of the entry to [t/s]. *)
Lemma move_as_is_any w b t s :
  physical (fs w) b -> physical (fs w) t -> valid_name s = true ->
  is_prefix (b ++ [s])%list t = false -> b <> t ->
  exists w',
    move_as_is (path_str b) (path_str t) s w = (Ret tt, w') /\
    cwd w' = cwd w /\
    (fs w' = fs w
     \/ exists x r1 r2,
          Sys.child (fs w) b s = Some x /\ replaceable (Sys.child (fs w) t s)
          /\ del (fs w) b s = Some r1 /\ put r1 t s x = Some r2 /\ fs w' = r2).
Proof.
  intros Hb Ht Hs Hpre Hne.
  assert (Hcase : (forall m es, Sys.child (fs w) b s <> Some (Dir m es))
                  \/ exists mx esx, Sys.child (fs w) b s = Some (Dir mx esx)).
  { destruct (Sys.child (fs w) b s) as [[i dt m | tg m | mx esx] |];
      [left | left | right; eauto | left]; intros m0 es0; discriminate. }
  destruct Hcase as [Hnd | [mx [esx Ex]]];
    [now apply (move_as_is_at w b t s Hb Ht Hs Hpre Hne) |].
  (* the entry is a directory *)
  pose proof Hb as [Hbv _]. pose proof Ht as [Htv [mt [est Hgt]]].
  assert (Hpre2 : is_prefix (b ++ [s])%list (t ++ [s])%list = false).
  { destruct (is_prefix (b ++ [s])%list (t ++ [s])%list) eqn:E; [| reflexivity].
    destruct (is_prefix_snoc_cases _ _ _ E) as [H | H]; [| congruence].
    apply app_inj_tail in H. destruct H. congruence. }
  assert (Hmove :
    match Shutil.move (path_str (b ++ [s])%list) (path_str t) w with
    | (Raise (OSError _), w1) => w1 = w
    | (Ret _, w1) =>
        exists r1 r2,
          Sys.child (fs w) t s = None
          /\ del (fs w) b s = Some r1 /\ put r1 t s (Dir mx esx) = Some r2
          /\ w1 = set_fs w r2
    | _ => False
    end).
  { unfold Shutil.move.
    rewrite (basename_at b s Hbv Hs), (join_name t s Htv Hs).
    set (src := path_str (b ++ [s])%list).
    set (dst := path_str (t ++ [s])%list).
    unfold Os.path_isdir at 1. rewrite bind_fs_read.
    rewrite (stat_path_str _ _ _ Ht), Hgt.
    change (is_dir (Dir mt est)) with true. cbv iota.
    unfold Os.samefile at 1. rewrite bind_fs_read.
    unfold Os.path_islink at 1. rewrite bind_fs_read.
    unfold src at 1 2. rewrite (lstat_at _ _ _ _ Hb Hs).
    rewrite (locate_at _ _ _ _ Hb Hs), (locate_path_str _ (cwd w) t Ht), Ex.
    unfold Sys.child in Ex. rewrite Ex, Hgt.
    rewrite (path_eqb_false _ _ (is_prefix_neq _ _ Hpre)).
    cbn [Sys.same_inode orb andb is_symlink negb].
    unfold Os.path_exists at 1. rewrite bind_fs_read.
    destruct (stat (fs w) (cwd w) dst) as [y |] eqn:Est.
    { reflexivity. }
    cbv beta iota delta [andb].
    fold (Sys.child (fs w) b s) in Ex.
    destruct (Sys.child (fs w) t s) as [[i dt m | tg m | m es] |] eqn:Ec.
    - unfold dst in Est.
      rewrite (stat_at_entry _ _ _ _ Ht Hs _ Ec eq_refl) in Est. discriminate.
    - (* a link that leads nowhere: the rename is refused, and so is the copy *)
      assert (Hren : Sys.rename src dst (fs w) (cwd w) = Err ENOTDIR).
      { unfold Sys.rename, src, dst.
        rewrite (locate_parent_at _ _ _ _ Hb Hs), (locate_parent_at _ _ _ _ Ht Hs).
        rewrite Ex, Ec.
        rewrite (path_eqb_false _ _ (is_prefix_neq _ _ Hpre2)), Hpre2. reflexivity. }
      rewrite (try_OSError_caught _ _ w ENOTDIR w)
        by (unfold Os.rename; now apply fs_call_err).
      unfold Os.path_islink at 1. rewrite bind_fs_read.
      unfold src at 1. rewrite (lstat_at _ _ _ _ Hb Hs), Ex. cbn [is_symlink].
      unfold Os.path_isdir at 1. rewrite bind_fs_read.
      unfold src at 1. rewrite (stat_at_entry _ _ _ _ Hb Hs _ Ex eq_refl). cbn [is_dir].
      unfold Shutil.destinsrc. rewrite bind_assoc, bind_getcwd, bind_ret_l.
      match goal with |- context [if ?c then raise (OSError EINVAL) else _] => destruct c end.
      { reflexivity. }
      unfold Shutil.copytree. rewrite !bind_assoc.
      rewrite (bind_fs_query_ok _ _ _ ((b ++ [s])%list, Dir mx esx)).
      2:{ unfold src. rewrite (locate_at _ _ _ _ Hb Hs), Ex.
          unfold Sys.child in Ex. now rewrite Ex. }
      assert (Hmk : Os.makedirs (String.length dst) dst 511 w = (Raise (OSError EEXIST), w)).
      { assert (Hstep : forall fuel, Os.makedirs fuel dst 511 w = (Raise (OSError EEXIST), w)).
        { intros fuel. destruct (valid_name_inv s Hs) as [Hnes _].
          destruct fuel as [| fuel]; cbn [Os.makedirs]; unfold dst;
            rewrite (split_at t s Htv Hs), Hnes;
            unfold Os.path_exists; rewrite bind_fs_read;
            rewrite (stat_path_str (fs w) (cwd w) t Ht), Hgt, andb_false_r;
            unfold Os.mkdir; apply fs_call_err;
            apply (sys_mkdir_exists _ _ _ _ Ht Hs _ _ Ec). }
        apply Hstep. }
      rewrite (bind_Raise _ _ _ _ _ (bind_Raise _ _ _ _ _ Hmk)). reflexivity.
    - unfold dst in Est.
      rewrite (stat_at_entry _ _ _ _ Ht Hs _ Ec eq_refl) in Est. discriminate.
    - destruct (sys_rename_at (fs w) (cwd w) b s t s (Dir mx esx) Hb Hs Ht Hs Ex Hpre2
                  (or_introl Ec)) as [r1 [r2 [Hdel [Hput Hren]]]].
      rewrite (try_OSError_Ret _ _ w tt (set_fs w r2))
        by (unfold Os.rename; now apply fs_call_ok).
      exists r1, r2. repeat split; assumption. }
  unfold move_as_is. rewrite (join_name b s Hbv Hs).
  unfold try_Exception.
  destruct (Shutil.move (path_str (b ++ [s])%list) (path_str t) w)
    as [[[] | [| | e | c] |] w1]; try contradiction.
  - destruct Hmove as [r1 [r2 [Hfree [Hdel [Hput ->]]]]].
    eexists. split; [reflexivity |]. split; [reflexivity |].
    right. exists (Dir mx esx), r1, r2. repeat split; try assumption.
    left. exact Hfree.
  - subst w1.
    eexists. split; [reflexivity |]. split; [reflexivity | left; reflexivity].
Qed.

Lemma boot_kept_refl r w :
  physical (fs w) (boot_dir r) -> physical (fs w) (modules_dir r) -> boot_kept r w w.
Proof.
  intros Hb Ht. unfold boot_kept.
  refine (conj eq_refl (conj Hb (conj Ht (conj _ _)))); reflexivity.
Qed.

(** The moves of the symbol maps, one after the other, whatever they
    are. *)
Lemma moves_kept r w0 l : forall w,
  boot_kept r w0 w ->
  (forall s, In s l -> valid_name s = true /\ is_symbol_map s = true) ->
  exists w',
    for_each l (move_as_is (path_str (boot_dir r)) (path_str (modules_dir r))) w
      = (Ret tt, w')
    /\ boot_kept r w0 w'.
Proof.
  induction l as [| s l IH]; intros w Hinv Hl.
  - exists w. split; [reflexivity | exact Hinv].
  - destruct Hinv as [Hcwd [Hb [Ht [Hkeep Hmod]]]].
    destruct (Hl s (or_introl eq_refl)) as [Hs Hsm].
    assert (Hne : boot_dir r <> modules_dir r).
    { unfold boot_dir, modules_dir. intros E. apply app_inv_head in E. discriminate. }
    destruct (move_as_is_any w (boot_dir r) (modules_dir r) s Hb Ht Hs ltac:(fork) Hne)
      as [w1 [Hrun [Hcwd1 Hfs]]].
    assert (Hinv1 : boot_kept r w0 w1).
    { destruct Hfs as [Hsame | [x [r1 [r2 [Hx [Hrep [Hdel [Hput Hfs]]]]]]]].
      - unfold boot_kept. rewrite Hsame, Hcwd1.
        exact (conj Hcwd (conj Hb (conj Ht (conj Hkeep Hmod)))).
      - unfold boot_kept. rewrite Hfs, Hcwd1. split; [exact Hcwd |].
        split.
        { apply (physical_look (fs w)); [| exact Hb].
          apply (rename_look _ _ _ _ _ _ _ _ Hdel Hput); fork. }
        split.
        { apply (physical_look (fs w)); [| exact Ht].
          apply (rename_look _ _ _ _ _ _ _ _ Hdel Hput); [fork |].
          apply is_prefix_self_snoc. }
        split.
        { intros n Hn. rewrite <- (Hkeep n Hn). rewrite !child_snoc.
          assert (Hns : s <> n) by (intros ->; congruence).
          apply (rename_get _ _ _ _ _ _ _ _ Hdel Hput); fork. }
        intros n q Hn. rewrite <- (Hmod n q Hn).
        assert (Hns : s <> n).
        { intros ->. pose proof (Hmod n [] Hn) as Hg.
          destruct Hn as [Hn | [m [es Hn]]]; [congruence |].
          rewrite <- !child_snoc in Hg. rewrite Hn in Hg.
          destruct Hrep as [H0 | [tg [mm H0]]]; rewrite H0 in Hg; discriminate. }
        apply (rename_get _ _ _ _ _ _ _ _ Hdel Hput);
          [fork | fork | now apply is_prefix_same_dir | apply is_prefix_self_snoc]. }
    destruct (IH w1 Hinv1 (fun s' Hs' => Hl s' (or_intror Hs'))) as [w' [Hrun' Hinv']].
    exists w'. split; [| exact Hinv'].
    simpl. unfold bind. rewrite Hrun. exact Hrun'.
Qed.

Lemma move_step_placed_any r w0 w w1 s S :
  boot_kept r w0 w -> valid_name s = true -> is_symbol_map s = true ->
  move_as_is (path_str (boot_dir r)) (path_str (modules_dir r)) s w = (Ret tt, w1) ->
  placed r w0 w S -> placed r w0 w1 (s :: S).
Proof.
  intros [_ [Hb [Ht _]]] Hs Hsm Hrun Hplaced.
  assert (Hne : boot_dir r <> modules_dir r).
  { unfold boot_dir, modules_dir. intros E. apply app_inv_head in E. discriminate. }
  destruct (move_as_is_any w (boot_dir r) (modules_dir r) s Hb Ht Hs ltac:(fork) Hne)
    as [w1' [Hrun' [_ Hfs]]].
  rewrite Hrun in Hrun'. inversion Hrun'. subst w1'. clear Hrun'.
  intros s0 i d m Hsm0 Hb0 Hm0.
  destruct (Hplaced s0 i d m Hsm0 Hb0 Hm0) as [Hin Hout].
  destruct (string_dec s0 s) as [-> | Hns].
  - split; [intros _ | intros Hn; exfalso; apply Hn; now left].
    destruct (in_dec string_dec s S) as [HinS | HnotS].
    + destruct (Hin HinS) as [H1 H2].
      destruct Hfs as [Hsame | [x [r1 [r2 [Hx _]]]]]; [| congruence].
      rewrite Hsame. auto.
    + destruct (Hout HnotS) as [H1 H2].
      destruct (move_into_run w (boot_dir r) s (modules_dir r) _ Hb Hs Ht H1 eq_refl H2
                  ltac:(fork)) as [r1 [r2 [Hdel [Hput Hmove]]]].
      pose proof Hb as [Hbn _].
      unfold move_as_is in Hrun. rewrite (join_name (boot_dir r) s Hbn Hs) in Hrun.
      rewrite (try_Exception_Ret _ _ _ _ _ Hmove) in Hrun.
      inversion Hrun. cbn [fs set_fs]. split.
      * apply (put_child _ _ _ _ _ Hput).
      * apply (rename_source _ _ _ _ _ _ _ _ Hdel Hput); fork.
  - assert (Hsame : Sys.child (fs w1) (boot_dir r) s0 = Sys.child (fs w) (boot_dir r) s0
                    /\ Sys.child (fs w1) (modules_dir r) s0
                       = Sys.child (fs w) (modules_dir r) s0).
    { destruct Hfs as [Hsame | [x [r1 [r2 [_ [_ [Hdel [Hput Hfs]]]]]]]].
      - now rewrite Hsame.
      - rewrite Hfs. assert (Hns' : s <> s0) by congruence.
        rewrite !child_snoc. split.
        + apply (rename_get _ _ _ _ _ _ _ _ Hdel Hput); fork.
        + apply (rename_get _ _ _ _ _ _ _ _ Hdel Hput);
            [fork | fork | now apply is_prefix_same_dir | apply is_prefix_self_snoc]. }
    destruct Hsame as [E1 E2]. rewrite E1, E2. split.
    + intros [E | HinS]; [congruence | now apply Hin].
    + intros Hn. apply Hout. intros HinS. apply Hn. now right.
Qed.

Lemma moves_placed_any r w0 l : forall w w' S,
  boot_kept r w0 w ->
  (forall s, In s l -> valid_name s = true /\ is_symbol_map s = true) ->
  for_each l (move_as_is (path_str (boot_dir r)) (path_str (modules_dir r))) w
    = (Ret tt, w') ->
  placed r w0 w S -> placed r w0 w' (rev l ++ S)%list.
Proof.
  induction l as [| s l IH]; intros w w' S Hinv Hl Hrun Hplaced.
  - inversion Hrun. subst. exact Hplaced.
  - cbn [for_each] in Hrun. apply bind_inv_Ret in Hrun.
    destruct Hrun as [[] [w1 [Hstep Hrest]]].
    destruct (Hl s (or_introl eq_refl)) as [Hs Hsm].
    assert (Hinv1 : boot_kept r w0 w1).
    { destruct (moves_kept r w0 [s] w Hinv) as [w1' [Hrun1 Hinv1]].
      - intros s' [<- | []]. auto.
      - cbn [for_each] in Hrun1. rewrite (bind_Ret _ _ _ _ _ Hstep) in Hrun1.
        inversion Hrun1. subst w1'. exact Hinv1. }
    cbn [rev]. rewrite <- app_assoc. cbn [app].
    apply (IH w1 w' (s :: S) Hinv1 (fun s' H => Hl s' (or_intror H)) Hrest).
    apply (move_step_placed_any r w0 w w1 s S Hinv Hs Hsm Hstep Hplaced).
Qed.

(** [os.rename] at physical places, onto a name it moves the entry
    to. *)
Lemma sys_rename_onto root start ds ns dd nd x :
  physical root ds -> valid_name ns = true ->
  physical root dd -> valid_name nd = true ->
  Sys.child root ds ns = Some x ->
  is_prefix (ds ++ [ns])%list (dd ++ [nd])%list = false ->
  renames_onto x (Sys.child root dd nd) = true ->
  exists r1 r2,
    del root ds ns = Some r1 /\ put r1 dd nd x = Some r2
    /\ Sys.rename (path_str (ds ++ [ns])%list) (path_str (dd ++ [nd])%list) root start
       = OK r2.
Proof.
  intros Hds Hns Hdd Hnd Hx Hpre Hdst.
  pose proof Hds as [_ [ms [ess Hgs]]].
  destruct (del_defined root ds ns ms ess Hgs) as [r1 Hdel].
  assert (Hdd1 : physical r1 dd).
  { apply (physical_look root); [| exact Hdd].
    apply (del_look _ _ _ _ _ Hdel). now apply is_prefix_snoc_parent in Hpre. }
  pose proof Hdd1 as [_ [md [esd Hgd]]].
  destruct (put_defined r1 dd nd x md esd Hgd) as [r2 Hput].
  exists r1, r2. split; [exact Hdel |]. split; [exact Hput |].
  unfold Sys.rename.
  rewrite (locate_parent_at _ _ _ _ Hds Hns), (locate_parent_at _ _ _ _ Hdd Hnd).
  rewrite Hx, Hdel, Hput.
  rewrite (path_eqb_false _ _ (is_prefix_neq _ _ Hpre)), Hpre.
  unfold renames_onto in Hdst.
  destruct (Sys.child root dd nd) as [[i d m | t m | m es] |]; [| | | reflexivity].
  - apply andb_true_iff in Hdst. destruct Hdst as [H1 H2].
    apply negb_true_iff in H1, H2. now rewrite H1, H2.
  - apply andb_true_iff in Hdst. destruct Hdst as [H1 H2].
    apply negb_true_iff in H1, H2. now rewrite H1, H2.
  - apply andb_true_iff in Hdst. destruct Hdst as [H1 H2].
    rewrite H1. destruct (names es); [reflexivity | discriminate].
Qed.

Lemma try_rename_onto w ds ns dd nd x (h : exn -> M unit) :
  physical (fs w) ds -> valid_name ns = true ->
  physical (fs w) dd -> valid_name nd = true ->
  Sys.child (fs w) ds ns = Some x ->
  is_prefix (ds ++ [ns])%list (dd ++ [nd])%list = false ->
  renames_onto x (Sys.child (fs w) dd nd) = true ->
  exists r1 r2,
    del (fs w) ds ns = Some r1 /\ put r1 dd nd x = Some r2
    /\ try_Exception
         (Os.rename (OsPath.join (path_str ds) ns) (OsPath.join (path_str dd) nd)) h w
       = (Ret tt, set_fs w r2).
Proof.
  intros Hds Hns Hdd Hnd Hx Hpre Hon.
  destruct (sys_rename_onto (fs w) (cwd w) ds ns dd nd x Hds Hns Hdd Hnd Hx Hpre Hon)
    as [r1 [r2 [Hdel [Hput Hren]]]].
  exists r1, r2. split; [exact Hdel |]. split; [exact Hput |].
  rewrite (join_name ds ns) by (apply Hds || exact Hns).
  rewrite (join_name dd nd) by (apply Hdd || exact Hnd).
  apply try_Exception_Ret. unfold Os.rename. now apply fs_call_ok.
Qed.

(** C3, as the code has it. For every tree whose boot directory lists
    exactly one kernel image, named with a version after its first ["-"],
    exactly one initrd and at most one device tree directory, and in
    which [usr/lib/modules/<version>] is a real directory already, where
    each of the names [vmlinuz] and [initramfs.img] is free or holds
    what [os.rename] replaces by the entry it moves ([renames_onto]),
    [setup_boot] returns: the kernel image is at
    [usr/lib/modules/<version>/vmlinuz], the initrd at
    [usr/lib/modules/<version>/initramfs.img], and neither is left in the
    boot directory. The symbol maps of the boot directory may be
    anything, directories too. *)
Theorem setup_boot_relocates r ver w items k h rd xk xrd :
  physical (fs w) (boot_dir r) ->
  physical (fs w) (version_dir r ver) ->
  fst (Os.listdir (path_str (boot_dir r)) w) = Ret items ->
  count is_kernel items = 1 -> count is_initrd items = 1 -> count is_dtbs items <= 1 ->
  find is_kernel items = Some k -> Py.split_once "-" k = Some (h, ver) ->
  find is_initrd items = Some rd ->
  Sys.child (fs w) (boot_dir r) k = Some xk ->
  Sys.child (fs w) (boot_dir r) rd = Some xrd ->
  renames_onto xk (Sys.child (fs w) (version_dir r ver) "vmlinuz") = true ->
  renames_onto xrd (Sys.child (fs w) (version_dir r ver) "initramfs.img") = true ->
  exists w',
    setup_boot (path_str r) (Pathlib.joinpath (path_str r) "boot")
      (Pathlib.joinpath (path_str r) "usr/lib/modules") w = (Ret tt, w')
    /\ Sys.child (fs w') (version_dir r ver) "vmlinuz" = Some xk
    /\ Sys.child (fs w') (version_dir r ver) "initramfs.img" = Some xrd
    /\ Sys.child (fs w') (boot_dir r) k = None
    /\ Sys.child (fs w') (boot_dir r) rd = None.
Proof.
  intros Hb Hv Hl Hck Hci Hcd Hfk Hsp Hfr Hxk Hxrd Hon1 Hon2.
  assert (Hr : names_ok r) by (apply physical_prefix in Hb; apply Hb).
  assert (Ht : physical (fs w) (modules_dir r))
    by (unfold version_dir in Hv; now apply physical_prefix in Hv).
  assert (Hverv : valid_name ver = true)
    by (unfold version_dir in Hv; now apply physical_snoc_valid in Hv).
  rewrite (joinpath_boot r Hr), (joinpath_modules r Hr).
  (* the target directory is there: the mkdir changes nothing *)
  assert (Hmk : after_mkdir (path_str (modules_dir r)) w = w).
  { unfold modules_dir.
    change (r ++ ["usr"; "lib"; "modules"])%list
      with (r ++ ["usr"; "lib"] ++ ["modules"])%list.
    rewrite app_assoc. apply after_mkdir_exists.
    rewrite <- app_assoc. exact Ht. }
  rewrite (setup_boot_loop _ _ _ w items) by (now rewrite Hmk).
  rewrite Hmk. unfold bind at 1. rewrite boot_loop_control.
  (* the loop accepts every entry *)
  assert (Hci1 : count is_initrd items <= 1) by lia.
  assert (Hck1 : count is_kernel items <= 1) by lia.
  assert (Hfv : first_kernel_versioned items).
  { intros k' Hk'. rewrite Hfk in Hk'. inversion Hk'. subst k'. congruence. }
  destruct (loop_control_success (path_str (boot_dir r)) items no_boot_vars
              (or_introl eq_refl)
              (or_introl (conj eq_refl Hci1))
              (or_introl (conj eq_refl Hcd)) Hck1 Hfv)
    as [v [Hloop [Hvk [Hvr Hvv]]]].
  rewrite Hloop. cbn [fst snd].
  simpl in Hvk, Hvr. rewrite Hfk in Hvk. rewrite Hfr in Hvr.
  specialize (Hvv eq_refl k h ver Hfk Hsp).
  (* the kernel image and the initrd are entries of the boot directory *)
  destruct (find_some _ _ Hfk) as [Hkin Hkk].
  destruct (find_some _ _ Hfr) as [Hrin Hrr].
  destruct (listdir_at w _ items Hb Hl k Hkin) as [Hkv _].
  destruct (listdir_at w _ items Hb Hl rd Hrin) as [Hrv _].
  (* the symbol maps are moved *)
  destruct (moves_kept r w (filter is_symbol_map items) w) as [w2 [Hrun Hinv]].
  { now apply boot_kept_refl. }
  { intros s Hs. apply filter_In in Hs. destruct Hs as [Hin Hsm].
    split; [| exact Hsm]. now destruct (listdir_at w _ items Hb Hl s Hin). }
  rewrite Hrun. cbn [snd]. rewrite Hvk, Hvr, Hvv. cbn [or_empty].
  destruct Hinv as [_ [Hb2 [Ht2 [Hkeep Hmod]]]].
  assert (Hkept : kept_name r w ver).
  { right. destruct Hv as [_ [m [es Hg]]]. exists m, es. exact Hg. }
  assert (Hv2 : physical (fs w2) (version_dir r ver)).
  { destruct Hv as [Hn [m [es Hg]]]. split; [exact Hn |]. exists m, es.
    unfold version_dir. rewrite (Hmod ver [] Hkept). exact Hg. }
  assert (Hver : forall n, Sys.child (fs w2) (version_dir r ver) n
                           = Sys.child (fs w) (version_dir r ver) n).
  { intros n. unfold Sys.child, version_dir. rewrite <- !app_assoc. cbn [app].
    apply (Hmod ver [n] Hkept). }
  rewrite (join_name (modules_dir r) ver) by (apply Ht || exact Hverv).
  change (modules_dir r ++ [ver])%list with (version_dir r ver).
  (* the kernel image is renamed *)
  destruct (try_rename_onto w2 (boot_dir r) k (version_dir r ver) "vmlinuz" xk
              (fun e => logging_info (Fmt "Error moving file: " e) ;; sys_exit 1)
              Hb2 Hkv Hv2 eq_refl)
    as [r1 [r2 [Hdel1 [Hput1 Hren1]]]].
  { rewrite (Hkeep k (kernel_not_symbol_map k Hkk)). exact Hxk. }
  { fork. }
  { rewrite Hver. exact Hon1. }
  unfold bind at 1. rewrite Hren1.
  set (w3 := set_fs w2 r2).
  assert (Hkr : k <> rd).
  { intros ->. rewrite (initrd_not_kernel rd Hrr) in Hkk. discriminate. }
  assert (Hb3 : physical (fs w3) (boot_dir r)).
  { apply (physical_look (fs w2)); [| exact Hb2].
    apply (rename_look _ _ _ _ _ _ _ _ Hdel1 Hput1); fork. }
  assert (Hv3 : physical (fs w3) (version_dir r ver)).
  { apply (physical_look (fs w2)); [| exact Hv2].
    apply (rename_look _ _ _ _ _ _ _ _ Hdel1 Hput1); [fork |].
    apply is_prefix_self_snoc. }
  (* the initrd is renamed *)
  destruct (try_rename_onto w3 (boot_dir r) rd (version_dir r ver) "initramfs.img" xrd
              (fun e => logging_info (Fmt "Error moving file: " e) ;; sys_exit 1)
              Hb3 Hrv Hv3 eq_refl)
    as [r3 [r4 [Hdel2 [Hput2 Hren2]]]].
  { rewrite child_snoc. unfold w3. cbn [fs set_fs].
    rewrite (rename_get _ _ _ _ _ _ _ _ Hdel1 Hput1); try fork.
    rewrite <- child_snoc. rewrite (Hkeep rd (initrd_not_symbol_map rd Hrr)). exact Hxrd. }
  { fork. }
  { unfold w3. cbn [fs set_fs].
    rewrite (put_other_child _ _ _ _ _ _ Hput1) by discriminate.
    rewrite child_snoc.
    rewrite (del_get_other _ _ _ _ _ Hdel1); try fork.
    rewrite <- child_snoc. rewrite Hver. exact Hon2. }
  rewrite Hren2.
  exists (set_fs w3 r4). cbn [fs set_fs].
  split; [reflexivity |].
  split.
  { rewrite (put_other_child _ _ _ _ _ _ Hput2) by discriminate.
    rewrite child_snoc. rewrite (del_get_other _ _ _ _ _ Hdel2); try fork.
    rewrite <- child_snoc. unfold w3. cbn [fs set_fs].
    apply (put_child _ _ _ _ _ Hput1). }
  split.
  { apply (put_child _ _ _ _ _ Hput2). }
  split.
  { rewrite child_snoc. rewrite (rename_get _ _ _ _ _ _ _ _ Hdel2 Hput2); try fork.
    rewrite <- child_snoc. unfold w3. cbn [fs set_fs].
    apply (rename_source _ _ _ _ _ _ _ _ Hdel1 Hput1); fork. }
  apply (rename_source _ _ _ _ _ _ _ _ Hdel2 Hput2); fork.
Qed.

Lemma setup_boot_relocates_witness :
  exists w',
    setup_boot "/r" (Pathlib.joinpath "/r" "boot")
      (Pathlib.joinpath "/r" "usr/lib/modules") SampleRerun.again = (Ret tt, w')
    /\ Sys.child (fs w') (version_dir ["r"] "6.1.0-amd64") "vmlinuz"
       = Some (Sample.reg 1 "kernel")
    /\ Sys.child (fs w') (version_dir ["r"] "6.1.0-amd64") "initramfs.img"
       = Some (Sample.reg 2 "initrd")
    /\ Sys.child (fs w') (boot_dir ["r"]) "vmlinuz-6.1.0-amd64" = None
    /\ Sys.child (fs w') (boot_dir ["r"]) "initrd.img-6.1.0-amd64" = None.
Proof.
  apply (setup_boot_relocates ["r"] "6.1.0-amd64" SampleRerun.again
           ["vmlinuz-6.1.0-amd64"; "System.map-6.1.0-amd64"; "initrd.img-6.1.0-amd64"]
           "vmlinuz-6.1.0-amd64" "vmlinuz" "initrd.img-6.1.0-amd64").
  - split; [repeat constructor | vm_compute; eauto].
  - split; [repeat constructor | vm_compute; eauto].
  - vm_compute. reflexivity.
  - vm_compute. reflexivity.
  - vm_compute. reflexivity.
  - vm_compute. lia.
  - vm_compute. reflexivity.
  - vm_compute. reflexivity.
  - vm_compute. reflexivity.
  - vm_compute. reflexivity.
  - vm_compute. reflexivity.
  - vm_compute. reflexivity.
  - vm_compute. reflexivity.
Defined.

(** X19. The names [vmlinuz] and [initramfs.img] in the directory of the
    kernel version have to be free or replaceable. With a directory
    [vmlinuz] there, the rename of the kernel image fails: the error is
    logged, the stage exits with status 1, and the kernel image is still
    in [boot]. With a hard link of the kernel image there, [os.rename]
    does nothing: the stage returns, and the kernel image is still in
    [boot] as well. *)
Lemma setup_boot_version_dir_occupied :
  (let r := setup_boot "/r" "/r/boot" "/r/usr/lib/modules" SampleRerun.occupied in
   fst r = Raise (SystemExit 1)
   /\ log (snd r) = [Fmt "Error moving file: " (OSError EISDIR)]
   /\ Sys.child (fs (snd r)) ["r"; "boot"] "vmlinuz-6.1.0-amd64" = Some (Sample.reg 1 "kernel")
   /\ Sys.child (fs (snd r)) ["r"; "usr"; "lib"; "modules"; "6.1.0-amd64"] "vmlinuz"
      = Some (Sample.root_dir []))
  /\ (let r := setup_boot "/r" "/r/boot" "/r/usr/lib/modules" SampleRerun.linked in
      fst r = Ret tt
      /\ Sys.child (fs (snd r)) ["r"; "boot"] "vmlinuz-6.1.0-amd64"
         = Some (Sample.reg 1 "kernel")
      /\ Sys.child (fs (snd r)) ["r"; "usr"; "lib"; "modules"; "6.1.0-amd64"] "vmlinuz"
         = Some (Sample.reg 1 "kernel")
      /\ Sys.child (fs (snd r)) ["r"; "boot"] "initrd.img-6.1.0-amd64" = None).
Proof. vm_compute. repeat split; reflexivity. Qed.

(** [try: os.mkdir(d/n) except OSError: pass] in a real directory [d]
    whose name [n] is free or holds a directory: afterwards [d/n] is a
    directory, the one that was there or a new, empty one, and nothing
    else has changed. *)
Lemma after_mkdir_at w d n :
  physical (fs w) d -> valid_name n = true ->
  dir_or_absent (Sys.child (fs w) d n) ->
  let w1 := after_mkdir (path_str (d ++ [n])%list) w in
  cwd w1 = cwd w
  /\ physical (fs w1) (d ++ [n])%list
  /\ changed_only [(d ++ [n])%list] (fs w) (fs w1)
  /\ (forall q, Sys.child (fs w) d n = None -> get (fs w1) (d ++ n :: q)%list
                                              = match q with [] => get (fs w1) (d ++ [n])%list
                                                | _ => None end)
  /\ (forall q, Sys.child (fs w) d n <> None ->
                get (fs w1) (d ++ n :: q)%list = get (fs w) (d ++ n :: q)%list).
Proof.
  intros Hd Hn Hdir. cbv zeta. pose proof Hd as [Hdv _].
  destruct Hdir as [Habs | [m [es Hex]]].
  - destruct (mkdir_run w d n 511 Hd Hn Habs) as [r' [Hput Hrun]].
    assert (Hw1 : after_mkdir (path_str (d ++ [n])%list) w = set_fs w r').
    { unfold after_mkdir. now rewrite (try_OSError_Ret _ _ _ _ _ Hrun). }
    rewrite Hw1. cbn [fs cwd set_fs].
    split; [reflexivity |]. split.
    { split; [apply Forall_app; split; [exact Hdv | now constructor] |].
      exists (Os.new_meta 511 w), []. apply (put_child _ _ _ _ _ Hput). }
    split; [apply (changed_only_put _ _ _ _ _ Hput) |].
    split.
    + intros q _. destruct q as [| c q]; [reflexivity |].
      change (d ++ n :: c :: q)%list with (d ++ [n] ++ c :: q)%list.
      rewrite app_assoc, get_app.
      pose proof (put_child _ _ _ _ _ Hput) as Hc. unfold Sys.child in Hc.
      rewrite Hc. reflexivity.
    + intros q Hne. congruence.
  - assert (Hp : physical (fs w) (d ++ [n])%list).
    { split; [apply Forall_app; split; [exact Hdv | now constructor] |]. eauto. }
    rewrite (after_mkdir_exists w d n Hp).
    split; [reflexivity |]. split; [exact Hp |]. split; [apply changed_only_refl |].
    split; [intros q Habs; congruence | reflexivity].
Qed.

(** C2, as the code has it. For every boot directory whose listing has
    no kernel image, or has two or more of which the first listed
    carries a version, [setup_boot] fails with an [AssertionError].
    Before it fails it has run [os.mkdir(targetdir)], an [OSError] of
    which is ignored, and [shutil.move] into [targetdir] for every
    symbol map listed before the point of failure (the entries [seen]
    that the loop gets through), an error of which is logged; it has
    done nothing else, so that the world at the failure is the world
    these calls leave. In a tree [r] where [boot] and
    [usr/lib] are real directories and [usr/lib/modules] is a real
    directory or is not there, this means: at the failure
    [usr/lib/modules] is a real directory; every entry of [boot] that is
    no symbol map, kernel images and initrds among them, is as it was;
    and every symbol map listed before the point of failure that was a
    regular file, with its name free in [usr/lib/modules], is in
    [usr/lib/modules] and no longer in [boot]. *)
Theorem setup_boot_kernel_count_violation rootdir bootdir targetdir w items :
  fst (Os.listdir bootdir (after_mkdir targetdir w)) = Ret items ->
  count is_kernel items = 0 \/ 2 <= count is_kernel items ->
  first_kernel_versioned items ->
  exists seen rest w',
    seen = fst (loop_control bootdir no_boot_vars items)
    /\ items = (seen ++ rest)%list
    /\ setup_boot rootdir bootdir targetdir w = (Raise AssertionError, w')
    /\ w' = snd (for_each (filter is_symbol_map seen) (move_as_is bootdir targetdir)
                   (after_mkdir targetdir w))
    /\ forall r,
         bootdir = path_str (boot_dir r) -> targetdir = path_str (modules_dir r) ->
         physical (fs w) (boot_dir r) ->
         physical (fs w) (r ++ ["usr"; "lib"])%list ->
         dir_or_absent (Sys.child (fs w) (r ++ ["usr"; "lib"])%list "modules") ->
         physical (fs w') (modules_dir r)
         /\ (forall n, is_symbol_map n = false ->
               Sys.child (fs w') (boot_dir r) n = Sys.child (fs w) (boot_dir r) n)
         /\ (forall s i d m,
               In s seen -> is_symbol_map s = true ->
               Sys.child (fs w) (boot_dir r) s = Some (File i d m) ->
               Sys.child (fs w) (modules_dir r) s = None ->
               Sys.child (fs w') (modules_dir r) s = Some (File i d m)
               /\ Sys.child (fs w') (boot_dir r) s = None).
Proof.
  intros Hl Hc Hf.
  rewrite (setup_boot_loop rootdir bootdir targetdir w items Hl).
  destruct (loop_control_prefix bootdir items no_boot_vars) as [rest Hrest].
  set (seen := fst (loop_control bootdir no_boot_vars items)) in *.
  exists seen, rest,
    (snd (for_each (filter is_symbol_map seen) (move_as_is bootdir targetdir)
            (after_mkdir targetdir w))).
  split; [reflexivity |]. split; [exact Hrest |]. split.
  { unfold bind. rewrite boot_loop_control. fold seen.
    destruct Hc as [H0 | H2].
    - destruct (loop_control_no_kernel bootdir items no_boot_vars H0)
        as [[v' [Ha Hb]] | Ha]; rewrite Ha.
      + simpl in Hb. rewrite Hb. reflexivity.
      + reflexivity.
    - rewrite (loop_control_two_kernels bootdir items no_boot_vars eq_refl H2 Hf).
      reflexivity. }
  split; [reflexivity |].
  intros r -> -> Hb Hlib Hmod.
  assert (Hmn : modules_dir r = ((r ++ ["usr"; "lib"]) ++ ["modules"])%list)
    by (unfold modules_dir; now rewrite <- app_assoc).
  destruct (after_mkdir_at w (r ++ ["usr"; "lib"])%list "modules" Hlib eq_refl Hmod)
    as [Hcwd [Ht1 [Hch1 [Hnew Hold]]]].
  rewrite <- Hmn in Hcwd, Ht1, Hch1.
  set (w1 := after_mkdir (path_str (modules_dir r)) w) in *.
  assert (Hb1 : physical (fs w1) (boot_dir r)).
  { apply (changed_only_physical _ _ _ _ Hch1); [| exact Hb].
    apply Forall_cons; [fork | apply Forall_nil]. }
  assert (Hboot1 : forall n, Sys.child (fs w1) (boot_dir r) n
                             = Sys.child (fs w) (boot_dir r) n).
  { intros n. unfold Sys.child.
    apply (changed_only_get _ _ _ _ Hch1); (apply Forall_cons; [fork | apply Forall_nil]). }
  assert (Hfree1 : forall s, Sys.child (fs w) (modules_dir r) s = None ->
                             Sys.child (fs w1) (modules_dir r) s = None).
  { intros s Hs. unfold Sys.child. rewrite Hmn, <- app_assoc. cbn [app].
    destruct (Sys.child (fs w) (r ++ ["usr"; "lib"])%list "modules") eqn:E.
    - unfold w1. rewrite Hmn, Hold by congruence.
      unfold Sys.child in Hs. rewrite Hmn, <- app_assoc in Hs. exact Hs.
    - unfold w1. rewrite Hmn. now rewrite (Hnew [s] eq_refl). }
  assert (Hseen : forall s, In s (filter is_symbol_map seen) ->
                    valid_name s = true /\ is_symbol_map s = true).
  { intros s Hs. apply filter_In in Hs. destruct Hs as [Hin Hsm].
    split; [| exact Hsm].
    assert (Hin' : In s items) by (rewrite Hrest; apply in_or_app; now left).
    now destruct (listdir_at w1 _ items Hb1 Hl s Hin'). }
  destruct (moves_kept r w1 (filter is_symbol_map seen) w1 (boot_kept_refl r w1 Hb1 Ht1) Hseen)
    as [w2 [Hrun Hkept]].
  rewrite Hrun. cbn [snd].
  pose proof (moves_placed_any r w1 (filter is_symbol_map seen) w1 w2 []
                (boot_kept_refl r w1 Hb1 Ht1) Hseen Hrun) as Hplaced.
  destruct Hkept as [_ [Hb2 [Ht2 [Hkeep _]]]].
  split; [exact Ht2 |]. split.
  - intros n Hn. rewrite (Hkeep n Hn). apply Hboot1.
  - intros s i d m Hin Hsm Hfile Hfree.
    assert (Hp : placed r w1 w1 []).
    { intros s0 i0 d0 m0 _ H1 H2. split; [intros [] | auto]. }
    destruct (Hplaced Hp s i d m Hsm) as [Hmoved _].
    + rewrite Hboot1. exact Hfile.
    + now apply Hfree1.
    + apply Hmoved. rewrite app_nil_r. apply in_rev. rewrite rev_involutive.
      apply filter_In. auto.
Qed.

Lemma setup_boot_kernel_count_violation_witness :
  exists w',
    setup_boot "/r" "/r/boot" "/r/usr/lib/modules" Sample.two_kernels
    = (Raise AssertionError, w')
    /\ physical (fs w') (modules_dir ["r"])
    /\ Sys.child (fs w') (boot_dir ["r"]) "vmlinuz-6.1.0" = Some (Sample.reg 1 "k1")
    /\ Sys.child (fs w') (boot_dir ["r"]) "vmlinuz-6.2.0" = Some (Sample.reg 3 "k2")
    /\ Sys.child (fs w') (modules_dir ["r"]) "System.map-6.1.0" = Some (Sample.reg 2 "map")
    /\ Sys.child (fs w') (boot_dir ["r"]) "System.map-6.1.0" = None.
Proof.
  destruct (setup_boot_kernel_count_violation "/r" "/r/boot" "/r/usr/lib/modules"
              Sample.two_kernels ["vmlinuz-6.1.0"; "System.map-6.1.0"; "vmlinuz-6.2.0"])
    as [seen [rest [w' [Hseen [_ [Hrun [_ Hr]]]]]]].
  - vm_compute. reflexivity.
  - right. vm_compute. lia.
  - intros k Hk. vm_compute in Hk. inversion Hk. vm_compute. discriminate.
  - exists w'. split; [exact Hrun |].
    destruct (Hr ["r"] eq_refl eq_refl) as [Ht [Hkeep Hmoved]].
    + split; [repeat constructor | vm_compute; eauto].
    + split; [repeat constructor | vm_compute; eauto].
    + right. vm_compute. eauto.
    + split; [exact Ht |].
      split; [rewrite (Hkeep "vmlinuz-6.1.0" eq_refl); reflexivity |].
      split; [rewrite (Hkeep "vmlinuz-6.2.0" eq_refl); reflexivity |].
      apply (Hmoved "System.map-6.1.0" 2%N "map" (Meta 420 0 0)).
      * rewrite Hseen. vm_compute. tauto.
      * reflexivity.
      * reflexivity.
      * reflexivity.
Defined.

(* ================================================================== *)
(** * C1, C8, C9: [sanitize_usr_symlinks], from the walk to the links *)
(* ================================================================== *)

(** ** One turn of the loop *)

Lemma changed_only_one_look P root root' q :
  changed_only [P] root root' -> is_prefix P q = false -> look root' q = look root q.
Proof. intros H Hq. apply (changed_only_look [P]); [exact H |]. now constructor. Qed.

Lemma changed_only_one_get P root root' q :
  changed_only [P] root root' ->
  is_prefix P q = false -> is_prefix q P = false -> get root' q = get root q.
Proof. intros H H1 H2. apply (changed_only_get [P]); [exact H | |]; now constructor. Qed.

(** The [try] block for a link at [b/name], by what its target is once
    the link is removed: nothing, a regular file, or a directory. *)
Lemma materialize_by_target w b name link m target :
  physical (fs w) b -> valid_name name = true ->
  Sys.child (fs w) b name = Some (Symlink link m) ->
  exists r1 o w',
    del (fs w) b name = Some r1
    /\ materialize target (path_str (b ++ [name])%list) w = (o, w')
    /\ (log w' = log w /\ cwd w' = cwd w /\ euid w' = euid w /\ egid w' = egid w)
    /\ changed_only [(b ++ [name])%list] (fs w) (fs w')
    /\ (o = Ret tt \/ exists e, o = Raise (OSError e))
    /\ match stat r1 (cwd w) target with
       | Some (File i d mf) =>
           o = Ret tt ->
           exists y, lstat r1 (cwd w) target = Some y /\ is_dir y = false
                     /\ Sys.child (fs w') b name = Some y
       | Some (Dir md es) =>
           o = Ret tt ->
           exists y, Sys.child (fs w') b name = Some y
                     /\ is_copy (euid w, egid w) (Dir md es) y = true
       | _ => o = Ret tt /\ fs w' = r1
       end.
Proof.
  intros Hb Hn Hc. pose proof Hb as [Hbv _].
  destruct (sys_unlink_at (fs w) (cwd w) b name Hb Hn _ Hc eq_refl) as [r1 [Hdel Hun]].
  exists r1.
  unfold materialize, Os.remove. rewrite (bind_fs_call_ok _ _ _ r1 Hun).
  set (w1 := set_fs w r1).
  pose proof (changed_only_del _ _ _ _ Hdel) as Ch1.
  assert (Fr1 : forall q, is_prefix (b ++ [name])%list q = false ->
                          look r1 q = look (fs w) q)
    by (intros q Hq; apply (del_look _ _ _ _ _ Hdel Hq)).
  assert (Hb1 : physical r1 b).
  { apply (physical_look (fs w)); [| exact Hb]. apply Fr1, is_prefix_self_snoc. }
  assert (Hnone : Sys.child r1 b name = None) by apply (del_child _ _ _ _ Hdel).
  assert (Hsame : forall r2, log (set_fs w1 r2) = log w /\ cwd (set_fs w1 r2) = cwd w
                             /\ euid (set_fs w1 r2) = euid w /\ egid (set_fs w1 r2) = egid w)
    by (intros r2; repeat split).
  assert (Hsame1 : log w1 = log w /\ cwd w1 = cwd w /\ euid w1 = euid w /\ egid w1 = egid w)
    by (repeat split).
  unfold Os.path_isfile. rewrite bind_fs_read.
  change (fs w1) with r1. change (cwd w1) with (cwd w).
  destruct (stat r1 (cwd w) target) as [[ix dx mx | tx mx | mx esx] |] eqn:Estat;
    cbn [is_file].
  - (* os.link(target, p) *)
    unfold Os.link, fs_call. change (fs w1) with r1. change (cwd w1) with (cwd w).
    unfold Sys.link. rewrite (locate_parent_at r1 (cwd w) b name Hb1 Hn), Hnone.
    destruct Hb1 as [_ [mb1 [esb1 Hgb1]]].
    destruct (lstat r1 (cwd w) target) as [[iy dy my | ty my | my esy] |] eqn:El.
    + destruct (put_defined r1 b name (File iy dy my) _ _ Hgb1) as [r2 Hput].
      rewrite Hput. exists (Ret tt), (set_fs w1 r2). cbn [fs set_fs].
      split; [exact Hdel |]. split; [reflexivity |]. split; [apply Hsame |].
      split; [apply (changed_only_trans _ _ r1 _ Ch1), (changed_only_put _ _ _ _ _ Hput) |].
      split; [now left |]. intros _.
      exists (File iy dy my). repeat split. apply (put_child _ _ _ _ _ Hput).
    + destruct (put_defined r1 b name (Symlink ty my) _ _ Hgb1) as [r2 Hput].
      rewrite Hput. exists (Ret tt), (set_fs w1 r2). cbn [fs set_fs].
      split; [exact Hdel |]. split; [reflexivity |]. split; [apply Hsame |].
      split; [apply (changed_only_trans _ _ r1 _ Ch1), (changed_only_put _ _ _ _ _ Hput) |].
      split; [now left |]. intros _.
      exists (Symlink ty my). repeat split. apply (put_child _ _ _ _ _ Hput).
    + exists (Raise (OSError EPERM)), w1.
      split; [exact Hdel |]. split; [reflexivity |]. split; [exact Hsame1 |].
      split; [exact Ch1 |]. split; [right; eauto | discriminate].
    + exists (Raise (OSError ENOENT)), w1.
      split; [exact Hdel |]. split; [reflexivity |]. split; [exact Hsame1 |].
      split; [exact Ch1 |]. split; [right; eauto | discriminate].
  - (* nothing to do *)
    unfold Os.path_isdir. rewrite bind_fs_read.
    change (fs w1) with r1. change (cwd w1) with (cwd w). rewrite Estat. cbn [is_dir].
    exists (Ret tt), w1.
    split; [exact Hdel |]. split; [reflexivity |]. split; [exact Hsame1 |].
    split; [exact Ch1 |]. split; [now left |]. split; reflexivity.
  - (* shutil.copytree(target, p, symlinks=True) *)
    unfold Os.path_isdir. rewrite bind_fs_read.
    change (fs w1) with r1. change (cwd w1) with (cwd w). rewrite Estat. cbn [is_dir].
    destruct (stat_locate _ _ _ _ Estat) as [T [Hloc HT]].
    unfold Shutil.copytree.
    rewrite (bind_fs_query_ok _ _ _ (T, Dir mx esx))
      by (change (fs w1) with r1; change (cwd w1) with (cwd w); now rewrite Hloc, HT).
    destruct (makedirs_at w1 b name Hb1 Hn Hnone) as [r2 [Hput2 Hmk]].
    rewrite (bind_Ret _ _ _ _ _ (Hmk _)).
    set (w2 := set_fs w1 r2).
    assert (Ch2 : changed_only [(b ++ [name])%list] (fs w) r2)
      by (apply (changed_only_trans _ _ r1 _ Ch1), (changed_only_put _ _ _ _ _ Hput2)).
    assert (Hb2 : physical r2 b).
    { apply (physical_look (fs w)); [| exact Hb].
      apply (changed_only_one_look _ _ _ _ Ch2), is_prefix_self_snoc. }
    rewrite (bind_fs_query_ok _ _ _ (b, name))
      by (change (fs w2) with r2; apply (locate_parent_at r2 _ b name Hb2 Hn)).
    cbn [fst snd].
    destruct (is_prefix T (b ++ [name])%list).
    + exists (Raise (OSError EINVAL)), w2.
      split; [exact Hdel |]. split; [reflexivity |]. split; [apply Hsame |].
      split; [exact Ch2 |]. split; [right; eauto | discriminate].
    + cbv beta.
      change (euid w2) with (euid w). change (egid w2) with (egid w).
      change (next_ino w2) with (next_ino w). change (fs w2) with r2.
      pose proof (copy_node_is_copy (euid w, egid w) (Dir mx esx) (next_ino w)) as Hcopy.
      destruct (Sys.copy_node (euid w, egid w) (next_ino w) (Dir mx esx)) as [x' i'].
      cbn [fst] in Hcopy.
      destruct Hb2 as [_ [mb2 [esb2 Hgb2]]].
      destruct (put_defined r2 b name x' _ _ Hgb2) as [r3 Hput3]. rewrite Hput3.
      exists (Ret tt), (set_fs_ino w2 r3 i'). cbn [fs set_fs_ino].
      split; [exact Hdel |]. split; [reflexivity |]. split; [repeat split |].
      split; [apply (changed_only_trans _ _ r2 _ Ch2), (changed_only_put _ _ _ _ _ Hput3) |].
      split; [now left |]. intros _.
      exists x'. split; [apply (put_child _ _ _ _ _ Hput3) | exact Hcopy].
  - (* a target that does not resolve *)
    unfold Os.path_isdir. rewrite bind_fs_read.
    change (fs w1) with r1. change (cwd w1) with (cwd w). rewrite Estat.
    exists (Ret tt), w1.
    split; [exact Hdel |]. split; [reflexivity |]. split; [exact Hsame1 |].
    split; [exact Ch1 |]. split; [now left |]. split; reflexivity.
Qed.

Lemma turn_refl P w : turn P w w.
Proof. repeat split. now left. Qed.

Lemma turn_replaces P w w' : turn P w w' -> replaces_a_link (fs w) (fs w').
Proof.
  intros [_ [_ [_ [E | [l [m [HP Hch]]]]]]]; [left; exact E |].
  right. exists P, l, m. split; [exact HP |].
  intros q Hq. now apply (changed_only_one_look P).
Qed.

(** One turn of the loop body, on any entry of a real directory and
    however it ends, is a turn at the place of the entry. *)
Lemma sanitize_entry_turn rootdir usrdir b name w :
  physical (fs w) b -> valid_name name = true ->
  turn (b ++ [name])%list w (snd (sanitize_entry rootdir usrdir (path_str b) name w)).
Proof.
  intros Hb Hn. pose proof Hb as [Hbv _].
  unfold sanitize_entry. rewrite (join_name b name Hbv Hn).
  unfold Os.path_islink. rewrite bind_fs_read, (lstat_at _ _ _ _ Hb Hn).
  destruct (Sys.child (fs w) b name) as [[i d m | link m | m es] |] eqn:Hc;
    cbn [is_symlink negb]; try apply turn_refl.
  unfold Os.readlink.
  rewrite (bind_fs_query_ok _ _ _ link) by (now apply (readlink_at _ _ _ _ _ m)).
  fold (entry_target rootdir (path_str b) link).
  set (target := entry_target rootdir (path_str b) link).
  unfold Os.path_relpath. rewrite bind_assoc, bind_getcwd.
  destruct (OsPath.relpath (path_str (cwd w)) target rootdir) as [rel |];
    [| apply turn_refl].
  rewrite bind_ret_l. unfold Os.path_commonpath.
  destruct (OsPath.commonpath target usrdir) as [c |]; [| apply turn_refl].
  rewrite bind_ret_l.
  destruct (String.eqb c usrdir); [apply turn_refl |].
  unfold get_toplevel. destruct (OsPath.split rel) as [head tail].
  destruct (toplevel_loop (String.length rel) head tail) as [t |]; [| apply turn_refl].
  rewrite bind_ret_l.
  destruct (negb (String.eqb t "var")); [apply turn_refl |].
  change (turn (b ++ [name])%list w
            (snd (try_Exception (materialize target (path_str (b ++ [name])%list))
                    exit_handler w))).
  destruct (materialize_by_target w b name link m target Hb Hn Hc)
    as [r1 [o [w' [_ [Hrun [[_ [H1 [H2 H3]]] [Hch [Ho _]]]]]]]].
  assert (Hturn : turn (b ++ [name])%list w w').
  { split; [exact H1 |]. split; [exact H2 |]. split; [exact H3 |].
    right. exists link, m. split; [exact Hc | exact Hch]. }
  destruct Ho as [-> | [e ->]].
  - now rewrite (try_Exception_Ret _ _ _ _ _ Hrun).
  - rewrite (try_Exception_caught _ _ _ _ _ Hrun). exact Hturn.
Qed.

(** ** What turns keep *)



Lemma kept_by_stable S Phi : stable Phi -> kept_by S (fun w => Phi (fs w)).
Proof. intros H P w w' _ Ht. apply H. now apply (turn_replaces P). Qed.



(** ** Runs of turns *)

Lemma turns_trans S a b c : turns S a b -> turns S b c -> turns S a c.
Proof.
  induction 1 as [w | P w w1 w2 HP Ht Hrest IH]; intros H; [exact H |].
  apply (turns_cons S P w w1); auto.
Qed.

Lemma turns_sub (S S' : path -> Prop) a b :
  (forall P, S P -> S' P) -> turns S a b -> turns S' a b.
Proof.
  intros Hsub. induction 1 as [w | P w w1 w2 HP Ht Hrest IH]; [constructor |].
  apply (turns_cons S' P w w1); auto.
Qed.

Lemma turns_one (S : path -> Prop) P a b : S P -> turn P a b -> turns S a b.
Proof. intros HP Ht. apply (turns_cons S P a b b HP Ht). constructor. Qed.

Lemma turns_kept S Phi a b : kept_by S Phi -> turns S a b -> Phi a -> Phi b.
Proof.
  intros Hk. induction 1 as [w | P w w1 w2 HP Ht Hrest IH]; intros Ha; [exact Ha |].
  apply IH. apply (Hk P w w1 HP Ht Ha).
Qed.

Lemma turns_stable S Phi a b : stable Phi -> turns S a b -> Phi (fs a) -> Phi (fs b).
Proof. intros Hs. apply (turns_kept S (fun w => Phi (fs w))). now apply kept_by_stable. Qed.

Section WalkTurns.

Variables rootdir usrdir : string.

(** The loop over entries of one real directory is a run of turns at
    these entries. *)
Lemma entries_turns t names : forall w,
  (forall n, In n names -> valid_name n = true) ->
  physical (fs w) t ->
  turns (fun P => exists n, In n names /\ P = (t ++ [n])%list) w
    (snd (for_each names (sanitize_entry rootdir usrdir (path_str t)) w)).
Proof.
  induction names as [| n rest IH]; intros w Hv Ht.
  - constructor.
  - cbn [for_each]. unfold bind.
    pose proof (sanitize_entry_turn rootdir usrdir t n w Ht (Hv n (or_introl eq_refl)))
      as Hstep.
    assert (Ht1 : physical (fs (snd (sanitize_entry rootdir usrdir (path_str t) n w))) t)
      by (apply (stable_physical t _ _ (turn_replaces _ _ _ Hstep) Ht)).
    assert (Hin : exists k, In k (n :: rest) /\ (t ++ [n])%list = (t ++ [k])%list)
      by (exists n; split; [now left | reflexivity]).
    destruct (sanitize_entry rootdir usrdir (path_str t) n w) as [[[] | e |] w1];
      cbn [snd] in Hstep, Ht1 |- *.
    + apply (turns_cons _ _ w w1 _ Hin Hstep).
      apply (turns_sub (fun P => exists k, In k rest /\ P = (t ++ [k])%list)).
      * intros P [k [Hk HP]]. exists k. split; [now right | exact HP].
      * apply IH; [| exact Ht1]. intros k Hk. apply Hv. now right.
    + apply (turns_one _ _ _ _ Hin Hstep).
    + apply (turns_one _ _ _ _ Hin Hstep).
Qed.

(** The directories the walk goes into: those of [dirs] that are no
    links when the entries of [top] have been gone through. *)
Lemma walk_into_filter top dirs w :
  walk_into top dirs w
  = (Ret (filter (fun d => negb match lstat (fs w) (cwd w) (OsPath.join top d) with
                                | Some x => is_symlink x
                                | None => false
                                end) dirs), w).
Proof.
  induction dirs as [| d rest IH]; [reflexivity |].
  cbn [walk_into filter]. unfold Os.path_islink at 1. rewrite bind_fs_read.
  rewrite (bind_Ret _ _ _ _ _ IH).
  destruct (match lstat (fs w) (cwd w) (OsPath.join top d) with
            | Some x => is_symlink x
            | None => false
            end); reflexivity.
Qed.

Lemma under_trans t d P : is_prefix (t ++ [d])%list P = true -> is_prefix t P = true.
Proof. apply is_prefix_trans, is_prefix_app. Qed.

(** The walk from a real directory, however far it gets, is a run of
    turns at places below that directory. *)
Lemma walk_turns fuel : forall t w,
  physical (fs w) t ->
  turns (fun P => is_prefix t P = true) w
    (snd (walk_usr fuel rootdir usrdir (path_str t) w)).
Proof.
  induction fuel as [| fuel IH]; intros t w Ht;
    rewrite walk_usr_unfold; pose proof Ht as [Htv [m [es Hg]]];
    rewrite (bind_Ret _ _ _ _ _ (scan_at t w m es Ht Hg));
    set (dirs := filter (Os.entry_is_dir (fs w) t) (names es));
    set (files := filter (fun n => negb (Os.entry_is_dir (fs w) t n)) (names es));
    (assert (Hfiles : forall n, In n files -> valid_name n = true)
      by (intros n Hn; apply filter_In in Hn; destruct Hn as [Hn _];
          now destruct (names_assoc es n Hn)));
    (assert (Hdirs : forall n, In n dirs -> valid_name n = true)
      by (intros n Hn; apply filter_In in Hn; destruct Hn as [Hn _];
          now destruct (names_assoc es n Hn)));
    (assert (Hrun1 : turns (fun P => is_prefix t P = true) w
                       (snd (for_each files (sanitize_entry rootdir usrdir (path_str t)) w)))
      by (apply (turns_sub (fun P => exists n, In n files /\ P = (t ++ [n])%list));
          [intros P [n [_ ->]]; apply is_prefix_app | now apply entries_turns]));
    (assert (Ht1 : physical (fs (snd (for_each files
                                        (sanitize_entry rootdir usrdir (path_str t)) w))) t)
      by (apply (turns_stable _ (fun r => physical r t) _ _ (stable_physical t) Hrun1 Ht)));
    unfold bind at 1;
    destruct (for_each files (sanitize_entry rootdir usrdir (path_str t)) w)
      as [[[] | e |] w1]; cbn [snd] in Hrun1, Ht1 |- *; try exact Hrun1;
    rewrite (bind_Ret _ _ _ _ _ (walk_into_filter (path_str t) dirs w1));
    set (sub := filter _ dirs);
    (assert (Hsub : forall d, In d sub -> valid_name d = true /\ no_link_at t d (fs w1))
      by (intros d Hd; apply filter_In in Hd; destruct Hd as [Hin Hl];
          split; [now apply Hdirs |];
          intros l m' Hc;
          rewrite (join_name t d Htv (Hdirs d Hin)) in Hl;
          rewrite (lstat_at _ _ _ _ Ht1 (Hdirs d Hin)), Hc in Hl; discriminate));
    clearbody sub; (destruct sub as [| d0 sub0]; [exact Hrun1 |]).
  - exact Hrun1.
  - apply (turns_trans _ _ _ _ Hrun1). clear Hrun1.
    set (sub := d0 :: sub0) in *. clearbody sub.
    revert w1 Ht1 Hsub.
    induction sub as [| d rest IHsub]; intros w1 Ht1 Hsub; [constructor |].
    destruct (Hsub d (or_introl eq_refl)) as [Hdv Hdl].
    set (Psi := fun r => physical r t /\ forall k, In k rest -> no_link_at t k r).
    assert (HPsi : stable Psi) by apply stable_no_links.
    assert (Hstart : Psi (fs w1)).
    { split; [exact Ht1 |]. intros k Hk. now destruct (Hsub k (or_intror Hk)). }
    cbn [for_each]. rewrite (join_name t d Htv Hdv).
    assert (Hwalk : turns (fun P => is_prefix t P = true) w1
                      (snd (walk_usr fuel rootdir usrdir (path_str (t ++ [d])%list) w1))).
    { destruct (Sys.child (fs w1) t d) as [[i dt md | l md | md esd] |] eqn:Ec.
      - assert (Hnd : forall m0 es0, Sys.child (fs w1) t d <> Some (Dir m0 es0))
          by (intros m0 es0; rewrite Ec; discriminate).
        rewrite walk_usr_unfold, (bind_Ret _ _ _ _ _ (scan_no_dir t d w1 Ht1 Hdv Hdl Hnd)).
        constructor.
      - exfalso. apply (Hdl l md). exact Ec.
      - apply (turns_sub (fun P => is_prefix (t ++ [d])%list P = true));
          [intros P; apply under_trans |].
        apply IH.
        split; [apply Forall_app; split; [exact Htv | now constructor] |].
        unfold Sys.child in Ec. eauto.
      - assert (Hnd : forall m0 es0, Sys.child (fs w1) t d <> Some (Dir m0 es0))
          by (intros m0 es0; rewrite Ec; discriminate).
        rewrite walk_usr_unfold, (bind_Ret _ _ _ _ _ (scan_no_dir t d w1 Ht1 Hdv Hdl Hnd)).
        constructor. }
    pose proof (turns_stable _ Psi _ _ HPsi Hwalk Hstart) as Hafter.
    unfold bind.
    destruct (walk_usr fuel rootdir usrdir (path_str (t ++ [d])%list) w1)
      as [[[] | e |] w2]; cbn [snd] in Hwalk, Hafter |- *; try exact Hwalk.
    apply (turns_trans _ _ _ _ Hwalk).
    destruct Hafter as [H2 H3].
    apply IHsub; [exact H2 |].
    intros k Hk. split; [now destruct (Hsub k (or_intror Hk)) | now apply H3].
Qed.

End WalkTurns.

(** ** The names a directory lists *)


Lemma names_NoDup es : NoDup (names es).
Proof.
  induction es as [| [k v] t IH]; simpl; [constructor |].
  destruct (valid_name k); [| exact IH].
  constructor.
  - intros Hin. apply filter_In in Hin. destruct Hin as [_ Hin].
    now rewrite String.eqb_refl in Hin.
  - now apply NoDup_filter.
Qed.


Section SubWalks.

Variables rootdir usrdir : string.


End SubWalks.

(** ** The walk and one link *)



Section OneLink.

Variables rootdir usrdir : string.
Variables (u b : path) (name : string).
Variables Pend Done : world -> Prop.

Hypothesis name_valid : valid_name name = true.
Hypothesis Pend_kept :
  kept_by (fun P => is_prefix u P = true /\ is_prefix (b ++ [name])%list P = false) Pend.
Hypothesis Done_kept :
  kept_by (fun P => is_prefix u P = true /\ is_prefix (b ++ [name])%list P = false) Done.
Hypothesis Pend_link : forall w, Pend w ->
  physical (fs w) b
  /\ (exists l m, Sys.child (fs w) b name = Some (Symlink l m))
  /\ Os.entry_is_dir (fs w) b name = false.
Hypothesis body_acts : forall w w1,
  Pend w -> sanitize_entry rootdir usrdir (path_str b) name w = (Ret tt, w1) -> Done w1.


End OneLink.

(** ** Paths that lead to nothing, or to a regular file *)












(** ** What the turns at other places keep of one entry *)




Lemma sanitize_from_usr r w :
  names_ok r ->
  sanitize_usr_symlinks (path_str r) w
  = walk_usr (depth (fs w)) (path_str r) (path_str (r ++ ["usr"])%list)
      (path_str (r ++ ["usr"])%list) w.
Proof.
  intros Hr. unfold sanitize_usr_symlinks. now rewrite (join_name r "usr" Hr eq_refl).
Qed.

(** ** The stage and one link whose target is not there *)


Lemma physical_names_ok_head root r q : physical root (r ++ q)%list -> names_ok r.
Proof. intros [Hv _]. apply Forall_app in Hv. tauto. Qed.



(** ** The stage ends *)

(** The loop body, on an entry of a real directory, returns or raises:
    the loop of [get_toplevel] ends on what [os.path.relpath] returns. *)
Lemma sanitize_entry_ends rootdir usrdir b name w :
  physical (fs w) b -> valid_name name = true ->
  fst (sanitize_entry rootdir usrdir (path_str b) name w) <> Diverge.
Proof.
  intros Hb Hn. pose proof Hb as [Hbv _].
  unfold sanitize_entry. rewrite (join_name b name Hbv Hn).
  unfold Os.path_islink. rewrite bind_fs_read, (lstat_at _ _ _ _ Hb Hn).
  destruct (Sys.child (fs w) b name) as [[i d m | link m | m es] |] eqn:Hc;
    cbn [is_symlink negb]; try discriminate.
  unfold Os.readlink.
  rewrite (bind_fs_query_ok _ _ _ link) by (now apply (readlink_at _ _ _ _ _ m)).
  fold (entry_target rootdir (path_str b) link).
  set (target := entry_target rootdir (path_str b) link).
  unfold Os.path_relpath. rewrite bind_assoc, bind_getcwd.
  destruct (OsPath.relpath (path_str (cwd w)) target rootdir) as [rel |] eqn:Erel;
    [| discriminate].
  rewrite bind_ret_l. unfold Os.path_commonpath.
  destruct (OsPath.commonpath target usrdir) as [c |]; [| discriminate].
  rewrite bind_ret_l.
  destruct (String.eqb c usrdir); [discriminate |].
  assert (Htop : exists t, get_toplevel rel w = (Ret t, w)).
  { destruct (relpath_components _ _ _ _ Erel) as [-> | [c0 [cs [Hp ->]]]].
    - exists ".". reflexivity.
    - exists c0. now apply get_toplevel_join. }
  destruct Htop as [t Htop]. rewrite (bind_Ret _ _ _ _ _ Htop).
  destruct (negb (String.eqb t "var")); [discriminate |].
  change (fst (try_Exception (materialize target (path_str (b ++ [name])%list))
                 exit_handler w) <> Diverge).
  destruct (materialize_by_target w b name link m target Hb Hn Hc)
    as [r1 [o [w' [_ [Hrun [_ [_ [Ho _]]]]]]]].
  destruct Ho as [-> | [e ->]].
  - rewrite (try_Exception_Ret _ _ _ _ _ Hrun). discriminate.
  - rewrite (try_Exception_caught _ _ _ _ _ Hrun). discriminate.
Qed.

(** An entry of [t] that no turn is at or below, or above. *)
Lemma kept_sibling (S : path -> Prop) t k z :
  (forall P, S P -> exists f q, P = (t ++ f :: q)%list /\ f <> k) ->
  kept_by S (fun w => get (fs w) (t ++ [k])%list = Some z).
Proof.
  intros HS P w w' HP Ht Hc.
  destruct Ht as [_ [_ [_ [E | [l [m [Hl Hch]]]]]]]; [now rewrite E |].
  destruct (HS P HP) as [f [q [-> Hne]]].
  rewrite (changed_only_one_get _ _ _ _ Hch); [exact Hc | |].
  - now apply is_prefix_fork.
  - apply is_prefix_fork. congruence.
Qed.

Section Ends.

Variables rootdir usrdir : string.

Lemma entries_end t names : forall w,
  (forall n, In n names -> valid_name n = true) ->
  physical (fs w) t ->
  fst (for_each names (sanitize_entry rootdir usrdir (path_str t)) w) <> Diverge.
Proof.
  induction names as [| n rest IH]; intros w Hv Ht; [discriminate |].
  cbn [for_each]. unfold bind.
  pose proof (sanitize_entry_turn rootdir usrdir t n w Ht (Hv n (or_introl eq_refl)))
    as Hstep.
  pose proof (sanitize_entry_ends rootdir usrdir t n w Ht (Hv n (or_introl eq_refl)))
    as Hend.
  destruct (sanitize_entry rootdir usrdir (path_str t) n w) as [[[] | e |] w1];
    cbn [fst snd] in Hstep, Hend |- *; [| discriminate | congruence].
  apply IH; [intros k Hk; apply Hv; now right |].
  apply (stable_physical t _ _ (turn_replaces _ _ _ Hstep) Ht).
Qed.

Variable fuel : nat.

Hypothesis walk_ends_below : forall t w x,
  physical (fs w) t -> get (fs w) t = Some x -> depth x <= fuel ->
  fst (walk_usr fuel rootdir usrdir (path_str t) w) <> Diverge.

(** The walks from directories of [t], each with fuel for its depth. *)
Lemma subwalks_end t sub : forall w,
  NoDup sub -> physical (fs w) t ->
  (forall d, In d sub ->
     valid_name d = true
     /\ exists m es, get (fs w) (t ++ [d])%list = Some (Dir m es)
                     /\ depth (Dir m es) <= fuel) ->
  fst (for_each sub
         (fun d => walk_usr fuel rootdir usrdir (OsPath.join (path_str t) d)) w)
  <> Diverge.
Proof.
  induction sub as [| d rest IH]; intros w Hnd Ht Hsub; [discriminate |].
  pose proof Ht as [Htv _].
  destruct (Hsub d (or_introl eq_refl)) as [Hdv [m [es [Hg Hdep]]]].
  inversion Hnd as [| ? ? Hnotin Hnd']. subst.
  cbn [for_each]. rewrite (join_name t d Htv Hdv).
  assert (Hd : physical (fs w) (t ++ [d])%list).
  { split; [apply Forall_app; split; [exact Htv | now constructor] | eauto]. }
  pose proof (walk_ends_below (t ++ [d])%list w _ Hd Hg Hdep) as Hend.
  pose proof (walk_turns rootdir usrdir fuel (t ++ [d])%list w Hd) as Hwalk.
  unfold bind.
  destruct (walk_usr fuel rootdir usrdir (path_str (t ++ [d])%list) w)
    as [[[] | e |] w2]; cbn [fst snd] in Hend, Hwalk |- *; [| discriminate | congruence].
  apply IH; [exact Hnd' | |].
  - apply (turns_stable _ (fun r => physical r t) _ _ (stable_physical t) Hwalk Ht).
  - intros k Hk. destruct (Hsub k (or_intror Hk)) as [Hkv [mk [esk [Hgk Hdk]]]].
    split; [exact Hkv |]. exists mk, esk. split; [| exact Hdk].
    apply (turns_kept _ (fun v => get (fs v) (t ++ [k])%list = Some (Dir mk esk)) _ _
             (kept_sibling _ t k _
                (fun P HP =>
                   match proj1 (is_prefix_spec (t ++ [d])%list P) HP with
                   | ex_intro _ q Hq =>
                       ex_intro _ d (ex_intro _ q
                         (conj (eq_trans Hq (eq_sym (app_assoc t [d] q)))
                               (fun E => Hnotin (eq_ind_r (fun z => In z rest) Hk E))))
                   end))
             Hwalk Hgk).
Qed.

End Ends.

(** What [os.walk] lists among the directories of [t] and finds to be no
    link when the loop over the files is done is a directory of [t]. *)
Lemma dir_entry_is_dir root t d :
  Os.entry_is_dir root t d = true ->
  (forall l m, Sys.child root t d <> Some (Symlink l m)) ->
  exists m es, Sys.child root t d = Some (Dir m es).
Proof.
  unfold Os.entry_is_dir.
  destruct (Sys.child root t d) as [[i dt m | l m | m es] |]; intros H Hl;
    try discriminate; [exfalso; now apply (Hl l m) | eauto].
Qed.

(** The loop over the files of [t] leaves the entries listed among the
    directories of [t] as they are. *)
Lemma dirs_after_files t w w1 m es d :
  get (fs w) t = Some (Dir m es) ->
  turns (fun P => exists n,
           In n (filter (fun n => negb (Os.entry_is_dir (fs w) t n)) (names es))
           /\ P = (t ++ [n])%list) w w1 ->
  In d (names es) -> Os.entry_is_dir (fs w) t d = true ->
  Sys.child (fs w1) t d = Sys.child (fs w) t d.
Proof.
  intros Hg Hrun Hnames Hisdir. unfold Sys.child.
  destruct (names_assoc es d Hnames) as [_ [z Hz]].
  assert (Ez : get (fs w) (t ++ [d])%list = Some z).
  { pose proof (get_child (fs w) t d) as H. unfold Sys.child in H.
    now rewrite H, Hg. }
  rewrite Ez.
  refine (turns_kept _ (fun v => get (fs v) (t ++ [d])%list = Some z) _ _
            (kept_sibling _ t d z _) Hrun Ez).
  intros P [n [Hn ->]]. exists n, []. split; [reflexivity |].
  intros ->. apply filter_In in Hn. destruct Hn as [_ Hn].
  rewrite Hisdir in Hn. discriminate.
Qed.

(** The walk from a real directory, with fuel for the depth of the
    directory, ends: it returns or raises. *)
Lemma walk_ends rootdir usrdir fuel : forall t w x,
  physical (fs w) t -> get (fs w) t = Some x -> depth x <= fuel ->
  fst (walk_usr fuel rootdir usrdir (path_str t) w) <> Diverge.
Proof.
  induction fuel as [| fuel IH]; intros t w x Ht Hx Hdep;
    rewrite walk_usr_unfold; pose proof Ht as [Htv [m [es Hg]]];
    rewrite (bind_Ret _ _ _ _ _ (scan_at t w m es Ht Hg));
    rewrite Hg in Hx; inversion Hx; subst x; clear Hx;
    set (dirs := filter (Os.entry_is_dir (fs w) t) (names es));
    set (files := filter (fun n => negb (Os.entry_is_dir (fs w) t n)) (names es));
    (assert (Hfiles : forall n, In n files -> valid_name n = true)
      by (intros n Hn; apply filter_In in Hn; destruct Hn as [Hn _];
          now destruct (names_assoc es n Hn)));
    (assert (Hdirs : forall n, In n dirs -> valid_name n = true)
      by (intros n Hn; apply filter_In in Hn; destruct Hn as [Hn _];
          now destruct (names_assoc es n Hn)));
    pose proof (entries_end rootdir usrdir t files w Hfiles Ht) as Hend1;
    pose proof (entries_turns rootdir usrdir t files w Hfiles Ht) as Hrun1;
    (assert (Ht1 : physical (fs (snd (for_each files
                                        (sanitize_entry rootdir usrdir (path_str t)) w))) t)
      by (apply (turns_stable _ (fun r => physical r t) _ _ (stable_physical t) Hrun1 Ht)));
    unfold bind at 1;
    destruct (for_each files (sanitize_entry rootdir usrdir (path_str t)) w)
      as [[[] | e |] w1]; cbn [fst snd] in Hend1, Hrun1, Ht1 |- *;
    try discriminate; try congruence;
    rewrite (bind_Ret _ _ _ _ _ (walk_into_filter (path_str t) dirs w1));
    set (sub := filter _ dirs);
    (assert (Hsub : forall d, In d sub ->
               valid_name d = true
               /\ exists md esd, get (fs w1) (t ++ [d])%list = Some (Dir md esd)
                                 /\ S (depth (Dir md esd)) <= depth (Dir m es))
      by (intros d Hd; apply filter_In in Hd; destruct Hd as [Hin Hl];
          pose proof (Hdirs d Hin) as Hdv; split; [exact Hdv |];
          apply filter_In in Hin; destruct Hin as [Hnames Hisdir];
          rewrite (join_name t d Htv Hdv), (lstat_at _ _ _ _ Ht1 Hdv) in Hl;
          pose proof (dirs_after_files t w w1 m es d Hg Hrun1 Hnames Hisdir) as Hsame;
          destruct (dir_entry_is_dir (fs w) t d Hisdir) as [md [esd Hc]];
          [intros l ml Hc; rewrite Hsame, Hc in Hl; discriminate |];
          exists md, esd; split; [unfold Sys.child in Hsame, Hc; now rewrite Hsame |];
          apply (depth_assoc m es d); rewrite get_child, Hg in Hc; exact Hc));
    (assert (Hnd : NoDup sub) by (apply NoDup_filter, NoDup_filter, names_NoDup));
    clearbody sub; (destruct sub as [| d0 sub0]; [discriminate |]).
  - destruct (Hsub d0 (or_introl eq_refl)) as [_ [md [esd [_ Hd]]]]. lia.
  - apply (subwalks_end rootdir usrdir fuel IH t (d0 :: sub0) w1 Hnd Ht1).
    intros d Hd. destruct (Hsub d Hd) as [Hdv [md [esd [Hgd Hdd]]]].
    split; [exact Hdv |]. exists md, esd. split; [exact Hgd | lia].
Qed.

Lemma stage_ends r w :
  physical (fs w) (r ++ ["usr"])%list ->
  fst (sanitize_usr_symlinks (path_str r) w) <> Diverge.
Proof.
  intros Hu. pose proof Hu as [_ [m [es Hg]]].
  rewrite (sanitize_from_usr r w (physical_names_ok_head _ _ _ Hu)).
  apply (walk_ends _ _ _ _ w _ Hu Hg). apply (depth_get _ _ _ Hg).
Qed.

(** X21. The stage ends on every tree in which [usr] is a real
    directory: it returns or raises. The walk needs no more fuel than the
    depth of the tree, since the directories it goes into are those the
    tree had from the start, and the loop of [get_toplevel] ends on what
    [os.path.relpath] returns. *)
Theorem sanitize_stage_ends r w :
  physical (fs w) (r ++ ["usr"])%list ->
  exists o w', sanitize_usr_symlinks (path_str r) w = (o, w') /\ o <> Diverge.
Proof.
  intros Hu. pose proof (stage_ends r w Hu) as H.
  destruct (sanitize_usr_symlinks (path_str r) w) as [o w'] eqn:E.
  exists o, w'. split; [reflexivity | exact H].
Qed.

Lemma sanitize_stage_ends_witness :
  exists o w', sanitize_usr_symlinks "/r" SampleSanitize.tree = (o, w') /\ o <> Diverge.
Proof.
  apply (sanitize_stage_ends ["r"] SampleSanitize.tree).
  split; [repeat constructor | vm_compute; eauto].
Defined.





(** ** The stage and one link whose target is there *)



(** X20. A link of [usr] whose text, read from the root of the host,
    names a directory is listed by [os.walk] among the directories: the
    loop over the files does not see it. [usr/state] is a link to
    [/var/lib]; the target the loop would compute, [/r/var/lib], is a
    directory of the tree and the link passes the tests of the loop; the
    host has a directory [/var/lib]; the stage returns and the link is
    still there. *)
Lemma sanitize_keeps_link_to_host_directory :
  Sys.child (fs SampleHost.both) ["r"; "usr"] "state" = Some (Sample.sym "/var/lib")
  /\ acted_on "/r" "/r/usr" "/r/usr" "/var/lib" (cwd SampleHost.both) = true
  /\ entry_target "/r" "/r/usr" "/var/lib" = "/r/var/lib"
  /\ lstat (fs SampleHost.both) (cwd SampleHost.both) "/r/var/lib"
     = Some (Sample.root_dir [("f", Sample.reg 5 "f")])
  /\ Os.entry_is_dir (fs SampleHost.both) ["r"; "usr"] "state" = true
  /\ exists w',
       sanitize_usr_symlinks "/r" SampleHost.both = (Ret tt, w')
       /\ fs w' = fs SampleHost.both.
Proof.
  repeat split; try (vm_compute; reflexivity).
  eexists. split; vm_compute; reflexivity.
Qed.

(** ** One turn on a link that passes the tests *)


